(* ===== verification/_CoqProject ===== *)
-Q . S2P
Prelude.v
Floats.v
Binary64.v
Parse.v
Series.v
Indicator.v
Signals.v
Ledger.v
Backtest.v
Simulator.v
Machine.v
Grid.v
Shares.v
IndicatorMachine.v
Metrics.v
MetricsMachine.v
Plot.v
Format.v
App.v
Gui.v
AppMachine.v
EventLoop.v
Scenarios.v
