(* ===== verification/Prelude.v ===== *)
(** * Verification of the RSI backtesting tool

    The program (Python, [src/main.py] and [src/subcode/]) downloads a
    daily price series, computes the Relative Strength Index, derives
    buy/sell signals from threshold crossings, replays them against a
    cash/holdings ledger with proportional fees and reports performance
    figures next to a buy-and-hold baseline.  [src/subcode/calculation.py]
    holds the engine, [src/subcode/app.py] the Tk front end: a window
    with a dropdown, four entries and a button whose callback
    [run_backtest] validates the inputs, chains the functions of the
    engine and replaces the table and the figure on screen;
    [src/main.py] builds the window and enters the event loop.

    ** Numbers and texts

    The value of a Python float is an exact rational ([Q], equality
    [==]) or a special value.  A pandas column that can hold [NaN] or
    an infinity is a list of [xfloat] ([Floats.v]: [Fin q], [PInf],
    [NInf], [NaN], with the IEEE rules for [+ - * /] and comparisons
    that are false on [NaN]).  The engine is modelled twice.  The
    exact model computes without rounding; the indicator, the signals,
    the report and the window are stated over it.  The model of the
    machine ([Binary64.v], [Machine.v], [IndicatorMachine.v],
    [MetricsMachine.v], [AppMachine.v]) rounds the result of every
    operation of [backtest_strategy], of [calculate_rsi], of the
    drawdown and the total return of the report and of the [try]
    block of [run_backtest] to the nearest binary64 number, as the
    processor does, reads an entry as the float nearest to its text,
    and divides with numpy's [floor_divide]; the two are related by
    theorems ([Machine.v], [Grid.v], [Shares.v]).  Signed zeros are
    not distinguished; the one place where the sign of a zero could
    matter ([avg_gain / avg_loss] with a zero loss) is followed by
    [100 - 100 / (1 + rs)], which maps both infinities to [100].
    Share counts, signals, positions and trade markers are Python [int]s:
    [Z].  The text of an entry is a [string], read by [py_float]:
    the exact rational it denotes ([float_of_text]), or the
    [ValueError] of [float], whose message names the text as [repr]
    writes it; the texts of the report are produced by [render],
    which rounds the exact value half to even.

    ** Files

    - [Prelude.v] (this file): the [result] type of computations that
      can raise, its bind notation (scope [res_scope]), the loop
      combinator [fold_result] with its invariant rule, boolean
      comparisons on [Q] with their reflection lemmas, the tactics
      [inv], [qbool], [destruct_match], [destruct_bind], the hint
      databases [bt] and
      [bt_rw], running sums, and list lemmas shared by the components.
    - [Floats.v]: [xfloat] and its arithmetic, the equivalence [xeq]
      and the [Proper] instances that let [rewrite] work under it,
      floor division and [int()].
    - [Binary64.v]: the binary64 format ([is_binary64]) and the
      rounding to nearest, ties to even, of an exact result
      ([round64]: [round_val], then [overflow] to an infinity), built
      on [round_half_even], the rounding to an integer that the
      formats of the report use as well.
    - [Parse.v]: [float] on the text of an entry: its value
      ([float_of_text]: white space, sign, [inf] and [nan], digits
      with underscores, fraction and exponent) and its exception
      ([py_float], with [py_repr] for the text in the message).
    - [Series.v]: the pandas operations the indicator and the signals
      call ([shift], [diff], [where], [fillna], [rolling(..).mean()],
      comparisons against a scalar, [loc] assignment) on lists.
    - [Indicator.v]: [calculate_rsi], line by line over [Series.v],
      and its reference [rsi_reference] over rationals.
    - [Signals.v]: [generate_signals], the two masked assignments in
      the order of the source.
    - [Ledger.v]: the abstract specification of the simulator, the
      two-state Flat/Holding machine of the design, as the step
      relation [ledger_step] on the record [ledger], with its
      invariants, its runs [ledger_run] and its executable form
      [ledger_next], [ledger_trace].
    - [Backtest.v]: [backtest_strategy].  The variables of the Python
      loop are the fields of [loop_state]; the loop body is
      [backtest_step] ([trade_step], then [record_step]), with each
      [append] in the branch where the source has it; the loop is
      [backtest_loop]; the column assignments that follow it are
      [assign_column], which raises as pandas does when a list is not
      as long as the frame.
    - [Simulator.v]: the type class [Simulator], what the report and
      the plots rely on in the columns of a backtest, with
      [backtest_strategy] as its instance.
    - [Machine.v]: [backtest_strategy] over a rounding [rnd] applied
      after every operation ([radd], [rsub], [rmul], [rdiv]), with
      numpy's [floor_divide] ([npy_divmod], through the remainder
      [c_fmod]); the class [Rounding] states what the theorems ask of
      [rnd], with the identity and [round64] as instances;
      [backtest_strategy64] is the function as Python runs it.
    - [Grid.v]: the simulation argument that relates the binary64 run
      to the exact run on prices and a capital that are multiples of
      a power of two ([multiple]): the relation [near] between the
      states of the two loops and the invariant [grid_state] of the
      exact one.
    - [Shares.v]: the error analysis of numpy's floor division on
      binary64 numbers.
    - [IndicatorMachine.v]: [calculate_rsi] over a rounding and over a
      rolling mean that is a section variable ([calculate_rsi_r]).
    - [Metrics.v]: [calculate_performance_metrics] and the pandas
      reductions it calls; the report is an association list from the
      keys of the source to cells that record the format of the entry.
    - [MetricsMachine.v]: the drawdown column, its minimum and the
      total return over a rounding.
    - [Plot.v]: the figure [plot_results] draws, as its curves,
      threshold lines and titles.
    - [Format.v]: the text of a cell of the report ([render]): the
      formats [,.2f], [.2%] and [.2f] and the [int] of the trade count.
    - [App.v]: the constants of [configuration.py], the provider
      [get_historical_data] (the download is a section variable), and
      [run_backtest] and [display_metrics] of [BacktestApp] as
      functions: the [try] block is [read_inputs], on a [form] that
      holds for each entry what [float] returns or raises; the four
      calls on the frame are [analyse], the dialogs and the table are
      the [outcome].
    - [Gui.v]: the window of [BacktestApp] as the record [window]
      ([__init__], [create_widgets], [exit_application]), the actions
      of the user as [event]s, and the methods as functions on the
      window: [run_backtest_callback], [display_metrics_widget],
      [plot_results_widget]; [handle_all] folds them over a sequence
      of actions.
    - [AppMachine.v]: [float] as the nearest float
      ([py_float64]), the [try] block over a rounding
      ([read_inputs_r]) and the three calls of [run_backtest] on the
      frame over a rounding ([engine_r]).
    - [EventLoop.v]: [main.py] as an interaction tree: [mainloop]
      iterates [turn], which asks Tk for the next action and hands it
      to its callback; the download and what is shown are events;
      [session] interprets them in a [world] that holds the actions to
      come, what was shown and the downloads asked for.
    - [Scenarios.v]: whole runs of [run_backtest] on a flat price
      series and the ten-day scenario of the design.

    A DataFrame is modelled by its columns: each function takes the
    columns it reads and returns the columns it adds.  An exception is
    a value [Raise e] of [result]; [run_backtest] turns the
    [ValueError]s of its [try] block into the error dialog and lets
    every other exception propagate, as the source does; in the event
    loop such an exception is reported by Tk and the window stays as
    it was.  A widget made at run time carries the number it was made
    with, so that [destroy] removes that widget and no other.

    ** What the theorems show

    - Indicator: [calculate_rsi] equals the reference; the output has
      the input's length, lies in [0,100], starts at the neutral 50, is
      50 on flat prices, depends on past prices only, and equals
      [100 * avg_gain / (avg_gain + avg_loss)] whenever the window saw
      a move; in particular it is 100, not 50, when the window holds
      gains and no loss.  Period 0 raises.
    - Signals: one signal per row in [{-1,0,1}], none at row 0, decided
      by the current and previous indicator only (strict on the current
      value, non-strict on the previous one), buy and sell exclusive
      for any pair of thresholds, so that the order of the two
      assignments does not matter.
    - Simulator: on finite amounts and non-zero prices the loop is the
      ledger machine, column by column, and [backtest_strategy] returns
      the machine's columns exactly when no buy signal finds the cash
      short of one share; otherwise it raises the length mismatch of
      the position column, where the design asks for a silent no-trade.
      Every iteration is self-financing up to its fee, the fee total
      only grows, the cash stays non-negative without fees, and with
      them an entry overdraws it exactly when the purchase leaves
      less than the fee; flags and markers stay in their ranges for
      any amounts, the position column is the running sum of the trade
      column (entries and exits alternate), a column without buys
      leaves the capital untouched, a zero price on an entry raises,
      and on one frame the run ends richer at every fee rate between
      0 and 16 percent than without fees.
    - Binary64: the rounded value is a binary64 number and no
      binary64 number is nearer; rounding keeps the order and leaves
      the binary64 numbers alone; its error is at most [2^-53]
      relative or [2^-1075] absolute; it overflows exactly from
      [2^1024 - 2^970] on and gives zero up to [2^-1075].
    - Machine: the loop over a rounding is a [Simulator] for every
      rounding, so that the theorems about the report and the figure
      hold for the binary64 run as well; with the rounding that
      changes nothing it is [backtest_strategy], numpy's floor
      division computing the floor of the quotient; the value
      recorded in binary64 is within two roundings of
      [cash + holdings * price].
    - Grid: with a capital and prices that are multiples of [2^-g],
      no fee and a portfolio worth less than [2^(53-g)], the
      binary64 run raises what the exact run raises or returns its
      columns, the daily returns rounded: on such data the theorems
      about the exact simulator are theorems about the program as it
      runs, and when no row is starved the binary64 run returns the
      columns of the ledger machine ([backtest_strategy64_ledger]).
    - Shares: for binary64 cash and price, fewer than [2^50] shares,
      [int(cash // price)] is the floor of the exact quotient of the
      two floats; with a cash of 1 and the float of 0.1 that is 9;
      without fees the cash after the trade of a day on a flat
      ledger is between zero and the cash before.
    - Indicator in machine arithmetic: for every rounding that keeps
      the order and leaves 1 and 100 alone, and every rolling mean
      without negative values on columns without negative values,
      the indicator has one value per row, each in [0,100]; without
      rounding the function is [calculate_rsi].
    - Metrics in machine arithmetic: the maximum drawdown of a column
      of positive floats is in [-1, 0] and the total return is at
      least -1, for every rounding that keeps the order.
    - Entries in machine arithmetic: the [try] block accepts a capital
      above [2^-1075], thresholds whose floats are in order, the lower
      above [2^-1075], the upper below [100 - 2^-47]; texts between
      these borders and those of the exact model are examples on
      which Python and the exact model disagree.
    - The calls on the frame: whatever the rounding, no trade without
      its signal, so that every entry sits on a row where the
      indicator rose above the oversold level and every exit on a row
      where it fell below the overbought level.
    - Metrics: the report exists for every non-empty frame; the
      maximum drawdown of a positive column is in (-1, 0]; the last
      value is the capital times one plus the total return; the
      volatility is the root of 252 times a non-negative variance;
      equal returns give the default Sharpe ratio 0 and a single row
      gives [NaN]; the trade count counts the executed trades, for any
      simulator that meets the contract; the baseline is the capital
      scaled by the price.
    - Texts: an amount without its dollar sign and separators and
      the trade count read back through [float] as the value rounded
      to the last digit printed; rounding moves a value by at most
      half a unit of that digit; the volatility printed is the
      nearest to the square root of its radicand; [float] raises
      nothing but its [ValueError].
    - Plot: the markers are as many as the trades of the report, each
      sits on the price curve at a row with that trade, they alternate
      with a buy first, and every curve has as many abscissas as
      ordinates.
    - App: a finite form is accepted exactly on the documented domain
      and rejected with the message of the first broken condition;
      whatever the entries hold, accepted thresholds are numbers with
      0 < oversold < overbought < 100, while capital and fee may still
      be infinite or [NaN], and every such capital and fee passes; an
      unknown company raises [KeyError]; an
      empty frame ends in the notice; on accepted inputs and non-zero
      prices a run ends in the table or in the simulator's length
      mismatch; the table shows every entry of the report.
    - Gui: in every window of a session there is at most one table and
      one figure on screen, both of the same run, and the company
      selected is one of the configuration, so that the lookup of the
      ticker never fails; the callback shows what [run_backtest]
      computes on the entries as [float] reads them; a press changes
      the window only when it ends in a report; the trade count of the
      table is the number of markers of the figure; a second press
      draws the same again; the default entries are accepted; an
      unreadable capital ends in the error dialog, which names the
      text.
    - Event loop: the loop in a session of finitely many actions
      hands them to their callbacks in order and ends with the window
      destroyed; the program asks for at most one download per press
      of the button, of a configured ticker over the configured
      period.
    - Scenarios: on a flat series a run ends in the table with the
      indicator at 50, no signal, the value at the capital, and a
      total return and a maximum drawdown of 0; the ten-day scenario
      of the design evaluates to the values worked out by hand.

    ** Bounds and fuel

    Every function of the engine and of the window is structurally
    recursive or a fold over the input rows: there is no fuel, and
    every function is total.  The event loop is the one definition
    that need not end: it is an interaction tree built with the
    iteration of the library, and the theorems about it are stated
    for sessions in which the window is closed after finitely many
    actions, where they show that the loop does end ([ends_in]).  All
    other definitions compute; the witnesses evaluate them with
    [vm_compute].  Integers ([Z]) are unbounded, as Python's are.

    ** Not modelled

    The rounding of binary floating point in the means, the standard
    deviations and the Sharpe ratios of the report and in the
    buy-and-hold columns, which are computed exactly only: the window,
    the figure and the event loop are stated over the exact model, and
    the formats of the report, which print the decimal nearest to the
    number they are given as Python does for a float, are given the
    exact numbers there.  The conversion of a share count to a float
    before it is multiplied by a price, which is exact below [2^53]
    shares: the loop in machine arithmetic rounds the product of the
    count and the price once.
    The summation order of pandas' rolling mean: the indicator in
    machine arithmetic is stated over any rolling mean that keeps
    columns without negative values so, which pandas' does by
    clamping.  The theorem of [Grid.v] is for runs without fees: a
    fee rate such as 0.001 is not a binary64 number and its products
    are rounded.  The sign of zero.  The network download
    ([yfinance]), which is a parameter or an event, and the
    flattening of the column labels that follows it.  The layout of
    the window (the frames and labels of [create_widgets], grid
    positions, fonts, the info text), the colours, sizes and margins
    of the figure, the rendering by matplotlib, the level shown in
    the label of a threshold line, and the dates of the index (a row
    is identified by its number): [display_metrics] and
    [plot_results] are taken not to raise, so that the table and the
    figure of a run are replaced together.  Tk's own dispatching
    besides the actions of the user (redraws, resizing, timers).  The
    square root in the annualised volatility is kept symbolic (the
    model carries the radicand) until it is printed.  Characters
    above 127 in the text of an entry.

    The builtins [float], [repr], [int] and the format
    specifications of Python, the rounding of binary64, numpy's
    floor division, Tk's [mainloop] and what an action of the user
    does to a widget are not code of the repository: they are
    modelled from the documentation of Python, numpy and Tk, and the
    theorems about the program are stated over these models. *)

From Stdlib Require Import String List ZArith QArith Qround Lia Lqa Bool.
Import ListNotations.

Set Implicit Arguments.

(** ** Computations that can raise *)

(** The Python exceptions the modelled code can raise.
    [LengthMismatch v i] is the [ValueError] pandas raises when a list
    of [v] values is assigned to a column of a frame of [i] rows; it is
    kept apart from the [ValueError]s that carry a fixed message so
    that the two lengths stay numbers.  It is raised by
    [backtest_strategy] only, outside the [try] block of
    [run_backtest]. *)
Inductive exn : Type :=
| ValueError (msg : string)
| OverflowError
| LengthMismatch (values index : nat)
| IndexError
| KeyError (key : string).

Inductive result (A : Type) : Type :=
| Ok (a : A)
| Raise (e : exn).

Arguments Ok {A} a.
Arguments Raise {A} e.

Definition bind {A B : Type} (r : result A) (k : A -> result B) : result B :=
  match r with
  | Ok a => k a
  | Raise e => Raise e
  end.

Declare Scope res_scope.
Delimit Scope res_scope with res.
Notation "x <- c ;; k" := (bind c (fun x => k))
  (at level 61, c at next level, right associativity) : res_scope.

Definition is_ok {A : Type} (r : result A) : bool :=
  match r with Ok _ => true | Raise _ => false end.

(** The loop [for x in l: st = f(st, x)] where the body can raise. *)
Fixpoint fold_result {S X : Type} (f : S -> X -> result S) (l : list X) (st : S)
  : result S :=
  match l with
  | [] => Ok st
  | x :: l' => bind (f st x) (fold_result f l')
  end.

(** ** Boolean comparisons on rationals *)

Definition Qltb (x y : Q) : bool := negb (Qle_bool y x).

(** ** Tactics *)

Ltac inv H := inversion H; subst; clear H.

Ltac destruct_match :=
  match goal with
  | |- context [match ?e with _ => _ end] => destruct e eqn:?
  | |- context [if ?e then _ else _] => destruct e eqn:?
  end.

(** Case analysis on the computation a [bind] of the goal starts with. *)
Ltac destruct_bind :=
  match goal with
  | |- context [bind ?e _] => destruct e eqn:?; cbn [bind]
  end.

Ltac destruct_match_in H :=
  match type of H with
  | context [match ?e with _ => _ end] => destruct e eqn:?
  | context [if ?e then _ else _] => destruct e eqn:?
  end.

Create HintDb bt.
Create Rewrite HintDb bt_rw.

(** ** Lemmas *)

Lemma bind_ok {A B : Type} (r : result A) (k : A -> result B) (b : B) :
  bind r k = Ok b <-> exists a, r = Ok a /\ k a = Ok b.
Proof.
  destruct r; simpl; split.
  - eauto.
  - now intros (a' & [= ->] & H).
  - discriminate.
  - now intros (a' & [=] & _).
Qed.

Lemma bind_raise {A B : Type} (r : result A) (k : A -> result B) (e : exn) :
  bind r k = Raise e <-> r = Raise e \/ exists a, r = Ok a /\ k a = Raise e.
Proof.
  destruct r; simpl; split.
  - eauto.
  - intros [[=] | (a' & [= ->] & H)]; auto.
  - intros [= ->]; auto.
  - intros [[= ->] | (a' & [=] & _)]; auto.
Qed.

Lemma fold_result_app {S X : Type} (f : S -> X -> result S) (l1 l2 : list X) (st : S) :
  fold_result f (l1 ++ l2) st = bind (fold_result f l1 st) (fold_result f l2).
Proof.
  revert st. induction l1 as [|x l1 IH]; intros st; simpl; [reflexivity|].
  destruct (f st x); simpl; auto.
Qed.

(** An invariant of the loop body is an invariant of the loop. *)
Lemma fold_result_inv {S X : Type} (f : S -> X -> result S) (P : S -> Prop) :
  (forall st x st', P st -> f st x = Ok st' -> P st') ->
  forall l st st', P st -> fold_result f l st = Ok st' -> P st'.
Proof.
  intros Hstep. induction l as [|x l IH]; intros st st' HP; simpl.
  - now intros [= <-].
  - intros (s1 & H1 & H2)%bind_ok. eauto.
Qed.

(** A relation between consecutive states that is reflexive, transitive
    and established by the loop body relates the loop's ends. *)
Lemma fold_result_rel {S X : Type} (f : S -> X -> result S) (R : S -> S -> Prop) :
  (forall st, R st st) ->
  (forall a b c, R a b -> R b c -> R a c) ->
  (forall st x st', f st x = Ok st' -> R st st') ->
  forall l st st', fold_result f l st = Ok st' -> R st st'.
Proof.
  intros Hrefl Htrans Hstep. induction l as [|x l IH]; intros st st'; simpl.
  - now intros [= <-].
  - intros (s1 & H1 & H2)%bind_ok. eauto.
Qed.

Section QBool.
Local Open Scope Q_scope.

Lemma Qltb_lt (x y : Q) : Qltb x y = true <-> x < y.
Proof.
  unfold Qltb. rewrite negb_true_iff. split; intros H.
  - apply Qnot_le_lt. intros Hle%Qle_bool_iff. congruence.
  - destruct (Qle_bool y x) eqn:E; [|reflexivity].
    apply Qle_bool_iff in E. lra.
Qed.

Lemma Qltb_ge (x y : Q) : Qltb x y = false <-> y <= x.
Proof.
  unfold Qltb. rewrite negb_false_iff. apply Qle_bool_iff.
Qed.

Lemma Qleb_gt (x y : Q) : Qle_bool x y = false <-> y < x.
Proof.
  rewrite <- Qltb_lt. unfold Qltb. now rewrite negb_true_iff.
Qed.

Lemma Qeqb_neq (x y : Q) : Qeq_bool x y = false <-> ~ x == y.
Proof.
  split; [apply Qeq_bool_neq|].
  intros H. destruct (Qeq_bool x y) eqn:E; [|reflexivity].
  now apply Qeq_bool_iff in E.
Qed.

#[export] Instance Qltb_Proper : Proper (Qeq ==> Qeq ==> eq) Qltb.
Proof. intros x x' Hx y y' Hy. unfold Qltb. now rewrite Hx, Hy. Qed.

Lemma inject_Z_pos (z : Z) : (0 < z)%Z -> 0 < inject_Z z.
Proof. now rewrite Zlt_Qlt. Qed.

Lemma inject_Z_nonneg (z : Z) : (0 <= z)%Z -> 0 <= inject_Z z.
Proof. now rewrite Zle_Qle. Qed.

Lemma inject_Z_of_nat_pos (n : nat) : (0 < n)%nat -> 0 < inject_Z (Z.of_nat n).
Proof. intros H. apply inject_Z_pos. lia. Qed.

Lemma Qsquare_nonneg (y : Q) : 0 <= y * y.
Proof.
destruct (Qlt_le_dec y 0) as [H|H].
- setoid_replace (y * y) with ((- y) * (- y)) by ring.
  apply Qmult_le_0_compat; lra.
- now apply Qmult_le_0_compat.
Qed.

(** The floor is the integer at or below a number with the next one
    above it. *)
Lemma Qfloor_unique (q : Q) (n : Z) :
  inject_Z n <= q -> q < inject_Z (n + 1) -> Qfloor q = n.
Proof.
  intros H1 H2. pose proof (Qfloor_le q) as H3. pose proof (Qlt_floor q) as H4.
  assert (Ha : inject_Z n < inject_Z (Qfloor q + 1)) by lra.
  assert (Hb : inject_Z (Qfloor q) < inject_Z (n + 1)) by lra.
  rewrite <- Zlt_Qlt in Ha, Hb. lia.
Qed.

(** [floor(c / p)] units at price [p] cost at most [c]. *)
Lemma Qfloor_div_mul_le (c p : Q) :
  0 < p -> inject_Z (Qfloor (c / p)) * p <= c.
Proof.
  intros Hp. pose proof (Qfloor_le (c / p)) as H.
  assert (E : c == c / p * p) by (field; lra). nra.
Qed.

(** ... and one more unit would cost more than [c]. *)
Lemma Qfloor_div_mul_gt (c p : Q) :
  0 < p -> c < (inject_Z (Qfloor (c / p)) + 1) * p.
Proof.
  intros Hp. pose proof (Qlt_floor (c / p)) as H.
  rewrite inject_Z_plus in H. change (inject_Z 1) with 1 in H.
  assert (E : c == c / p * p) by (field; lra).
  set (q := c / p) in *. set (z := inject_Z (Qfloor q)) in *.
  assert (0 < (z + 1 - q) * p) by (apply Qmult_lt_0_compat; lra).
  lra.
Qed.

Lemma Qfloor_div_pos (c p : Q) :
  0 < p -> ((0 < Qfloor (c / p))%Z <-> p <= c).
Proof.
  intros Hp. split; intros H.
  - pose proof (Qfloor_div_mul_le c Hp) as Hle.
    assert (H1 : 1 <= inject_Z (Qfloor (c / p))).
    { change 1 with (inject_Z 1). rewrite <- Zle_Qle. lia. }
    set (z := inject_Z (Qfloor (c / p))) in *.
    assert (0 <= (z - 1) * p) by (apply Qmult_le_0_compat; lra).
    lra.
  - assert (Hq : 1 <= c / p).
    { apply Qle_shift_div_l; lra. }
    apply Qfloor_resp_le in Hq. change (Qfloor 1) with 1%Z in Hq. lia.
Qed.
End QBool.

(** Turn boolean comparisons on rationals in the context into
    propositions that [lra] and [nra] understand. *)
Ltac qbool :=
  repeat match goal with
  | H : Qle_bool _ _ = true |- _ => apply Qle_bool_iff in H
  | H : Qle_bool _ _ = false |- _ => apply Qleb_gt in H
  | H : Qltb _ _ = true |- _ => apply Qltb_lt in H
  | H : Qltb _ _ = false |- _ => apply Qltb_ge in H
  | H : Qeq_bool _ _ = true |- _ => apply Qeq_bool_iff in H
  | H : Qeq_bool _ _ = false |- _ => apply Qeqb_neq in H
  | H : (_ && _)%bool = true |- _ => apply andb_true_iff in H; destruct H
  | H : negb _ = true |- _ => apply negb_true_iff in H
  | H : negb _ = false |- _ => apply negb_false_iff in H
  end.

(** ** Lists as columns *)

(** Element-wise combination of two columns; the result stops with the
    shorter one (columns of one DataFrame have the same length). *)
Fixpoint map2 {A B C : Type} (f : A -> B -> C) (l1 : list A) (l2 : list B) : list C :=
  match l1, l2 with
  | a :: l1', b :: l2' => f a b :: map2 f l1' l2'
  | _, _ => []
  end.

(** [f] on every element and the one before it, [p] standing before
    the first. *)
Fixpoint map_prev {A B : Type} (f : A -> A -> B) (p : A) (l : list A) : list B :=
  match l with
  | [] => []
  | x :: l' => f x p :: map_prev f x l'
  end.

(** [l[-1]], with a default for the empty list. *)
Definition last_or {A : Type} (l : list A) (d : A) : A := last l d.

Section Columns.
Context {A B C D : Type}.
Implicit Types (f : A -> B -> C) (la : list A) (lb : list B).

Lemma length_map2 f la lb :
  length (map2 f la lb) = Nat.min (length la) (length lb).
Proof.
  revert lb. induction la as [|a la IH]; intros [|b lb]; simpl; auto.
Qed.

Lemma length_map2_same f la lb :
  length la = length lb -> length (map2 f la lb) = length la.
Proof. intros H. rewrite length_map2. lia. Qed.

Lemma nth_error_map2 f la lb (i : nat) :
  nth_error (map2 f la lb) i =
  match nth_error la i, nth_error lb i with
  | Some a, Some b => Some (f a b)
  | _, _ => None
  end.
Proof.
  revert lb i. induction la as [|a la IH]; intros [|b lb] [|i]; simpl; auto.
  - now destruct (nth_error la i).
Qed.

Lemma map2_map_l (g : D -> A) f (l : list D) lb :
  map2 f (map g l) lb = map2 (fun d b => f (g d) b) l lb.
Proof.
  revert lb. induction l as [|d l IH]; intros [|b lb]; simpl; auto.
  now rewrite IH.
Qed.

Lemma map2_map_r (g : D -> B) f la (l : list D) :
  map2 f la (map g l) = map2 (fun a d => f a (g d)) la l.
Proof.
  revert l. induction la as [|a la IH]; intros [|d l]; simpl; auto.
  now rewrite IH.
Qed.

Lemma map_map2 (g : C -> D) f la lb :
  map g (map2 f la lb) = map2 (fun a b => g (f a b)) la lb.
Proof.
  revert lb. induction la as [|a la IH]; intros [|b lb]; simpl; auto.
  now rewrite IH.
Qed.

Lemma map2_ext f (f' : A -> B -> C) la lb :
  (forall a b, In a la -> In b lb -> f a b = f' a b) ->
  map2 f la lb = map2 f' la lb.
Proof.
  revert lb. induction la as [|a la IH]; intros [|b lb] H; simpl; auto.
  f_equal; [apply H; now left | apply IH; intros; apply H; now right].
Qed.

(** What holds of every pair of aligned elements holds of the
    combined column. *)
Lemma Forall_map2 (P : C -> Prop) (R : A -> B -> Prop) f la lb :
  (forall a b, R a b -> P (f a b)) ->
  Forall2 R la lb -> Forall P (map2 f la lb).
Proof.
  intros H HF. induction HF; simpl; constructor; auto.
Qed.

(** ... and what follows from a property of each column. *)
Lemma Forall_map2_each (P : A -> Prop) (Q : B -> Prop) (R : C -> Prop) f la lb :
  (forall a b, P a -> Q b -> R (f a b)) ->
  Forall P la -> Forall Q lb -> Forall R (map2 f la lb).
Proof.
  intros H Ha. revert lb. induction Ha as [|a la Pa _ IH]; intros lb Hb; [constructor|].
  destruct Hb as [|b lb Qb Hb]; simpl; constructor; auto.
Qed.
End Columns.

(** Related lists are related position by position. *)
Lemma Forall2_nth_error {A B : Type} (R : A -> B -> Prop) (l : list A) (l' : list B)
    (i : nat) (x : A) :
  Forall2 R l l' -> nth_error l i = Some x -> exists y, nth_error l' i = Some y /\ R x y.
Proof.
  intros H. revert i. induction H as [|a b l l' Hab _ IH]; intros [|i]; cbn;
    try discriminate; [intros [= <-]; eauto|apply IH].
Qed.

Lemma map2_removelast {A B : Type} (f : A -> A -> B) (p : A) (l : list A) :
  map2 f l (removelast (p :: l)) = map_prev f p l.
Proof.
  revert p. induction l as [|x l IH]; intros p; [reflexivity|].
  change (removelast (p :: x :: l)) with (p :: removelast (x :: l)).
  cbn [map2 map_prev]. f_equal. apply IH.
Qed.

Lemma length_map_prev {A B : Type} (f : A -> A -> B) (p : A) (l : list A) :
  length (map_prev f p l) = length l.
Proof. revert p. induction l; intros p; simpl; auto. Qed.

Lemma In_firstn_In {A : Type} (n : nat) (l : list A) (x : A) :
  In x (firstn n l) -> In x l.
Proof.
  intros H. rewrite <- (firstn_skipn n l). apply in_or_app. now left.
Qed.

Lemma In_skipn_In {A : Type} (n : nat) (l : list A) (x : A) :
  In x (skipn n l) -> In x l.
Proof.
  intros H. rewrite <- (firstn_skipn n l). apply in_or_app. now right.
Qed.

Lemma Forall_firstn {A : Type} (P : A -> Prop) (n : nat) (l : list A) :
  Forall P l -> Forall P (firstn n l).
Proof. rewrite !Forall_forall. eauto using In_firstn_In. Qed.

Lemma Forall_skipn {A : Type} (P : A -> Prop) (n : nat) (l : list A) :
  Forall P l -> Forall P (skipn n l).
Proof. rewrite !Forall_forall. eauto using In_skipn_In. Qed.

Lemma Forall_last {A : Type} (P : A -> Prop) (l : list A) (d : A) :
  Forall P l -> l <> [] -> P (last l d).
Proof.
  intros H Hn. destruct (exists_last Hn) as (l' & x & ->).
  rewrite last_last. apply Forall_app in H as [_ H]. now inversion H.
Qed.

Lemma last_app_cons {A : Type} (l1 l2 : list A) (x d : A) :
  last (l1 ++ x :: l2) d = last (x :: l2) d.
Proof.
  induction l1 as [|a l1 IH]; [reflexivity|].
  cbn [app]. rewrite <- IH. destruct l1; reflexivity.
Qed.

Lemma firstn_map_prev {A B : Type} (f : A -> A -> B) (p : A) (l : list A) (k : nat) :
  firstn k (map_prev f p l) = map_prev f p (firstn k l).
Proof.
  revert p k. induction l as [|x l IH]; intros p [|k]; simpl; auto.
  now rewrite IH.
Qed.

Lemma firstn_map2 {A B C : Type} (f : A -> B -> C) (la : list A) (lb : list B) (k : nat) :
  firstn k (map2 f la lb) = map2 f (firstn k la) (firstn k lb).
Proof.
  revert lb k. induction la as [|a la IH]; intros [|b lb] [|k]; simpl; auto.
  now rewrite IH.
Qed.

Lemma firstn_seq_0 (k n : nat) : firstn k (seq 0 n) = seq 0 (Nat.min k n).
Proof.
  generalize 0%nat. revert k. induction n as [|n IH]; intros [|k] s; simpl; auto.
  now rewrite IH.
Qed.

Lemma Forall2_of_Forall {A B : Type} (P : A -> Prop) (Q : B -> Prop)
    (la : list A) (lb : list B) :
  length la = length lb -> Forall P la -> Forall Q lb ->
  Forall2 (fun a b => P a /\ Q b) la lb.
Proof.
  intros Hlen Ha. revert lb Hlen.
  induction Ha as [|a la Pa _ IH]; intros [|b lb] Hlen Hb;
    try discriminate; constructor; inv Hb; auto.
Qed.

Lemma map2_diag {A C : Type} (f : A -> A -> C) (l : list A) :
  map2 f l l = map (fun a => f a a) l.
Proof. induction l; simpl; congruence. Qed.

Lemma Forall_combine_fst (A B : Type) (P : A -> Prop) (l : list A) (l' : list B) :
  Forall P l -> Forall (fun row => P (fst row)) (combine l l').
Proof.
  intros H. revert l'. induction H as [|a l Ha _ IH]; intros [|b l']; simpl; auto.
Qed.

Lemma last_cons_default {A : Type} (a d : A) (l : list A) :
  last (a :: l) d = last l a.
Proof.
  revert a d. induction l as [|b l IH]; intros a d; [reflexivity|].
  change (last (a :: b :: l) d) with (last (b :: l) d). now rewrite !IH.
Qed.

Lemma last_or_snoc {A : Type} (l : list A) (x d : A) : last_or (l ++ [x]) d = x.
Proof. apply last_last. Qed.

Lemma Forall_snoc {A : Type} (P : A -> Prop) (l : list A) (x : A) :
  Forall P (l ++ [x]) <-> Forall P l /\ P x.
Proof.
  rewrite Forall_app. split; intros [H1 H2]; split; auto.
  now inv H2.
Qed.

Lemma length_snoc {A : Type} (l : list A) (x : A) : length (l ++ [x]) = S (length l).
Proof. rewrite length_app. simpl. lia. Qed.

(** ** Rows selected by a column *)

Lemma filter_snd_combine {A B : Type} (p : B -> bool) (la : list A) (lb : list B) :
  (length lb <= length la)%nat ->
  map snd (filter (fun r => p (snd r)) (combine la lb)) = filter p lb.
Proof.
  revert lb. induction la as [|a la IH]; intros [|b lb] Hl; cbn in *; try lia; auto.
  destruct (p b); cbn; rewrite IH by lia; reflexivity.
Qed.

Lemma In_combine_nth_error {A B : Type} (la : list A) (lb : list B) (a : A) (b : B) :
  In (a, b) (combine la lb) ->
  exists i, nth_error la i = Some a /\ nth_error lb i = Some b.
Proof.
  revert lb. induction la as [|x la IH]; intros [|y lb]; cbn; try tauto.
  intros [[= -> ->]|H]; [now exists 0%nat|].
  destruct (IH _ H) as (i & ? & ?). now exists (S i).
Qed.

Lemma In_combine_seq {A : Type} (l : list A) (i : nat) (a : A) :
  In (i, a) (combine (seq 0 (length l)) l) -> nth_error l i = Some a.
Proof.
  intros (k & Hk & Ha)%In_combine_nth_error.
  assert (k < length l)%nat by (apply nth_error_Some; congruence).
  rewrite nth_error_nth' with (d := 0%nat) in Hk by now rewrite length_seq.
  rewrite seq_nth in Hk by assumption. now injection Hk as <-.
Qed.

Lemma map_fst_combine_seq {A : Type} (l : list A) :
  map fst (combine (seq 0 (length l)) l) = seq 0 (length l).
Proof.
  generalize 0%nat. induction l as [|a l IH]; intros n; cbn; [reflexivity|].
  now rewrite IH.
Qed.

Lemma combine_map_same {A B C : Type} (f : A -> B) (g : A -> C) (l : list A) :
  combine (map f l) (map g l) = map (fun x => (f x, g x)) l.
Proof. induction l as [|a l IH]; cbn; [reflexivity|]. now rewrite IH. Qed.

(** ** Running sums *)

Definition zsum (l : list Z) : Z := fold_right Z.add 0%Z l.

(** [l.cumsum()], started at [acc]. *)
Fixpoint cumsum (acc : Z) (l : list Z) : list Z :=
  match l with
  | [] => []
  | t :: l' => (acc + t)%Z :: cumsum (acc + t) l'
  end.

Lemma zsum_app (l1 l2 : list Z) : zsum (l1 ++ l2) = (zsum l1 + zsum l2)%Z.
Proof.
  induction l1 as [|a l1 IH]; cbn [app zsum fold_right]; [reflexivity|].
  fold (zsum (l1 ++ l2)) (zsum l1). lia.
Qed.

Lemma length_cumsum (acc : Z) (l : list Z) : length (cumsum acc l) = length l.
Proof. revert acc. induction l; intros acc; cbn; auto. Qed.

Lemma cumsum_snoc (acc t : Z) (l : list Z) :
  cumsum acc (l ++ [t]) = cumsum acc l ++ [(acc + zsum l + t)%Z].
Proof.
  revert acc. induction l as [|a l IH]; intros acc; cbn [app cumsum zsum fold_right].
  - now rewrite Z.add_0_r.
  - fold (zsum l). now rewrite IH, Z.add_assoc.
Qed.

Lemma last_cumsum (acc : Z) (l : list Z) : last_or (cumsum acc l) acc = (acc + zsum l)%Z.
Proof.
  revert acc. induction l as [|a l IH]; intros acc; cbn [cumsum zsum fold_right]; [cbn; lia|].
  unfold last_or in *. rewrite last_cons_default, IH. fold (zsum l). lia.
Qed.

(** The entry of a running sum is the sum of the prefix it ends. *)
Lemma nth_cumsum (acc : Z) (l : list Z) (k : nat) :
  (k < length l)%nat -> nth k (cumsum acc l) 0%Z = (acc + zsum (firstn (S k) l))%Z.
Proof.
  revert acc k. induction l as [|a l IH]; intros acc k Hk; cbn in Hk; [lia|].
  destruct k as [|k]; [cbn; lia|].
  cbn [cumsum nth]. rewrite IH by lia. cbn [firstn zsum fold_right]. fold (zsum (firstn (S k) l)).
  lia.
Qed.

#[export] Hint Rewrite @length_snoc @length_map2 @length_map @length_app
  @length_seq @repeat_length @length_firstn @length_skipn : bt_rw.
#[export] Hint Rewrite @last_or_snoc : bt_rw.
#[export] Hint Resolve inject_Z_nonneg inject_Z_pos inject_Z_of_nat_pos
  Qsquare_nonneg : bt.
