(* ===== verification/Floats.v ===== *)
(** * Floats: Python floats with their special values

    A Python float is modelled as an exact rational or one of the three
    special values of IEEE 754.  The arithmetic follows the IEEE rules
    that numpy applies to [float64] columns (division by zero yields an
    infinity or [NaN] instead of raising, [NaN] is absorbing, every
    ordered comparison with [NaN] is false).  The operations here are
    exact; [Binary64] adds the rounding.  The sign of zero is not
    modelled. *)

From Stdlib Require Import String List ZArith QArith Qround Lia Lqa Bool.
From S2P Require Import Prelude.
Import ListNotations.

Local Open Scope string_scope.
Local Open Scope Q_scope.

Inductive xfloat : Type :=
| Fin (q : Q)
| PInf
| NInf
| NaN.

Definition xopp (x : xfloat) : xfloat :=
  match x with
  | Fin q => Fin (- q)
  | PInf => NInf
  | NInf => PInf
  | NaN => NaN
  end.

Definition xadd (x y : xfloat) : xfloat :=
  match x, y with
  | NaN, _ | _, NaN => NaN
  | Fin a, Fin b => Fin (a + b)
  | PInf, NInf | NInf, PInf => NaN
  | PInf, _ | _, PInf => PInf
  | NInf, _ | _, NInf => NInf
  end.

Definition xsub (x y : xfloat) : xfloat := xadd x (xopp y).

(** [inf_signed s] is the infinity of the sign of [s], [NaN] for zero. *)
Definition inf_signed (s : Q) : xfloat :=
  match s ?= 0 with
  | Eq => NaN
  | Gt => PInf
  | Lt => NInf
  end.

Definition xmul (x y : xfloat) : xfloat :=
  match x, y with
  | NaN, _ | _, NaN => NaN
  | Fin a, Fin b => Fin (a * b)
  | Fin a, PInf | PInf, Fin a => inf_signed a
  | Fin a, NInf | NInf, Fin a => inf_signed (- a)
  | PInf, PInf | NInf, NInf => PInf
  | PInf, NInf | NInf, PInf => NInf
  end.

Definition xdiv (x y : xfloat) : xfloat :=
  match x, y with
  | NaN, _ | _, NaN => NaN
  | Fin a, Fin b => if Qeq_bool b 0 then inf_signed a else Fin (a / b)
  | Fin _, PInf | Fin _, NInf => Fin 0
  | PInf, Fin b => if Qltb b 0 then NInf else PInf
  | NInf, Fin b => if Qltb b 0 then PInf else NInf
  | PInf, PInf | PInf, NInf | NInf, PInf | NInf, NInf => NaN
  end.

(** Python's [x < y], [x <= y] and [x == y] on floats. *)
Definition xltb (x y : xfloat) : bool :=
  match x, y with
  | NaN, _ | _, NaN => false
  | Fin a, Fin b => Qltb a b
  | NInf, NInf | PInf, _ | Fin _, NInf => false
  | NInf, _ | Fin _, PInf => true
  end.

Definition xleb (x y : xfloat) : bool :=
  match x, y with
  | NaN, _ | _, NaN => false
  | Fin a, Fin b => Qle_bool a b
  | NInf, _ | _, PInf => true
  | PInf, _ | Fin _, NInf => false
  end.

Definition xeqb (x y : xfloat) : bool :=
  match x, y with
  | Fin a, Fin b => Qeq_bool a b
  | PInf, PInf | NInf, NInf => true
  | _, _ => false
  end.

Definition is_nan (x : xfloat) : bool :=
  match x with NaN => true | _ => false end.

Definition is_fin (x : xfloat) : bool :=
  match x with Fin _ => true | _ => false end.

(** The value of a float known to be finite (0 otherwise). *)
Definition to_Q (x : xfloat) : Q :=
  match x with Fin q => q | _ => 0 end.

(** Same value: [==] on the finite ones.  This is the equivalence of the
    model, under which [NaN] is related to itself; Python's [==] is [xeqb]. *)
Definition xeq (x y : xfloat) : Prop :=
  match x, y with
  | Fin a, Fin b => a == b
  | PInf, PInf | NInf, NInf | NaN, NaN => True
  | _, _ => False
  end.

Declare Scope xfloat_scope.
Delimit Scope xfloat_scope with xf.
Bind Scope xfloat_scope with xfloat.
Infix "+" := xadd : xfloat_scope.
Infix "-" := xsub : xfloat_scope.
Infix "*" := xmul : xfloat_scope.
Infix "/" := xdiv : xfloat_scope.
Infix "=~" := xeq (at level 70, no associativity) : xfloat_scope.
Coercion Fin : Q >-> xfloat.

(** ** The equivalence and the operations that respect it *)

#[export] Instance xeq_Equivalence : Equivalence xeq.
Proof.
  split.
  - intros [q| | |]; simpl; auto with qarith.
  - intros [a| | |] [b| | |]; simpl; auto with qarith.
  - intros [a| | |] [b| | |] [c| | |]; simpl; try tauto. apply Qeq_trans.
Qed.

#[export] Instance inf_signed_Proper : Proper (Qeq ==> eq) inf_signed.
Proof. intros a b H. unfold inf_signed. now rewrite H. Qed.

#[export] Instance Fin_Proper : Proper (Qeq ==> xeq) Fin.
Proof. intros a b H. exact H. Qed.

(** Case analysis on the operands of a binary operation: the cases where
    the operands are not related are absurd, the others are closed by
    rewriting with the two hypotheses. *)
Local Ltac xproper2 :=
  intros [?| | |] [?| | |] H [?| | |] [?| | |] H'; simpl in *; try tauto;
  try reflexivity; try (rewrite ?H, ?H'; reflexivity).

#[export] Instance xopp_Proper : Proper (xeq ==> xeq) xopp.
Proof. intros [a| | |] [b| | |]; simpl; try tauto. now intros ->. Qed.

#[export] Instance xadd_Proper : Proper (xeq ==> xeq ==> xeq) xadd.
Proof. xproper2. Qed.

#[export] Instance xsub_Proper : Proper (xeq ==> xeq ==> xeq) xsub.
Proof. intros x x' H y y' H'. unfold xsub. now rewrite H, H'. Qed.

#[export] Instance xmul_Proper : Proper (xeq ==> xeq ==> xeq) xmul.
Proof. xproper2. Qed.

#[export] Instance xdiv_Proper : Proper (xeq ==> xeq ==> xeq) xdiv.
Proof.
  xproper2. rewrite H', H.
  destruct (Qeq_bool _ 0); [reflexivity|]. simpl. now rewrite H, H'.
Qed.

#[export] Instance xltb_Proper : Proper (xeq ==> xeq ==> eq) xltb.
Proof. xproper2. Qed.

#[export] Instance xleb_Proper : Proper (xeq ==> xeq ==> eq) xleb.
Proof. xproper2. Qed.

#[export] Instance is_nan_Proper : Proper (xeq ==> eq) is_nan.
Proof. intros [a| | |] [b| | |]; simpl; tauto. Qed.

#[export] Instance to_Q_Proper : Proper (xeq ==> Qeq) to_Q.
Proof. intros [a| | |] [b| | |]; simpl; try tauto; reflexivity. Qed.

(** ** Facts about the special cases *)

Lemma inf_signed_pos (a : Q) : 0 < a -> inf_signed a = PInf.
Proof.
  intros H. unfold inf_signed. now apply Qgt_alt in H as ->.
Qed.

Lemma inf_signed_neg (a : Q) : a < 0 -> inf_signed a = NInf.
Proof.
  intros H. unfold inf_signed. now apply Qlt_alt in H as ->.
Qed.

Lemma inf_signed_zero (a : Q) : a == 0 -> inf_signed a = NaN.
Proof.
  intros H. unfold inf_signed. now apply Qeq_alt in H as ->.
Qed.

Lemma xdiv_fin (a b : Q) : ~ b == 0 -> xdiv (Fin a) (Fin b) = Fin (a / b).
Proof. intros H. simpl. now apply Qeqb_neq in H as ->. Qed.

Lemma xdiv_zero_pos (a b : Q) : b == 0 -> 0 < a -> xdiv (Fin a) (Fin b) = PInf.
Proof.
  intros Hb Ha. simpl. apply Qeq_bool_iff in Hb as ->. now apply inf_signed_pos.
Qed.

Lemma xdiv_zero_zero (a b : Q) : b == 0 -> a == 0 -> xdiv (Fin a) (Fin b) = NaN.
Proof.
  intros Hb Ha. simpl. apply Qeq_bool_iff in Hb as ->. now apply inf_signed_zero.
Qed.

Lemma xltb_nan_l (y : xfloat) : xltb NaN y = false.
Proof. reflexivity. Qed.

Lemma xltb_nan_r (x : xfloat) : xltb x NaN = false.
Proof. now destruct x. Qed.

Lemma xleb_nan_r (x : xfloat) : xleb x NaN = false.
Proof. now destruct x. Qed.

Lemma xltb_xleb_excl (x y : xfloat) : xltb x y = true -> xleb y x = false.
Proof.
  destruct x, y; simpl; try discriminate; try reflexivity.
  intros H. qbool. now apply Qleb_gt.
Qed.

Lemma xltb_fin (a b : Q) : xltb (Fin a) (Fin b) = true <-> a < b.
Proof. apply Qltb_lt. Qed.

Lemma xleb_fin (a b : Q) : xleb (Fin a) (Fin b) = true <-> a <= b.
Proof. apply Qle_bool_iff. Qed.

(** ** Floor division and conversion to [int] *)

(** [x // p] for a float [x] and a finite [p]: the floor of the
    quotient; by zero it is [x / p], the infinity of the sign of [x]
    ([NaN] for zero), as numpy computes it for [float64] operands; an
    infinity divided by a number other than zero has no remainder and
    gives [NaN]. *)
Definition floordiv (x : xfloat) (p : Q) : xfloat :=
  match x with
  | Fin c => if Qeq_bool p 0 then inf_signed c else Fin (inject_Z (Qfloor (c / p)))
  | NaN => NaN
  | _ => if Qeq_bool p 0 then x else NaN
  end.

(** Truncation toward zero. *)
Definition Qtrunc (q : Q) : Z := Z.quot (Qnum q) (Zpos (Qden q)).

(** [int(x)]: truncation toward zero; the special values raise. *)
Definition py_int (x : xfloat) : result Z :=
  match x with
  | Fin q => Ok (Qtrunc q)
  | NaN => Raise (ValueError "cannot convert float NaN to integer")
  | _ => Raise OverflowError
  end.

(** [x != 0] on floats: true for [NaN]. *)
Definition nonzero (x : xfloat) : bool := negb (xeqb x (Fin 0)).

Lemma Qtrunc_inject_Z (z : Z) : Qtrunc (inject_Z z) = z.
Proof. unfold Qtrunc. cbn. apply Z.quot_1_r. Qed.

Lemma py_int_floordiv (c p : Q) :
  ~ p == 0 -> py_int (floordiv (Fin c) p) = Ok (Qfloor (c / p)).
Proof.
  intros Hp. unfold floordiv. apply Qeqb_neq in Hp as ->.
  cbn [py_int]. now rewrite Qtrunc_inject_Z.
Qed.

Lemma py_int_floordiv_zero (c p : Q) :
  p == 0 -> exists e, py_int (floordiv (Fin c) p) = Raise e.
Proof.
  intros Hp. unfold floordiv. apply Qeq_bool_iff in Hp as ->.
  unfold inf_signed. destruct (c ?= 0); cbn; eauto.
Qed.

#[export] Instance floordiv_Proper : Proper (xeq ==> Qeq ==> xeq) floordiv.
Proof.
  intros [a| | |] [b| | |] H p q Hp; unfold xeq in H; try tauto; try reflexivity;
    try (unfold floordiv; rewrite Hp; now destruct (Qeq_bool q 0)).
  unfold floordiv. rewrite Hp, H.
  destruct (Qeq_bool q 0); [reflexivity|]. unfold xeq. now rewrite H, Hp.
Qed.
