(* ===== verification/Binary64.v ===== *)
(** * Binary64: the rounding of a Python float

    A Python float is an IEEE 754 binary64 number: 53 bits of
    precision, exponents from [2^-1074] (the smallest subnormal) to
    just below [2^1024].  Every operation the program performs on
    floats ([src/subcode/calculation.py], [src/subcode/app.py]) returns
    the exact result rounded to the nearest such number, the one with
    an even last bit when two are equally near, or an infinity when
    the rounded magnitude reaches [2^1024].  [round64] is that
    rounding on exact rationals; the file proves that its result is a
    binary64 number, that no binary64 number is nearer, that it keeps
    the order and the binary64 numbers, the standard error model, and
    where it overflows and underflows.  [round_half_even], the rounding
    to an integer that both [round64] and the formats of the report
    use, is here as well. *)

From Stdlib Require Import List ZArith QArith Qround Qabs Qpower Lia Lqa Bool.
From Stdlib Require Import Morphisms Setoid SpecFloat.
From S2P Require Import Prelude Floats.
Import ListNotations.

Local Open Scope Q_scope.

(** ** Rounding to an integer *)

(** The integer nearest to a rational, the even one of the two when it
    is half way. *)
Definition round_half_even (q : Q) : Z :=
  let f := Qfloor q in
  match Qcompare (q - inject_Z f) (1 # 2) with
  | Lt => f
  | Gt => (f + 1)%Z
  | Eq => if Z.even f then f else (f + 1)%Z
  end.

(** ** Powers of two *)

Definition pow2 (e : Z) : Q := 2 ^ e.

(** [ilog2 q] is the exponent [e] of the binade of [q]:
    [2^e <= |q| < 2^(e+1)], for [q] other than zero. *)
Definition ilog2 (q : Q) : Z :=
  let k := (Z.log2 (Z.abs (Qnum q)) - Z.log2 (Zpos (Qden q)))%Z in
  if Qle_bool (pow2 k) (Qabs q) then k else (k - 1)%Z.

(** ** The format *)

(** The precision of a binary64 number, in bits, the exponent of its
    overflow threshold [2^1024], and the exponent of the smallest
    positive number [2^-1074]. *)
Definition prec : Z := 53.
Definition emax : Z := 1024.
Definition emin : Z := -1074.

(** The exponent of the last bit of the binary64 numbers of the binade
    of [q]: 52 places below the leading bit, and never below [emin]. *)
Definition fexp (q : Q) : Z := Z.max (ilog2 q - (prec - 1)) emin.

(** The unit in the last place. *)
Definition ulp (q : Q) : Q := pow2 (fexp q).

(** The multiple of [2^e] nearest to [q], half way to the even one. *)
Definition round_to (e : Z) (q : Q) : Q :=
  inject_Z (round_half_even (q / pow2 e)) * pow2 e.

(** Rounding to nearest, ties to even, before the range is checked. *)
Definition round_val (q : Q) : Q := round_to (fexp q) q.

(** A rounded value of magnitude [2^1024] or more is an infinity. *)
Definition overflow (v : Q) : xfloat :=
  if Qle_bool (pow2 emax) v then PInf
  else if Qle_bool v (- pow2 emax) then NInf
  else Fin v.

(** The binary64 number a real number is rounded to. *)
Definition round64 (q : Q) : xfloat := overflow (round_val q).

(** The float an exact result is stored as. *)
Definition xround (x : xfloat) : xfloat :=
  match x with
  | Fin q => round64 q
  | _ => x
  end.

(** The finite binary64 numbers: at most 53 bits times a power of two
    from [2^-1074] to [2^971]. *)
Definition is_binary64 (q : Q) : Prop :=
  exists m e : Z,
    (Z.abs m < 2 ^ prec)%Z /\ (emin <= e <= emax - prec)%Z /\ q == inject_Z m * pow2 e.

Definition binary64b (q : Q) : bool :=
  match round64 q with
  | Fin v => Qeq_bool v q
  | _ => false
  end.

(** The least number that rounds to an infinity: half way between the
    largest binary64 number and [2^1024]. *)
Definition overflow_threshold : Q := pow2 emax - pow2 (emax - prec - 1).

(** The unit roundoff and the largest error of a rounding in the
    subnormal range. *)
Definition unit_roundoff : Q := pow2 (- prec).
Definition eta : Q := pow2 (emin - 1).

(** ** Rounding to an integer: its error, order and sign *)

Lemma round_half_even_cases (q : Q) :
  round_half_even q = Qfloor q /\ q - inject_Z (Qfloor q) <= 1 # 2
  \/ round_half_even q = (Qfloor q + 1)%Z /\ 1 # 2 <= q - inject_Z (Qfloor q).
Proof.
  unfold round_half_even.
  destruct (Qcompare_spec (q - inject_Z (Qfloor q)) (1 # 2)) as [E|L|G].
  - destruct (Z.even (Qfloor q)); [left|right]; split; try reflexivity; lra.
  - left. split; [reflexivity|lra].
  - right. split; [reflexivity|lra].
Qed.

(** Rounding moves a number by at most a half. *)
Lemma round_half_even_error (q : Q) : Qabs (inject_Z (round_half_even q) - q) <= 1 # 2.
Proof.
  pose proof (Qfloor_le q) as Hlo. pose proof (Qlt_floor q) as Hhi.
  rewrite inject_Z_plus in Hhi. apply Qabs_Qle_condition.
  destruct (round_half_even_cases q) as [[-> H]|[-> H]];
    rewrite ?inject_Z_plus; change (inject_Z 1) with 1 in *; split; lra.
Qed.

Lemma round_half_even_nonneg (q : Q) : 0 <= q -> (0 <= round_half_even q)%Z.
Proof.
  intros Hq. assert (0 <= Qfloor q)%Z by (change 0%Z with (Qfloor 0); now apply Qfloor_resp_le).
  destruct (round_half_even_cases q) as [[-> _]|[-> _]]; lia.
Qed.

#[export] Instance round_half_even_Proper : Proper (Qeq ==> eq) round_half_even.
Proof.
  intros x y H. unfold round_half_even. rewrite (Qfloor_comp x y H).
  assert (E : Qcompare (x - inject_Z (Qfloor y)) (1 # 2)
              = Qcompare (y - inject_Z (Qfloor y)) (1 # 2)) by now rewrite H.
  now rewrite E.
Qed.

(** An integer is its own rounding. *)
Lemma round_half_even_inject_Z (z : Z) : round_half_even (inject_Z z) = z.
Proof.
  unfold round_half_even. rewrite Qfloor_Z.
  destruct (Qcompare_spec (inject_Z z - inject_Z z) (1 # 2)) as [E|L|G]; try reflexivity; lra.
Qed.

(** Order between integers, as rationals. *)
Lemma inject_Z_le (a b : Z) : inject_Z a <= inject_Z b <-> (a <= b)%Z.
Proof. now rewrite <- Zle_Qle. Qed.

Lemma inject_Z_lt (a b : Z) : inject_Z a < inject_Z b <-> (a < b)%Z.
Proof. now rewrite <- Zlt_Qlt. Qed.

Lemma inject_Z_succ (a : Z) : inject_Z (a + 1) == inject_Z a + 1.
Proof. now rewrite inject_Z_plus. Qed.

Lemma inject_Z_minus (a b : Z) : inject_Z (a - b) == inject_Z a - inject_Z b.
Proof. unfold Z.sub. now rewrite inject_Z_plus, inject_Z_opp. Qed.

(** Rounding keeps the order. *)
Lemma round_half_even_mono (p q : Q) : p <= q -> (round_half_even p <= round_half_even q)%Z.
Proof.
  intros H. pose proof (Qfloor_resp_le _ _ H) as Hf.
  destruct (Z.eq_dec (Qfloor p) (Qfloor q)) as [E|E].
  - unfold round_half_even. rewrite E.
    destruct (Qcompare_spec (p - inject_Z (Qfloor q)) (1 # 2)),
      (Qcompare_spec (q - inject_Z (Qfloor q)) (1 # 2));
      destruct (Z.even (Qfloor q)); try lia; lra.
  - destruct (round_half_even_cases p) as [[-> _]|[-> _]],
      (round_half_even_cases q) as [[-> _]|[-> _]]; lia.
Qed.

(** Rounding commutes with the change of sign. *)
Lemma round_half_even_opp (q : Q) : round_half_even (- q) = (- round_half_even q)%Z.
Proof.
  pose proof (Qfloor_le q) as Hlo. pose proof (Qlt_floor q) as Hhi.
  rewrite inject_Z_succ in Hhi.
  destruct (Qeq_dec q (inject_Z (Qfloor q))) as [E|E].
  - transitivity (round_half_even (inject_Z (- Qfloor q))).
    + apply round_half_even_Proper. rewrite inject_Z_opp. now apply Qopp_comp.
    + rewrite round_half_even_inject_Z. f_equal.
      rewrite <- (round_half_even_inject_Z (Qfloor q)) at 1. now apply round_half_even_Proper.
  - assert (Ef : Qfloor (- q) = (- Qfloor q - 1)%Z).
    { symmetry. apply Z.le_antisymm.
      - apply Zlt_succ_le, inject_Z_lt. eapply Qlt_le_trans with (- q).
        + rewrite inject_Z_minus, inject_Z_opp. change (inject_Z 1) with 1. lra.
        + pose proof (Qlt_floor (- q)) as H. replace (Z.succ (Qfloor (- q))) with (Qfloor (- q) + 1)%Z by lia. lra.
      - apply Zlt_succ_le, inject_Z_lt. eapply Qle_lt_trans; [apply Qfloor_le|].
        replace (Z.succ (- Qfloor q - 1)) with (- Qfloor q)%Z by lia.
        rewrite inject_Z_opp. lra. }
    unfold round_half_even. rewrite Ef.
    assert (Ee : Z.even (- Qfloor q - 1) = negb (Z.even (Qfloor q))).
    { rewrite Z.even_sub, Z.even_opp. cbn. now destruct (Z.even (Qfloor q)). }
    rewrite Ee, inject_Z_minus, inject_Z_opp. change (inject_Z 1) with 1.
    destruct (Qcompare_spec (- q - (- inject_Z (Qfloor q) - 1)) (1 # 2)),
      (Qcompare_spec (q - inject_Z (Qfloor q)) (1 # 2));
      destruct (Z.even (Qfloor q)); cbn [negb]; try lia; lra.
Qed.

(** ** Order and sums of powers of two *)

Lemma Q2_neq_0 : ~ 2 == 0.
Proof. discriminate. Qed.

Lemma pow2_pos (e : Z) : 0 < pow2 e.
Proof. now apply Qpower_0_lt. Qed.

Lemma pow2_add (a b : Z) : pow2 (a + b) == pow2 a * pow2 b.
Proof. apply Qpower_plus, Q2_neq_0. Qed.

Lemma pow2_succ (e : Z) : pow2 (e + 1) == 2 * pow2 e.
Proof. rewrite pow2_add. change (pow2 1) with 2. lra. Qed.

Lemma pow2_le (a b : Z) : (a <= b)%Z -> pow2 a <= pow2 b.
Proof. intros H. now apply Qpower_le_compat_l. Qed.

Lemma pow2_lt (a b : Z) : (a < b)%Z -> pow2 a < pow2 b.
Proof. intros H. now apply Qpower_lt_compat_l. Qed.

Lemma pow2_lt_inv (a b : Z) : pow2 a < pow2 b -> (a < b)%Z.
Proof. intros H. now apply (Qpower_lt_compat_l_inv 2). Qed.

Lemma pow2_inject (e : Z) : (0 <= e)%Z -> pow2 e == inject_Z (2 ^ e).
Proof. intros H. unfold pow2. now rewrite Zpower_Qpower. Qed.

Lemma pow2_eq (a b : Z) : a = b -> pow2 a == pow2 b.
Proof. now intros ->. Qed.

#[global] Opaque pow2.

(** A quotient is below (above) a bound when the numerator and the
    denominator are. *)
Lemma ratio_lt (x P A B D N : Q) :
  0 < B -> B <= D -> 0 <= P -> x * D == N -> P * B == A -> N < A -> x < P.
Proof. intros. nra. Qed.

Lemma ratio_ge (x P A B D N : Q) :
  0 < D -> D <= B -> 0 <= P -> x * D == N -> P * B == A -> A <= N -> P <= x.
Proof. intros. nra. Qed.

Lemma Qabs_Qmake (q : Q) :
  Qabs q * inject_Z (Zpos (Qden q)) == inject_Z (Z.abs (Qnum q)).
Proof.
  destruct q as [n d]. unfold Qabs, Qeq, Qmult, inject_Z. cbn. lia.
Qed.

Lemma Qnum_abs_pos (q : Q) : ~ q == 0 -> (0 < Z.abs (Qnum q))%Z.
Proof. destruct q as [n d]. unfold Qeq. cbn. lia. Qed.

(** The binade of a number other than zero. *)
Lemma ilog2_spec (q : Q) :
  ~ q == 0 -> pow2 (ilog2 q) <= Qabs q /\ Qabs q < pow2 (ilog2 q + 1).
Proof.
  intros Hq. pose proof (Qnum_abs_pos q Hq) as Hn. pose proof (Qabs_Qmake q) as Hx.
  set (n := Z.abs (Qnum q)) in *. set (d := Zpos (Qden q)) in *.
  assert (Hd : (0 < d)%Z) by reflexivity.
  destruct (Z.log2_spec n Hn) as [Hn1 Hn2], (Z.log2_spec d Hd) as [Hd1 Hd2].
  pose proof (Z.log2_nonneg n) as Ha. pose proof (Z.log2_nonneg d) as Hb.
  apply inject_Z_le in Hn1, Hd1. apply inject_Z_lt in Hn2, Hd2.
  rewrite <- pow2_inject in Hn1, Hn2, Hd1, Hd2 by lia.
  unfold ilog2. fold n d. set (k := (Z.log2 n - Z.log2 d)%Z).
  pose proof (pow2_pos (Z.log2 d)). pose proof (pow2_pos (Z.succ (Z.log2 d))).
  destruct (Qle_bool (pow2 k) (Qabs q)) eqn:E; qbool; (split; [|]); try assumption.
  - eapply ratio_lt with (B := pow2 (Z.log2 d)) (4 := Hx); try eassumption;
      [apply Qlt_le_weak, pow2_pos|rewrite <- pow2_add; apply pow2_eq; subst k; lia].
  - eapply ratio_ge with (B := pow2 (Z.succ (Z.log2 d))) (4 := Hx);
      [lra|lra|apply Qlt_le_weak, pow2_pos| |eassumption].
    rewrite <- pow2_add. apply pow2_eq. subst k. lia.
  - replace (k - 1 + 1)%Z with k by lia. assumption.
Qed.

Lemma ilog2_unique (q : Q) (e : Z) :
  pow2 e <= Qabs q -> Qabs q < pow2 (e + 1) -> ilog2 q = e.
Proof.
  intros H1 H2. pose proof (pow2_pos e).
  assert (Hq : ~ q == 0) by (intros E; rewrite E in H1; cbn in H1; lra).
  destruct (ilog2_spec q Hq) as [H3 H4].
  assert (ilog2 q < e + 1)%Z by (apply pow2_lt_inv; lra).
  assert (e < ilog2 q + 1)%Z by (apply pow2_lt_inv; lra). lia.
Qed.

Lemma ilog2_opp (q : Q) : ilog2 (- q) = ilog2 q.
Proof.
  unfold ilog2, Qabs. destruct q as [n d]. cbn [Qnum Qden Qopp].
  now rewrite Z.abs_opp.
Qed.

Lemma ilog2_mono (p q : Q) : ~ p == 0 -> Qabs p <= Qabs q -> (ilog2 p <= ilog2 q)%Z.
Proof.
  intros Hp H. pose proof (Qabs_nonneg p).
  assert (Hq : ~ q == 0).
  { intros E. rewrite E in H. change (Qabs 0) with 0 in H.
    apply Qabs_Qle_condition in H. apply Hp. lra. }
  destruct (ilog2_spec p Hp), (ilog2_spec q Hq).
  assert (ilog2 p < ilog2 q + 1)%Z by (apply pow2_lt_inv; lra). lia.
Qed.

(** ** The exponent of the last place *)

Lemma fexp_ge_emin (q : Q) : (emin <= fexp q)%Z.
Proof. unfold fexp. lia. Qed.

Lemma fexp_opp (q : Q) : fexp (- q) = fexp q.
Proof. unfold fexp. now rewrite ilog2_opp. Qed.

Lemma fexp_mono (p q : Q) : ~ p == 0 -> Qabs p <= Qabs q -> (fexp p <= fexp q)%Z.
Proof. intros Hp H. pose proof (ilog2_mono p q Hp H). unfold fexp. lia. Qed.

(** A number has fewer than 53 bits above its last place. *)
Lemma fexp_upper (q : Q) : Qabs q < pow2 (fexp q + prec).
Proof.
  destruct (Qeq_dec q 0) as [E|E].
  - assert (H : Qabs q == 0) by now rewrite E.
    rewrite H. apply pow2_pos.
  - destruct (ilog2_spec q E) as [_ H]. eapply Qlt_le_trans; [exact H|].
    apply pow2_le. unfold fexp, prec. lia.
Qed.

(** Above the subnormal range it has exactly 53. *)
Lemma fexp_lower (q : Q) :
  ~ q == 0 -> (emin < fexp q)%Z -> pow2 (fexp q + (prec - 1)) <= Qabs q.
Proof.
  intros E H. destruct (ilog2_spec q E) as [H1 _].
  replace (fexp q + (prec - 1))%Z with (ilog2 q); [exact H1|]. unfold fexp in *. lia.
Qed.

(** ** Rounding to a multiple of a power of two *)

Lemma pow2_neq_0 (e : Z) : ~ pow2 e == 0.
Proof. pose proof (pow2_pos e). lra. Qed.

Lemma scaled_mul (e : Z) (q : Q) : q / pow2 e * pow2 e == q.
Proof. field. apply pow2_neq_0. Qed.

Lemma scaled_le (e : Z) (p q : Q) : p <= q -> p / pow2 e <= q / pow2 e.
Proof.
  intros H. unfold Qdiv. apply Qmult_le_compat_r; [exact H|].
  apply Qlt_le_weak, Qinv_lt_0_compat, pow2_pos.
Qed.

Lemma scaled_multiple (e m : Z) : inject_Z m * pow2 e / pow2 e == inject_Z m.
Proof. field. apply pow2_neq_0. Qed.

#[export] Instance round_to_Proper : Proper (eq ==> Qeq ==> Qeq) round_to.
Proof. intros e ? <- p q H. unfold round_to. now rewrite H. Qed.

Lemma round_to_mono (e : Z) (p q : Q) : p <= q -> round_to e p <= round_to e q.
Proof.
  intros H. unfold round_to. apply Qmult_le_compat_r; [|apply Qlt_le_weak, pow2_pos].
  apply inject_Z_le, round_half_even_mono, scaled_le, H.
Qed.

Lemma round_to_opp (e : Z) (q : Q) : round_to e (- q) == - round_to e q.
Proof.
  unfold round_to.
  assert (E : - q / pow2 e == - (q / pow2 e)) by (field; apply pow2_neq_0).
  rewrite E, round_half_even_opp, inject_Z_opp. ring.
Qed.

(** A multiple of [2^e] is its own rounding. *)
Lemma round_to_multiple (e m : Z) : round_to e (inject_Z m * pow2 e) == inject_Z m * pow2 e.
Proof. unfold round_to. now rewrite scaled_multiple, round_half_even_inject_Z. Qed.

Lemma pow2_multiple (e k : Z) : (e <= k)%Z -> pow2 k == inject_Z (2 ^ (k - e)) * pow2 e.
Proof.
  intros H. rewrite <- pow2_inject, <- pow2_add by lia. apply pow2_eq. lia.
Qed.

Lemma round_to_pow2 (e k : Z) : (e <= k)%Z -> round_to e (pow2 k) == pow2 k.
Proof. intros H. rewrite (pow2_multiple e k H). apply round_to_multiple. Qed.

Lemma round_to_0 (e : Z) : round_to e 0 == 0.
Proof.
  assert (E : 0 == inject_Z 0 * pow2 e) by (change (inject_Z 0) with 0; ring).
  rewrite E at 1. rewrite round_to_multiple. now rewrite <- E.
Qed.

(** The rounding is at most half a unit away. *)
Lemma round_to_error (e : Z) (q : Q) : Qabs (round_to e q - q) <= (1 # 2) * pow2 e.
Proof.
  pose proof (round_half_even_error (q / pow2 e)) as H. apply Qabs_Qle_condition in H.
  pose proof (scaled_mul e q) as E. pose proof (pow2_pos e).
  unfold round_to. set (r := inject_Z (round_half_even (q / pow2 e))) in *.
  set (x := q / pow2 e) in *. clearbody r x.
  apply Qabs_Qle_condition. split; nra.
Qed.

(** ** Rounding to nearest *)

Lemma ilog2_comp (p q : Q) : p == q -> ~ q == 0 -> ilog2 p = ilog2 q.
Proof.
  intros E Hq. destruct (ilog2_spec q Hq) as [H1 H2].
  apply ilog2_unique; now rewrite E.
Qed.

#[export] Instance round_val_Proper : Proper (Qeq ==> Qeq) round_val.
Proof.
  intros p q E. unfold round_val. destruct (Qeq_dec q 0) as [Hq|Hq].
  - assert (Hp : p == 0) by now rewrite E.
    rewrite (round_to_Proper _ _ eq_refl p 0 Hp), (round_to_Proper _ _ eq_refl q 0 Hq).
    now rewrite !round_to_0.
  - unfold fexp. rewrite (ilog2_comp p q E Hq). now rewrite E.
Qed.

#[export] Instance overflow_Proper : Proper (Qeq ==> xeq) overflow.
Proof.
  intros p q E. unfold overflow.
  assert (E1 : Qle_bool (pow2 emax) p = Qle_bool (pow2 emax) q) by now rewrite E.
  assert (E2 : Qle_bool p (- pow2 emax) = Qle_bool q (- pow2 emax)) by now rewrite E.
  rewrite E1, E2. destruct (Qle_bool (pow2 emax) q); [reflexivity|].
  destruct (Qle_bool q (- pow2 emax)); [reflexivity|exact E].
Qed.

#[export] Instance round64_Proper : Proper (Qeq ==> xeq) round64.
Proof. intros p q E. unfold round64. now rewrite E. Qed.

Lemma round_val_opp (q : Q) : round_val (- q) == - round_val q.
Proof. unfold round_val. rewrite fexp_opp. apply round_to_opp. Qed.

Lemma round_val_nonneg (q : Q) : 0 <= q -> 0 <= round_val q.
Proof.
  intros H. unfold round_val. rewrite <- (round_to_0 (fexp q)). now apply round_to_mono.
Qed.

Lemma round_val_nonpos (q : Q) : q <= 0 -> round_val q <= 0.
Proof.
  intros H. unfold round_val. rewrite <- (round_to_0 (fexp q)). now apply round_to_mono.
Qed.

Lemma Qabs_pos_eq (q : Q) : 0 <= q -> Qabs q == q.
Proof. apply Qabs_pos. Qed.

(** Between two binades the power of two that separates them is a
    number of both grids. *)
Lemma round_val_mono_pos (p q : Q) : 0 < p -> p <= q -> round_val p <= round_val q.
Proof.
  intros Hp H. assert (Hp' : ~ p == 0) by lra. assert (Hq' : ~ q == 0) by lra.
  assert (Habs : Qabs p <= Qabs q) by (rewrite !Qabs_pos_eq; lra).
  pose proof (fexp_mono p q Hp' Habs) as He. unfold round_val.
  destruct (Z.eq_dec (fexp p) (fexp q)) as [E|E]; [rewrite E; now apply round_to_mono|].
  pose proof (fexp_ge_emin p). assert (Hn : (emin < fexp q)%Z) by lia.
  pose proof (fexp_lower q Hq' Hn) as Hlo. pose proof (fexp_upper p) as Hup.
  rewrite Qabs_pos_eq in Hlo, Hup by lra. set (k := (fexp q + (prec - 1))%Z) in *.
  assert (Hk : pow2 (fexp p + prec) <= pow2 k) by (apply pow2_le; unfold k, prec; lia).
  apply Qle_trans with (pow2 k).
  - rewrite <- (round_to_pow2 (fexp p) k) by (unfold k, prec; lia). apply round_to_mono. lra.
  - rewrite <- (round_to_pow2 (fexp q) k) at 1 by (unfold k, prec; lia). now apply round_to_mono.
Qed.

Lemma round_val_mono (p q : Q) : p <= q -> round_val p <= round_val q.
Proof.
  intros H. destruct (Qlt_le_dec 0 p) as [Hp|Hp]; [now apply round_val_mono_pos|].
  destruct (Qlt_le_dec q 0) as [Hq|Hq].
  - assert (H' : round_val (- q) <= round_val (- p)) by (apply round_val_mono_pos; lra).
    rewrite !round_val_opp in H'. lra.
  - pose proof (round_val_nonpos p Hp). pose proof (round_val_nonneg q Hq). lra.
Qed.

Lemma overflow_mono (u v : Q) : u <= v -> xleb (overflow u) (overflow v) = true.
Proof.
  intros H. pose proof (pow2_pos emax). unfold overflow.
  destruct (Qle_bool (pow2 emax) u) eqn:E1, (Qle_bool (pow2 emax) v) eqn:E2,
    (Qle_bool u (- pow2 emax)) eqn:E3, (Qle_bool v (- pow2 emax)) eqn:E4;
    cbn; try reflexivity; qbool; try lra; apply Qle_bool_iff; lra.
Qed.

(** Rounding keeps the order, infinities included. *)
Lemma round64_mono (p q : Q) : p <= q -> xleb (round64 p) (round64 q) = true.
Proof. intros H. apply overflow_mono, round_val_mono, H. Qed.

(** ** The rounded value is a binary64 number *)

Lemma overflow_Fin (v w : Q) :
  overflow v = Fin w -> w = v /\ - pow2 emax < v /\ v < pow2 emax.
Proof.
  unfold overflow. destruct (Qle_bool (pow2 emax) v) eqn:E1; [discriminate|].
  destruct (Qle_bool v (- pow2 emax)) eqn:E2; [discriminate|].
  intros [= <-]. qbool. auto.
Qed.

Lemma overflow_fin (v : Q) : - pow2 emax < v -> v < pow2 emax -> overflow v = Fin v.
Proof.
  intros H1 H2. unfold overflow.
  destruct (Qle_bool (pow2 emax) v) eqn:E1; qbool; [lra|].
  destruct (Qle_bool v (- pow2 emax)) eqn:E2; qbool; [lra|reflexivity].
Qed.

(** The scaled number has at most 53 bits before the point. *)
Lemma scaled_bound (q : Q) :
  - inject_Z (2 ^ prec) < q / pow2 (fexp q) /\ q / pow2 (fexp q) < inject_Z (2 ^ prec).
Proof.
  pose proof (fexp_upper q) as H. rewrite pow2_add, (pow2_inject prec) in H by (unfold prec; lia).
  pose proof (scaled_mul (fexp q) q) as E. pose proof (pow2_pos (fexp q)).
  set (x := q / pow2 (fexp q)) in *. set (P := inject_Z (2 ^ prec)) in *.
  assert (0 < P) by reflexivity. clearbody x P.
  assert (Hq : - (pow2 (fexp q) * P) < q /\ q < pow2 (fexp q) * P)
    by (apply Qabs_Qlt_condition; exact H).
  split; nra.
Qed.

Lemma mantissa_bound (q : Q) : (Z.abs (round_half_even (q / pow2 (fexp q))) <= 2 ^ prec)%Z.
Proof.
  destruct (scaled_bound q) as [H1 H2]. apply Qlt_le_weak in H1, H2.
  apply round_half_even_mono in H1, H2.
  rewrite <- inject_Z_opp, round_half_even_inject_Z in H1.
  rewrite round_half_even_inject_Z in H2. lia.
Qed.

(** Above the subnormal range the scaled number has 53 bits. *)
Lemma mantissa_lower (q : Q) :
  0 < q -> (emin < fexp q)%Z -> (2 ^ (prec - 1) <= round_half_even (q / pow2 (fexp q)))%Z.
Proof.
  intros Hq He. assert (Hq' : ~ q == 0) by lra.
  pose proof (fexp_lower q Hq' He) as H. rewrite Qabs_pos_eq in H by lra.
  rewrite <- (round_half_even_inject_Z (2 ^ (prec - 1))). apply round_half_even_mono.
  rewrite Z.add_comm, pow2_add, pow2_inject in H by (unfold prec; lia).
  pose proof (scaled_mul (fexp q) q) as E. pose proof (pow2_pos (fexp q)).
  set (x := q / pow2 (fexp q)) in *. set (P := inject_Z (2 ^ (prec - 1))) in *.
  clearbody x P. nra.
Qed.

Lemma is_binary64_opp (q : Q) : is_binary64 q -> is_binary64 (- q).
Proof.
  intros (m & e & Hm & He & E). exists (- m)%Z, e. rewrite Z.abs_opp.
  repeat split; try assumption; try lia. rewrite E, inject_Z_opp. ring.
Qed.

Lemma is_binary64_0 : is_binary64 0.
Proof. exists 0%Z, emin. repeat split; unfold emin, emax, prec; lia. Qed.

(** At most 53 bits, or exactly [2^53], times a power of two, below
    the overflow threshold. *)
Lemma is_binary64_intro (m e : Z) :
  (Z.abs m <= 2 ^ prec)%Z -> (emin <= e)%Z -> (e <= emax - prec)%Z ->
  Qabs (inject_Z m * pow2 e) < pow2 emax -> is_binary64 (inject_Z m * pow2 e).
Proof.
  intros Hm He1 He2 Hv.
  destruct (Z.eq_dec (Z.abs m) (2 ^ prec)) as [E|E]; [|exists m, e; repeat split; auto; lia].
  assert (He3 : (e + prec < emax)%Z).
  { apply pow2_lt_inv. eapply Qle_lt_trans; [|exact Hv].
    assert (Ep : Qabs (pow2 e) == pow2 e) by apply Qabs_pos_eq, Qlt_le_weak, pow2_pos.
    rewrite Qabs_Qmult, pow2_add, Ep, (pow2_inject prec), <- E by (unfold prec; lia).
    assert (E' : Qabs (inject_Z m) == inject_Z (Z.abs m)) by (unfold Qabs, inject_Z; reflexivity).
    rewrite E'. lra. }
  exists (m / 2)%Z, (e + 1)%Z. assert (Hm2 : (m = 2 * (m / 2))%Z).
  { apply Z.div_exact; [lia|]. change (2 ^ prec)%Z with 9007199254740992%Z in E.
    destruct (Z.abs_spec m) as [[_ H]|[_ H]]; rewrite H in E.
    - now subst m.
    - replace m with (- 9007199254740992)%Z by lia. reflexivity. }
  repeat split; try lia.
  - change (2 ^ prec)%Z with 9007199254740992%Z in *. lia.
  - rewrite pow2_succ. rewrite Hm2 at 1. rewrite inject_Z_mult. change (inject_Z 2) with 2. ring.
Qed.

#[export] Instance is_binary64_Proper : Proper (Qeq ==> iff) is_binary64.
Proof.
  intros p q E. unfold is_binary64.
  split; intros (m & e & Hm & He & H); exists m, e; repeat split; auto; try lia;
    now rewrite <- H, E.
Qed.

(** With the last place above [2^971] the rounded value overflows. *)
Lemma round_val_large_pos (q : Q) :
  0 < q -> (emax - prec < fexp q)%Z -> pow2 emax <= round_val q.
Proof.
  intros Hq He. assert (Hn : (emin < fexp q)%Z) by (unfold emin, emax, prec in *; lia).
  pose proof (mantissa_lower q Hq Hn) as Hm. apply inject_Z_le in Hm.
  rewrite <- pow2_inject in Hm by (unfold prec; lia).
  assert (Hk : pow2 emax <= pow2 (prec - 1) * pow2 (fexp q))
    by (rewrite <- pow2_add; apply pow2_le; lia).
  unfold round_val, round_to. pose proof (pow2_pos (fexp q)).
  set (m := inject_Z _) in *. clearbody m. nra.
Qed.

Lemma round_val_large (q : Q) :
  ~ q == 0 -> (emax - prec < fexp q)%Z -> pow2 emax <= Qabs (round_val q).
Proof.
  intros Hq He. destruct (Qlt_le_dec 0 q) as [H|H].
  - apply Qle_trans with (round_val q); [apply round_val_large_pos; assumption|apply Qle_Qabs].
  - rewrite <- Qabs_opp, <- round_val_opp.
    apply Qle_trans with (round_val (- q)); [|apply Qle_Qabs].
    apply round_val_large_pos; [lra|now rewrite fexp_opp].
Qed.

Lemma round_val_binary64 (q : Q) : Qabs (round_val q) < pow2 emax -> is_binary64 (round_val q).
Proof.
  intros Hv. destruct (Qeq_dec q 0) as [E|E].
  - rewrite E. unfold round_val. rewrite round_to_0. apply is_binary64_0.
  - apply is_binary64_intro; try assumption.
    + apply mantissa_bound.
    + apply fexp_ge_emin.
    + destruct (Z_le_gt_dec (fexp q) (emax - prec)) as [H|H]; [exact H|].
      pose proof (round_val_large q E ltac:(lia)). lra.
Qed.

Lemma round64_Fin (q v : Q) :
  round64 q = Fin v -> v = round_val q /\ Qabs (round_val q) < pow2 emax.
Proof.
  intros (-> & H1 & H2)%overflow_Fin. split; [reflexivity|].
  now apply Qabs_Qlt_condition.
Qed.

(** ** A binary64 number is its own rounding *)

Lemma Qabs_inject_Z (m : Z) : Qabs (inject_Z m) == inject_Z (Z.abs m).
Proof. reflexivity. Qed.

Lemma Qabs_mantissa (m e : Z) : Qabs (inject_Z m * pow2 e) == inject_Z (Z.abs m) * pow2 e.
Proof.
  rewrite Qabs_Qmult, Qabs_inject_Z, (Qabs_pos_eq (pow2 e)); [reflexivity|].
  apply Qlt_le_weak, pow2_pos.
Qed.

(** A number of [b] bits at most, times [2^e], is below [2^(e+b)]. *)
Lemma mantissa_lt (m e b : Z) :
  (0 <= b)%Z -> (Z.abs m < 2 ^ b)%Z -> Qabs (inject_Z m * pow2 e) < pow2 (e + b).
Proof.
  intros Hb Hm. apply inject_Z_lt in Hm. rewrite <- pow2_inject in Hm by exact Hb.
  rewrite Qabs_mantissa, pow2_add. pose proof (pow2_pos e). nra.
Qed.

(** The last place of a binary64 number is not above its exponent. *)
Lemma binary64_fexp (q : Q) (m e : Z) :
  ~ q == 0 -> (Z.abs m < 2 ^ prec)%Z -> (emin <= e)%Z -> q == inject_Z m * pow2 e ->
  (fexp q <= e)%Z.
Proof.
  intros Hq Hm He E. destruct (ilog2_spec q Hq) as [H _].
  pose proof (mantissa_lt m e prec ltac:(unfold prec; lia) Hm) as Hlt.
  rewrite <- E in Hlt. assert (ilog2 q < e + prec)%Z by (apply pow2_lt_inv; lra).
  unfold fexp, prec in *. lia.
Qed.

Lemma round_val_fixed (q : Q) : is_binary64 q -> round_val q == q.
Proof.
  intros (m & e & Hm & He & E). destruct (Qeq_dec q 0) as [Hq|Hq].
  - rewrite Hq. unfold round_val. apply round_to_0.
  - pose proof (binary64_fexp q m e Hq Hm (proj1 He) E) as Hf.
    assert (E' : q == inject_Z (m * 2 ^ (e - fexp q)) * pow2 (fexp q)).
    { rewrite inject_Z_mult, <- Qmult_assoc, <- (pow2_multiple (fexp q) e Hf). exact E. }
    unfold round_val. rewrite E' at 2 3. apply round_to_multiple.
Qed.

Lemma binary64_lt_emax (q : Q) : is_binary64 q -> Qabs q < pow2 emax.
Proof.
  intros (m & e & Hm & He & E). rewrite E.
  eapply Qlt_le_trans; [apply (mantissa_lt m e prec); [unfold prec; lia|exact Hm]|].
  apply pow2_le. lia.
Qed.

Lemma round64_fixed (q : Q) : is_binary64 q -> xeq (round64 q) (Fin q).
Proof.
  intros H. pose proof (round_val_fixed q H) as E. pose proof (binary64_lt_emax q H) as Hq.
  unfold round64. rewrite overflow_fin; [exact E| |]; rewrite E;
    apply Qabs_Qlt_condition in Hq; tauto.
Qed.

(** The binary64 numbers are the rationals that rounding leaves alone. *)
Lemma binary64b_spec (q : Q) : binary64b q = true <-> is_binary64 q.
Proof.
  unfold binary64b. split.
  - destruct (round64 q) as [v| | |] eqn:E; try discriminate.
    intros H. qbool. apply round64_Fin in E as [-> Hv]. rewrite <- H.
    now apply round_val_binary64.
  - intros H. pose proof (round64_fixed q H) as E.
    destruct (round64 q) as [v| | |]; cbn in E; try tauto. now apply Qeq_bool_iff.
Qed.

(** ** The error of a rounding *)

Lemma pow2_half (e : Z) : (1 # 2) * pow2 e == pow2 (e - 1).
Proof.
  assert (E : pow2 e == pow2 (e - 1 + 1)) by (apply pow2_eq; lia).
  rewrite E, pow2_succ. ring.
Qed.

Lemma round_val_error (q : Q) : Qabs (round_val q - q) <= (1 # 2) * ulp q.
Proof. apply round_to_error. Qed.

(** Above the subnormal range the error is relative. *)
Lemma round_val_relative (q : Q) :
  ~ q == 0 -> (emin < fexp q)%Z -> Qabs (round_val q - q) <= unit_roundoff * Qabs q.
Proof.
  intros Hq He. eapply Qle_trans; [apply round_val_error|].
  pose proof (fexp_lower q Hq He) as H. unfold ulp, unit_roundoff.
  assert (E : (1 # 2) * pow2 (fexp q) == pow2 (- prec) * pow2 (fexp q + (prec - 1))).
  { rewrite pow2_half, <- pow2_add. apply pow2_eq. lia. }
  rewrite E. pose proof (pow2_pos (- prec)). nra.
Qed.

(** In the subnormal range it is absolute. *)
Lemma round_val_absolute (q : Q) : fexp q = emin -> Qabs (round_val q - q) <= eta.
Proof.
  intros He. eapply Qle_trans; [apply round_val_error|].
  unfold ulp, eta. rewrite He, pow2_half. apply Qle_refl.
Qed.

Lemma Qabs_0 : Qabs 0 == 0.
Proof. reflexivity. Qed.

Lemma unit_roundoff_pos : 0 < unit_roundoff.
Proof. apply pow2_pos. Qed.

Lemma eta_pos : 0 < eta.
Proof. apply pow2_pos. Qed.

(** The standard model of a rounding: a relative error of at most
    [2^-53], or an absolute one of at most [2^-1075]. *)
Lemma round_val_model (q : Q) :
  exists delta epsilon : Q,
    Qabs delta <= unit_roundoff /\ Qabs epsilon <= eta /\ delta * epsilon == 0 /\
    round_val q == q * (1 + delta) + epsilon.
Proof.
  pose proof unit_roundoff_pos. pose proof eta_pos.
  destruct (Z.eq_dec (fexp q) emin) as [He|He].
  - exists 0, (round_val q - q). rewrite Qabs_0.
    split; [lra|]. split; [now apply round_val_absolute|]. split; ring.
  - destruct (Qeq_dec q 0) as [Hq|Hq].
    + exists 0, 0. rewrite Qabs_0. split; [lra|]. split; [lra|]. split; [ring|].
      rewrite Hq at 2. rewrite (round_val_Proper q 0 Hq). unfold round_val. rewrite round_to_0. ring.
    + pose proof (fexp_ge_emin q). pose proof (round_val_relative q Hq ltac:(lia)) as Hr.
      exists ((round_val q - q) / q), 0. rewrite Qabs_0.
      split; [|split; [lra|split; [ring|field; exact Hq]]].
      assert (E : (round_val q - q) / q * q == round_val q - q) by (field; exact Hq).
      rewrite <- E, Qabs_Qmult in Hr.
      assert (0 < Qabs q) by (apply Qabs_case; intros; lra).
      set (d := Qabs ((round_val q - q) / q)) in *. clearbody d. nra.
Qed.

(** The model of a rounding that does not overflow. *)
Lemma round64_model (q v : Q) :
  round64 q = Fin v ->
  exists delta epsilon : Q,
    Qabs delta <= unit_roundoff /\ Qabs epsilon <= eta /\ delta * epsilon == 0 /\
    v == q * (1 + delta) + epsilon.
Proof. intros [-> _]%round64_Fin. apply round_val_model. Qed.

(** A product is bounded by the bounds of its factors. *)
Lemma Qabs_mult_le (a b B : Q) : Qabs b <= B -> Qabs (a * b) <= Qabs a * B.
Proof.
  intros H. rewrite Qabs_Qmult. pose proof (Qabs_nonneg a). pose proof (Qabs_nonneg b). nra.
Qed.

(** ** The rounded value is a nearest binary64 number *)

(** The rounding to a grid is at least as near as any number that is
    not strictly between the two neighbours of [q] on the grid. *)
Lemma round_to_nearest (e : Z) (q f : Q) :
  f <= inject_Z (Qfloor (q / pow2 e)) * pow2 e \/
  inject_Z (Qfloor (q / pow2 e) + 1) * pow2 e <= f ->
  Qabs (round_to e q - q) <= Qabs (f - q).
Proof.
  intros Hf. pose proof (scaled_mul e q) as E. pose proof (pow2_pos e).
  pose proof (Qfloor_le (q / pow2 e)) as Hlo. pose proof (Qlt_floor (q / pow2 e)) as Hhi.
  pose proof (Qle_Qabs (f - q)) as Ha. pose proof (Qle_Qabs (- (f - q))) as Hb.
  rewrite Qabs_opp in Hb. unfold round_to. rewrite inject_Z_succ in Hf, Hhi.
  set (x := q / pow2 e) in *. set (a := Qabs (f - q)) in *.
  apply Qabs_Qle_condition.
  destruct (round_half_even_cases x) as [[-> H1]|[-> H1]]; rewrite ?inject_Z_succ;
    set (k := inject_Z (Qfloor x)) in *; clearbody x a k; destruct Hf; split; nra.
Qed.

(** A multiple of [2^e] is not strictly between two neighbours. *)
Lemma multiple_gap (e M k : Z) :
  inject_Z M * pow2 e <= inject_Z k * pow2 e \/ inject_Z (k + 1) * pow2 e <= inject_Z M * pow2 e.
Proof.
  pose proof (pow2_pos e).
  destruct (Z_le_gt_dec M k) as [H1|H1]; [left|right];
    (apply Qmult_le_compat_r; [apply inject_Z_le; lia|lra]).
Qed.

(** A positive binary64 number is on the grid of [2^e], or it is below
    the binade of that grid. *)
Lemma binary64_grid (e : Z) (f : Q) :
  is_binary64 f ->
  (exists M : Z, f == inject_Z M * pow2 e) \/
  ((emin < e)%Z /\ Qabs f < pow2 (e + (prec - 1))).
Proof.
  intros (m & e' & Hm & He & E). destruct (Z_le_gt_dec e e') as [H|H].
  - left. exists (m * 2 ^ (e' - e))%Z.
    now rewrite inject_Z_mult, <- Qmult_assoc, <- (pow2_multiple e e' H).
  - right. split; [lia|]. rewrite E.
    eapply Qlt_le_trans; [apply (mantissa_lt m e' prec); [unfold prec; lia|exact Hm]|].
    apply pow2_le. lia.
Qed.

Lemma floor_scaled_lower (q : Q) :
  0 < q -> (emin < fexp q)%Z ->
  pow2 (fexp q + (prec - 1)) <= inject_Z (Qfloor (q / pow2 (fexp q))) * pow2 (fexp q).
Proof.
  intros Hq He. assert (Hq' : ~ q == 0) by lra.
  pose proof (fexp_lower q Hq' He) as H. rewrite Qabs_pos_eq in H by lra.
  rewrite Z.add_comm, pow2_add. apply Qmult_le_compat_r; [|apply Qlt_le_weak, pow2_pos].
  rewrite pow2_inject by (unfold prec; lia). apply inject_Z_le.
  rewrite <- (Qfloor_Z (2 ^ (prec - 1))). apply Qfloor_resp_le.
  rewrite Z.add_comm, pow2_add, pow2_inject in H by (unfold prec; lia).
  pose proof (scaled_mul (fexp q) q) as E. pose proof (pow2_pos (fexp q)).
  set (x := q / pow2 (fexp q)) in *. set (P := inject_Z (2 ^ (prec - 1))) in *.
  clearbody x P. nra.
Qed.

Lemma round_val_nearest_pos (q f : Q) :
  0 < q -> is_binary64 f -> Qabs (round_val q - q) <= Qabs (f - q).
Proof.
  intros Hq Hf. apply round_to_nearest.
  destruct (binary64_grid (fexp q) f Hf) as [[M E]|[He Hs]].
  - rewrite E. apply multiple_gap.
  - left. pose proof (floor_scaled_lower q Hq He) as H.
    apply Qabs_Qlt_condition in Hs. lra.
Qed.

Lemma round_val_nearest (q f : Q) : is_binary64 f -> Qabs (round_val q - q) <= Qabs (f - q).
Proof.
  intros Hf. destruct (Q_dec 0 q) as [[H|H]|H].
  - now apply round_val_nearest_pos.
  - assert (E : forall a b, Qabs (a - b) == Qabs (- a - - b)).
    { intros a b. rewrite <- Qabs_opp. apply Qabs_wd. ring. }
    rewrite E, (E f q), <- round_val_opp.
    apply round_val_nearest_pos; [lra|now apply is_binary64_opp].
  - assert (E : round_val q - q == 0).
    { rewrite (round_val_Proper q 0 (Qeq_sym _ _ H)), <- H. unfold round_val. rewrite round_to_0. ring. }
    rewrite E. apply Qabs_nonneg.
Qed.

(** ** Overflow and underflow *)

Lemma fexp_below_emax (q : Q) : Qabs q < pow2 emax -> (fexp q <= emax - prec)%Z.
Proof.
  intros H. destruct (Qeq_dec q 0) as [E|E].
  - unfold fexp, ilog2. pose proof (Z.log2_nonneg (Z.pos (Qden q))).
    assert (En : Qnum q = 0%Z) by (destruct q; unfold Qeq in E; cbn in *; lia).
    rewrite En. change (Z.log2 (Z.abs 0)) with 0%Z.
    destruct (Qle_bool _ _); unfold emin, emax, prec; lia.
  - destruct (ilog2_spec q E) as [H1 _].
    assert (ilog2 q < emax)%Z by (apply pow2_lt_inv; lra).
    unfold fexp, emin, emax, prec in *. lia.
Qed.

Lemma round_val_below_threshold (q : Q) : q < overflow_threshold -> round_val q < pow2 emax.
Proof.
  intros H. pose proof (pow2_pos emax). pose proof (pow2_pos (emax - prec - 1)).
  unfold overflow_threshold in H.
  destruct (Qlt_le_dec 0 q) as [Hq|Hq]; [|pose proof (round_val_nonpos q Hq); lra].
  assert (Ha : Qabs q < pow2 emax) by (rewrite Qabs_pos_eq; lra).
  pose proof (fexp_below_emax q Ha) as He. pose proof (round_val_error q) as Hr.
  apply Qabs_Qle_condition in Hr. unfold ulp in Hr. rewrite pow2_half in Hr.
  assert (pow2 (fexp q - 1) <= pow2 (emax - prec - 1)) by (apply pow2_le; lia). lra.
Qed.

Lemma round_val_threshold : round_val overflow_threshold == pow2 emax.
Proof. vm_compute. reflexivity. Qed.

(** Rounding overflows from the threshold on. *)
Lemma round64_overflow (q : Q) : round64 q = PInf <-> overflow_threshold <= q.
Proof.
  unfold round64, overflow. split.
  - destruct (Qle_bool (pow2 emax) (round_val q)) eqn:E; qbool.
    + intros _. destruct (Qlt_le_dec q overflow_threshold) as [H|H]; [|exact H].
      pose proof (round_val_below_threshold q H). lra.
    + destruct (Qle_bool _ _); discriminate.
  - intros H. apply round_val_mono in H. rewrite round_val_threshold in H.
    apply Qle_bool_iff in H. now rewrite H.
Qed.

Lemma round_half_even_small (x : Q) : - (1 # 2) <= x -> x <= 1 # 2 -> round_half_even x = 0%Z.
Proof.
  intros H1 H2. apply round_half_even_mono in H1, H2.
  change (round_half_even (- (1 # 2))) with 0%Z in H1.
  change (round_half_even (1 # 2)) with 0%Z in H2. lia.
Qed.

(** Half the smallest positive number and less rounds to zero. *)
Lemma round_val_underflow (q : Q) : Qabs q <= eta -> round_val q == 0.
Proof.
  intros H. destruct (Qeq_dec q 0) as [E|E].
  - rewrite (round_val_Proper q 0 E). unfold round_val. apply round_to_0.
  - destruct (ilog2_spec q E) as [H1 _]. unfold eta in H.
    assert (ilog2 q < emin)%Z.
    { apply pow2_lt_inv. eapply Qle_lt_trans; [exact H1|]. eapply Qle_lt_trans; [exact H|].
      apply pow2_lt. lia. }
    assert (He : fexp q = emin) by (unfold fexp, prec, emin in *; lia).
    unfold round_val, round_to. rewrite He.
    rewrite <- pow2_half in H. apply Qabs_Qle_condition in H.
    pose proof (scaled_mul emin q) as Es. pose proof (pow2_pos emin).
    rewrite round_half_even_small; [change (inject_Z 0) with 0; ring| |];
      set (x := q / pow2 emin) in *; clearbody x; nra.
Qed.

(** ** Sums and differences of binary64 numbers *)

(** Every binary64 number is a multiple of the smallest positive one. *)
Lemma binary64_multiple (f : Q) : is_binary64 f -> exists M : Z, f == inject_Z M * pow2 emin.
Proof. intros Hf. destruct (binary64_grid emin f Hf) as [H|[H _]]; [exact H|lia]. Qed.

Lemma round_val_0 : round_val 0 == 0.
Proof. unfold round_val. apply round_to_0. Qed.

(** The rounding of a multiple of the smallest positive number has a
    relative error: in the subnormal range such a number is not
    rounded at all. *)
Lemma round_val_relative_multiple (q : Q) (M : Z) :
  q == inject_Z M * pow2 emin -> Qabs (round_val q - q) <= unit_roundoff * Qabs q.
Proof.
  intros E. pose proof unit_roundoff_pos. pose proof (Qabs_nonneg q).
  assert (Hz : round_val q - q == 0 -> Qabs (round_val q - q) <= unit_roundoff * Qabs q).
  { intros ->. rewrite Qabs_0. nra. }
  destruct (Z.eq_dec (fexp q) emin) as [He|He], (Qeq_dec q 0) as [Hq|Hq].
  1,3: apply Hz; rewrite (round_val_Proper q 0 Hq), round_val_0, Hq; ring.
  - apply Hz. unfold round_val. rewrite He, E, round_to_multiple. ring.
  - pose proof (fexp_ge_emin q). apply round_val_relative; [exact Hq|lia].
Qed.

(** What is left of a binary64 number below [2^53] above an integer is
    a binary64 number. *)
Lemma binary64_minus_integer (d : Q) (n : Z) :
  is_binary64 d -> (0 <= n)%Z -> inject_Z n <= d -> d < pow2 prec ->
  is_binary64 (d - inject_Z n).
Proof.
  intros (m & e & Hm & He & E) Hn Hd Hp. rewrite pow2_inject in Hp by (unfold prec; lia).
  pose proof (pow2_pos e) as Hpe. pose proof (proj2 (inject_Z_le 0 n) Hn) as Hn'.
  change (inject_Z 0) with 0 in Hn'.
  destruct (Z_le_gt_dec 0 e) as [H|H].
  - rewrite pow2_inject in E by exact H. rewrite <- inject_Z_mult in E.
    rewrite E in Hd, Hp. rewrite E, <- inject_Z_minus. exists (m * 2 ^ e - n)%Z, 0%Z.
    apply (proj1 (inject_Z_le _ _)) in Hd. apply (proj1 (inject_Z_lt _ _)) in Hp.
    split; [lia|split; [unfold emin, emax, prec; lia|]].
    rewrite (pow2_inject 0) by lia. change (inject_Z (2 ^ 0)) with 1. ring.
  - assert (E1 : pow2 0 == 1) by (rewrite (pow2_inject 0) by lia; reflexivity).
    assert (E2 : pow2 (- e) * pow2 e == 1) by (rewrite <- pow2_add, <- E1; apply pow2_eq; lia).
    assert (E3 : pow2 (- e) == inject_Z (2 ^ (- e))) by (apply pow2_inject; lia).
    exists (m - n * 2 ^ (- e))%Z, e. split; [|split; [exact He|]].
    + assert (Hm0 : (0 <= m)%Z).
      { apply inject_Z_le. change (inject_Z 0) with 0. nra. }
      assert (Hle : (n * 2 ^ (- e) <= m)%Z).
      { apply inject_Z_le. rewrite inject_Z_mult, <- E3.
        set (N := inject_Z n) in *. set (P := pow2 (- e)) in *. set (P' := pow2 e) in *.
        assert (0 < P) by apply pow2_pos. clearbody N P P'. nra. }
      assert (0 <= n * 2 ^ (- e))%Z by (apply Z.mul_nonneg_nonneg; lia).
      lia.
    + rewrite inject_Z_minus, inject_Z_mult, <- E3, E.
      set (N := inject_Z n). set (P := pow2 (- e)) in *. set (P' := pow2 e) in *.
      transitivity (inject_Z m * P' - N * (P * P')); [rewrite E2; ring|ring].
Qed.

(** An integer of fewer than 53 bits is a binary64 number. *)
Lemma integer_binary64 (n : Z) : (Z.abs n < 2 ^ prec)%Z -> is_binary64 (inject_Z n).
Proof.
  intros Hn. exists n, 0%Z. split; [exact Hn|]. split; [unfold emin, emax, prec; lia|].
  rewrite (pow2_inject 0) by lia. change (inject_Z (2 ^ 0)) with 1. ring.
Qed.

(** ** Agreement with the specification of floats of the Standard Library *)

(** [SpecFloat] specifies the operations of IEEE 754 on a sign, a
    mantissa and an exponent.  Its results, read as rationals, are
    the results of [round64] on the operands below: quotients and
    products that are not binary64 numbers, ties in the subnormal
    range and at 54 bits, the largest finite number and the least
    number that overflows. *)

Definition of_spec_float (f : spec_float) : xfloat :=
  match f with
  | S754_zero _ => Fin 0
  | S754_infinity false => PInf
  | S754_infinity true => NInf
  | S754_nan => NaN
  | S754_finite s m e =>
      Fin ((if s then - inject_Z (Zpos m) else inject_Z (Zpos m)) * pow2 e)
  end.

(** The float nearest to [m * 2^e]. *)
Definition spec_of_Z (m e : Z) : spec_float := binary_normalize prec emax m e false.

(** [round64] and [SFdiv] agree on the quotient of two integers. *)
Definition agree_div (ab : Z * Z) : bool :=
  xeqb (round64 (inject_Z (fst ab) / inject_Z (snd ab)))
       (of_spec_float (SFdiv prec emax (spec_of_Z (fst ab) 0) (spec_of_Z (snd ab) 0))).

(** [round64] and [binary_normalize] agree on [m * 2^e]. *)
Definition agree_normalize (me : Z * Z) : bool :=
  xeqb (round64 (inject_Z (fst me) * pow2 (snd me)))
       (of_spec_float (spec_of_Z (fst me) (snd me))).

(** [round64] and [SFmul] agree on the product of two quotients. *)
Definition agree_mul (xy : (Z * Z) * (Z * Z)) : bool :=
  let q (ab : Z * Z) := SFdiv prec emax (spec_of_Z (fst ab) 0) (spec_of_Z (snd ab) 0) in
  match of_spec_float (q (fst xy)), of_spec_float (q (snd xy)) with
  | Fin a, Fin b => xeqb (round64 (a * b)) (of_spec_float (SFmul prec emax (q (fst xy)) (q (snd xy))))
  | _, _ => false
  end.

Example round64_agrees_div :
  forallb agree_div
    [(1, 10); (1, 3); (2675, 1000); (-1, 3); (2, 3); (10, 1); (0, 5);
     (123456789, 1000); (-7, 1000000); (1, 9007199254740991)]%Z = true.
Proof. vm_compute. reflexivity. Qed.

Example round64_agrees_normalize :
  forallb agree_normalize
    [(1, -1074); (1, -1075); (3, -1075); (5, -1075); (1, -1076); (-3, -1075);
     (4503599627370497, -1075); (9007199254740993, 0); (9007199254740995, 0);
     (18014398509481983, 970); (18014398509481982, 970); (9007199254740991, 971);
     (1, 1023); (1, 1024)]%Z = true.
Proof. vm_compute. reflexivity. Qed.

Example round64_agrees_mul :
  forallb agree_mul
    [((1, 10), (3, 1)); ((1, 3), (1, 3)); ((2675, 1000), (100, 1));
     ((-1, 10), (1, 10)); ((1, 10), (1, 1000000))]%Z = true.
Proof. vm_compute. reflexivity. Qed.

(** ** Where the rounding crosses a number *)

(** A number rounds to a positive float exactly when it is above half
    the smallest positive float. *)
Lemma round_val_pos (q : Q) : eta < q -> 0 < round_val q.
Proof.
  intros Hq. pose proof eta_pos as He. pose proof (pow2_pos (fexp q)) as Hp.
  pose proof (scaled_mul (fexp q) q) as Es. unfold round_val, round_to.
  pose proof (round_half_even_error (q / pow2 (fexp q))) as Hr.
  apply Qabs_Qle_condition in Hr. set (x := q / pow2 (fexp q)) in *.
  assert (Hx : 1 # 2 < x).
  { destruct (Z.eq_dec (fexp q) emin) as [E|E].
    - unfold eta in Hq. rewrite <- pow2_half, <- E in Hq. clearbody x. nra.
    - pose proof (fexp_ge_emin q). assert (Hq0 : ~ q == 0) by lra.
      pose proof (fexp_lower q Hq0 ltac:(lia)) as Hl. rewrite Qabs_pos_eq in Hl by lra.
      rewrite Z.add_comm, pow2_add in Hl.
      assert (1 <= pow2 (prec - 1)).
      { rewrite pow2_inject by (unfold prec; lia). change 1 with (inject_Z 1).
        apply inject_Z_le. unfold prec. lia. }
      clearbody x. nra. }
  assert (H1 : (1 <= round_half_even x)%Z).
  { assert (0 < round_half_even x)%Z; [|lia]. apply inject_Z_lt.
    change (inject_Z 0) with 0. clearbody x. lra. }
  apply (proj2 (inject_Z_le _ _)) in H1. change (inject_Z 1) with 1 in H1. nra.
Qed.

Lemma round_val_pos_iff (q : Q) : 0 < round_val q <-> eta < q.
Proof.
  split; [|apply round_val_pos]. intros H. apply Qnot_le_lt. intros Hq.
  destruct (Qlt_le_dec 0 q) as [H0|H0].
  - rewrite round_val_underflow in H; [lra|]. now rewrite Qabs_pos_eq by lra.
  - pose proof (round_val_nonpos q H0). lra.
Qed.

(** The rounding to an integer is below an even integer exactly below
    the half before it. *)
Lemma round_half_even_lt_even (x : Q) (M : Z) :
  Z.even M = true -> (round_half_even x < M)%Z <-> x < inject_Z M - (1 # 2).
Proof.
  intros HM. pose proof (round_half_even_error x) as Hr. apply Qabs_Qle_condition in Hr.
  split.
  - intros H. apply Qnot_le_lt. intros Hx. apply Zlt_not_le in H. apply H. clear H.
    destruct (Qle_lt_or_eq _ _ Hx) as [Hlt|Heq].
    + assert (M - 1 < round_half_even x)%Z; [|lia]. apply inject_Z_lt.
      rewrite inject_Z_minus. change (inject_Z 1) with 1. lra.
    + assert (E : x == inject_Z (M - 1) + (1 # 2))
        by (rewrite inject_Z_minus; change (inject_Z 1) with 1; lra).
      rewrite (round_half_even_Proper _ _ E). unfold round_half_even.
      assert (Ef : Qfloor (inject_Z (M - 1) + (1 # 2)) = (M - 1)%Z).
      { apply Z.le_antisymm.
        - apply Zlt_succ_le, inject_Z_lt. unfold Z.succ. rewrite inject_Z_succ.
          pose proof (Qfloor_le (inject_Z (M - 1) + (1 # 2))). lra.
        - rewrite <- (Qfloor_Z (M - 1)) at 1. apply Qfloor_resp_le. lra. }
      rewrite Ef. assert (Ec : ((inject_Z (M - 1) + (1 # 2) - inject_Z (M - 1)) ?= (1 # 2)) = Eq)
        by (apply Qeq_alt; ring).
      rewrite Ec. rewrite Z.even_sub, HM. cbn. lia.
  - intros H. apply inject_Z_lt. lra.
Qed.

(** A number rounds to a float below 100 exactly when it is more than
    a half of the last place of the floats before 100 below 100. *)
Lemma round_val_lt_100 (q : Q) : round_val q < 100 <-> q < 100 - pow2 (- 47).
Proof.
  assert (E6 : pow2 6 == 64) by (rewrite pow2_inject by lia; reflexivity).
  assert (E7 : pow2 (6 + 1) == 128) by (rewrite pow2_inject by lia; reflexivity).
  assert (H47 : pow2 (- 47) < 1).
  { assert (E0 : pow2 0 == 1) by (rewrite pow2_inject by lia; reflexivity).
    rewrite <- E0. apply pow2_lt. lia. }
  pose proof (pow2_pos (- 47)) as P47. pose proof (pow2_pos (- 46)) as P46.
  destruct (Qlt_le_dec q 64) as [Hlo|Hlo]; [|destruct (Qlt_le_dec q 128) as [Hhi|Hhi]].
  - pose proof (round_val_mono q 64 ltac:(lra)) as Hm.
    rewrite (round_val_fixed 64) in Hm by now apply binary64b_spec. split; intros; lra.
  - assert (Ef : fexp q = (- 46)%Z).
    { unfold fexp. rewrite (ilog2_unique q 6); [reflexivity|rewrite Qabs_pos_eq; lra..]. }
    assert (E100 : 100 == inject_Z (100 * 2 ^ 46) * pow2 (- 46)).
    { assert (E : pow2 46 * pow2 (- 46) == 1).
      { rewrite <- pow2_add. change (46 + - 46)%Z with 0%Z. rewrite pow2_inject by lia. reflexivity. }
      rewrite inject_Z_mult, <- pow2_inject by lia. change (inject_Z 100) with 100.
      rewrite <- Qmult_assoc, E. ring. }
    assert (Eh : pow2 (- 47) == (1 # 2) * pow2 (- 46)) by (rewrite pow2_half; reflexivity).
    unfold round_val, round_to. rewrite Ef. pose proof (scaled_mul (- 46) q) as Es.
    set (x := q / pow2 (- 46)) in *. set (M := (100 * 2 ^ 46)%Z) in *.
    pose proof (round_half_even_lt_even x M eq_refl) as Hr.
    rewrite <- inject_Z_lt in Hr. rewrite E100, Eh. split; intros H.
    + assert (inject_Z (round_half_even x) < inject_Z M) by nra.
      apply Hr in H0. clearbody x. nra.
    + assert (x < inject_Z M - (1 # 2)) by (clearbody x; nra).
      apply Hr in H0. nra.
  - pose proof (round_val_mono 128 q Hhi) as Hm.
    rewrite (round_val_fixed 128) in Hm by now apply binary64b_spec. split; intros; lra.
Qed.
