(* ===== verification/Parse.v ===== *)
(** * Parse: [float] on the text of an entry

    [run_backtest] reads its numbers with [float(entry.get())]
    ([src/subcode/app.py]).  [float_of_text] is Python's [float] on an
    ASCII string: surrounding white space is dropped, then an optional
    sign, then [inf], [infinity] or [nan] in any case, or a decimal
    number with an optional fraction and an optional exponent, whose
    groups of digits may be separated by single underscores.  The
    value is the exact rational the text denotes: it is not rounded to
    a binary float and a large exponent does not overflow.  [py_float]
    is the call with its exception: the [ValueError] whose message
    names the text as [repr] writes it ([py_repr]).  [float] and
    [repr] are builtins of Python, modelled from its documentation. *)

From Stdlib Require Import String Ascii List NArith ZArith QArith Lia Bool.
From Stdlib Require Import DecimalString DecimalN DecimalFacts.
From S2P Require Import Prelude Floats.
Import ListNotations.

Local Open Scope char_scope.
Local Open Scope Q_scope.

(** ** Characters *)

(** The white space [str.strip] removes, among the ASCII characters. *)
Definition is_space (c : ascii) : bool :=
  let n := nat_of_ascii c in
  (((9 <=? n) && (n <=? 13)) || ((28 <=? n) && (n <=? 32)))%nat.

(** [c.lower()]. *)
Definition lower_ascii (c : ascii) : ascii :=
  let n := nat_of_ascii c in
  if ((65 <=? n) && (n <=? 90))%nat then ascii_of_nat (n + 32) else c.

(** The decimal digit a character stands for, as the constructor that
    puts it in front of a number. *)
Definition digit_of (c : ascii) : option (Decimal.uint -> Decimal.uint) :=
  match c with
  | "0" => Some Decimal.D0
  | "1" => Some Decimal.D1
  | "2" => Some Decimal.D2
  | "3" => Some Decimal.D3
  | "4" => Some Decimal.D4
  | "5" => Some Decimal.D5
  | "6" => Some Decimal.D6
  | "7" => Some Decimal.D7
  | "8" => Some Decimal.D8
  | "9" => Some Decimal.D9
  | _ => None
  end.

Definition is_digit (c : ascii) : bool :=
  match digit_of c with Some _ => true | None => false end.

(** The number a list of digits writes. *)
Fixpoint uint_of_digits (ds : list ascii) : Decimal.uint :=
  match ds with
  | [] => Decimal.Nil
  | c :: ds' =>
      match digit_of c with
      | Some d => d (uint_of_digits ds')
      | None => Decimal.Nil
      end
  end.

Definition N_of_digits (ds : list ascii) : N := N.of_uint (uint_of_digits ds).

(** ** The grammar *)

Fixpoint drop_spaces (s : list ascii) : list ascii :=
  match s with
  | c :: s' => if is_space c then drop_spaces s' else s
  | [] => []
  end.

(** [s.strip()]. *)
Definition strip (s : list ascii) : list ascii :=
  rev (drop_spaces (rev (drop_spaces s))).

(** What follows a digit: more digits, each possibly preceded by one
    underscore.  Returns the digits and the rest of the text. *)
Fixpoint scan_digits (s : list ascii) : list ascii * list ascii :=
  match s with
  | c :: s' =>
      if is_digit c then let (ds, r) := scan_digits s' in (c :: ds, r)
      else if Ascii.eqb c "_" then
        match s' with
        | d :: _ => if is_digit d then scan_digits s' else ([], s)
        | [] => ([], s)
        end
      else ([], s)
  | [] => ([], [])
  end.

(** A group of digits: at least one. *)
Definition digitpart (s : list ascii) : option (list ascii * list ascii) :=
  match s with
  | c :: s' =>
      if is_digit c then let (ds, r) := scan_digits s' in Some (c :: ds, r)
      else None
  | [] => None
  end.

(** An optional sign: whether it is a minus, and the rest. *)
Definition sign (s : list ascii) : bool * list ascii :=
  match s with
  | "+" :: r => (false, r)
  | "-" :: r => (true, r)
  | _ => (false, s)
  end.

(** The digits before and after the point: [digits], [digits.],
    [digits.digits] or [.digits]. *)
Definition mantissa (s : list ascii)
  : option (list ascii * list ascii * list ascii) :=
  match digitpart s with
  | Some (ip, r) =>
      match r with
      | "." :: r' =>
          match digitpart r' with
          | Some (fp, r'') => Some (ip, fp, r'')
          | None => Some (ip, [], r')
          end
      | _ => Some (ip, [], r)
      end
  | None =>
      match s with
      | "." :: r' =>
          match digitpart r' with
          | Some (fp, r'') => Some ([], fp, r'')
          | None => None
          end
      | _ => None
      end
  end.

(** The exponent, which ends the text: nothing, or [e] or [E], an
    optional sign and a group of digits. *)
Definition exponent (r : list ascii) : option Z :=
  match r with
  | [] => Some 0%Z
  | c :: r' =>
      if Ascii.eqb (lower_ascii c) "e" then
        let (neg, r'') := sign r' in
        match digitpart r'' with
        | Some (ds, []) =>
            Some (if neg then (- Z.of_N (N_of_digits ds))%Z else Z.of_N (N_of_digits ds))
        | _ => None
        end
      else None
  end.

(** [m * 10 ^ e]. *)
Definition scale (m : N) (e : Z) : Q := inject_Z (Z.of_N m) * 10 ^ e.

Definition number (s : list ascii) : option Q :=
  match mantissa s with
  | Some (ip, fp, r) =>
      match exponent r with
      | Some e => Some (scale (N_of_digits (ip ++ fp)) (e - Z.of_nat (length fp)))
      | None => None
      end
  | None => None
  end.

(** [inf], [infinity] and [nan], in lower case. *)
Definition special (s : list ascii) : option xfloat :=
  if list_eq_dec ascii_dec s ["i"; "n"; "f"] then Some PInf
  else if list_eq_dec ascii_dec s ["i"; "n"; "f"; "i"; "n"; "i"; "t"; "y"] then Some PInf
  else if list_eq_dec ascii_dec s ["n"; "a"; "n"] then Some NaN
  else None.

(** [float(s)], [None] where Python raises [ValueError]. *)
Definition float_of_text (s : string) : option xfloat :=
  let (neg, body) := sign (strip (list_ascii_of_string s)) in
  match special (map lower_ascii body) with
  | Some v => Some (if neg then xopp v else v)
  | None =>
      match number body with
      | Some q => Some (Fin (if neg then - q else q))
      | None => None
      end
  end.

(** ** The exception of [float] *)

Definition hex_digit (n : nat) : ascii :=
  nth n (list_ascii_of_string "0123456789abcdef") "0".

(** How [repr] writes a character between the quotes [quote]: the
    quote and the backslash after a backslash, a tab, a line feed and
    a carriage return by their letter, the other control characters by
    their code in two hexadecimal digits, any other character as it
    is.  A character above 127 is left as it is. *)
Definition repr_char (quote c : ascii) : string :=
  let n := nat_of_ascii c in
  if Ascii.eqb c quote || Ascii.eqb c "\" then String "\" (String c EmptyString)
  else if Ascii.eqb c "009" then "\t"%string
  else if Ascii.eqb c "010" then "\n"%string
  else if Ascii.eqb c "013" then "\r"%string
  else if ((n <? 32) || (n =? 127))%nat then
    String "\" (String "x" (String (hex_digit (n / 16))
                              (String (hex_digit (n mod 16)) EmptyString)))
  else String c EmptyString.

Fixpoint has_char (c : ascii) (s : string) : bool :=
  match s with
  | EmptyString => false
  | String c' s' => Ascii.eqb c' c || has_char c s'
  end.

(** The quotes of [repr(s)]: double quotes when [s] has a single
    quote and no double quote, single quotes otherwise. *)
Definition repr_quote (s : string) : ascii :=
  if has_char "'" s && negb (has_char "034" s) then "034" else "'".

Fixpoint repr_body (quote : ascii) (s : string) : string :=
  match s with
  | EmptyString => EmptyString
  | String c s' => (repr_char quote c ++ repr_body quote s')%string
  end.

(** [repr(s)] of a string. *)
Definition py_repr (s : string) : string :=
  String (repr_quote s) (repr_body (repr_quote s) s ++ String (repr_quote s) EmptyString).

(** [float(s)]: the value, or the [ValueError] whose text names the
    string as [repr] writes it. *)
Definition py_float (s : string) : result xfloat :=
  match float_of_text s with
  | Some x => Ok x
  | None => Raise (ValueError ("could not convert string to float: " ++ py_repr s))
  end.

Lemma py_float_Ok (s : string) (x : xfloat) :
  py_float s = Ok x <-> float_of_text s = Some x.
Proof. unfold py_float. destruct (float_of_text s); split; congruence. Qed.

Lemma py_float_Raise (s : string) :
  float_of_text s = None ->
  py_float s = Raise (ValueError ("could not convert string to float: " ++ py_repr s)).
Proof. unfold py_float. now intros ->. Qed.

(** [float] raises nothing but its [ValueError]. *)
Lemma py_float_ValueError (s : string) (e : exn) :
  py_float s = Raise e -> exists msg, e = ValueError msg.
Proof. unfold py_float. destruct (float_of_text s); [discriminate|]. intros [= <-]. eauto. Qed.

(** The text with a thousands separator, a text with a quote, a text
    with a tab, and a text with both quotes and a control character. *)
Example py_float_separator :
  py_float "10,000" = Raise (ValueError "could not convert string to float: '10,000'").
Proof. reflexivity. Qed.

Example py_repr_quotes :
  py_repr "ten o'clock" = String "034" ("ten o'clock" ++ String "034" EmptyString) /\
  py_repr (String "009" "1 0") = "'\t1 0'"%string /\
  py_repr (String "034" (String "'" (String "127" EmptyString)))
  = String "'" (String "034" "\'\x7f'").
Proof. repeat split; reflexivity. Qed.

(** ** Digits *)

Lemma is_digit_digit_of (c : ascii) :
  is_digit c = true -> exists d, digit_of c = Some d.
Proof. unfold is_digit. destruct (digit_of c) as [d|]; [eauto|discriminate]. Qed.

Lemma is_digit_not_underscore (c : ascii) : is_digit c = true -> Ascii.eqb c "_" = false.
Proof. destruct (Ascii.eqb_spec c "_") as [->|]; [discriminate|reflexivity]. Qed.

(** A character that cannot continue a group of digits. *)
Definition stops (rest : list ascii) : Prop :=
  match rest with
  | [] => True
  | c :: _ => is_digit c = false /\ Ascii.eqb c "_" = false
  end.

Lemma scan_digits_stops (rest : list ascii) : stops rest -> scan_digits rest = ([], rest).
Proof.
  destruct rest as [|c r]; [reflexivity|]. intros [H1 H2]. cbn. now rewrite H1, H2.
Qed.

(** Scanning digits followed by a character that stops them returns
    the digits and what follows. *)
Lemma scan_digits_app (ds rest : list ascii) :
  Forall (fun c => is_digit c = true) ds -> stops rest ->
  scan_digits (ds ++ rest) = (ds, rest).
Proof.
  intros Hds Hr. induction Hds as [|c ds Hc _ IH]; [now apply scan_digits_stops|].
  cbn [app scan_digits]. now rewrite Hc, IH.
Qed.

Lemma digitpart_app (ds rest : list ascii) :
  Forall (fun c => is_digit c = true) ds -> ds <> [] -> stops rest ->
  digitpart (ds ++ rest) = Some (ds, rest).
Proof.
  intros Hds Hne Hr. destruct Hds as [|c ds Hc Hds]; [congruence|].
  cbn [app digitpart]. now rewrite Hc, scan_digits_app.
Qed.

(** Leading zeros do not change the number. *)
Lemma N_of_digits_zero (ds : list ascii) : N_of_digits ("0" :: ds) = N_of_digits ds.
Proof. reflexivity. Qed.

Lemma N_of_digits_zeros (k : nat) (ds : list ascii) :
  N_of_digits (repeat "0" k ++ ds) = N_of_digits ds.
Proof. induction k; [reflexivity|]. cbn [repeat app]. now rewrite N_of_digits_zero. Qed.

(** ** Texts that are read as they are *)

Lemma is_digit_not_space (c : ascii) : is_digit c = true -> is_space c = false.
Proof. destruct c as [[] [] [] [] [] [] [] []]; (discriminate || reflexivity). Qed.

Lemma is_digit_lower (c : ascii) : is_digit c = true -> lower_ascii c = c.
Proof. destruct c as [[] [] [] [] [] [] [] []]; (discriminate || reflexivity). Qed.

Lemma drop_spaces_hd (s : list ascii) (c : ascii) :
  is_space (hd c s) = false -> drop_spaces s = s.
Proof. destruct s as [|a s]; [reflexivity|]. cbn. now intros ->. Qed.

(** A text that neither starts nor ends with white space is its own
    [strip]. *)
Lemma strip_id (s : list ascii) (c : ascii) :
  is_space (hd c s) = false -> is_space (last s c) = false -> strip s = s.
Proof.
  intros Hh Hl. unfold strip. rewrite (drop_spaces_hd s c Hh).
  rewrite (drop_spaces_hd (rev s) c); [apply rev_involutive|].
  destruct (rev s) as [|x l] eqn:E; [now apply (f_equal (@rev _)) in E;
    rewrite rev_involutive in E; subst|].
  apply (f_equal (@rev _)) in E. rewrite rev_involutive in E. subst s.
  cbn [rev hd] in *. now rewrite last_last in Hl.
Qed.

(** A text that starts with a digit or a point is none of the special
    values. *)
Lemma special_number (c : ascii) (s : list ascii) :
  is_digit c = true \/ c = "." -> special (map lower_ascii (c :: s)) = None.
Proof.
  intros H. unfold special. cbn [map].
  assert (Hi : lower_ascii c <> "i") by (destruct H as [H| ->];
    [rewrite is_digit_lower by exact H; intros ->|]; discriminate).
  assert (Hn : lower_ascii c <> "n") by (destruct H as [H| ->];
    [rewrite is_digit_lower by exact H; intros ->|]; discriminate).
  repeat match goal with
         | |- context [list_eq_dec ?d ?a ?b] =>
             destruct (list_eq_dec d a b) as [E|_]; [injection E; intros; congruence|]
         end.
  reflexivity.
Qed.

(** ** Decimal notation *)

Lemma digits_string_of_uint (d : Decimal.uint) :
  Forall (fun c => is_digit c = true) (list_ascii_of_string (NilEmpty.string_of_uint d)).
Proof. induction d; cbn; constructor; auto. Qed.

Lemma uint_of_digits_string_of_uint (d : Decimal.uint) :
  uint_of_digits (list_ascii_of_string (NilEmpty.string_of_uint d)) = d.
Proof. induction d; cbn; congruence. Qed.

Lemma digits_NilZero (d : Decimal.uint) :
  Forall (fun c => is_digit c = true) (list_ascii_of_string (NilZero.string_of_uint d)).
Proof. destruct d; try apply digits_string_of_uint. repeat constructor. Qed.

Lemma N_of_digits_NilZero (d : Decimal.uint) :
  N_of_digits (list_ascii_of_string (NilZero.string_of_uint d)) = N.of_uint d.
Proof.
  unfold N_of_digits.
  destruct d; [reflexivity|..]; unfold NilZero.string_of_uint;
    now rewrite uint_of_digits_string_of_uint.
Qed.

Lemma NilZero_nonempty (d : Decimal.uint) :
  list_ascii_of_string (NilZero.string_of_uint d) <> [].
Proof. destruct d; discriminate. Qed.

(** ** Numbers without exponent *)

(** [digits.digits] is read as the number its digits write, scaled by
    the number of digits after the point. *)
Lemma number_fixed (ip fp : list ascii) :
  Forall (fun c => is_digit c = true) ip -> ip <> [] ->
  Forall (fun c => is_digit c = true) fp -> fp <> [] ->
  number (ip ++ "." :: fp) = Some (scale (N_of_digits (ip ++ fp)) (- Z.of_nat (length fp))).
Proof.
  intros Hi Hin Hf Hfn. unfold number, mantissa.
  rewrite digitpart_app by (auto; now cbn).
  rewrite <- (List.app_nil_r fp) at 1. rewrite digitpart_app by (auto; now cbn).
  reflexivity.
Qed.

(** A group of digits alone is read as the number it writes. *)
Lemma number_digits (ds : list ascii) :
  Forall (fun c => is_digit c = true) ds -> ds <> [] ->
  number ds = Some (scale (N_of_digits ds) 0).
Proof.
  intros Hd Hn. unfold number, mantissa.
  rewrite <- (List.app_nil_r ds) at 1. rewrite digitpart_app by (auto; now cbn).
  cbn. now rewrite List.app_nil_r.
Qed.

(** ** Signed numbers *)

Lemma sign_digit (c : ascii) (s : list ascii) :
  is_digit c = true -> sign (c :: s) = (false, c :: s).
Proof. destruct c as [[] [] [] [] [] [] [] []]; (discriminate || reflexivity). Qed.

(** A number that starts with a digit and does not end with white
    space, with or without a minus in front, is read as its value with
    that sign. *)
Lemma float_of_text_signed (neg : bool) (c : ascii) (s : list ascii) (q : Q) :
  is_digit c = true -> is_space (last (c :: s) c) = false ->
  number (c :: s) = Some q ->
  float_of_text (string_of_list_ascii ((if neg then ["-"] else []) ++ c :: s))
  = Some (Fin (if neg then - q else q)).
Proof.
  intros Hc Hl Hq. unfold float_of_text.
  rewrite list_ascii_of_string_of_list_ascii.
  rewrite (strip_id _ c).
  - destruct neg; cbn [app];
      [change (sign ("-" :: c :: s)) with (true, c :: s)|rewrite (sign_digit c s Hc)];
      cbv beta iota; now rewrite special_number, Hq by auto.
  - destruct neg; [reflexivity|]. cbn [app hd]. exact (is_digit_not_space c Hc).
  - destruct neg; exact Hl.
Qed.
