(* ===== verification/Series.v ===== *)
(** * Series: the pandas column operations the engine calls

    A float column is a list of [xfloat].  Each definition is the
    pandas operation of the same name restricted to the arguments the
    program passes: [shift] and [diff] by a non-negative number of
    rows, [where] with a scalar replacement, [rolling(window,
    min_periods).mean()], comparisons of a column against a scalar,
    masks combined with [&], and the masked assignment
    [data.loc[mask, col] = v]. *)

From Stdlib Require Import String List ZArith QArith Qround Lia Lqa Bool.
From S2P Require Import Prelude Floats.
Import ListNotations.

Local Open Scope string_scope.
Local Open Scope Q_scope.

Abbreviation Series := (list xfloat).

(** A column of finite values. *)
Definition of_Q (l : list Q) : Series := map Fin l.

(** [s.shift(n)]: the values move down by [n] rows, [NaN] fills the top. *)
Definition shift (n : nat) (s : Series) : Series :=
  firstn (length s) (repeat NaN n ++ s).

(** [s.diff()] is [s - s.shift(1)]. *)
Definition diff (s : Series) : Series := map2 xsub s (shift 1 s).

(** Comparisons of a column against a scalar give a boolean mask. *)
Definition gt (s : Series) (v : xfloat) : list bool := map (fun x => xltb v x) s.
Definition lt (s : Series) (v : xfloat) : list bool := map (fun x => xltb x v) s.
Definition ge (s : Series) (v : xfloat) : list bool := map (fun x => xleb v x) s.
Definition le (s : Series) (v : xfloat) : list bool := map (fun x => xleb x v) s.

(** [m1 & m2] on masks. *)
Definition mask_and (m1 m2 : list bool) : list bool := map2 andb m1 m2.

(** [s.where(cond, other)]: keep the value where [cond] holds. *)
Definition where_ (s : Series) (cond : list bool) (other : xfloat) : Series :=
  map2 (fun x (c : bool) => if c then x else other) s cond.

(** [s.fillna(v)]. *)
Definition fillna (v : xfloat) (s : Series) : Series :=
  map (fun x => if is_nan x then v else x) s.

(** [-s]. *)
Definition neg (s : Series) : Series := map xopp s.

(** The sum of a list of floats. *)
Definition xsum (l : Series) : xfloat := fold_right xadd (Fin 0) l.

(** The rows [i - w + 1 .. i] of a column, those that exist. *)
Definition window_at {A : Type} (w i : nat) (s : list A) : list A :=
  skipn (S i - w) (firstn (S i) s).

(** The mean of the observations of a window: [NaN] values are not
    observations, and fewer than [min_periods] observations give [NaN]. *)
Definition mean_obs (min_periods : nat) (win : Series) : xfloat :=
  let obs := filter (fun x => negb (is_nan x)) win in
  if (min_periods <=? length obs)%nat
  then xdiv (xsum obs) (Fin (inject_Z (Z.of_nat (length obs))))
  else NaN.

(** The means of the windows ending at each row. *)
Definition window_means (w mp : nat) (s : Series) : Series :=
  map (fun i => mean_obs mp (window_at w i s)) (seq 0 (length s)).

(** [s.rolling(window=w, min_periods=mp).mean()]: pandas rejects a
    [min_periods] larger than the window when the rolling object is
    built. *)
Definition rolling_mean (w mp : nat) (s : Series) : result Series :=
  if (w <? mp)%nat
  then Raise (ValueError "min_periods must be <= window")
  else Ok (window_means w mp s).

(** Element-wise arithmetic between columns and between a scalar and a
    column. *)
Definition sdiv (s1 s2 : Series) : Series := map2 xdiv s1 s2.
Definition scalar_add (a : xfloat) (s : Series) : Series := map (xadd a) s.
Definition scalar_sub (a : xfloat) (s : Series) : Series := map (xsub a) s.
Definition scalar_div (a : xfloat) (s : Series) : Series := map (xdiv a) s.

(** [data.loc[mask, col] = v] on the column [col]. *)
Definition loc_set {A : Type} (mask : list bool) (v : A) (col : list A) : list A :=
  map2 (fun (m : bool) x => if m then v else x) mask col.

(** Columns with the same values. *)
Definition series_eq (s1 s2 : Series) : Prop := Forall2 xeq s1 s2.

(** ** Lengths *)

Lemma length_shift (n : nat) (s : Series) : length (shift n s) = length s.
Proof.
  unfold shift. rewrite length_firstn, length_app, repeat_length. lia.
Qed.

Lemma length_diff (s : Series) : length (diff s) = length s.
Proof. unfold diff. rewrite length_map2, length_shift. lia. Qed.

Lemma length_where (s : Series) (c : list bool) (o : xfloat) :
  length c = length s -> length (where_ s c o) = length s.
Proof. intros H. unfold where_. rewrite length_map2. lia. Qed.

Lemma length_fillna (v : xfloat) (s : Series) : length (fillna v s) = length s.
Proof. apply length_map. Qed.

Lemma length_window_means (w mp : nat) (s : Series) :
  length (window_means w mp s) = length s.
Proof. unfold window_means. now rewrite length_map, length_seq. Qed.

Lemma length_loc_set {A : Type} (mask : list bool) (v : A) (col : list A) :
  length mask = length col -> length (loc_set mask v col) = length col.
Proof. intros H. unfold loc_set. rewrite length_map2. lia. Qed.

#[export] Hint Rewrite length_shift length_diff length_fillna
  length_window_means : bt_rw.

(** ** Shift and diff, row by row *)

Lemma shift_1_cons (x : xfloat) (s : Series) :
  shift 1 (x :: s) = NaN :: removelast (x :: s).
Proof.
  unfold shift. cbn [repeat app length firstn]. f_equal.
  revert x. induction s as [|y s IH]; intros x; [reflexivity|].
  cbn [length firstn]. rewrite IH. reflexivity.
Qed.

Lemma nth_error_shift_1_0 (s : Series) :
  s <> [] -> nth_error (shift 1 s) 0 = Some NaN.
Proof. destruct s; [congruence|]. intros _. now rewrite shift_1_cons. Qed.

Lemma nth_error_shift_1_S (s : Series) (i : nat) :
  (S i < length s)%nat -> nth_error (shift 1 s) (S i) = nth_error s i.
Proof.
  intros H. unfold shift. rewrite nth_error_firstn.
  destruct (Nat.ltb_spec (S i) (length s)); [|lia]. reflexivity.
Qed.

(** A column combined with its own shift pairs every row with the row
    before it, and the first row with [NaN]. *)
Lemma map2_shift_1 {B : Type} (f : xfloat -> xfloat -> B) (s : Series) :
  map2 f s (shift 1 s) =
  match s with
  | [] => []
  | x :: s' => f x NaN :: map_prev f x s'
  end.
Proof.
  destruct s as [|x s]; [reflexivity|].
  rewrite shift_1_cons. cbn [map2]. f_equal. apply map2_removelast.
Qed.

Lemma xsub_nan_r (x : xfloat) : xsub x NaN = NaN.
Proof. now destruct x. Qed.

(** The first change is undefined, the others are the differences of
    consecutive values. *)
Lemma diff_cons (x : xfloat) (s : Series) :
  diff (x :: s) = NaN :: map_prev xsub x s.
Proof. unfold diff. now rewrite map2_shift_1, xsub_nan_r. Qed.

(** ** Columns of finite values *)

(** The sum and the mean of a list of rationals: what the windowed mean
    computes when no value is missing. *)
Definition Qsum (l : list Q) : Q := fold_right Qplus 0 l.

Definition Qmean (l : list Q) : Q := Qsum l / inject_Z (Z.of_nat (length l)).

Definition rolling_Qmean (w : nat) (l : list Q) : list Q :=
  map (fun i => Qmean (window_at w i l)) (seq 0 (length l)).

Lemma length_of_Q (l : list Q) : length (of_Q l) = length l.
Proof. apply length_map. Qed.

Lemma length_rolling_Qmean (w : nat) (l : list Q) :
  length (rolling_Qmean w l) = length l.
Proof. unfold rolling_Qmean. now rewrite length_map, length_seq. Qed.

#[export] Hint Rewrite length_of_Q length_rolling_Qmean : bt_rw.

Lemma window_at_map {A B : Type} (f : A -> B) (w i : nat) (l : list A) :
  window_at w i (map f l) = map f (window_at w i l).
Proof. unfold window_at. now rewrite firstn_map, skipn_map. Qed.

Lemma length_window_at {A : Type} (w i : nat) (l : list A) :
  (i < length l)%nat -> length (window_at w i l) = Nat.min (S i) w.
Proof.
  intros H. unfold window_at. rewrite length_skipn, length_firstn. lia.
Qed.

Lemma In_window_at {A : Type} (w i : nat) (l : list A) (x : A) :
  In x (window_at w i l) -> In x l.
Proof.
  unfold window_at. intros H%In_skipn_In. revert H. apply In_firstn_In.
Qed.

Lemma Forall_window_at {A : Type} (P : A -> Prop) (w i : nat) (l : list A) :
  Forall P l -> Forall P (window_at w i l).
Proof.
  rewrite !Forall_forall. intros H x Hx. eapply H, In_window_at, Hx.
Qed.

(** The window ending at row [i] only reads rows up to [i]. *)
Lemma window_at_firstn {A : Type} (w i k : nat) (l : list A) :
  (i < k)%nat -> window_at w i (firstn k l) = window_at w i l.
Proof.
  intros H. unfold window_at. rewrite firstn_firstn. f_equal. f_equal. lia.
Qed.

Lemma filter_obs_of_Q (l : list Q) :
  filter (fun x => negb (is_nan x)) (of_Q l) = of_Q l.
Proof. induction l; simpl; congruence. Qed.

Lemma xsum_of_Q (l : list Q) : xsum (of_Q l) = Fin (Qsum l).
Proof.
  unfold xsum, of_Q. induction l as [|q l IH]; [reflexivity|].
  cbn [map fold_right]. now rewrite IH.
Qed.

Lemma mean_obs_of_Q (l : list Q) :
  l <> [] -> mean_obs 1 (of_Q l) = Fin (Qmean l).
Proof.
  intros Hl. unfold mean_obs. rewrite filter_obs_of_Q, xsum_of_Q, length_of_Q.
  destruct l as [|q l]; [congruence|].
  cbn [length Nat.leb]. apply xdiv_fin.
  pose proof (inject_Z_of_nat_pos (Nat.lt_0_succ (length l))). lra.
Qed.

(** With a positive window and [min_periods = 1], the rolling mean of a
    column of finite values is the mean of the rows of each window. *)
Lemma window_means_of_Q (w : nat) (l : list Q) :
  (0 < w)%nat -> window_means w 1 (of_Q l) = of_Q (rolling_Qmean w l).
Proof.
  intros Hw. unfold window_means, rolling_Qmean.
  rewrite length_of_Q. unfold of_Q. rewrite map_map.
  apply map_ext_in. intros i Hi%in_seq.
  rewrite window_at_map. apply mean_obs_of_Q.
  intros E. apply (f_equal (@length Q)) in E.
  rewrite length_window_at in E by lia. cbn [length] in E. lia.
Qed.

Lemma rolling_mean_of_Q (w : nat) (l : list Q) :
  (0 < w)%nat -> rolling_mean w 1 (of_Q l) = Ok (of_Q (rolling_Qmean w l)).
Proof.
  intros Hw. unfold rolling_mean.
  destruct (Nat.ltb_spec w 1); [lia|]. now rewrite window_means_of_Q.
Qed.

Lemma rolling_mean_zero (mp : nat) (s : Series) :
  (0 < mp)%nat -> exists msg, rolling_mean 0 mp s = Raise (ValueError msg).
Proof.
  intros H. unfold rolling_mean. destruct (Nat.ltb_spec 0 mp); [eauto|lia].
Qed.

Lemma Qsum_nonneg (l : list Q) : Forall (fun q => 0 <= q) l -> 0 <= Qsum l.
Proof.
  induction 1 as [|q l Hq _ IH]; [unfold Qsum; simpl; lra|].
  change (Qsum (q :: l)) with (q + Qsum l). lra.
Qed.

Lemma Qmean_nonneg (l : list Q) : Forall (fun q => 0 <= q) l -> 0 <= Qmean l.
Proof.
  intros H%Qsum_nonneg. unfold Qmean.
  destruct l as [|q l]; [vm_compute; discriminate|].
  apply Qle_shift_div_l; [apply inject_Z_of_nat_pos; cbn [length]; lia|].
  now rewrite Qmult_0_l.
Qed.

Lemma rolling_Qmean_nonneg (w : nat) (l : list Q) :
  Forall (fun q => 0 <= q) l -> Forall (fun q => 0 <= q) (rolling_Qmean w l).
Proof.
  intros H. unfold rolling_Qmean. apply Forall_map, Forall_forall.
  intros i _. now apply Qmean_nonneg, Forall_window_at.
Qed.

(** The mean of a window of equal values is that value. *)
Lemma Qmean_const (l : list Q) (c : Q) :
  l <> [] -> Forall (fun q => q == c) l -> Qmean l == c.
Proof.
  intros Hl H. unfold Qmean.
  assert (E : Qsum l == inject_Z (Z.of_nat (length l)) * c).
  { clear Hl. induction H as [|q l Hq _ IH]; [vm_compute; reflexivity|].
    change (Qsum (q :: l)) with (q + Qsum l).
    cbn [length]. rewrite Nat2Z.inj_succ.
    unfold Z.succ. rewrite inject_Z_plus. change (inject_Z 1) with 1.
    cbv beta in Hq. lra. }
  rewrite E. field.
  enough (0 < inject_Z (Z.of_nat (length l))) by lra.
  apply inject_Z_of_nat_pos. destruct l; [congruence|simpl; lia].
Qed.

Lemma nth_error_rolling_Qmean (w i : nat) (l : list Q) :
  (i < length l)%nat ->
  nth_error (rolling_Qmean w l) i = Some (Qmean (window_at w i l)).
Proof.
  intros H. unfold rolling_Qmean. rewrite nth_error_map, nth_error_seq.
  now destruct (Nat.ltb_spec i (length l)); [|lia].
Qed.

(** The rolling mean of a prefix is the prefix of the rolling mean. *)
Lemma rolling_Qmean_firstn (w k : nat) (l : list Q) :
  rolling_Qmean w (firstn k l) = firstn k (rolling_Qmean w l).
Proof.
  unfold rolling_Qmean. rewrite length_firstn, firstn_map, firstn_seq_0.
  apply map_ext_in. intros i Hi%in_seq. apply f_equal, window_at_firstn. lia.
Qed.

Lemma Qmean_zero (l : list Q) : Forall (fun q => q == 0) l -> Qmean l == 0.
Proof.
  destruct l as [|q l]; [reflexivity|]. apply Qmean_const. congruence.
Qed.

Lemma rolling_Qmean_zero (w : nat) (l : list Q) :
  Forall (fun q => q == 0) l -> Forall (fun q => q == 0) (rolling_Qmean w l).
Proof.
  intros H. unfold rolling_Qmean. apply Forall_map, Forall_forall.
  intros i _. now apply Qmean_zero, Forall_window_at.
Qed.

(** A window of non-negative values with a positive one has a positive mean. *)
Lemma Qsum_pos (l : list Q) :
  Forall (fun q => 0 <= q) l -> Exists (fun q => 0 < q) l -> 0 < Qsum l.
Proof.
  intros Hall Hex. induction Hex as [q l Hq|q l _ IH].
  - inv Hall. apply Qsum_nonneg in H2.
    change (Qsum (q :: l)) with (q + Qsum l). lra.
  - inv Hall. change (Qsum (q :: l)) with (q + Qsum l). specialize (IH H2). lra.
Qed.

Lemma Qmean_pos (l : list Q) :
  Forall (fun q => 0 <= q) l -> Exists (fun q => 0 < q) l -> 0 < Qmean l.
Proof.
  intros Hall Hex. pose proof (Qsum_pos _ Hall Hex) as Hs. unfold Qmean.
  apply Qlt_shift_div_l; [|now rewrite Qmult_0_l].
  apply inject_Z_of_nat_pos. destruct Hex; simpl; lia.
Qed.
