(* ===== verification/Indicator.v ===== *)
(** * Indicator: [calculate_rsi]

    The Relative Strength Index of a closing-price column
    ([src/subcode/calculation.py], [calculate_rsi]), written with the
    column operations of [Series.v] in the order of the source, and its
    properties: length, range, the neutral default, the closed form in
    terms of the windowed average gain and loss, and the absence of
    lookahead. *)

From Stdlib Require Import String List ZArith QArith Qround Qminmax Lia Lqa Bool.
From S2P Require Import Prelude Floats Series.
Import ListNotations.

Local Open Scope Q_scope.
Local Open Scope res_scope.

(** [calculate_rsi(data, period)]: the column [data['RSI']] from the
    column [data['Close']]. *)
Definition calculate_rsi (close : list Q) (period : nat) : result Series :=
  let delta := diff (of_Q close) in
  let gain := fillna 0 (where_ delta (gt delta 0) 0) in
  let loss := fillna 0 (neg (where_ delta (lt delta 0) 0)) in
  avg_gain <- rolling_mean period 1 gain ;;
  avg_loss <- rolling_mean period 1 loss ;;
  let rs := sdiv avg_gain avg_loss in
  let rsi := scalar_sub 100 (scalar_div 100 (scalar_add 1 rs)) in
  Ok (fillna 50 rsi).

(** ** Reference definitions on rationals *)

(** The daily changes, the first one counted as zero. *)
Definition changes (close : list Q) : list Q :=
  match close with
  | [] => []
  | x :: l => 0 :: map_prev Qminus x l
  end.

Definition gain_of (d : Q) : Q := if Qltb 0 d then d else 0.
Definition loss_of (d : Q) : Q := if Qltb d 0 then - d else 0.

Definition gains (close : list Q) : list Q := map gain_of (changes close).
Definition losses (close : list Q) : list Q := map loss_of (changes close).

(** The indicator from the average gain [g] and the average loss [l] of
    a window: neutral when nothing moved, 100 when nothing fell. *)
Definition rsi_value (g l : Q) : Q :=
  if Qeq_bool l 0
  then (if Qeq_bool g 0 then 50 else 100)
  else 100 - 100 / (1 + g / l).

Definition rsi_reference (period : nat) (close : list Q) : list Q :=
  map2 rsi_value (rolling_Qmean period (gains close))
                 (rolling_Qmean period (losses close)).

(** The float computation on one row. *)
Definition rsi_point (g l : xfloat) : xfloat :=
  let r := xsub 100 (xdiv 100 (xadd 1 (xdiv g l))) in
  if is_nan r then Fin 50 else r.

(** ** The columns of the computation *)

Lemma length_changes (close : list Q) : length (changes close) = length close.
Proof. destruct close; simpl; [|rewrite length_map_prev]; reflexivity. Qed.

Lemma length_gains (close : list Q) : length (gains close) = length close.
Proof. unfold gains. now rewrite length_map, length_changes. Qed.

Lemma length_losses (close : list Q) : length (losses close) = length close.
Proof. unfold losses. now rewrite length_map, length_changes. Qed.

Lemma length_rsi_reference (period : nat) (close : list Q) :
  length (rsi_reference period close) = length close.
Proof.
  unfold rsi_reference.
  rewrite length_map2, !length_rolling_Qmean, length_gains, length_losses. lia.
Qed.

#[export] Hint Rewrite length_changes length_gains length_losses
  length_rsi_reference : bt_rw.

Lemma map_prev_Fin (f : xfloat -> xfloat -> xfloat) (g : Q -> Q -> Q) (p : Q) (l : list Q) :
  (forall a b, f (Fin a) (Fin b) = Fin (g a b)) ->
  map_prev f (Fin p) (of_Q l) = of_Q (map_prev g p l).
Proof.
  intros H. revert p. induction l as [|x l IH]; intros p; [reflexivity|].
  cbn [of_Q map map_prev]. rewrite H. f_equal. apply IH.
Qed.

Lemma diff_of_Q (close : list Q) :
  diff (of_Q close) =
  match close with
  | [] => []
  | x :: l => NaN :: of_Q (map_prev Qminus x l)
  end.
Proof.
  destruct close as [|x l]; [reflexivity|].
  cbn [of_Q map]. rewrite diff_cons. f_equal. now apply map_prev_Fin.
Qed.

Lemma where_gt_self (s : Series) (v o : xfloat) :
  where_ s (gt s v) o = map (fun x => if xltb v x then x else o) s.
Proof. unfold where_, gt. now rewrite map2_map_r, map2_diag. Qed.

Lemma where_lt_self (s : Series) (v o : xfloat) :
  where_ s (lt s v) o = map (fun x => if xltb x v then x else o) s.
Proof. unfold where_, lt. now rewrite map2_map_r, map2_diag. Qed.

(** The gain column is the positive part of the changes. *)
Lemma gain_column (close : list Q) :
  let delta := diff (of_Q close) in
  fillna 0 (where_ delta (gt delta 0) 0) = of_Q (gains close).
Proof.
  cbv zeta. rewrite where_gt_self, diff_of_Q. unfold fillna, gains, changes, of_Q.
  destruct close as [|x l]; [reflexivity|].
  cbn [map]. f_equal. rewrite !map_map. apply map_ext. intros d.
  unfold gain_of. cbn [xltb]. now destruct (Qltb 0 d).
Qed.

(** The loss column is the negative part of the changes, negated. *)
Lemma loss_column (close : list Q) :
  let delta := diff (of_Q close) in
  fillna 0 (neg (where_ delta (lt delta 0) 0)) = of_Q (losses close).
Proof.
  cbv zeta. rewrite where_lt_self, diff_of_Q.
  unfold fillna, neg, losses, changes, of_Q.
  destruct close as [|x l]; [reflexivity|].
  cbn [map]. f_equal. rewrite !map_map. apply map_ext. intros d.
  unfold loss_of. cbn [xltb]. now destruct (Qltb d 0).
Qed.

Lemma gains_nonneg (close : list Q) : Forall (fun q => 0 <= q) (gains close).
Proof.
  unfold gains. apply Forall_map, Forall_forall. intros d _.
  unfold gain_of. destruct (Qltb 0 d) eqn:E; qbool; lra.
Qed.

Lemma losses_nonneg (close : list Q) : Forall (fun q => 0 <= q) (losses close).
Proof.
  unfold losses. apply Forall_map, Forall_forall. intros d _.
  unfold loss_of. destruct (Qltb d 0) eqn:E; qbool; lra.
Qed.

(** ** One row *)

Lemma rsi_point_value (g l : Q) :
  0 <= g -> 0 <= l -> rsi_point (Fin g) (Fin l) = Fin (rsi_value g l).
Proof.
  intros Hg Hl. unfold rsi_point, rsi_value. cbn [xdiv].
  destruct (Qeq_bool l 0) eqn:El; qbool.
  - destruct (Qeq_bool g 0) eqn:Eg; qbool.
    + now rewrite inf_signed_zero.
    + rewrite inf_signed_pos by lra. reflexivity.
  - cbn [xadd xdiv].
    assert (H : ~ 1 + g / l == 0).
    { assert (0 <= g / l) by (apply Qle_shift_div_l; lra). lra. }
    apply Qeqb_neq in H as ->. reflexivity.
Qed.

Lemma rsi_value_range (g l : Q) :
  0 <= g -> 0 <= l -> 0 <= rsi_value g l <= 100.
Proof.
  intros Hg Hl. unfold rsi_value.
  destruct (Qeq_bool l 0) eqn:El; qbool.
  - destruct (Qeq_bool g 0); lra.
  - assert (H0 : 0 <= g / l) by (apply Qle_shift_div_l; lra).
    assert (H1 : 0 < 100 / (1 + g / l)) by (apply Qlt_shift_div_l; lra).
    assert (H2 : 100 / (1 + g / l) <= 100) by (apply Qle_shift_div_r; lra).
    lra.
Qed.

(** When the window moved, the indicator is the share of the gains in
    the total movement. *)
Lemma rsi_value_share (g l : Q) :
  0 <= g -> 0 <= l -> ~ g + l == 0 -> rsi_value g l == 100 * g / (g + l).
Proof.
  intros Hg Hl Hgl. unfold rsi_value.
  destruct (Qeq_bool l 0) eqn:El; qbool.
  - destruct (Qeq_bool g 0) eqn:Eg; qbool; [lra|].
    rewrite El. field. lra.
  - field. split; lra.
Qed.

(** ** The whole column *)

Lemma rsi_columns (G L : Series) :
  fillna 50 (scalar_sub 100 (scalar_div 100 (scalar_add 1 (sdiv G L)))) =
  map2 rsi_point G L.
Proof.
  unfold fillna, scalar_sub, scalar_div, scalar_add, sdiv.
  now rewrite !map_map2.
Qed.

Lemma calculate_rsi_reference (close : list Q) (period : nat) :
  (0 < period)%nat ->
  calculate_rsi close period = Ok (of_Q (rsi_reference period close)).
Proof.
  intros Hp. unfold calculate_rsi.
  rewrite gain_column, loss_column, !rolling_mean_of_Q by assumption.
  cbn [bind]. rewrite rsi_columns. f_equal.
  unfold rsi_reference, of_Q at 1 2 3. rewrite map2_map_l, map2_map_r, map_map2.
  apply map2_ext. intros g l Hg Hl. apply rsi_point_value.
  - revert g Hg. apply Forall_forall, rolling_Qmean_nonneg, gains_nonneg.
  - revert l Hl. apply Forall_forall, rolling_Qmean_nonneg, losses_nonneg.
Qed.

Lemma calculate_rsi_period_0 (close : list Q) :
  exists msg, calculate_rsi close 0 = Raise (ValueError msg).
Proof. eexists. reflexivity. Qed.

(** ** Properties of [calculate_rsi] *)

Lemma calculate_rsi_ok (close : list Q) (period : nat) (rsi : Series) :
  calculate_rsi close period = Ok rsi ->
  (0 < period)%nat /\ rsi = of_Q (rsi_reference period close).
Proof.
  destruct period as [|p]; [discriminate|].
  rewrite calculate_rsi_reference by lia. intros [= <-]. split; [lia|reflexivity].
Qed.

Lemma nth_error_rsi_reference (period i : nat) (close : list Q) :
  (i < length close)%nat ->
  nth_error (rsi_reference period close) i =
  Some (rsi_value (Qmean (window_at period i (gains close)))
                  (Qmean (window_at period i (losses close)))).
Proof.
  intros H. unfold rsi_reference.
  rewrite nth_error_map2, !nth_error_rolling_Qmean; autorewrite with bt_rw; auto.
Qed.

Lemma rsi_reference_range (period : nat) (close : list Q) :
  Forall (fun q => 0 <= q <= 100) (rsi_reference period close).
Proof.
  unfold rsi_reference.
  apply Forall_map2 with (R := fun g l => 0 <= g /\ 0 <= l).
  - intros g l [Hg Hl]. now apply rsi_value_range.
  - apply Forall2_of_Forall.
    + now autorewrite with bt_rw.
    + apply rolling_Qmean_nonneg, gains_nonneg.
    + apply rolling_Qmean_nonneg, losses_nonneg.
Qed.

(** [calculate_rsi] returns one indicator value per closing
    price. *)
Theorem calculate_rsi_length (close : list Q) (period : nat) (rsi : Series) :
  calculate_rsi close period = Ok rsi -> length rsi = length close.
Proof.
  intros [_ ->]%calculate_rsi_ok. now autorewrite with bt_rw.
Qed.

Lemma calculate_rsi_length_witness :
  let close := [100; 100; 90; 90; 110] in
  calculate_rsi close 2 = Ok (of_Q (rsi_reference 2 close)) /\
  length (of_Q (rsi_reference 2 close)) = length close.
Proof.
  cbv zeta. split; [now vm_compute|].
  apply (calculate_rsi_length [100; 100; 90; 90; 110] 2). now vm_compute.
Defined.

(** C6: every value of the indicator is a finite number between 0
    and 100. *)
Theorem calculate_rsi_range (close : list Q) (period : nat) (rsi : Series) :
  calculate_rsi close period = Ok rsi ->
  Forall (fun x => exists q, x = Fin q /\ 0 <= q <= 100) rsi.
Proof.
  intros [_ ->]%calculate_rsi_ok. unfold of_Q. apply Forall_map.
  eapply Forall_impl; [|apply rsi_reference_range]. cbv beta. eauto.
Qed.

Lemma calculate_rsi_range_witness :
  let close := [100; 100; 90; 90; 110; 110; 130; 80; 80; 80] in
  calculate_rsi close 2 = Ok (of_Q (rsi_reference 2 close)) /\
  Forall (fun x => exists q, x = Fin q /\ 0 <= q <= 100)
         (of_Q (rsi_reference 2 close)).
Proof.
  cbv zeta. split; [now vm_compute|].
  apply (calculate_rsi_range [100; 100; 90; 90; 110; 110; 130; 80; 80; 80] 2).
  now vm_compute.
Defined.

(** C30: with a positive period [calculate_rsi] never raises, whatever
    the prices; with period 0 pandas rejects the rolling window and the
    function raises [ValueError]. *)
Theorem calculate_rsi_total (close : list Q) (period : nat) :
  if (0 <? period)%nat
  then exists rsi, calculate_rsi close period = Ok rsi
  else exists msg, calculate_rsi close period = Raise (ValueError msg).
Proof.
  destruct (Nat.ltb_spec 0 period) as [H|H].
  - eexists. now apply calculate_rsi_reference.
  - replace period with 0%nat by lia. apply calculate_rsi_period_0.
Qed.

(** The first value of the indicator is the neutral 50: the
    first change is undefined and counts neither as gain nor as loss. *)
Theorem calculate_rsi_first (close : list Q) (period : nat) (rsi : Series) :
  calculate_rsi close period = Ok rsi -> close <> [] ->
  nth_error rsi 0 = Some (Fin 50).
Proof.
  intros [_ ->]%calculate_rsi_ok Hne. destruct close as [|x l]; [congruence|].
  unfold of_Q. erewrite map_nth_error; [reflexivity|].
  rewrite nth_error_rsi_reference by (simpl; lia). f_equal.
  unfold window_at. now destruct period.
Qed.

Lemma calculate_rsi_first_witness :
  let close := [100; 90; 110] in
  calculate_rsi close 14 = Ok (of_Q (rsi_reference 14 close)) /\
  close <> [] /\
  nth_error (of_Q (rsi_reference 14 close)) 0 = Some (Fin 50).
Proof.
  cbv zeta. split; [now vm_compute|]. split; [discriminate|].
  apply (calculate_rsi_first [100; 90; 110] 14); [now vm_compute|discriminate].
Defined.

(** ** Flat, rising, and prefixes *)

Lemma map_prev_flat (c x : Q) (l : list Q) :
  x == c -> Forall (fun q => q == c) l ->
  Forall (fun d => d == 0) (map_prev Qminus x l).
Proof.
  intros Hx H. revert x Hx.
  induction H as [|y l Hy _ IH]; intros x Hx; constructor; auto. lra.
Qed.

Lemma changes_flat (c : Q) (close : list Q) :
  Forall (fun q => q == c) close -> Forall (fun d => d == 0) (changes close).
Proof.
  intros H. destruct close as [|x l]; [constructor|]. inv H.
  constructor; [reflexivity|]. now apply map_prev_flat with (c := c).
Qed.

Lemma gain_of_zero (d : Q) : d == 0 -> gain_of d = 0.
Proof. intros H. unfold gain_of. now rewrite H. Qed.

Lemma loss_of_zero (d : Q) : d == 0 -> loss_of d = 0.
Proof. intros H. unfold loss_of. now rewrite H. Qed.

Lemma rsi_value_neutral (g l : Q) : g == 0 -> l == 0 -> rsi_value g l = 50.
Proof. intros Hg Hl. unfold rsi_value. now rewrite Hg, Hl. Qed.

Lemma rsi_value_no_loss (g l : Q) : 0 < g -> l == 0 -> rsi_value g l = 100.
Proof.
  intros Hg Hl. unfold rsi_value. rewrite Hl. cbn.
  destruct (Qeq_bool g 0) eqn:E; [|reflexivity]. qbool. lra.
Qed.

(** The reference on a flat price series. *)
Lemma rsi_reference_flat (close : list Q) (period : nat) (c : Q) :
  Forall (fun q => q == c) close ->
  Forall (fun x => x = Fin 50) (of_Q (rsi_reference period close)).
Proof.
  intros Hflat%changes_flat.
  unfold of_Q, rsi_reference. rewrite map_map2.
  apply Forall_map2 with (R := fun g l => g == 0 /\ l == 0).
  - intros g l [Hg Hl]. now rewrite rsi_value_neutral.
  - apply Forall2_of_Forall; [now autorewrite with bt_rw| |];
      apply rolling_Qmean_zero, Forall_map;
      (eapply Forall_impl; [|exact Hflat]); cbv beta; intros d Hd.
    + now rewrite gain_of_zero.
    + now rewrite loss_of_zero.
Qed.

(** On a flat price series the indicator is 50 on every row. *)
Theorem calculate_rsi_flat (close : list Q) (period : nat) (c : Q) (rsi : Series) :
  calculate_rsi close period = Ok rsi ->
  Forall (fun q => q == c) close ->
  Forall (fun x => x = Fin 50) rsi.
Proof. intros [_ ->]%calculate_rsi_ok. apply rsi_reference_flat. Qed.

Lemma calculate_rsi_flat_witness :
  let close := [80; 80; 80; 80] in
  calculate_rsi close 3 = Ok (of_Q (rsi_reference 3 close)) /\
  Forall (fun q => q == 80) close /\
  Forall (fun x => x = Fin 50) (of_Q (rsi_reference 3 close)).
Proof.
  cbv zeta.
  assert (H : Forall (fun q => q == 80) [80; 80; 80; 80])
    by (repeat constructor).
  split; [now vm_compute|]. split; [exact H|].
  apply (calculate_rsi_flat [80; 80; 80; 80] 3 80); [now vm_compute|exact H].
Defined.

(** C3: on a row whose window saw a move, the indicator is the share
    of the average gain in the sum of average gain and average loss,
    [100 * g / (g + l)]. *)
Theorem calculate_rsi_share (close : list Q) (period i : nat) (rsi : Series) :
  calculate_rsi close period = Ok rsi -> (i < length close)%nat ->
  let g := Qmean (window_at period i (gains close)) in
  let l := Qmean (window_at period i (losses close)) in
  ~ g + l == 0 ->
  exists q, nth_error rsi i = Some (Fin q) /\ q == 100 * g / (g + l).
Proof.
  intros [_ ->]%calculate_rsi_ok Hi g l Hgl. eexists. split.
  - unfold of_Q. erewrite map_nth_error; [reflexivity|].
    now apply nth_error_rsi_reference.
  - apply rsi_value_share; auto;
      apply Qmean_nonneg, Forall_window_at; [apply gains_nonneg|apply losses_nonneg].
Qed.

Lemma calculate_rsi_share_witness :
  let close := [100; 100; 90; 90; 110; 110; 130; 80] in
  let g := Qmean (window_at 2 7 (gains close)) in
  let l := Qmean (window_at 2 7 (losses close)) in
  calculate_rsi close 2 = Ok (of_Q (rsi_reference 2 close)) /\
  (7 < length close)%nat /\ ~ g + l == 0 /\
  exists q, nth_error (of_Q (rsi_reference 2 close)) 7 = Some (Fin q) /\
            q == 100 * g / (g + l).
Proof.
  cbv zeta. split; [now vm_compute|]. split; [simpl; lia|].
  split; [now vm_compute|].
  apply (calculate_rsi_share [100; 100; 90; 90; 110; 110; 130; 80] 2 7);
    [now vm_compute|simpl; lia|now vm_compute].
Defined.

(** C25: on a row whose window holds a gain and no loss the indicator
    is 100: the division by the zero average loss yields an infinity,
    not the neutral default. *)
Theorem calculate_rsi_no_loss (close : list Q) (period i : nat) (rsi : Series) :
  calculate_rsi close period = Ok rsi -> (i < length close)%nat ->
  Exists (fun q => 0 < q) (window_at period i (gains close)) ->
  Forall (fun q => q == 0) (window_at period i (losses close)) ->
  nth_error rsi i = Some (Fin 100).
Proof.
  intros [_ ->]%calculate_rsi_ok Hi Hg Hl.
  unfold of_Q. erewrite map_nth_error; [reflexivity|].
  rewrite nth_error_rsi_reference by assumption. f_equal.
  apply rsi_value_no_loss; [|now apply Qmean_zero].
  apply Qmean_pos; [apply Forall_window_at, gains_nonneg|assumption].
Qed.

Lemma calculate_rsi_no_loss_witness :
  let close := [10; 11; 12; 13] in
  calculate_rsi close 2 = Ok (of_Q (rsi_reference 2 close)) /\
  (2 < length close)%nat /\
  Exists (fun q => 0 < q) (window_at 2 2 (gains close)) /\
  Forall (fun q => q == 0) (window_at 2 2 (losses close)) /\
  nth_error (of_Q (rsi_reference 2 close)) 2 = Some (Fin 100).
Proof.
  cbv zeta.
  assert (Hg : Exists (fun q => 0 < q) (window_at 2 2 (gains [10; 11; 12; 13])))
    by (left; now vm_compute).
  assert (Hl : Forall (fun q => q == 0) (window_at 2 2 (losses [10; 11; 12; 13])))
    by (repeat constructor).
  split; [now vm_compute|]. split; [simpl; lia|]. split; [exact Hg|]. split; [exact Hl|].
  apply (calculate_rsi_no_loss [10; 11; 12; 13] 2 2);
    [now vm_compute|simpl; lia|exact Hg|exact Hl].
Defined.

Lemma changes_firstn (k : nat) (close : list Q) :
  changes (firstn k close) = firstn k (changes close).
Proof.
  destruct close as [|x l], k as [|k]; try reflexivity.
  cbn [firstn changes]. now rewrite firstn_map_prev.
Qed.

Lemma rsi_reference_firstn (period k : nat) (close : list Q) :
  rsi_reference period (firstn k close) = firstn k (rsi_reference period close).
Proof.
  unfold rsi_reference, gains, losses.
  now rewrite changes_firstn, <- !firstn_map, !rolling_Qmean_firstn, firstn_map2.
Qed.

(** C36: the indicator has no lookahead: its first [k] values depend
    on the first [k] prices only. *)
Theorem calculate_rsi_prefix (close : list Q) (period k : nat) (rsi : Series) :
  calculate_rsi close period = Ok rsi ->
  calculate_rsi (firstn k close) period = Ok (firstn k rsi).
Proof.
  intros [Hp ->]%calculate_rsi_ok. rewrite calculate_rsi_reference by assumption.
  unfold of_Q. now rewrite rsi_reference_firstn, firstn_map.
Qed.

Lemma calculate_rsi_prefix_witness :
  let close := [100; 100; 90; 90; 110; 110] in
  calculate_rsi close 2 = Ok (of_Q (rsi_reference 2 close)) /\
  calculate_rsi (firstn 3 close) 2 = Ok (firstn 3 (of_Q (rsi_reference 2 close))).
Proof.
  cbv zeta. split; [now vm_compute|].
  apply (calculate_rsi_prefix [100; 100; 90; 90; 110; 110] 2 3). now vm_compute.
Defined.
