(* ===== verification/Signals.v ===== *)
(** * Signals: [generate_signals]

    The trade signals derived from the indicator column
    ([src/subcode/calculation.py], [generate_signals]): the column of
    zeros, the buy mask assigned 1, then the sell mask assigned -1, in
    the order of the source.  The theorems give the signal of each row
    from the indicator of that row and of the row before, and what
    follows from it. *)

From Stdlib Require Import String List ZArith QArith Qround Lia Lqa Bool.
From S2P Require Import Prelude Floats Series.
Import ListNotations.

Local Open Scope Q_scope.

(** [generate_signals(data, rsi_overbought, rsi_oversold)]: the column
    [data['Signal']] from the column [data['RSI']]. *)
Definition generate_signals (rsi : Series) (rsi_overbought rsi_oversold : xfloat)
  : list Z :=
  let signal := repeat 0%Z (length rsi) in
  let buy_signals :=
    mask_and (gt rsi rsi_oversold) (le (shift 1 rsi) rsi_oversold) in
  let signal := loc_set buy_signals 1%Z signal in
  let sell_signals :=
    mask_and (lt rsi rsi_overbought) (ge (shift 1 rsi) rsi_overbought) in
  loc_set sell_signals (-1)%Z signal.

(** ** The signal of one row *)

(** The indicator crosses the oversold line upwards. *)
Definition buy_cross (os cur prev : xfloat) : bool := xltb os cur && xleb prev os.

(** The indicator crosses the overbought line downwards. *)
Definition sell_cross (ob cur prev : xfloat) : bool := xltb cur ob && xleb ob prev.

Definition signal_of (ob os cur prev : xfloat) : Z :=
  if sell_cross ob cur prev then (-1)%Z
  else if buy_cross os cur prev then 1%Z
  else 0%Z.

Lemma signal_columns (ob os : xfloat) (a b : Series) :
  length a = length b ->
  loc_set (mask_and (lt a ob) (ge b ob)) (-1)%Z
    (loc_set (mask_and (gt a os) (le b os)) 1%Z (repeat 0%Z (length a))) =
  map2 (signal_of ob os) a b.
Proof.
  revert b. induction a as [|x a IH]; intros [|y b] Hlen; try discriminate;
    [reflexivity|].
  injection Hlen as Hlen. specialize (IH b Hlen).
  cbn [length repeat lt ge gt le map mask_and map2 loc_set] in *.
  unfold loc_set, mask_and, lt, ge, gt, le in IH. rewrite IH. f_equal.
Qed.

Lemma generate_signals_rows (rsi : Series) (ob os : xfloat) :
  generate_signals rsi ob os = map2 (signal_of ob os) rsi (shift 1 rsi).
Proof.
  unfold generate_signals. apply signal_columns. now rewrite length_shift.
Qed.

Lemma signal_of_nan_prev (ob os cur : xfloat) : signal_of ob os cur NaN = 0%Z.
Proof.
  unfold signal_of, sell_cross, buy_cross.
  now rewrite xleb_nan_r, !andb_false_r.
Qed.

(** The signals, row by row: none on the first row, then each row
    against the one before. *)
Lemma generate_signals_cons (x : xfloat) (s : Series) (ob os : xfloat) :
  generate_signals (x :: s) ob os = 0%Z :: map_prev (signal_of ob os) x s.
Proof.
  now rewrite generate_signals_rows, map2_shift_1, signal_of_nan_prev.
Qed.

Lemma signal_of_range (ob os cur prev : xfloat) :
  In (signal_of ob os cur prev) [(-1)%Z; 0%Z; 1%Z].
Proof.
  unfold signal_of. repeat destruct_match; simpl; auto.
Qed.

(** A downward crossing of the upper line and an upward crossing of the
    lower line cannot happen on the same row, however the lines lie:
    the first needs [cur < ob <= prev], the second [prev <= os < cur]. *)
Lemma crosses_exclusive (ob os cur prev : xfloat) :
  sell_cross ob cur prev = true -> buy_cross os cur prev = false.
Proof.
  unfold sell_cross, buy_cross.
  destruct cur as [c| | |], prev as [p| | |], ob as [b| | |], os as [s| | |];
    cbn; rewrite ?andb_false_r, ?andb_true_r; try discriminate; try reflexivity;
    intros H; qbool;
    first [ apply andb_false_iff; destruct (Qltb s c) eqn:E; [right|now left];
            qbool; apply Qleb_gt; lra
          | apply Qleb_gt; lra | apply Qltb_ge; lra | lra ].
Qed.

Lemma signal_of_sell_iff (ob os cur prev : xfloat) :
  signal_of ob os cur prev = (-1)%Z <-> sell_cross ob cur prev = true.
Proof.
  unfold signal_of. destruct (sell_cross ob cur prev); [tauto|].
  destruct (buy_cross os cur prev); split; discriminate.
Qed.

Lemma signal_of_buy_iff (ob os cur prev : xfloat) :
  signal_of ob os cur prev = 1%Z <-> buy_cross os cur prev = true.
Proof.
  pose proof (crosses_exclusive ob os cur prev) as Hex. unfold signal_of.
  destruct (sell_cross ob cur prev).
  - rewrite Hex by reflexivity. split; discriminate.
  - destruct (buy_cross os cur prev); split; auto; discriminate.
Qed.

Lemma length_generate_signals (rsi : Series) (ob os : xfloat) :
  length (generate_signals rsi ob os) = length rsi.
Proof. now rewrite generate_signals_rows, length_map2, length_shift, Nat.min_id. Qed.

(** ** Properties of [generate_signals] *)

(** There is one signal per row and every signal is -1, 0 or 1. *)
Theorem generate_signals_shape (rsi : Series) (ob os : xfloat) :
  length (generate_signals rsi ob os) = length rsi /\
  Forall (fun s => In s [(-1)%Z; 0%Z; 1%Z]) (generate_signals rsi ob os).
Proof.
  split; [apply length_generate_signals|]. rewrite generate_signals_rows.
  - apply Forall_map2 with (R := fun _ _ => True).
    + intros. apply signal_of_range.
    + apply Forall2_impl with (R1 := fun a b => True /\ True); [tauto|].
      apply Forall2_of_Forall; [now rewrite length_shift| |];
        apply Forall_forall; auto.
Qed.

(** The first row never carries a signal: it has no row before
    it to cross from. *)
Theorem generate_signals_first (rsi : Series) (ob os : xfloat) :
  rsi <> [] -> nth_error (generate_signals rsi ob os) 0 = Some 0%Z.
Proof.
  destruct rsi as [|x s]; [congruence|]. intros _.
  now rewrite generate_signals_cons.
Qed.

Lemma generate_signals_first_witness :
  [Fin 20; Fin 40] <> [] /\
  nth_error (generate_signals [Fin 20; Fin 40] 70 30) 0 = Some 0%Z.
Proof.
  split; [discriminate|].
  apply (generate_signals_first [Fin 20; Fin 40] 70 30). discriminate.
Defined.

Lemma nth_error_generate_signals (rsi : Series) (ob os : xfloat) (i : nat)
    (cur prev : xfloat) :
  nth_error rsi i = Some prev -> nth_error rsi (S i) = Some cur ->
  nth_error (generate_signals rsi ob os) (S i) = Some (signal_of ob os cur prev).
Proof.
  intros Hp Hc. rewrite generate_signals_rows, nth_error_map2, Hc.
  rewrite nth_error_shift_1_S, Hp; [reflexivity|].
  apply nth_error_Some. congruence.
Qed.

(** C4: on a later row the signal is decided by the indicator of
    that row and of the row before only: -1 exactly when the indicator
    fell below the overbought line from on or above it
    ([cur < ob <= prev]), 1 exactly when it rose above the oversold line
    from on or below it ([prev <= os < cur]), strict on the current
    value and non-strict on the previous one. *)
Theorem generate_signals_crossing (rsi : Series) (ob os : Q) (i : nat) (cur prev : Q) :
  nth_error rsi i = Some (Fin prev) -> nth_error rsi (S i) = Some (Fin cur) ->
  exists s, nth_error (generate_signals rsi ob os) (S i) = Some s /\
    (s = (-1)%Z <-> cur < ob /\ ob <= prev) /\
    (s = 1%Z <-> os < cur /\ prev <= os).
Proof.
  intros Hp Hc. eexists. split; [eapply nth_error_generate_signals; eassumption|].
  rewrite signal_of_sell_iff, signal_of_buy_iff. unfold sell_cross, buy_cross.
  cbn [xltb xleb]. now rewrite !andb_true_iff, !Qltb_lt, !Qle_bool_iff.
Qed.

Lemma generate_signals_crossing_witness :
  let rsi := [Fin 50; Fin 0; Fin 100; Fin 20] in
  nth_error rsi 1 = Some (Fin 0) /\ nth_error rsi 2 = Some (Fin 100) /\
  exists s, nth_error (generate_signals rsi 70 30) 2 = Some s /\
    (s = (-1)%Z <-> 100 < 70 /\ 70 <= 0) /\
    (s = 1%Z <-> 30 < 100 /\ 0 <= 30).
Proof.
  cbv zeta. split; [reflexivity|]. split; [reflexivity|].
  apply (generate_signals_crossing [Fin 50; Fin 0; Fin 100; Fin 20] 70 30 1);
    reflexivity.
Defined.

(** C31: the buy and the sell assignment never hit the same row, so
    the order in which the source performs them does not matter:
    assigning the sells first and the buys second gives the same column. *)
Theorem generate_signals_order (rsi : Series) (ob os : xfloat) :
  let zeros := repeat 0%Z (length rsi) in
  let buy := mask_and (gt rsi os) (le (shift 1 rsi) os) in
  let sell := mask_and (lt rsi ob) (ge (shift 1 rsi) ob) in
  loc_set buy 1%Z (loc_set sell (-1)%Z zeros) = generate_signals rsi ob os.
Proof.
  cbv zeta. unfold generate_signals.
  assert (Hlen : length rsi = length (shift 1 rsi)) by now rewrite length_shift.
  revert Hlen. generalize (shift 1 rsi) as prev.
  induction rsi as [|x a IH]; intros [|y b] Hlen; try discriminate; [reflexivity|].
  injection Hlen as Hlen. specialize (IH b Hlen).
  cbn [length repeat lt ge gt le map mask_and map2 loc_set] in *.
  unfold loc_set, mask_and, lt, ge, gt, le in IH. rewrite IH. f_equal.
  pose proof (crosses_exclusive ob os x y) as Hex.
  unfold sell_cross, buy_cross in Hex.
  destruct (xltb x ob && xleb ob y); [now rewrite Hex|reflexivity].
Qed.

Lemma firstn_shift_1 (k : nat) (s : Series) :
  firstn k (shift 1 s) = shift 1 (firstn k s).
Proof.
  destruct s as [|x s]; [now destruct k|].
  destruct k as [|k]; [reflexivity|].
  cbn [firstn]. rewrite !shift_1_cons. cbn [firstn]. f_equal.
  revert x k. induction s as [|y s IH]; intros x k.
  - now destruct k.
  - destruct k as [|k]; [reflexivity|].
    change (removelast (x :: y :: s)) with (x :: removelast (y :: s)).
    cbn [firstn].
    change (removelast (x :: y :: firstn k s)) with (x :: removelast (y :: firstn k s)).
    f_equal. apply IH.
Qed.

(** The signals have no lookahead: the first [k] signals depend
    on the first [k] indicator values only. *)
Theorem generate_signals_prefix (rsi : Series) (ob os : xfloat) (k : nat) :
  generate_signals (firstn k rsi) ob os = firstn k (generate_signals rsi ob os).
Proof.
  now rewrite !generate_signals_rows, firstn_map2, firstn_shift_1.
Qed.

Lemma signal_of_same (ob os x y : xfloat) : xeq x y -> signal_of ob os x y = 0%Z.
Proof.
  intros H. unfold signal_of, sell_cross, buy_cross.
  destruct x as [a| | |], y as [b| | |], ob as [o| | |], os as [s| | |];
    cbn in *; try tauto; rewrite ?andb_false_r, ?andb_true_r; try reflexivity;
    repeat match goal with
    | |- context [(?a && ?b)%bool] => destruct (a && b)%bool eqn:?
    | |- context [Qltb ?a ?b] => destruct (Qltb a b) eqn:?
    | |- context [Qle_bool ?a ?b] => destruct (Qle_bool a b) eqn:?
    end; try reflexivity; qbool; lra.
Qed.

Lemma map_prev_const (ob os c x : xfloat) (s : Series) :
  xeq x c -> Forall (fun y => xeq y (c)) s ->
  Forall (fun z => z = 0%Z) (map_prev (signal_of ob os) x s).
Proof.
  intros Hx H. revert x Hx. induction H as [|y s Hy _ IH]; intros x Hx;
    constructor; auto.
  apply signal_of_same. now rewrite Hx, Hy.
Qed.

(** A constant column crosses no line. *)
Lemma generate_signals_no_cross (rsi : Series) (ob os c : xfloat) :
  Forall (fun x => xeq x c) rsi ->
  Forall (fun z => z = 0%Z) (generate_signals rsi ob os).
Proof.
  intros H. destruct rsi as [|x s]; [constructor|].
  rewrite generate_signals_cons. inv H. constructor; [reflexivity|].
  now apply map_prev_const with (c := c).
Qed.

(** An indicator that does not move crosses no line: a constant
    indicator column yields no signal at all. *)
Theorem generate_signals_constant (rsi : Series) (ob os c : xfloat) :
  Forall (fun x => xeq x c) rsi ->
  Forall (fun z => z = 0%Z) (generate_signals rsi ob os).
Proof. apply generate_signals_no_cross. Qed.

Lemma generate_signals_constant_witness :
  Forall (fun x => xeq x (Fin 50)) [Fin 50; Fin 50; Fin 50] /\
  Forall (fun z => z = 0%Z) (generate_signals [Fin 50; Fin 50; Fin 50] 70 30).
Proof.
  assert (H : Forall (fun x => xeq x (Fin 50)) [Fin 50; Fin 50; Fin 50])
    by (repeat constructor; reflexivity).
  split; [exact H|].
  exact (generate_signals_constant [Fin 50; Fin 50; Fin 50] 70 30 (Fin 50) H).
Defined.
