(* ===== verification/Ledger.v ===== *)
(** * Ledger: the two-state trading machine of the design

    The abstract specification of the strategy simulator: a ledger of
    cash, shares held and cumulative fees, and the transitions Flat ->
    Holding on a buy signal (whole shares, sized by the cash at hand)
    and Holding -> Flat on a sell signal, each charging a fee
    proportional to the notional traded.  The machine is a step
    relation; its invariants are proved by case analysis on the rules
    and lifted to runs by induction.  [Backtest.v] proves that the loop
    of [backtest_strategy] refines it. *)

From Stdlib Require Import List ZArith QArith Qround Lia Lqa Bool.
From S2P Require Import Prelude.
Import ListNotations.

Set Implicit Arguments.

Local Open Scope Q_scope.

Inductive Signal : Type := Buy | Sell | Hold.

(** The integer encoding of signals used by the columns. *)
Definition decode (z : Z) : Signal :=
  if (z =? 1)%Z then Buy else if (z =? -1)%Z then Sell else Hold.

Record ledger : Type := mk_ledger {
  l_cash : Q;
  l_shares : Z;
  l_fees : Q
}.

(** Ledgers holding the same amounts. *)
Definition ledger_eq (a b : ledger) : Prop :=
  l_cash a == l_cash b /\ l_shares a = l_shares b /\ l_fees a == l_fees b.

(** The value of [n] shares at [price]. *)
Definition notional (price : Q) (n : Z) : Q := inject_Z n * price.

(** The marked-to-market value of a ledger. *)
Definition equity (price : Q) (l : ledger) : Q :=
  l_cash l + notional price (l_shares l).

(** 1 when shares are held, 0 otherwise. *)
Definition position (l : ledger) : Z := if (0 <? l_shares l)%Z then 1 else 0.

(** The whole shares the cash at hand can pay for. *)
Definition purchasable (price : Q) (l : ledger) : Z := Qfloor (l_cash l / price).

(** No trade happens: the signal is [Hold], or it asks for a side the
    ledger is already on, or not even one share can be paid for. *)
Definition idle (price : Q) (s : Signal) (l : ledger) : Prop :=
  match s with
  | Buy => l_shares l <> 0%Z \/ (purchasable price l <= 0)%Z
  | Sell => (l_shares l <= 0)%Z
  | Hold => True
  end.

(** [ledger_step r p s l l' t]: at price [p] and fee rate [r], signal
    [s] takes ledger [l] to [l'] with trade marker [t]. *)
Inductive ledger_step (fee_rate price : Q) : Signal -> ledger -> ledger -> Z -> Prop :=
| step_entry l l' :
    l_shares l = 0%Z -> (0 < purchasable price l)%Z ->
    l_cash l' == l_cash l - notional price (purchasable price l)
                 - notional price (purchasable price l) * fee_rate ->
    l_shares l' = purchasable price l ->
    l_fees l' == l_fees l + notional price (purchasable price l) * fee_rate ->
    ledger_step fee_rate price Buy l l' 1
| step_exit l l' :
    (0 < l_shares l)%Z ->
    l_cash l' == l_cash l + notional price (l_shares l)
                 - notional price (l_shares l) * fee_rate ->
    l_shares l' = 0%Z ->
    l_fees l' == l_fees l + notional price (l_shares l) * fee_rate ->
    ledger_step fee_rate price Sell l l' (-1)
| step_idle s l l' :
    idle price s l -> ledger_eq l l' ->
    ledger_step fee_rate price s l l' 0.

(** A run over the rows [(price, signal)], with the trade markers. *)
Inductive ledger_run (fee_rate : Q) : list (Q * Signal) -> ledger -> ledger -> list Z -> Prop :=
| run_nil l : ledger_run fee_rate [] l l []
| run_cons p s rows l l1 l2 t ts :
    ledger_step fee_rate p s l l1 t ->
    ledger_run fee_rate rows l1 l2 ts ->
    ledger_run fee_rate ((p, s) :: rows) l l2 (t :: ts).

(** The machine as a function. *)
Definition ledger_next (fee_rate price : Q) (s : Signal) (l : ledger) : ledger * Z :=
  match s with
  | Buy =>
      let n := purchasable price l in
      if (l_shares l =? 0)%Z && (0 <? n)%Z
      then ({| l_cash := l_cash l - (notional price n + notional price n * fee_rate);
               l_shares := n;
               l_fees := l_fees l + notional price n * fee_rate |}, 1%Z)
      else (l, 0%Z)
  | Sell =>
      if (0 <? l_shares l)%Z
      then ({| l_cash := l_cash l + (notional price (l_shares l)
                                    - notional price (l_shares l) * fee_rate);
               l_shares := 0;
               l_fees := l_fees l + notional price (l_shares l) * fee_rate |}, (-1)%Z)
      else (l, 0%Z)
  | Hold => (l, 0%Z)
  end.

(** ** The equivalence on ledgers *)

#[export] Instance ledger_eq_Equivalence : Equivalence ledger_eq.
Proof.
  split.
  - intros l. repeat split; reflexivity.
  - intros a b (H1 & H2 & H3). repeat split; now symmetry.
  - intros a b c (H1 & H2 & H3) (H4 & H5 & H6).
    repeat split; etransitivity; eassumption.
Qed.

#[export] Instance equity_Proper : Proper (Qeq ==> ledger_eq ==> Qeq) equity.
Proof.
  intros p q Hp a b (H1 & H2 & H3). unfold equity, notional. now rewrite H1, H2, Hp.
Qed.

#[export] Instance position_Proper : Proper (ledger_eq ==> eq) position.
Proof. intros a b (H1 & H2 & H3). unfold position. now rewrite H2. Qed.

(** ** The function computes the relation *)

Lemma ledger_next_step (r p : Q) (s : Signal) (l : ledger) :
  ledger_step r p s l (fst (ledger_next r p s l)) (snd (ledger_next r p s l)).
Proof.
  destruct s; cbn [ledger_next].
  - destruct (Z.eqb_spec (l_shares l) 0) as [E|E];
      [destruct (Z.ltb_spec 0 (purchasable p l))|]; cbn [andb fst snd].
    + apply step_entry; auto; cbn [l_cash l_shares l_fees]; ring.
    + apply step_idle; [now right|reflexivity].
    + apply step_idle; [now left|reflexivity].
  - destruct (Z.ltb_spec 0 (l_shares l)); cbn [fst snd].
    + apply step_exit; auto; cbn [l_cash l_shares l_fees]; ring.
    + apply step_idle; [assumption|reflexivity].
  - apply step_idle; [exact I|reflexivity].
Qed.

(** Every step of the relation is the step of the function, up to the
    equivalence on ledgers: the machine is deterministic. *)
Lemma ledger_step_next (r p : Q) (s : Signal) (l l' : ledger) (t : Z) :
  ledger_step r p s l l' t ->
  ledger_eq l' (fst (ledger_next r p s l)) /\ t = snd (ledger_next r p s l).
Proof.
  intros H. inversion H as [? ? E1 E2 Hc Hs Hf|? ? E1 Hc Hs Hf|? ? ? Hi He];
    subst; cbn [ledger_next].
  - rewrite E1. apply Z.ltb_lt in E2 as ->. cbn [Z.eqb andb fst snd].
    unfold ledger_eq. cbn [l_cash l_shares l_fees]. rewrite Hc.
    repeat split; auto; ring.
  - apply Z.ltb_lt in E1 as ->. cbn [fst snd].
    unfold ledger_eq. cbn [l_cash l_shares l_fees]. rewrite Hc.
    repeat split; auto; ring.
  - symmetry in He. destruct s; cbn in Hi |- *.
    + destruct Hi as [Hi|Hi].
      * apply Z.eqb_neq in Hi as ->. now split.
      * apply Z.ltb_ge in Hi as ->. rewrite andb_false_r. now split.
    + apply Z.ltb_ge in Hi as ->. now split.
    + now split.
Qed.

Lemma ledger_step_deterministic (r p : Q) (s : Signal) (l l1 l2 : ledger) (t1 t2 : Z) :
  ledger_step r p s l l1 t1 -> ledger_step r p s l l2 t2 ->
  ledger_eq l1 l2 /\ t1 = t2.
Proof.
  intros [E1 ->]%ledger_step_next [E2 ->]%ledger_step_next.
  split; [|reflexivity]. now rewrite E1, E2.
Qed.

(** ** Invariants of a step *)

Section StepInvariants.
Variables (r p : Q) (s : Signal) (l l' : ledger) (t : Z).
Hypothesis Hstep : ledger_step r p s l l' t.

(** The three rules, with the equations of the rule in the context. *)
Local Ltac rules :=
  inversion Hstep as [? ? E1 E2 Hc Hs Hf|? ? E1 Hc Hs Hf|? ? ? Hi (Hc & Hs & Hf)];
  subst.

(** Every trade is self-financing up to its fee: what the ledger is
    worth at the day's price drops by exactly the fee charged. *)
Lemma step_self_financing :
  equity p l' == equity p l - (l_fees l' - l_fees l).
Proof.
  unfold equity. rules; rewrite ?Hc, ?Hs, ?Hf; rewrite ?E1;
    unfold notional; change (inject_Z 0) with 0; ring.
Qed.

Lemma step_shares_nonneg : (0 <= l_shares l)%Z -> (0 <= l_shares l')%Z.
Proof. intros H. rules; lia. Qed.

(** The marker is the change of the position flag. *)
Lemma step_position : (0 <= l_shares l)%Z -> position l' = (position l + t)%Z.
Proof.
  intros H. unfold position. rules.
  - rewrite Hs, E1. now apply Z.ltb_lt in E2 as ->.
  - rewrite Hs. now apply Z.ltb_lt in E1 as ->.
  - rewrite Hs. lia.
Qed.

Lemma step_marker_range : In t [(-1)%Z; 0%Z; 1%Z].
Proof. rules; simpl; auto. Qed.

(** Without fees the ledger never owes cash: shares are sized by the
    floor of cash over price. *)
Lemma step_cash_nonneg :
  r == 0 -> 0 < p -> (0 <= l_shares l)%Z -> 0 <= l_cash l -> 0 <= l_cash l'.
Proof.
  intros Hr0 Hp0 Hsh Hcash. rules; rewrite <- ?Hc; try assumption; rewrite Hc, Hr0.
  - pose proof (Qfloor_div_mul_le (l_cash l) Hp0).
    unfold notional, purchasable. lra.
  - assert (0 <= notional p (l_shares l))
      by (apply Qmult_le_0_compat; [auto with bt|lra]).
    lra.
Qed.

(** With fees, the cash after a step is at least minus the fee of
    the step. *)
Lemma step_cash_bound :
  0 < p -> (0 <= l_shares l)%Z -> 0 <= l_cash l ->
  - (l_fees l' - l_fees l) <= l_cash l'.
Proof.
  intros Hp0 Hsh Hcash. rules; rewrite <- ?Hc, <- ?Hf; try lra; rewrite Hc, Hf.
  - pose proof (Qfloor_div_mul_le (l_cash l) Hp0).
    unfold notional, purchasable in *. lra.
  - assert (0 <= notional p (l_shares l))
      by (apply Qmult_le_0_compat; [auto with bt|lra]).
    lra.
Qed.
Hypothesis Hr : 0 <= r.
Hypothesis Hp : 0 <= p.

Lemma fee_nonneg (n : Z) : (0 <= n)%Z -> 0 <= notional p n * r.
Proof.
  intros Hn. apply Qmult_le_0_compat; [|assumption].
  apply Qmult_le_0_compat; [auto with bt|assumption].
Qed.

(** Fees only accumulate. *)
Lemma step_fees_mono : (0 <= l_shares l)%Z -> l_fees l <= l_fees l'.
Proof.
  intros H. rules; rewrite <- ?Hf; try lra; rewrite Hf.
  - assert (0 <= notional p (purchasable p l) * r) by (apply fee_nonneg; lia). lra.
  - pose proof (fee_nonneg H). lra.
Qed.

End StepInvariants.

(** ** Invariants of a run *)

Lemma run_shares_nonneg (r : Q) (rows : list (Q * Signal)) (l l' : ledger) (ts : list Z) :
  ledger_run r rows l l' ts -> (0 <= l_shares l)%Z -> (0 <= l_shares l')%Z.
Proof.
  induction 1 as [|p s rows l l1 l2 t ts Hs _ IH]; auto.
  intros H. eapply IH, step_shares_nonneg; eassumption.
Qed.

Lemma run_length (r : Q) (rows : list (Q * Signal)) (l l' : ledger) (ts : list Z) :
  ledger_run r rows l l' ts -> length ts = length rows.
Proof. induction 1; simpl; congruence. Qed.

Lemma run_fees_mono (r : Q) (rows : list (Q * Signal)) (l l' : ledger) (ts : list Z) :
  0 <= r -> Forall (fun row => 0 <= fst row) rows ->
  ledger_run r rows l l' ts -> (0 <= l_shares l)%Z -> l_fees l <= l_fees l'.
Proof.
  intros Hr Hrows Hrun. induction Hrun as [|p s rows l l1 l2 t ts Hs _ IH].
  - intros _. lra.
  - inv Hrows. intros H.
    pose proof (step_fees_mono Hs Hr H1 H).
    pose proof (step_shares_nonneg Hs H). specialize (IH H2 H3). lra.
Qed.

Lemma run_cash_nonneg (r : Q) (rows : list (Q * Signal)) (l l' : ledger) (ts : list Z) :
  r == 0 -> Forall (fun row => 0 < fst row) rows ->
  ledger_run r rows l l' ts -> (0 <= l_shares l)%Z -> 0 <= l_cash l -> 0 <= l_cash l'.
Proof.
  intros Hr Hrows Hrun. induction Hrun as [|p s rows l l1 l2 t ts Hs _ IH]; auto.
  inv Hrows. intros Hsh Hc. apply IH; [assumption|..].
  - eapply step_shares_nonneg; eassumption.
  - eapply step_cash_nonneg; eassumption.
Qed.

(** The markers of a run add up to the change of the position flag:
    buys and sells alternate. *)
Lemma run_position (r : Q) (rows : list (Q * Signal)) (l l' : ledger) (ts : list Z) :
  ledger_run r rows l l' ts -> (0 <= l_shares l)%Z ->
  position l' = (position l + fold_right Z.add 0 ts)%Z.
Proof.
  induction 1 as [|p s rows l l1 l2 t ts Hs _ IH]; intros H; cbn [fold_right].
  - lia.
  - rewrite IH by (eapply step_shares_nonneg; eassumption).
    rewrite (step_position Hs H). lia.
Qed.

Lemma run_app (r : Q) (rows1 rows2 : list (Q * Signal)) (l l1 l2 : ledger)
    (ts1 ts2 : list Z) :
  ledger_run r rows1 l l1 ts1 -> ledger_run r rows2 l1 l2 ts2 ->
  ledger_run r (rows1 ++ rows2) l l2 (ts1 ++ ts2).
Proof.
  induction 1; intros H2; simpl; [assumption|].
  econstructor; eauto.
Qed.

(** ** The machine run as a function *)

(** The ledger and the marker after each row. *)
Fixpoint ledger_trace (r : Q) (rows : list (Q * Signal)) (l : ledger)
  : list (ledger * Z) :=
  match rows with
  | [] => []
  | (p, s) :: rows' =>
      let x := ledger_next r p s l in
      x :: ledger_trace r rows' (fst x)
  end.

(** The ledger after the last row. *)
Fixpoint final_ledger (r : Q) (rows : list (Q * Signal)) (l : ledger) : ledger :=
  match rows with
  | [] => l
  | (p, s) :: rows' => final_ledger r rows' (fst (ledger_next r p s l))
  end.

(** A buy signal finds the ledger flat and unable to pay for one share. *)
Definition starved (p : Q) (s : Signal) (l : ledger) : bool :=
  match s with
  | Buy => (l_shares l =? 0)%Z && (purchasable p l <=? 0)%Z
  | _ => false
  end.

(** The number of rows of a run on which the ledger is starved. *)
Fixpoint starved_count (r : Q) (rows : list (Q * Signal)) (l : ledger) : nat :=
  match rows with
  | [] => 0
  | (p, s) :: rows' =>
      ((if starved p s l then 1 else 0)
       + starved_count r rows' (fst (ledger_next r p s l)))%nat
  end.

Lemma length_ledger_trace (r : Q) (rows : list (Q * Signal)) (l : ledger) :
  length (ledger_trace r rows l) = length rows.
Proof.
  revert l. induction rows as [|[p s] rows IH]; intros l; simpl; auto.
Qed.

Lemma ledger_trace_run (r : Q) (rows : list (Q * Signal)) (l : ledger) :
  ledger_run r rows l (final_ledger r rows l) (map snd (ledger_trace r rows l)).
Proof.
  revert l. induction rows as [|[p s] rows IH]; intros l; cbn [ledger_trace map final_ledger].
  - constructor.
  - econstructor; [apply ledger_next_step|apply IH].
Qed.

Lemma starved_count_le (r : Q) (rows : list (Q * Signal)) (l : ledger) :
  (starved_count r rows l <= length rows)%nat.
Proof.
  revert l. induction rows as [|[p s] rows IH]; intros l; cbn [starved_count length].
  - lia.
  - specialize (IH (fst (ledger_next r p s l))). destruct (starved p s l); lia.
Qed.

Lemma ledger_next_shares_nonneg (r p : Q) (s : Signal) (l : ledger) :
  (0 <= l_shares l)%Z -> (0 <= l_shares (fst (ledger_next r p s l)))%Z.
Proof. apply step_shares_nonneg with (1 := ledger_next_step r p s l). Qed.

(** All the ledgers of a trace satisfy what the steps preserve. *)
Lemma ledger_trace_inv (P : ledger -> Prop) (r : Q) (rows : list (Q * Signal)) (l : ledger) :
  (forall p s l0, In (p, s) rows -> P l0 -> P (fst (ledger_next r p s l0))) ->
  P l -> Forall (fun x => P (fst x)) (ledger_trace r rows l).
Proof.
  revert l. induction rows as [|[p s] rows IH]; intros l Hstep Hl;
    cbn [ledger_trace]; constructor.
  - apply Hstep; [now left|assumption].
  - apply IH; [|apply Hstep; [now left|assumption]].
    intros p' s' l0 Hin. apply Hstep. now right.
Qed.

(** The value of the ledger after each row, at the price of the row. *)
Fixpoint equity_curve (r : Q) (rows : list (Q * Signal)) (l : ledger) : list Q :=
  match rows with
  | [] => []
  | (p, s) :: rows' =>
      let l' := fst (ledger_next r p s l) in
      equity p l' :: equity_curve r rows' l'
  end.

(** The relative change from [prev] to [v], 0 when [prev] is 0. *)
Definition simple_return (prev v : Q) : Q :=
  if Qeq_bool prev 0 then 0 else (v - prev) / prev.

(** The day-over-day returns of a value curve that starts from [prev]. *)
Definition returns_from (prev : Q) (values : list Q) : list Q :=
  map_prev (fun v p => simple_return p v) prev values.

Lemma length_equity_curve (r : Q) (rows : list (Q * Signal)) (l : ledger) :
  length (equity_curve r rows l) = length rows.
Proof.
  revert l. induction rows as [|[p s] rows IH]; intros l; simpl; auto.
Qed.

Lemma length_returns_from (prev : Q) (values : list Q) :
  length (returns_from prev values) = length values.
Proof. apply length_map_prev. Qed.

#[export] Hint Rewrite length_ledger_trace length_equity_curve
  length_returns_from : bt_rw.

(** ** Runs without an entry *)

Lemma ledger_next_no_buy (r p : Q) (s : Signal) (l : ledger) :
  s <> Buy -> l_shares l = 0%Z -> ledger_next r p s l = (l, 0%Z).
Proof. intros Hs Hl. destruct s; [congruence| |reflexivity]. cbn. now rewrite Hl. Qed.

(** A flat ledger that meets no buy signal never moves. *)
Lemma ledger_trace_no_buy (r : Q) (rows : list (Q * Signal)) (l : ledger) :
  Forall (fun row => snd row <> Buy) rows -> l_shares l = 0%Z ->
  ledger_trace r rows l = map (fun _ => (l, 0%Z)) rows /\
  final_ledger r rows l = l /\
  starved_count r rows l = 0%nat /\
  Forall (fun v => v == l_cash l) (equity_curve r rows l).
Proof.
  intros Hrows Hl. induction Hrows as [|[p s] rows Hs _ (IH1 & IH2 & IH3 & IH4)];
    cbn [ledger_trace final_ledger starved_count equity_curve map snd] in *.
  - now repeat split.
  - rewrite ledger_next_no_buy by assumption. cbn [fst]. rewrite IH1, IH2, IH3.
    destruct s; [congruence|..]; repeat split; auto; constructor; auto;
      unfold equity, notional; rewrite Hl; change (inject_Z 0) with 0; ring.
Qed.
