(* ===== verification/Backtest.v ===== *)
(** * Backtest: [backtest_strategy]

    The day-by-day replay of the signals against a cash/holdings ledger
    ([src/subcode/calculation.py], [backtest_strategy]).  The variables
    of the Python loop are the fields of [loop_state], the loop body is
    [backtest_step] (with every [append], in the branches where the
    source has them), the loop is [backtest_loop], and
    [backtest_strategy] adds the column assignments that follow the
    loop, each of which pandas refuses when the list is not as long as
    the frame. *)

From Stdlib Require Import String List ZArith QArith Qround Lia Lqa Bool.
From S2P Require Import Prelude Floats Series Ledger.
Import ListNotations.

Set Implicit Arguments.

Local Open Scope Q_scope.
Local Open Scope res_scope.

(** The variables of the loop. *)
Record loop_state : Type := mk_state {
  cash : xfloat;
  holdings : Z;
  total_fees : xfloat;
  portfolio_values : Series;
  positions : list Z;
  trades : list Z;
  daily_returns : Series;
  prev_portfolio_value : xfloat
}.

(** The state before the first iteration. *)
Definition init_state (initial_capital : xfloat) : loop_state :=
  {| cash := initial_capital;
     holdings := 0;
     total_fees := Fin 0;
     portfolio_values := [];
     positions := [];
     trades := [];
     daily_returns := [];
     prev_portfolio_value := initial_capital |}.

(** The ledger after the trade of the day, with the trade marker; the
    position flag is appended here, in the branches that append it. *)
Definition trade_step (fee_percentage : xfloat) (st : loop_state)
    (price : Q) (signal : Z) : result (loop_state * Z) :=
  if (signal =? 1)%Z && (holdings st =? 0)%Z then
    shares <- py_int (floordiv (cash st) price) ;;
    if (0 <? shares)%Z then
      let fee := xmul (Fin (inject_Z shares * price)) fee_percentage in
      Ok ({| cash := xsub (cash st) (xadd (Fin (inject_Z shares * price)) fee);
             holdings := holdings st + shares;
             total_fees := xadd (total_fees st) fee;
             portfolio_values := portfolio_values st;
             positions := positions st ++ [1%Z];
             trades := trades st;
             daily_returns := daily_returns st;
             prev_portfolio_value := prev_portfolio_value st |}, 1%Z)
    else Ok (st, 0%Z)
  else if (signal =? -1)%Z && (0 <? holdings st)%Z then
    let fee := xmul (Fin (inject_Z (holdings st) * price)) fee_percentage in
    Ok ({| cash := xadd (cash st) (xsub (Fin (inject_Z (holdings st) * price)) fee);
           holdings := 0;
           total_fees := xadd (total_fees st) fee;
           portfolio_values := portfolio_values st;
           positions := positions st ++ [0%Z];
           trades := trades st;
           daily_returns := daily_returns st;
           prev_portfolio_value := prev_portfolio_value st |}, (-1)%Z)
  else
    Ok ({| cash := cash st;
           holdings := holdings st;
           total_fees := total_fees st;
           portfolio_values := portfolio_values st;
           positions := positions st ++ [last_or (positions st) 0%Z];
           trades := trades st;
           daily_returns := daily_returns st;
           prev_portfolio_value := prev_portfolio_value st |}, 0%Z).

(** The bookkeeping that ends every iteration. *)
Definition record_step (st : loop_state) (price : Q) (trade : Z) : loop_state :=
  let portfolio_value := xadd (cash st) (Fin (inject_Z (holdings st) * price)) in
  let daily_return :=
    if nonzero (prev_portfolio_value st)
    then xdiv (xsub portfolio_value (prev_portfolio_value st))
              (prev_portfolio_value st)
    else Fin 0 in
  {| cash := cash st;
     holdings := holdings st;
     total_fees := total_fees st;
     portfolio_values := portfolio_values st ++ [portfolio_value];
     positions := positions st;
     trades := trades st ++ [trade];
     daily_returns := daily_returns st ++ [daily_return];
     prev_portfolio_value := portfolio_value |}.

(** One iteration of the loop on the row [(price, signal)]. *)
Definition backtest_step (fee_percentage : xfloat) (st : loop_state)
    (row : Q * Z) : result loop_state :=
  let (price, signal) := row in
  r <- trade_step fee_percentage st price signal ;;
  Ok (record_step (fst r) price (snd r)).

(** The loop over the rows. *)
Definition backtest_loop (fee_percentage : xfloat) (rows : list (Q * Z))
    (st : loop_state) : result loop_state :=
  fold_result (backtest_step fee_percentage) rows st.

(** The columns the function adds to the frame. *)
Record backtest_result : Type := mk_result {
  Portfolio_Value : Series;
  Total_Fees : xfloat;
  Positions : list Z;
  Trades : list Z;
  Strategy_Daily_Return : Series
}.

(** [data[col] = values]: the list must be as long as the frame. *)
Definition assign_column {A : Type} (n : nat) (values : list A) : result (list A) :=
  if (length values =? n)%nat then Ok values
  else Raise (LengthMismatch (length values) n).

(** [backtest_strategy(data, initial_capital, fee_percentage)] on the
    columns [data['Close']] and [data['Signal']]. *)
Definition backtest_strategy (close : list Q) (signal : list Z)
    (initial_capital fee_percentage : xfloat) : result backtest_result :=
  let n := length close in
  st <- backtest_loop fee_percentage (combine close signal)
          (init_state initial_capital) ;;
  pv <- assign_column n (portfolio_values st) ;;
  pos <- assign_column n (positions st) ;;
  tr <- assign_column n (trades st) ;;
  dr <- assign_column n (daily_returns st) ;;
  Ok {| Portfolio_Value := pv;
        Total_Fees := total_fees st;
        Positions := pos;
        Trades := tr;
        Strategy_Daily_Return := dr |}.

(** The column assignments that follow the loop, on a frame of [n]
    rows; [backtest_strategy] ends with them. *)
Definition frame_columns (n : nat) (st : loop_state) : result backtest_result :=
  pv <- assign_column n (portfolio_values st) ;;
  pos <- assign_column n (positions st) ;;
  tr <- assign_column n (trades st) ;;
  dr <- assign_column n (daily_returns st) ;;
  Ok {| Portfolio_Value := pv;
        Total_Fees := total_fees st;
        Positions := pos;
        Trades := tr;
        Strategy_Daily_Return := dr |}.

(** ** What a step does to the columns *)

(** The case analysis of the trade of a day, for a goal that starts
    with the equation of the result: the signal against 1 and -1, the
    holdings against 0, and the number of shares bought. *)
Ltac trade_cases st z :=
  destruct (Z.eqb_spec z 1), (Z.eqb_spec (holdings st) 0); cbn [andb];
  [ intros (? & _ & ?)%bind_ok;
    match goal with
    | H : (if (0 <? ?n)%Z then _ else _) = Ok _ |- _ =>
        destruct (Z.ltb_spec 0 n); injection H as <- <-
    end; cbn; repeat split; auto;
    [left; repeat split; auto; lia|right; left; now repeat split]
  | destruct (Z.eqb_spec z (-1)), (Z.ltb_spec 0 (holdings st)); cbn [andb];
    intros [= <- <-]; cbn; repeat split; auto; try lia;
    try (right; right; right; now repeat split);
    right; right; left; repeat split; auto .. ].

(** The three outcomes of [trade_step] on the position column. *)
Lemma trade_step_cases (fee : xfloat) (st st' : loop_state) (p : Q) (z t : Z) :
  trade_step fee st p z = Ok (st', t) ->
  portfolio_values st' = portfolio_values st /\
  trades st' = trades st /\
  daily_returns st' = daily_returns st /\
  prev_portfolio_value st' = prev_portfolio_value st /\
  ((z = 1%Z /\ holdings st = 0%Z /\ t = 1%Z /\ (0 < holdings st')%Z /\
    positions st' = positions st ++ [1%Z]) \/
   (z = 1%Z /\ holdings st = 0%Z /\ t = 0%Z /\ st' = st) \/
   (z = (-1)%Z /\ (0 < holdings st)%Z /\ t = (-1)%Z /\ holdings st' = 0%Z /\
    positions st' = positions st ++ [0%Z]) \/
   (t = 0%Z /\ holdings st' = holdings st /\ cash st' = cash st /\
    total_fees st' = total_fees st /\
    positions st' = positions st ++ [last_or (positions st) 0%Z])).
Proof. unfold trade_step. trade_cases st z. Qed.

Lemma record_step_fields (st : loop_state) (p : Q) (t : Z) :
  let st' := record_step st p t in
  cash st' = cash st /\ holdings st' = holdings st /\
  total_fees st' = total_fees st /\ positions st' = positions st /\
  trades st' = trades st ++ [t] /\
  portfolio_values st' =
    portfolio_values st ++ [xadd (cash st) (Fin (inject_Z (holdings st) * p))] /\
  prev_portfolio_value st' = xadd (cash st) (Fin (inject_Z (holdings st) * p)) /\
  length (daily_returns st') = S (length (daily_returns st)).
Proof. cbn. rewrite length_snoc. now repeat split. Qed.

Lemma backtest_step_ok (fee : xfloat) (st st' : loop_state) (p : Q) (z : Z) :
  backtest_step fee st (p, z) = Ok st' ->
  exists st1 t, trade_step fee st p z = Ok (st1, t) /\ st' = record_step st1 p t.
Proof.
  unfold backtest_step. intros ([st1 t] & H1 & [= <-])%bind_ok. eauto.
Qed.

(** ** The shape of an iteration *)

(** What the trade of a day does to the columns and the holdings,
    whatever the amounts are and however they are computed: an entry,
    a buy signal that buys nothing, an exit, or no trade. *)
Definition trade_shape (st st' : loop_state) (z t : Z) : Prop :=
  portfolio_values st' = portfolio_values st /\
  trades st' = trades st /\
  daily_returns st' = daily_returns st /\
  prev_portfolio_value st' = prev_portfolio_value st /\
  ((z = 1%Z /\ holdings st = 0%Z /\ t = 1%Z /\ (0 < holdings st')%Z /\
    positions st' = positions st ++ [1%Z]) \/
   (z = 1%Z /\ holdings st = 0%Z /\ t = 0%Z /\ st' = st) \/
   (z = (-1)%Z /\ (0 < holdings st)%Z /\ t = (-1)%Z /\ holdings st' = 0%Z /\
    positions st' = positions st ++ [0%Z]) \/
   (t = 0%Z /\ holdings st' = holdings st /\ cash st' = cash st /\
    total_fees st' = total_fees st /\
    positions st' = positions st ++ [last_or (positions st) 0%Z])).

(** The state with the value [v], the marker [t] and the return [d] of
    the day appended. *)
Definition recorded (st : loop_state) (t : Z) (v d : xfloat) : loop_state :=
  {| cash := cash st;
     holdings := holdings st;
     total_fees := total_fees st;
     portfolio_values := portfolio_values st ++ [v];
     positions := positions st;
     trades := trades st ++ [t];
     daily_returns := daily_returns st ++ [d];
     prev_portfolio_value := v |}.

(** An iteration on a row with the signal [z]: a trade, then the
    record of the day. *)
Definition step_shape (st st' : loop_state) (z : Z) : Prop :=
  exists st1 t v d, trade_shape st st1 z t /\ st' = recorded st1 t v d.

Lemma backtest_step_shape (fee : xfloat) (st st' : loop_state) (p : Q) (z : Z) :
  backtest_step fee st (p, z) = Ok st' -> step_shape st st' z.
Proof.
  intros (st1 & t & Ht & ->)%backtest_step_ok. exists st1, t. do 2 eexists.
  split; [eapply trade_step_cases, Ht|reflexivity].
Qed.

(** The bookkeeping of the columns: every iteration adds one row to
    the value, trade and return columns and at most one to the position
    column. *)
Definition lag (st : loop_state) : nat :=
  length (portfolio_values st) - length (positions st).

Definition columns_ok (st : loop_state) : Prop :=
  length (trades st) = length (portfolio_values st) /\
  length (daily_returns st) = length (portfolio_values st) /\
  (length (positions st) <= length (portfolio_values st))%nat.

Lemma shape_columns (st st' : loop_state) (z : Z) :
  step_shape st st' z ->
  length (portfolio_values st') = S (length (portfolio_values st)) /\
  length (trades st') = S (length (trades st)) /\
  length (daily_returns st') = S (length (daily_returns st)) /\
  (length (positions st) <= length (positions st') <= S (length (positions st)))%nat.
Proof.
  intros (st1 & t & v & d & (Hv & Ht & Hd & _ & Hc) & ->).
  cbn [recorded portfolio_values trades daily_returns positions].
  rewrite Hv, Ht, Hd, !length_snoc. repeat split; auto;
    destruct Hc as [H|[H|[H|H]]]; decompose [and] H; subst;
    rewrite ?H5, ?H4, ?length_snoc; lia.
Qed.

Lemma backtest_step_columns (fee : xfloat) (st st' : loop_state) (row : Q * Z) :
  backtest_step fee st row = Ok st' ->
  length (portfolio_values st') = S (length (portfolio_values st)) /\
  length (trades st') = S (length (trades st)) /\
  length (daily_returns st') = S (length (daily_returns st)) /\
  (length (positions st) <= length (positions st') <= S (length (positions st)))%nat.
Proof. destruct row as [p z]. intros H%backtest_step_shape. eapply shape_columns, H. Qed.

Lemma backtest_step_columns_ok (fee : xfloat) (st st' : loop_state) (row : Q * Z) :
  columns_ok st -> backtest_step fee st row = Ok st' -> columns_ok st'.
Proof.
  intros (H1 & H2 & H3) H%backtest_step_columns. unfold columns_ok. lia.
Qed.

(** Once the position column lags behind, it never catches up. *)
Lemma backtest_step_lag (fee : xfloat) (st st' : loop_state) (row : Q * Z) :
  backtest_step fee st row = Ok st' -> (lag st <= lag st')%nat.
Proof. intros H%backtest_step_columns. unfold lag. lia. Qed.

Lemma backtest_loop_columns (fee : xfloat) (rows : list (Q * Z)) (st st' : loop_state) :
  backtest_loop fee rows st = Ok st' ->
  length (portfolio_values st') = (length (portfolio_values st) + length rows)%nat /\
  length (trades st') = (length (trades st) + length rows)%nat /\
  length (daily_returns st') = (length (daily_returns st) + length rows)%nat /\
  (lag st <= lag st')%nat.
Proof.
  unfold backtest_loop. revert st.
  induction rows as [|row rows IH]; intros st; cbn [fold_result length].
  - intros [= <-]. lia.
  - intros (st1 & H1 & H2)%bind_ok. specialize (IH _ H2).
    pose proof (backtest_step_columns _ _ _ H1).
    pose proof (backtest_step_lag _ _ _ H1). lia.
Qed.

(** ** Refinement of the ledger machine *)

(** The ledger a loop state stands for, when its amounts are finite. *)
Definition repr (st : loop_state) (l : ledger) : Prop :=
  cash st = Fin (l_cash l) /\ holdings st = l_shares l /\
  total_fees st = Fin (l_fees l).

Definition ledger_of (st : loop_state) : ledger :=
  {| l_cash := to_Q (cash st);
     l_shares := holdings st;
     l_fees := to_Q (total_fees st) |}.

Definition finite_state (st : loop_state) : Prop :=
  is_fin (cash st) = true /\ is_fin (total_fees st) = true.

Lemma repr_ledger_of (st : loop_state) : finite_state st -> repr st (ledger_of st).
Proof.
  intros [Hc Hf]. unfold repr, ledger_of. cbn.
  destruct (cash st), (total_fees st); try discriminate. auto.
Qed.

Lemma repr_finite (st : loop_state) (l : ledger) : repr st l -> finite_state st.
Proof. intros (Hc & _ & Hf). unfold finite_state. now rewrite Hc, Hf. Qed.

Lemma repr_init (c : Q) : repr (init_state (Fin c)) (mk_ledger c 0 0).
Proof. now repeat split. Qed.

Lemma decode_cases (z : Z) :
  (z = 1%Z /\ decode z = Buy) \/ (z = (-1)%Z /\ decode z = Sell) \/
  (z <> 1%Z /\ z <> (-1)%Z /\ decode z = Hold).
Proof.
  unfold decode. destruct (Z.eqb_spec z 1); [auto|].
  destruct (Z.eqb_spec z (-1)); auto.
Qed.

(** On a finite ledger and a non-zero price the trade of the day never
    raises and is the step of the ledger machine. *)
Lemma trade_step_next (r p : Q) (st : loop_state) (l : ledger) (z : Z) :
  repr st l -> ~ p == 0 ->
  exists st',
    trade_step (Fin r) st p z = Ok (st', snd (ledger_next r p (decode z) l)) /\
    repr st' (fst (ledger_next r p (decode z) l)).
Proof.
  intros (Hc & Hh & Hf) Hp. unfold trade_step, repr. rewrite Hc, Hh, Hf.
  rewrite py_int_floordiv by assumption. cbn [bind xmul xadd xsub xopp].
  fold (purchasable p l).
  destruct (decode_cases z) as [[-> ->]|[[-> ->]|(N1 & N2 & ->)]];
    cbn [ledger_next].
  - cbn [Z.eqb Pos.eqb].
    destruct (l_shares l =? 0)%Z eqn:E; cbn [andb];
      [destruct (0 <? purchasable p l)%Z|destruct (0 <? l_shares l)%Z];
      eexists; (split; [reflexivity|]); cbn; auto.
    apply Z.eqb_eq in E. rewrite E. auto.
  - cbn [Z.eqb andb]. destruct (0 <? l_shares l)%Z;
      eexists; (split; [reflexivity|]); cbn; auto.
  - apply Z.eqb_neq in N1 as ->, N2 as ->. cbn [andb].
    eexists. split; [reflexivity|]. cbn. auto.
Qed.

Lemma trade_step_refines (r p : Q) (st : loop_state) (l : ledger) (z : Z) :
  repr st l -> ~ p == 0 ->
  exists st' l' t,
    trade_step (Fin r) st p z = Ok (st', t) /\ repr st' l' /\
    ledger_step r p (decode z) l l' t.
Proof.
  intros Hr Hp. destruct (trade_step_next r z Hr Hp) as (st' & H1 & H2).
  eexists _, _, _. split; [eassumption|]. split; [eassumption|].
  apply ledger_next_step.
Qed.

Lemma backtest_step_refines (r p : Q) (st : loop_state) (l : ledger) (z : Z) :
  repr st l -> ~ p == 0 ->
  exists st' l' t,
    backtest_step (Fin r) st (p, z) = Ok st' /\ repr st' l' /\
    ledger_step r p (decode z) l l' t /\
    trades st' = trades st ++ [t] /\
    portfolio_values st' = portfolio_values st ++ [Fin (equity p l')].
Proof.
  intros Hr Hp.
  destruct (trade_step_refines r z Hr Hp) as (st1 & l' & t & H1 & H2 & H3).
  exists (record_step st1 p t), l', t. unfold backtest_step. rewrite H1.
  destruct (trade_step_cases _ _ _ _ H1) as (Hpv & Htr & _).
  destruct H2 as (Hc & Hh & Hf).
  split; [reflexivity|]. split; [now repeat split|]. split; [assumption|].
  cbn. rewrite Htr, Hpv, Hc, Hh. now split.
Qed.

(** The rows of the frame as the machine reads them. *)
Definition decode_rows (rows : list (Q * Z)) : list (Q * Signal) :=
  map (fun row => (fst row, decode (snd row))) rows.

(** On finite amounts and non-zero prices the loop never raises, and
    the ledger it leaves is reached by a run of the ledger machine
    whose markers are the trades the loop recorded and whose equities
    are the values it recorded. *)
Lemma backtest_loop_refines (r : Q) (rows : list (Q * Z)) (st : loop_state) (l : ledger) :
  repr st l -> Forall (fun row => ~ fst row == 0) rows ->
  exists st' l' ts,
    backtest_loop (Fin r) rows st = Ok st' /\ repr st' l' /\
    ledger_run r (decode_rows rows) l l' ts /\
    trades st' = trades st ++ ts.
Proof.
  intros Hr Hrows. revert st l Hr.
  induction Hrows as [|[p z] rows Hp _ IH]; intros st l Hr.
  - exists st, l, []. rewrite app_nil_r.
    split; [reflexivity|]. split; [exact Hr|]. split; [constructor|reflexivity].
  - cbn [fst] in Hp. destruct (backtest_step_refines r z Hr Hp)
      as (st1 & l1 & t & H1 & H2 & H3 & H4 & _).
    destruct (IH st1 l1 H2) as (st' & l' & ts & H5 & H6 & H7 & H8).
    exists st', l', (t :: ts). unfold backtest_loop in *.
    cbn [fold_result]. rewrite H1. cbn [bind].
    split; [assumption|]. split; [assumption|]. split.
    + econstructor; eassumption.
    + now rewrite H8, H4, <- app_assoc.
Qed.

(** ** The loop, column by column *)

(** The position flag an iteration appends, from the marker of the
    trade. *)
Definition appended_flag (pos : list Z) (t : Z) : Z :=
  match t with
  | 1%Z => 1%Z
  | (-1)%Z => 0%Z
  | _ => last_or pos 0%Z
  end.

(** The trade of the day on a finite ledger, as the ledger machine
    computes it; the position column is left alone on a starved row. *)
Lemma trade_step_spec (r p c f : Q) (h z : Z) (pv dr : Series) (pos tr : list Z)
    (pp : xfloat) :
  ~ p == 0 ->
  let l := mk_ledger c h f in
  let x := ledger_next r p (decode z) l in
  trade_step (Fin r) (mk_state (Fin c) h (Fin f) pv pos tr dr pp) p z =
  Ok (mk_state (Fin (l_cash (fst x))) (l_shares (fst x)) (Fin (l_fees (fst x))) pv
        (if starved p (decode z) l then pos
         else pos ++ [appended_flag pos (snd x)]) tr dr pp,
      snd x).
Proof.
  intros Hp l x. subst x l. unfold trade_step.
  cbn [cash holdings total_fees positions].
  rewrite py_int_floordiv by assumption. cbn [bind xmul xadd xsub xopp].
  destruct (decode_cases z) as [[-> ->]|[[-> ->]|(N1 & N2 & ->)]];
    cbn [ledger_next starved l_shares l_cash l_fees]; unfold purchasable;
    cbn [l_cash].
  - cbn [Z.eqb Pos.eqb].
    destruct (Z.eqb_spec h 0) as [->|E]; cbn [andb].
    + destruct (Z.ltb_spec 0 (Qfloor (c / p))), (Z.leb_spec (Qfloor (c / p)) 0);
        try lia; reflexivity.
    + now destruct (0 <? h)%Z.
  - cbn [Z.eqb andb]. now destruct (0 <? h)%Z.
  - apply Z.eqb_neq in N1 as ->, N2 as ->. reflexivity.
Qed.

Lemma daily_return_finite (q v : Q) :
  (if nonzero (Fin q) then xdiv (xsub (Fin v) (Fin q)) (Fin q) else Fin 0) =
  Fin (simple_return q v).
Proof.
  unfold nonzero, simple_return. cbn [xeqb xsub xadd xopp xdiv].
  now destruct (Qeq_bool q 0).
Qed.

(** One iteration on a finite ledger. *)
Lemma backtest_step_spec (r p c f q : Q) (h z : Z) (pv dr : Series) (pos tr : list Z) :
  ~ p == 0 ->
  let l := mk_ledger c h f in
  let x := ledger_next r p (decode z) l in
  backtest_step (Fin r) (mk_state (Fin c) h (Fin f) pv pos tr dr (Fin q)) (p, z) =
  Ok (mk_state (Fin (l_cash (fst x))) (l_shares (fst x)) (Fin (l_fees (fst x)))
        (pv ++ [Fin (equity p (fst x))])
        (if starved p (decode z) l then pos
         else pos ++ [appended_flag pos (snd x)])
        (tr ++ [snd x])
        (dr ++ [Fin (simple_return q (equity p (fst x)))])
        (Fin (equity p (fst x)))).
Proof.
  intros Hp l x. unfold backtest_step. rewrite trade_step_spec by assumption.
  cbn [bind fst snd]. unfold record_step.
  cbn [cash holdings total_fees portfolio_values positions trades daily_returns
       prev_portfolio_value xadd].
  now rewrite daily_return_finite.
Qed.

Lemma appended_flag_position (r p : Q) (s : Signal) (l : ledger) (pos : list Z) :
  starved p s l = false -> last_or pos 0%Z = position l ->
  appended_flag pos (snd (ledger_next r p s l)) = position (fst (ledger_next r p s l)).
Proof.
  intros Hs Hpos. unfold position in *. destruct s; cbn [ledger_next starved] in *.
  - destruct (Z.eqb_spec (l_shares l) 0) as [E|E]; cbn [andb] in *.
    + apply Z.leb_gt in Hs. destruct (Z.ltb_spec 0 (purchasable p l)); [|lia].
      cbn [fst snd appended_flag l_shares]. now destruct (Z.ltb_spec 0 (purchasable p l)); [|lia].
    + exact Hpos.
  - destruct (Z.ltb_spec 0 (l_shares l)) as [E|E]; cbn; [reflexivity|].
    rewrite Hpos. now destruct (Z.ltb_spec 0 (l_shares l)); [lia|].
  - exact Hpos.
Qed.

(** The loop on a finite ledger: it never raises on non-zero prices,
    and every column it builds is the corresponding column of the
    ledger machine; the position column misses one row per starved
    row. *)
Lemma backtest_loop_spec (r : Q) (rows : list (Q * Z)) :
  Forall (fun row => ~ fst row == 0) rows ->
  forall (c f q : Q) (h : Z) (pv dr : Series) (pos tr : list Z),
  let l := mk_ledger c h f in
  let drows := decode_rows rows in
  let lf := final_ledger r drows l in
  exists pos',
    backtest_loop (Fin r) rows (mk_state (Fin c) h (Fin f) pv pos tr dr (Fin q)) =
    Ok (mk_state (Fin (l_cash lf)) (l_shares lf) (Fin (l_fees lf))
          (pv ++ of_Q (equity_curve r drows l))
          pos'
          (tr ++ map snd (ledger_trace r drows l))
          (dr ++ of_Q (returns_from q (equity_curve r drows l)))
          (Fin (last (equity_curve r drows l) q))) /\
    (length pos' + starved_count r drows l = length pos + length rows)%nat /\
    (starved_count r drows l = 0%nat -> last_or pos 0%Z = position l ->
     pos' = pos ++ map (fun x => position (fst x)) (ledger_trace r drows l)).
Proof.
  unfold backtest_loop.
  induction 1 as [|[p z] rows Hp _ IH]; intros c f q h pv dr pos tr; cbv zeta.
  - exists pos. cbn. rewrite !app_nil_r. repeat split; auto.
  - cbn [fst] in Hp. cbn [fold_result]. rewrite backtest_step_spec by assumption.
    change (decode_rows ((p, z) :: rows)) with ((p, decode z) :: decode_rows rows).
    cbn [bind map fst snd final_ledger equity_curve ledger_trace
         starved_count returns_from map_prev of_Q].
    set (l := mk_ledger c h f). set (x := ledger_next r p (decode z) l).
    destruct (IH (l_cash (fst x)) (l_fees (fst x)) (equity p (fst x))
                 (l_shares (fst x)) (pv ++ [Fin (equity p (fst x))])
                 (dr ++ [Fin (simple_return q (equity p (fst x)))])
                 (if starved p (decode z) l then pos
                  else pos ++ [appended_flag pos (snd x)])
                 (tr ++ [snd x])) as (pos' & Heq & Hlen & Hpos).
    cbv zeta in Heq, Hlen, Hpos.
    replace (mk_ledger (l_cash (fst x)) (l_shares (fst x)) (l_fees (fst x)))
      with (fst x) in * by now destruct (fst x).
    exists pos'. rewrite Heq, <- !app_assoc. split; [|split].
    + do 3 f_equal. symmetry. apply last_cons_default.
    + cbn [length]. destruct (starved p (decode z) l);
        rewrite ?length_snoc in Hlen; lia.
    + intros Hsc Hlast. destruct (starved p (decode z) l) eqn:Est; [discriminate|].
      assert (Hflag := appended_flag_position r _ _ _ pos Est Hlast). fold x in Hflag.
      rewrite Hpos; [now rewrite <- app_assoc, Hflag|exact Hsc|].
      now rewrite last_or_snoc.
Qed.

(** ** The function *)

Lemma assign_column_ok (A : Type) (n : nat) (v : list A) :
  length v = n -> assign_column n v = Ok v.
Proof. intros H. unfold assign_column. now apply Nat.eqb_eq in H as ->. Qed.

Lemma assign_column_raise (A : Type) (n : nat) (v : list A) :
  length v <> n -> assign_column n v = Raise (LengthMismatch (length v) n).
Proof. intros H. unfold assign_column. now apply Nat.eqb_neq in H as ->. Qed.

(** The rows of the frame, as the ledger machine reads them. *)
Definition frame_rows (close : list Q) (signal : list Z) : list (Q * Signal) :=
  decode_rows (combine close signal).

(** The columns of the ledger machine started flat with cash [c]. *)
Definition machine_result (r c : Q) (rows : list (Q * Signal)) : backtest_result :=
  let l0 := mk_ledger c 0 0 in
  {| Portfolio_Value := of_Q (equity_curve r rows l0);
     Total_Fees := Fin (l_fees (final_ledger r rows l0));
     Positions := map (fun x => position (fst x)) (ledger_trace r rows l0);
     Trades := map snd (ledger_trace r rows l0);
     Strategy_Daily_Return := of_Q (returns_from c (equity_curve r rows l0)) |}.

Lemma length_frame_rows (close : list Q) (signal : list Z) :
  length signal = length close -> length (frame_rows close signal) = length close.
Proof.
  intros H. unfold frame_rows, decode_rows. rewrite length_map, length_combine. lia.
Qed.

(** On a finite capital and fee rate and non-zero prices the function
    is the ledger machine, except that every starved row leaves the
    position list one short, which the assignment of the column
    refuses. *)
Lemma backtest_strategy_spec (close : list Q) (signal : list Z) (c r : Q) :
  length signal = length close -> Forall (fun p => ~ p == 0) close ->
  let rows := frame_rows close signal in
  let k := starved_count r rows (mk_ledger c 0 0) in
  backtest_strategy close signal (Fin c) (Fin r) =
  if (k =? 0)%nat then Ok (machine_result r c rows)
  else Raise (LengthMismatch (length close - k) (length close)).
Proof.
  intros Hlen Hp rows k. unfold backtest_strategy, init_state.
  destruct (backtest_loop_spec r (@Forall_combine_fst _ _ _ _ signal Hp) c 0 c 0%Z [] [] [] [])
    as (pos' & -> & Hl & Hpos).
  fold (frame_rows close signal) in *. fold rows in Hl, Hpos |- *. fold k in Hl, Hpos.
  pose proof (length_frame_rows close signal Hlen) as Hn. fold rows in Hn.
  assert (Hc : length (combine close signal) = length close)
    by (rewrite length_combine; lia).
  cbn [bind portfolio_values positions trades daily_returns total_fees app length] in *.
  rewrite assign_column_ok by (unfold of_Q; now rewrite length_map, length_equity_curve).
  cbn [bind]. destruct (Nat.eqb_spec k 0) as [E|E].
  - rewrite Hpos by (assumption || reflexivity).
    rewrite !assign_column_ok; [reflexivity|..]; unfold of_Q;
      now rewrite ?length_map, ?length_returns_from, ?length_equity_curve,
        ?length_ledger_trace.
  - rewrite assign_column_raise by lia. cbn [bind]. do 2 f_equal. lia.
Qed.

Lemma assign_column_inv (A : Type) (n : nat) (v v' : list A) :
  assign_column n v = Ok v' -> v' = v /\ length v = n.
Proof.
  unfold assign_column. destruct (Nat.eqb_spec (length v) n); [|discriminate].
  now intros [= <-].
Qed.

Lemma backtest_strategy_columns (close : list Q) (signal : list Z) (c0 fee : xfloat) :
  backtest_strategy close signal c0 fee =
  (st <- backtest_loop fee (combine close signal) (init_state c0) ;;
   frame_columns (length close) st).
Proof. reflexivity. Qed.

(** The assignments succeed when every column is as long as the frame. *)
Lemma frame_columns_ok (n : nat) (st : loop_state) (res : backtest_result) :
  frame_columns n st = Ok res ->
  res = mk_result (portfolio_values st) (total_fees st) (positions st)
          (trades st) (daily_returns st) /\
  length (portfolio_values st) = n /\
  length (positions st) = n /\
  length (trades st) = n /\
  length (daily_returns st) = n.
Proof.
  unfold frame_columns.
  intros (pv & [-> ?]%assign_column_inv & (pos & [-> ?]%assign_column_inv &
    (tr & [-> ?]%assign_column_inv & (dr & [-> ?]%assign_column_inv & [= <-])
    %bind_ok)%bind_ok)%bind_ok)%bind_ok.
  now repeat split.
Qed.

(** A result is the columns of the state the loop ends in, each as long
    as the frame. *)
Lemma backtest_strategy_ok (close : list Q) (signal : list Z) (c0 fee : xfloat)
    (res : backtest_result) :
  backtest_strategy close signal c0 fee = Ok res ->
  exists st,
    backtest_loop fee (combine close signal) (init_state c0) = Ok st /\
    res = mk_result (portfolio_values st) (total_fees st) (positions st)
            (trades st) (daily_returns st) /\
    length (portfolio_values st) = length close /\
    length (positions st) = length close /\
    length (trades st) = length close /\
    length (daily_returns st) = length close.
Proof.
  rewrite backtest_strategy_columns. intros (st & Hst & H%frame_columns_ok)%bind_ok.
  exists st. now split.
Qed.

(** ** The flags of the loop *)

(** What the loop maintains whatever the amounts are: the position
    flags are 0 or 1, the trade markers are -1, 0 or 1, the holdings
    are never negative and the last flag says whether shares are held. *)
Definition flags_ok (st : loop_state) : Prop :=
  Forall (fun z => z = 0 \/ z = 1)%Z (positions st) /\
  Forall (fun t => In t [-1; 0; 1]%Z) (trades st) /\
  (0 <= holdings st)%Z /\
  last_or (positions st) 0%Z = (if (0 <? holdings st)%Z then 1 else 0)%Z.

Lemma flags_ok_init (c0 : xfloat) : flags_ok (init_state c0).
Proof. repeat split; cbn; auto; lia. Qed.

#[export] Hint Resolve flags_ok_init : bt.

Lemma flags_ok_last (st : loop_state) :
  flags_ok st -> (last_or (positions st) 0 = 0 \/ last_or (positions st) 0 = 1)%Z.
Proof. intros (_ & _ & _ & ->). destruct (0 <? holdings st)%Z; auto. Qed.

Lemma shape_flags (st st' : loop_state) (z : Z) :
  flags_ok st -> step_shape st st' z -> flags_ok st'.
Proof.
  intros Hst (st1 & t & v & d & (_ & Htr & _ & _ & Hc) & ->).
  pose proof (flags_ok_last Hst) as Hlast. destruct Hst as (H1 & H2 & H3 & H4).
  unfold flags_ok. cbn [recorded positions trades holdings]. rewrite Htr.
  destruct Hc as [(_ & _ & -> & Hh & ->)|[(_ & _ & -> & ->)|[(_ & _ & -> & Hh & ->)|
    (-> & Hh & _ & _ & ->)]]]; rewrite ?Hh, ?last_or_snoc;
    repeat split; auto; try lia; try (apply Forall_snoc; simpl; auto).
  now apply Z.ltb_lt in Hh as ->.
Qed.

Lemma backtest_step_flags (fee : xfloat) (st st' : loop_state) (row : Q * Z) :
  flags_ok st -> backtest_step fee st row = Ok st' -> flags_ok st'.
Proof. destruct row as [p z]. intros Hst H%backtest_step_shape. eapply shape_flags; eassumption. Qed.

Lemma backtest_loop_flags (fee : xfloat) (rows : list (Q * Z)) (st st' : loop_state) :
  flags_ok st -> backtest_loop fee rows st = Ok st' -> flags_ok st'.
Proof. apply fold_result_inv. intros; eapply backtest_step_flags; eassumption. Qed.

(** ** Correctness of [backtest_strategy] *)

(** C1: when no row is starved, [backtest_strategy] returns exactly
    the columns of the ledger machine of the design, started flat with
    the initial capital: its trade markers are the markers of a run of
    the machine over the rows of the frame, and the fee total is the
    fee total of the ledger that run ends in. *)
Theorem backtest_strategy_refines (close : list Q) (signal : list Z) (c r : Q) :
  length signal = length close -> Forall (fun p => ~ p == 0) close ->
  starved_count r (frame_rows close signal) (mk_ledger c 0 0) = 0%nat ->
  exists res l',
    backtest_strategy close signal (Fin c) (Fin r) = Ok res /\
    res = machine_result r c (frame_rows close signal) /\
    ledger_run r (frame_rows close signal) (mk_ledger c 0 0) l' (Trades res) /\
    Total_Fees res = Fin (l_fees l').
Proof.
  intros Hlen Hp Hk. rewrite backtest_strategy_spec, Hk by assumption.
  eexists _, _. split; [reflexivity|]. split; [reflexivity|].
  split; [apply ledger_trace_run|reflexivity].
Qed.

Lemma backtest_strategy_refines_witness :
  exists res l',
    backtest_strategy [100; 100; 90; 90; 110; 110; 130; 80; 80; 80]
      [0; 0; 0; 0; 1; 0; 0; -1; 0; 1]%Z (Fin 1000) (Fin (1 # 1000)) = Ok res /\
    res = machine_result (1 # 1000) 1000
            (frame_rows [100; 100; 90; 90; 110; 110; 130; 80; 80; 80]
               [0; 0; 0; 0; 1; 0; 0; -1; 0; 1]%Z) /\
    ledger_run (1 # 1000)
      (frame_rows [100; 100; 90; 90; 110; 110; 130; 80; 80; 80]
         [0; 0; 0; 0; 1; 0; 0; -1; 0; 1]%Z) (mk_ledger 1000 0 0) l' (Trades res) /\
    Total_Fees res = Fin (l_fees l').
Proof.
  apply (@backtest_strategy_refines [100; 100; 90; 90; 110; 110; 130; 80; 80; 80]
           [0; 0; 0; 0; 1; 0; 0; -1; 0; 1]%Z 1000 (1 # 1000)).
  - reflexivity.
  - repeat constructor; discriminate.
  - now vm_compute.
Defined.

(** C2: a buy signal that finds the ledger flat and unable to pay for
    one share appends nothing to the position list, so the list ends
    shorter than the frame and the assignment of the position column
    raises: [backtest_strategy] fails with a length mismatch that counts
    the starved rows, where the design asks for a silent no-trade. *)
Theorem backtest_strategy_starved (close : list Q) (signal : list Z) (c r : Q) :
  length signal = length close -> Forall (fun p => ~ p == 0) close ->
  (0 < starved_count r (frame_rows close signal) (mk_ledger c 0 0))%nat ->
  backtest_strategy close signal (Fin c) (Fin r) =
  Raise (LengthMismatch
           (length close - starved_count r (frame_rows close signal) (mk_ledger c 0 0))
           (length close)).
Proof.
  intros Hlen Hp Hk. rewrite backtest_strategy_spec by assumption.
  now destruct (Nat.eqb_spec (starved_count r (frame_rows close signal)
                                (mk_ledger c 0 0)) 0); [lia|].
Qed.

Lemma backtest_strategy_starved_witness :
  backtest_strategy [100; 100; 90; 90; 110; 110; 130; 80; 80; 80]
    [0; 0; 0; 0; 1; 0; 0; -1; 0; 1]%Z (Fin 100) (Fin 0) =
  Raise (LengthMismatch
           (10 - starved_count 0
                   (frame_rows [100; 100; 90; 90; 110; 110; 130; 80; 80; 80]
                      [0; 0; 0; 0; 1; 0; 0; -1; 0; 1]%Z) (mk_ledger 100 0 0))
           10).
Proof.
  apply (@backtest_strategy_starved [100; 100; 90; 90; 110; 110; 130; 80; 80; 80]
           [0; 0; 0; 0; 1; 0; 0; -1; 0; 1]%Z 100 0).
  - reflexivity.
  - repeat constructor; discriminate.
  - vm_compute. lia.
Defined.

(** C5: every iteration of the loop is self-financing up to the fee
    it charges: the cash plus the holdings at the price of the day
    after the iteration is what it was before, minus the fee added to
    the fee total. *)
Theorem backtest_step_self_financing (r p c f q : Q) (h z : Z) (pv dr : Series)
    (pos tr : list Z) (st' : loop_state) :
  ~ p == 0 ->
  backtest_step (Fin r) (mk_state (Fin c) h (Fin f) pv pos tr dr (Fin q)) (p, z) = Ok st' ->
  exists c' f',
    cash st' = Fin c' /\ total_fees st' = Fin f' /\
    c' + inject_Z (holdings st') * p == c + inject_Z h * p - (f' - f).
Proof.
  intros Hp. rewrite backtest_step_spec by assumption. intros [= <-].
  eexists _, _. split; [reflexivity|]. split; [reflexivity|].
  apply (step_self_financing (ledger_next_step r p (decode z) (mk_ledger c h f))).
Qed.

Lemma backtest_step_self_financing_witness :
  exists st',
    backtest_step (Fin (1 # 100)) (init_state (Fin 100)) (10, 1%Z) = Ok st' /\
    exists c' f',
      cash st' = Fin c' /\ total_fees st' = Fin f' /\
      c' + inject_Z (holdings st') * 10 == 100 + inject_Z 0 * 10 - (f' - 0).
Proof.
  eexists. split; [vm_compute; reflexivity|].
  apply (@backtest_step_self_financing (1 # 100) 10 100 0 100 0 1 [] [] [] []).
  - discriminate.
  - now vm_compute.
Defined.

(** ** The ledger the loop ends in *)

Lemma Forall_decode_rows (P : Q -> Prop) (rows : list (Q * Z)) :
  Forall (fun row => P (fst row)) rows ->
  Forall (fun row => P (fst row)) (decode_rows rows).
Proof. intros H. unfold decode_rows. apply Forall_map. exact H. Qed.

Lemma Forall_pos_nonzero (A : Type) (rows : list (Q * A)) :
  Forall (fun row => 0 < fst row) rows -> Forall (fun row => ~ fst row == 0) rows.
Proof. apply Forall_impl. intros row H E. rewrite E in H. lra. Qed.

(** From a finite state the loop ends in the ledger the machine ends
    in. *)
Lemma backtest_loop_final (r : Q) (rows : list (Q * Z)) (c f q : Q) (h : Z)
    (pv dr : Series) (pos tr : list Z) (st' : loop_state) :
  Forall (fun row => ~ fst row == 0) rows ->
  backtest_loop (Fin r) rows (mk_state (Fin c) h (Fin f) pv pos tr dr (Fin q)) = Ok st' ->
  let lf := final_ledger r (decode_rows rows) (mk_ledger c h f) in
  cash st' = Fin (l_cash lf) /\ holdings st' = l_shares lf /\
  total_fees st' = Fin (l_fees lf).
Proof.
  intros Hrows H.
  destruct (backtest_loop_spec r Hrows c f q h pv dr pos tr) as (pos' & Heq & _).
  rewrite Heq in H. injection H as <-. now repeat split.
Qed.

(** C21: the fee total only grows: from any finite state with
    non-negative holdings, over any rows with positive prices and with
    a non-negative fee rate, the loop ends with a fee total at least
    as large as the one it started from. *)
Theorem backtest_loop_fees_mono (r : Q) (rows : list (Q * Z)) (c f q : Q) (h : Z)
    (pv dr : Series) (pos tr : list Z) (st' : loop_state) :
  0 <= r -> Forall (fun row => 0 < fst row) rows -> (0 <= h)%Z ->
  backtest_loop (Fin r) rows (mk_state (Fin c) h (Fin f) pv pos tr dr (Fin q)) = Ok st' ->
  exists f', total_fees st' = Fin f' /\ f <= f'.
Proof.
  intros Hr Hrows Hh H.
  apply backtest_loop_final in H as (_ & _ & ->); [|now apply Forall_pos_nonzero].
  eexists. split; [reflexivity|].
  refine (run_fees_mono Hr _ (ledger_trace_run r (decode_rows rows) (mk_ledger c h f)) Hh).
  apply Forall_decode_rows with (P := fun p => 0 <= p).
  eapply Forall_impl; [|exact Hrows]. intros row. apply Qlt_le_weak.
Qed.

Lemma backtest_loop_fees_mono_witness :
  exists st',
    backtest_loop (Fin (1 # 100)) [(10, 1%Z); (12, 0%Z); (11, (-1)%Z)]
      (init_state (Fin 100)) = Ok st' /\
    exists f', total_fees st' = Fin f' /\ 0 <= f'.
Proof.
  eexists. split; [vm_compute; reflexivity|].
  apply (@backtest_loop_fees_mono (1 # 100) [(10, 1%Z); (12, 0%Z); (11, (-1)%Z)]
           100 0 100 0 [] [] [] []).
  - discriminate.
  - repeat constructor.
  - lia.
  - now vm_compute.
Defined.

(** C23: without fees the loop never overdraws the cash: shares are
    sized by the floor of cash over price, so from a finite state with
    non-negative cash and holdings, over rows with positive prices, the
    cash the loop ends with is non-negative. *)
Theorem backtest_loop_cash_nonneg (rows : list (Q * Z)) (c f q : Q) (h : Z)
    (pv dr : Series) (pos tr : list Z) (st' : loop_state) :
  Forall (fun row => 0 < fst row) rows -> (0 <= h)%Z -> 0 <= c ->
  backtest_loop (Fin 0) rows (mk_state (Fin c) h (Fin f) pv pos tr dr (Fin q)) = Ok st' ->
  exists c', cash st' = Fin c' /\ 0 <= c'.
Proof.
  intros Hrows Hh Hc H.
  apply backtest_loop_final in H as (-> & _ & _); [|now apply Forall_pos_nonzero].
  eexists. split; [reflexivity|].
  refine (run_cash_nonneg (Qeq_refl 0) _
            (ledger_trace_run 0 (decode_rows rows) (mk_ledger c h f)) Hh Hc).
  now apply Forall_decode_rows with (P := fun p => 0 < p).
Qed.

Lemma backtest_loop_cash_nonneg_witness :
  exists st',
    backtest_loop (Fin 0) [(30, 1%Z); (12, 0%Z); (11, (-1)%Z)]
      (init_state (Fin 100)) = Ok st' /\
    exists c', cash st' = Fin c' /\ 0 <= c'.
Proof.
  eexists. split; [vm_compute; reflexivity|].
  apply (@backtest_loop_cash_nonneg [(30, 1%Z); (12, 0%Z); (11, (-1)%Z)]
           100 0 100 0 [] [] [] []).
  - repeat constructor.
  - lia.
  - discriminate.
  - now vm_compute.
Defined.

(** C33: an entry overdraws the account exactly when what the
    purchase leaves of the cash does not cover the fee: the shares are
    sized by the cash alone, [int(cash // price)], and the fee is
    charged on top.  With a fee rate above zero and a cash that is a
    multiple of the price the purchase leaves nothing, and the cash
    ends negative. *)
Theorem entry_overdraws (r p c : Q) (st : loop_state) :
  0 < p -> p <= c -> holdings st = 0%Z -> cash st = Fin c ->
  exists st' c',
    trade_step (Fin r) st p 1 = Ok (st', 1%Z) /\ cash st' = Fin c' /\
    (c' < 0 <->
     c - inject_Z (Qfloor (c / p)) * p < inject_Z (Qfloor (c / p)) * p * r).
Proof.
  intros Hp Hc Hh Hst. unfold trade_step. rewrite Hh, Hst. cbn [Z.eqb andb].
  rewrite py_int_floordiv by (intros E; rewrite E in Hp; discriminate). cbn [bind].
  apply (Qfloor_div_pos c Hp) in Hc. apply Z.ltb_lt in Hc as ->.
  eexists _, _. split; [reflexivity|]. split; [reflexivity|].
  set (X := inject_Z (Qfloor (c / p)) * p). split; lra.
Qed.

Lemma entry_overdraws_witness :
  exists st' c',
    trade_step (Fin (1 # 100)) (init_state (Fin 100)) 100 1 = Ok (st', 1%Z) /\
    cash st' = Fin c' /\
    (c' < 0 <->
     100 - inject_Z (Qfloor (100 / 100)) * 100 < inject_Z (Qfloor (100 / 100)) * 100 * (1 # 100)).
Proof.
  apply (@entry_overdraws (1 # 100) 100 100 (init_state (Fin 100))); reflexivity || discriminate.
Defined.

(** C20: whatever the capital and the fee rate are (special values
    included), the position flags of a result are 0 or 1 and its trade
    markers are -1, 0 or 1. *)
Theorem backtest_strategy_flags (close : list Q) (signal : list Z) (c0 fee : xfloat)
    (res : backtest_result) :
  backtest_strategy close signal c0 fee = Ok res ->
  Forall (fun z => z = 0 \/ z = 1)%Z (Positions res) /\
  Forall (fun t => In t [-1; 0; 1]%Z) (Trades res).
Proof.
  intros (st & Hst & -> & _)%backtest_strategy_ok.
  apply backtest_loop_flags in Hst as (H1 & H2 & _); [|auto with bt].
  now split.
Qed.

Lemma backtest_strategy_flags_witness :
  exists res,
    backtest_strategy [100; 100; 90; 90; 110; 110; 130; 80; 80; 80]
      [0; 0; 0; 0; 1; 0; 0; -1; 0; 1]%Z (Fin 1000) (Fin (1 # 1000)) = Ok res /\
    Forall (fun z => z = 0 \/ z = 1)%Z (Positions res) /\
    Forall (fun t => In t [-1; 0; 1]%Z) (Trades res).
Proof.
  eexists. split; [vm_compute; reflexivity|].
  apply (@backtest_strategy_flags [100; 100; 90; 90; 110; 110; 130; 80; 80; 80]
           [0; 0; 0; 0; 1; 0; 0; -1; 0; 1]%Z (Fin 1000) (Fin (1 # 1000))).
  now vm_compute.
Defined.

(** Every column of a result has one row per row of the frame. *)
Theorem backtest_strategy_lengths (close : list Q) (signal : list Z) (c0 fee : xfloat)
    (res : backtest_result) :
  backtest_strategy close signal c0 fee = Ok res ->
  length (Portfolio_Value res) = length close /\
  length (Positions res) = length close /\
  length (Trades res) = length close /\
  length (Strategy_Daily_Return res) = length close.
Proof. intros (st & _ & -> & H)%backtest_strategy_ok. exact H. Qed.

Lemma backtest_strategy_lengths_witness :
  exists res,
    backtest_strategy [10; 12; 11] [1; 0; -1]%Z (Fin 100) (Fin 0) = Ok res /\
    length (Portfolio_Value res) = 3%nat /\ length (Positions res) = 3%nat /\
    length (Trades res) = 3%nat /\ length (Strategy_Daily_Return res) = 3%nat.
Proof.
  eexists. split; [vm_compute; reflexivity|].
  apply (@backtest_strategy_lengths [10; 12; 11] [1; 0; -1]%Z (Fin 100) (Fin 0)).
  now vm_compute.
Defined.

Lemma frame_rows_no_buy (close : list Q) (signal : list Z) :
  Forall (fun z => z <> 1%Z) signal ->
  Forall (fun row => snd row <> Buy) (frame_rows close signal).
Proof.
  intros H. unfold frame_rows, decode_rows. apply Forall_map. cbn [snd].
  revert close. induction H as [|z signal Hz _ IH]; intros [|p close]; cbn; auto.
  constructor; [|apply IH]. cbn [snd]. unfold decode.
  apply Z.eqb_neq in Hz as ->. now destruct (z =? -1)%Z.
Qed.

(** A frame without a buy signal: the ledger never leaves the flat state. *)
Lemma backtest_strategy_idle (close : list Q) (signal : list Z) (c r : Q) :
  length signal = length close -> Forall (fun p => ~ p == 0) close ->
  Forall (fun z => z <> 1%Z) signal ->
  exists res,
    backtest_strategy close signal (Fin c) (Fin r) = Ok res /\
    Forall (fun v => xeq v (Fin c)) (Portfolio_Value res) /\
    Trades res = repeat 0%Z (length close) /\
    Positions res = repeat 0%Z (length close) /\
    Total_Fees res = Fin 0.
Proof.
  intros Hlen Hp Hs. rewrite backtest_strategy_spec by assumption.
  destruct (@ledger_trace_no_buy r _ (mk_ledger c 0 0) (frame_rows_no_buy close Hs) eq_refl)
    as (Ht & Hf & -> & He).
  eexists. split; [reflexivity|]. unfold machine_result.
  cbn [Portfolio_Value Trades Positions Total_Fees]. rewrite Ht, Hf, !map_map.
  cbn [fst snd position l_shares l_fees Z.ltb Z.compare].
  rewrite !map_const, length_frame_rows by assumption.
  repeat split. unfold of_Q. apply Forall_map. exact He.
Qed.

(** A signal column without a buy leaves the capital untouched:
    the function succeeds, the value column is the initial capital on
    every row, no trade is marked, no position is held and no fee is
    paid. *)
Theorem backtest_strategy_no_buy (close : list Q) (signal : list Z) (c r : Q) :
  length signal = length close -> Forall (fun p => ~ p == 0) close ->
  Forall (fun z => z <> 1%Z) signal ->
  exists res,
    backtest_strategy close signal (Fin c) (Fin r) = Ok res /\
    Forall (fun v => xeq v (Fin c)) (Portfolio_Value res) /\
    Trades res = repeat 0%Z (length close) /\
    Positions res = repeat 0%Z (length close) /\
    Total_Fees res = Fin 0.
Proof. apply backtest_strategy_idle. Qed.

Lemma backtest_strategy_no_buy_witness :
  exists res,
    backtest_strategy [10; 12; 11] [0; -1; 0]%Z (Fin 100) (Fin (1 # 100)) = Ok res /\
    Forall (fun v => xeq v (Fin 100)) (Portfolio_Value res) /\
    Trades res = repeat 0%Z 3 /\ Positions res = repeat 0%Z 3 /\
    Total_Fees res = Fin 0.
Proof.
  apply (@backtest_strategy_no_buy [10; 12; 11] [0; -1; 0]%Z 100 (1 # 100)).
  - reflexivity.
  - repeat constructor; discriminate.
  - repeat constructor; discriminate.
Defined.


(** The second entry of the run below buys one share when fees were
    paid on the first round trip. *)
Lemma second_entry (r : Q) :
  0 < r -> r < 4 # 25 ->
  purchasable 50 (fst (ledger_next r 10 Sell (fst (ledger_next r 10 Buy (mk_ledger 100 0 0))))) = 1%Z.
Proof.
  intros H1 H2. unfold purchasable. cbn [ledger_next l_shares l_cash fst Z.eqb andb].
  change (purchasable 10 (mk_ledger 100 0 0)) with 10%Z. cbn [Z.ltb Z.compare Pos.compare Pos.compare_cont andb fst l_shares l_cash].
  unfold notional. change (inject_Z 10) with 10.
  apply Qfloor_unique.
  - apply Qle_shift_div_l; [reflexivity|]. change (inject_Z 1) with 1. lra.
  - apply Qlt_shift_div_r; [reflexivity|]. change (inject_Z (1 + 1)) with 2. lra.
Qed.

(** The run on prices 10, 10, 50, 10 with an entry, an exit and a
    second entry, at a fee rate below 16 percent. *)
Lemma fee_run (r : Q) :
  0 < r -> r < 4 # 25 ->
  let rows := frame_rows [10; 10; 50; 10] [1; -1; 1; 0]%Z in
  starved_count r rows (mk_ledger 100 0 0) = 0%nat /\
  exists v, last_or (of_Q (equity_curve r rows (mk_ledger 100 0 0))) NaN = Fin v /\
            v == 60 - 250 * r.
Proof.
  intros H1 H2 rows. pose proof (second_entry H1 H2) as Hn.
  unfold rows, frame_rows, decode_rows. cbn [combine map fst snd].
  change (decode 1) with Buy. change (decode (-1)) with Sell. change (decode 0) with Hold.
  cbn [starved_count equity_curve of_Q map last_or last].
  set (l2 := fst (ledger_next r 10 Sell (fst (ledger_next r 10 Buy (mk_ledger 100 0 0))))) in *.
  assert (Hs : l_shares l2 = 0%Z) by reflexivity.
  assert (Hc : l_cash l2 == 100 - 200 * r).
  { unfold l2. cbn. unfold notional. change (purchasable 10 (mk_ledger 100 0 0)) with 10%Z.
    cbn. change (inject_Z 10) with 10. ring. }
  assert (E3 : ledger_next r 50 Buy l2 =
               (mk_ledger (l_cash l2 - (notional 50 1 + notional 50 1 * r)) 1
                          (l_fees l2 + notional 50 1 * r), 1%Z)).
  { cbn [ledger_next]. now rewrite Hn, Hs. }
  split.
  - unfold starved. rewrite Hn, Hs. reflexivity.
  - eexists. split; [reflexivity|]. rewrite E3. cbn [fst ledger_next].
    unfold equity, notional. cbn [l_cash l_shares]. change (inject_Z 1) with 1.
    clearbody l2. lra.
Qed.

(** C34: a higher fee rate does not always lower the final value.
    On prices 10, 10, 50, 10 with an entry, an exit and a second
    entry, 100 of capital ends at 20 without fees and at
    [60 - 250 r], which is more, at every fee rate [r] above zero and
    below 16 percent: the fees of the first round trip leave cash for
    one share instead of two before the price falls. *)
Theorem fee_sensitivity_fails (r : Q) :
  0 < r -> r < 4 # 25 ->
  exists res0 res1 v0 v1,
    backtest_strategy [10; 10; 50; 10] [1; -1; 1; 0]%Z (Fin 100) (Fin 0) = Ok res0 /\
    backtest_strategy [10; 10; 50; 10] [1; -1; 1; 0]%Z (Fin 100) (Fin r) = Ok res1 /\
    last_or (Portfolio_Value res0) NaN = Fin v0 /\
    last_or (Portfolio_Value res1) NaN = Fin v1 /\
    v0 == 20 /\ v1 == 60 - 250 * r /\ v0 < v1.
Proof.
  intros H1 H2. destruct (fee_run H1 H2) as (Hk & v & Hv & Ev).
  eexists _, _, _, v. split; [vm_compute; reflexivity|].
  rewrite backtest_strategy_spec, Hk by (reflexivity || (repeat constructor; discriminate)).
  split; [reflexivity|]. split; [vm_compute; reflexivity|]. split; [exact Hv|].
  split; [reflexivity|]. split; [exact Ev|]. rewrite Ev. lra.
Qed.

Lemma fee_sensitivity_fails_witness :
  exists res0 res1 v0 v1,
    backtest_strategy [10; 10; 50; 10] [1; -1; 1; 0]%Z (Fin 100) (Fin 0) = Ok res0 /\
    backtest_strategy [10; 10; 50; 10] [1; -1; 1; 0]%Z (Fin 100) (Fin (1 # 100)) = Ok res1 /\
    last_or (Portfolio_Value res0) NaN = Fin v0 /\
    last_or (Portfolio_Value res1) NaN = Fin v1 /\
    v0 == 20 /\ v1 == 60 - 250 * (1 # 100) /\ v0 < v1.
Proof. apply (@fee_sensitivity_fails (1 # 100)); reflexivity. Defined.

(** ** Positions as the running sum of the trades *)

(** While the position column has a row for every trade, it is the
    running sum of the trade column. *)
Definition balanced (st : loop_state) : Prop :=
  length (positions st) = length (trades st) -> positions st = cumsum 0 (trades st).

(** What the loop maintains on its columns. *)
Definition loop_inv (st : loop_state) : Prop :=
  flags_ok st /\ columns_ok st /\ balanced st.

Lemma loop_inv_init (c0 : xfloat) : loop_inv (init_state c0).
Proof. repeat split; cbn; auto; lia. Qed.

Lemma balanced_snoc (pos tr : list Z) (x t : Z) :
  (length pos = length tr -> pos = cumsum 0 tr) ->
  (x = last_or pos 0 + t)%Z ->
  length (pos ++ [x]) = length (tr ++ [t]) -> pos ++ [x] = cumsum 0 (tr ++ [t]).
Proof.
  intros Hb Hx Hl. rewrite !length_snoc in Hl. injection Hl as Hl.
  rewrite cumsum_snoc, <- (last_cumsum 0 tr), <- (Hb Hl). now subst x.
Qed.

Lemma shape_balanced (st st' : loop_state) (z : Z) :
  loop_inv st -> step_shape st st' z -> balanced st'.
Proof.
  intros (Hf & Hc & Hb) (st1 & t & v & d & (_ & Htr & _ & _ & Hcase) & ->).
  destruct Hf as (_ & _ & _ & Hlast). destruct Hc as (Hc1 & _ & Hc3).
  unfold balanced in *. cbn [recorded positions trades]. rewrite Htr.
  destruct Hcase as [(_ & Hh & -> & _ & ->)|[(_ & _ & -> & ->)|[(_ & Hh & -> & _ & ->)|
    (-> & _ & _ & _ & ->)]]].
  - apply balanced_snoc; [exact Hb|]. rewrite Hlast, Hh. reflexivity.
  - rewrite length_snoc. lia.
  - apply balanced_snoc; [exact Hb|]. rewrite Hlast. now apply Z.ltb_lt in Hh as ->.
  - apply balanced_snoc; [exact Hb|]. lia.
Qed.

Lemma shape_columns_ok (st st' : loop_state) (z : Z) :
  columns_ok st -> step_shape st st' z -> columns_ok st'.
Proof. intros (H1 & H2 & H3) H%shape_columns. unfold columns_ok. lia. Qed.

(** Every iteration keeps the invariant of the columns. *)
Lemma shape_inv (st st' : loop_state) (z : Z) :
  loop_inv st -> step_shape st st' z -> loop_inv st'.
Proof.
  intros H Hs. split; [|split].
  - destruct H as (Hf & _). eapply shape_flags; eassumption.
  - destruct H as (_ & Hc & _). eapply shape_columns_ok; eassumption.
  - eapply shape_balanced; eassumption.
Qed.

Lemma backtest_step_inv (fee : xfloat) (st st' : loop_state) (row : Q * Z) :
  loop_inv st -> backtest_step fee st row = Ok st' -> loop_inv st'.
Proof. destruct row as [p z]. intros H Hs%backtest_step_shape. eapply shape_inv; eassumption. Qed.

Lemma backtest_loop_inv (fee : xfloat) (rows : list (Q * Z)) (st st' : loop_state) :
  loop_inv st -> backtest_loop fee rows st = Ok st' -> loop_inv st'.
Proof. apply fold_result_inv. intros; eapply backtest_step_inv; eassumption. Qed.

(** The columns of a result: positions are the running sum of the
    trades, all running sums being 0 or 1. *)
Lemma backtest_strategy_cumsum (close : list Q) (signal : list Z) (c0 fee : xfloat)
    (res : backtest_result) :
  backtest_strategy close signal c0 fee = Ok res ->
  Positions res = cumsum 0 (Trades res) /\
  Forall (fun z => z = 0 \/ z = 1)%Z (cumsum 0 (Trades res)).
Proof.
  intros (st & Hst & -> & _ & Hp & Ht & _)%backtest_strategy_ok.
  apply backtest_loop_inv in Hst as ((Hf & _) & _ & Hb); [|apply loop_inv_init].
  cbn [Positions Trades]. rewrite <- Hb by congruence. now split.
Qed.

(** C8: in a result the position of a day is the number of buys
    minus the number of sells up to that day, which is 0 or 1: buys and
    sells alternate, a buy first. *)
Theorem backtest_strategy_positions (close : list Q) (signal : list Z) (c0 fee : xfloat)
    (res : backtest_result) (k : nat) :
  backtest_strategy close signal c0 fee = Ok res -> (k < length close)%nat ->
  nth k (Positions res) 0%Z = zsum (firstn (S k) (Trades res)) /\
  (zsum (firstn (S k) (Trades res)) = 0 \/ zsum (firstn (S k) (Trades res)) = 1)%Z.
Proof.
  intros H Hk. destruct (backtest_strategy_cumsum _ _ _ _ H) as [Hp Hall].
  apply backtest_strategy_ok in H as (st & _ & -> & _ & _ & Ht & _). cbn [Trades] in *.
  rewrite <- (Z.add_0_l (zsum _)), <- nth_cumsum by lia. split; [now rewrite Hp|].
  apply (proj1 (Forall_forall _ _) Hall), nth_In. rewrite length_cumsum. lia.
Qed.

Lemma backtest_strategy_positions_witness :
  exists res,
    backtest_strategy [100; 100; 90; 90; 110; 110; 130; 80; 80; 80]
      [0; 0; 0; 0; 1; 0; 0; -1; 0; 1]%Z (Fin 1000) (Fin (1 # 1000)) = Ok res /\
    nth 7 (Positions res) 0%Z = zsum (firstn 8 (Trades res)) /\
    (zsum (firstn 8 (Trades res)) = 0 \/ zsum (firstn 8 (Trades res)) = 1)%Z.
Proof.
  eexists. split; [vm_compute; reflexivity|].
  apply (@backtest_strategy_positions [100; 100; 90; 90; 110; 110; 130; 80; 80; 80]
           [0; 0; 0; 0; 1; 0; 0; -1; 0; 1]%Z (Fin 1000) (Fin (1 # 1000))).
  - now vm_compute.
  - cbn. lia.
Defined.
