(* ===== verification/Simulator.v ===== *)
(** * Simulator: what the report and the plots ask of a backtest

    [calculate_performance_metrics] and [plot_results] read the columns
    a backtest added to the frame.  [Simulator] states what they rely
    on: one row per row of the frame in every column, trade markers
    that are -1, 0 or 1, and positions that are the running sum of the
    markers and 0 or 1.  [backtest_strategy] is an instance; the
    theorems of the clients are proved for any instance. *)

From Stdlib Require Import List ZArith QArith Lia.
From S2P Require Import Prelude Floats Series Ledger Backtest.
Import ListNotations.

Local Open Scope res_scope.

(** A backtest: from the closing prices, the signals, the capital and
    the fee rate to the columns, or an exception. *)
Definition simulator : Type :=
  list Q -> list Z -> xfloat -> xfloat -> result backtest_result.

Class Simulator (run : simulator) : Prop := {
  sim_lengths : forall close signal c0 fee res,
    run close signal c0 fee = Ok res ->
    length (Portfolio_Value res) = length close /\
    length (Positions res) = length close /\
    length (Trades res) = length close /\
    length (Strategy_Daily_Return res) = length close;
  sim_markers : forall close signal c0 fee res,
    run close signal c0 fee = Ok res ->
    Forall (fun t => In t [-1; 0; 1]%Z) (Trades res);
  sim_positions : forall close signal c0 fee res,
    run close signal c0 fee = Ok res ->
    Positions res = cumsum 0 (Trades res) /\
    Forall (fun z => z = 0 \/ z = 1)%Z (Positions res)
}.

(** ** Simulators built from a loop *)

(** A loop whose iterations have the shape of [backtest_step], followed
    by the column assignments, is a simulator, however the amounts are
    computed. *)
Section Shaped.
Variable step : xfloat -> loop_state -> Q * Z -> result loop_state.
Hypothesis step_shaped : forall fee st st' p z,
  step fee st (p, z) = Ok st' -> step_shape st st' z.

Definition run_loop (close : list Q) (signal : list Z) (c0 fee : xfloat) :
    result backtest_result :=
  st <- fold_result (step fee) (combine close signal) (init_state c0) ;;
  frame_columns (length close) st.

Lemma run_loop_inv (fee : xfloat) (rows : list (Q * Z)) (st st' : loop_state) :
  loop_inv st -> fold_result (step fee) rows st = Ok st' -> loop_inv st'.
Proof.
  apply fold_result_inv. intros s [p z] s' Hs H. eapply shape_inv; [exact Hs|].
  eapply step_shaped, H.
Qed.

(** A marker that is not 0 is the signal of its row. *)
Lemma run_loop_trades (fee : xfloat) (rows : list (Q * Z)) (st st' : loop_state) :
  fold_result (step fee) rows st = Ok st' ->
  exists ts, trades st' = trades st ++ ts /\
    Forall2 (fun t (row : Q * Z) => t = 0%Z \/ t = snd row) ts rows.
Proof.
  revert st. induction rows as [|[p z] rows IH]; intros st; cbn [fold_result].
  - intros [= <-]. exists []. now rewrite app_nil_r.
  - intros (st1 & (s1 & t & v & d & Hs & ->)%step_shaped & (ts & E & F)%IH)%bind_ok.
    exists (t :: ts). destruct Hs as (_ & Et & _ & _ & Hc). cbn [trades recorded] in E.
    rewrite E, Et, <- app_assoc. split; [reflexivity|]. constructor; [|exact F].
    cbn [snd]. destruct Hc as [C|[C|[C|C]]]; intuition congruence.
Qed.

Lemma run_loop_on_signals (close : list Q) (signal : list Z) (c0 fee : xfloat)
    (res : backtest_result) :
  run_loop close signal c0 fee = Ok res -> length signal = length close ->
  Forall2 (fun t z => t = 0%Z \/ t = z) (Trades res) signal.
Proof.
  unfold run_loop. intros (st & (ts & E & F)%run_loop_trades & (-> & _)%frame_columns_ok)%bind_ok Hl.
  cbn [Trades trades init_state app] in *. rewrite E. clear E.
  revert signal Hl ts F. induction close as [|p close IH]; intros [|z signal] Hl ts F;
    try discriminate; cbn [combine] in F; inversion F; subst; constructor; auto.
Qed.

Lemma run_loop_simulator (run : simulator) :
  (forall close signal c0 fee, run close signal c0 fee = run_loop close signal c0 fee) ->
  Simulator run.
Proof.
  intros Hrun.
  assert (H : forall close signal c0 fee res, run close signal c0 fee = Ok res ->
            exists st, loop_inv st /\
              res = mk_result (portfolio_values st) (total_fees st) (positions st)
                      (trades st) (daily_returns st) /\
              length (portfolio_values st) = length close /\
              length (positions st) = length close /\
              length (trades st) = length close /\
              length (daily_returns st) = length close).
  { intros close signal c0 fee res. rewrite Hrun. unfold run_loop.
    intros (st & Hst & H%frame_columns_ok)%bind_ok. exists st. split; [|exact H].
    eapply run_loop_inv; [apply loop_inv_init|exact Hst]. }
  split; intros close signal c0 fee res (st & Hinv & -> & Hl)%H; cbn.
  - exact Hl.
  - now destruct Hinv as ((_ & Ht & _) & _).
  - destruct Hinv as ((Hp & _) & _ & Hb). rewrite <- Hb by (destruct Hl; lia). now split.
Qed.
End Shaped.

(** The markers of a backtest, as the loop leaves them. *)
Lemma backtest_strategy_markers (close : list Q) (signal : list Z) (c0 fee : xfloat)
    (res : backtest_result) :
  backtest_strategy close signal c0 fee = Ok res ->
  Forall (fun t => In t [-1; 0; 1]%Z) (Trades res).
Proof.
  intros (st & Hst & -> & _)%backtest_strategy_ok.
  now apply backtest_loop_flags in Hst as (_ & H & _); [|auto with bt].
Qed.

#[export] Instance backtest_strategy_simulator : Simulator backtest_strategy.
Proof.
  apply (run_loop_simulator backtest_step).
  - intros fee st st' p z. apply backtest_step_shape.
  - reflexivity.
Qed.

(** No trade without its signal. *)
Lemma backtest_strategy_on_signals (close : list Q) (signal : list Z) (c0 fee : xfloat)
    (res : backtest_result) :
  backtest_strategy close signal c0 fee = Ok res -> length signal = length close ->
  Forall2 (fun t z => t = 0%Z \/ t = z) (Trades res) signal.
Proof.
  apply (run_loop_on_signals backtest_step).
  intros f st st' p z. apply backtest_step_shape.
Qed.

(** ** Consequences for every simulator *)

(** Markers in order that alternate, [next] first. *)
Fixpoint alternating (next : Z) (l : list Z) : Prop :=
  match l with
  | [] => True
  | t :: l' => t = next /\ alternating (- next) l'
  end.

Definition nonzerob (t : Z) : bool := negb (t =? 0)%Z.

(** Markers whose running sums from [a] are 0 or 1 alternate: the
    next is a buy when [a] is 0 and a sell when it is 1. *)
Lemma cumsum_alternating (a : Z) (ts : list Z) :
  (a = 0 \/ a = 1)%Z ->
  Forall (fun t => In t [-1; 0; 1]%Z) ts ->
  Forall (fun z => z = 0 \/ z = 1)%Z (cumsum a ts) ->
  alternating (1 - 2 * a) (filter nonzerob ts).
Proof.
  intros Ha Ht. revert a Ha. induction Ht as [|t ts Hin _ IH]; intros a Ha Hc; [exact I|].
  cbn [cumsum] in Hc. inversion Hc as [|? ? Hat Hc']; subst.
  specialize (IH _ Hat Hc'). cbn [filter]. unfold nonzerob at 1.
  destruct Hin as [<-|[<-|[<-|[]]]]; cbn [Z.eqb negb alternating].
  - split; [lia|]. replace (- (1 - 2 * a))%Z with (1 - 2 * (a + -1))%Z by lia. exact IH.
  - now replace (a + 0)%Z with a in IH by lia.
  - split; [lia|]. replace (- (1 - 2 * a))%Z with (1 - 2 * (a + 1))%Z by lia. exact IH.
Qed.

Section Clients.
Context (run : simulator) `{Simulator run}.
Variables (close : list Q) (signal : list Z) (c0 fee : xfloat) (res : backtest_result).
Hypothesis Hrun : run close signal c0 fee = Ok res.

(** The executed trades of a run alternate, a buy first. *)
Lemma sim_alternating : alternating 1 (filter nonzerob (Trades res)).
Proof.
  destruct (sim_positions _ _ _ _ _ Hrun) as [Hp Hall]. rewrite Hp in Hall.
  apply (cumsum_alternating 0); auto. eapply sim_markers, Hrun.
Qed.

(** The position of a day is the sum of the markers up to that day. *)
Lemma sim_position_nth (k : nat) :
  (k < length close)%nat -> nth k (Positions res) 0%Z = zsum (firstn (S k) (Trades res)).
Proof.
  intros Hk. destruct (sim_lengths _ _ _ _ _ Hrun) as (_ & _ & Hl & _).
  destruct (sim_positions _ _ _ _ _ Hrun) as [-> _]. now rewrite nth_cumsum by lia.
Qed.
End Clients.
