(* ===== verification/Machine.v ===== *)
(** * Machine: [backtest_strategy] in the arithmetic of the machine

    [Backtest] computes with exact rationals.  Python computes with
    binary64 floats: every [+], [-], [*] and [/] of
    [backtest_strategy] ([src/subcode/calculation.py]) returns the
    exact result rounded, and [cash // price] is numpy's
    [floor_divide], which goes through the remainder of the division.
    This file states the loop once more over a rounding [rnd] applied
    after every operation.  With the rounding that changes nothing it
    is the loop of [Backtest]; with [round64] it is the loop as Python
    runs it.  What the report and the figure rely on ([Simulator])
    holds for every rounding; on prices and a capital that are
    multiples of a power of two, without fees, the binary64 run
    computes the very columns of the exact run. *)

From Stdlib Require Import String List ZArith QArith Qround Qabs Lia Lqa Bool.
From Stdlib Require Import Morphisms Setoid.
From S2P Require Import Prelude Floats Binary64 Series Ledger Backtest Simulator.
Import ListNotations.

Local Open Scope Q_scope.
Local Open Scope res_scope.

(** ** Roundings *)

(** What the theorems ask of a rounding: it keeps the order, it does
    not depend on how a number is written, and it leaves its own
    results and zero alone. *)
Class Rounding (rnd : Q -> xfloat) : Prop := {
  rnd_Proper :: Proper (Qeq ==> xeq) rnd;
  rnd_mono : forall p q, p <= q -> xleb (rnd p) (rnd q) = true;
  rnd_idem : forall q v, rnd q = Fin v -> xeq (rnd v) (Fin v);
  rnd_0 : xeq (rnd 0) (Fin 0)
}.

(** A number the rounding leaves alone. *)
Definition representable (rnd : Q -> xfloat) (q : Q) : Prop := xeq (rnd q) (Fin q).

(** ** Arithmetic with a rounding *)

Section Rounded.
Variable rnd : Q -> xfloat.

(** The float an exact result is stored as. *)
Definition xrnd (x : xfloat) : xfloat :=
  match x with
  | Fin q => rnd q
  | _ => x
  end.

Definition radd (x y : xfloat) : xfloat := xrnd (xadd x y).
Definition rsub (x y : xfloat) : xfloat := xrnd (xsub x y).
Definition rmul (x y : xfloat) : xfloat := xrnd (xmul x y).
Definition rdiv (x y : xfloat) : xfloat := xrnd (xdiv x y).

(** C's [fmod]: the remainder with the sign of the dividend, always
    exact. *)
Definition c_fmod (a b : Q) : Q := a - inject_Z (Qtrunc (a / b)) * b.

(** C's [floor] on a float. *)
Definition c_floor (x : xfloat) : xfloat :=
  match x with
  | Fin q => Fin (inject_Z (Qfloor q))
  | _ => x
  end.

(** numpy's [npy_divmod], the quotient part, for a divisor other than
    zero: the quotient of [a - fmod(a, b)] by [b], moved down by one
    when the remainder has not the sign of the divisor, then snapped
    to the nearest integer. *)
Definition npy_divmod (a b : Q) : xfloat :=
  let mod_ := c_fmod a b in
  let div := rdiv (rsub (Fin a) (Fin mod_)) (Fin b) in
  let div :=
    if negb (Qeq_bool mod_ 0) && negb (Bool.eqb (Qltb b 0) (Qltb mod_ 0))
    then rsub div (Fin 1) else div in
  if nonzero div then
    let floordiv := c_floor div in
    if xltb (Fin (1 # 2)) (rsub div floordiv) then radd floordiv (Fin 1) else floordiv
  else Fin 0.

(** numpy's [floor_divide] on [float64]: [x // p]. *)
Definition floor_divide (x : xfloat) (p : Q) : xfloat :=
  if Qeq_bool p 0 then rdiv x (Fin p)
  else match x with
       | Fin c => npy_divmod c p
       | _ => NaN
       end.

(** ** The loop *)

(** The trade of the day: [trade_step] with every result rounded. *)
Definition trade_step_r (fee_percentage : xfloat) (st : loop_state)
    (price : Q) (signal : Z) : result (loop_state * Z) :=
  if (signal =? 1)%Z && (holdings st =? 0)%Z then
    shares <- py_int (floor_divide (cash st) price) ;;
    if (0 <? shares)%Z then
      let cost := rmul (Fin (inject_Z shares)) (Fin price) in
      let fee := rmul cost fee_percentage in
      Ok ({| cash := rsub (cash st) (radd cost fee);
             holdings := holdings st + shares;
             total_fees := radd (total_fees st) fee;
             portfolio_values := portfolio_values st;
             positions := positions st ++ [1%Z];
             trades := trades st;
             daily_returns := daily_returns st;
             prev_portfolio_value := prev_portfolio_value st |}, 1%Z)
    else Ok (st, 0%Z)
  else if (signal =? -1)%Z && (0 <? holdings st)%Z then
    let proceeds := rmul (Fin (inject_Z (holdings st))) (Fin price) in
    let fee := rmul proceeds fee_percentage in
    Ok ({| cash := radd (cash st) (rsub proceeds fee);
           holdings := 0;
           total_fees := radd (total_fees st) fee;
           portfolio_values := portfolio_values st;
           positions := positions st ++ [0%Z];
           trades := trades st;
           daily_returns := daily_returns st;
           prev_portfolio_value := prev_portfolio_value st |}, (-1)%Z)
  else
    Ok ({| cash := cash st;
           holdings := holdings st;
           total_fees := total_fees st;
           portfolio_values := portfolio_values st;
           positions := positions st ++ [last_or (positions st) 0%Z];
           trades := trades st;
           daily_returns := daily_returns st;
           prev_portfolio_value := prev_portfolio_value st |}, 0%Z).

(** The value and the return of the day. *)
Definition value_r (st : loop_state) (price : Q) : xfloat :=
  radd (cash st) (rmul (Fin (inject_Z (holdings st))) (Fin price)).

Definition return_r (prev v : xfloat) : xfloat :=
  if nonzero prev then rdiv (rsub v prev) prev else Fin 0.

(** The bookkeeping that ends every iteration. *)
Definition record_step_r (st : loop_state) (price : Q) (trade : Z) : loop_state :=
  let portfolio_value := value_r st price in
  recorded st trade portfolio_value (return_r (prev_portfolio_value st) portfolio_value).

Definition backtest_step_r (fee_percentage : xfloat) (st : loop_state)
    (row : Q * Z) : result loop_state :=
  let (price, signal) := row in
  r <- trade_step_r fee_percentage st price signal ;;
  Ok (record_step_r (fst r) price (snd r)).

Definition backtest_loop_r (fee_percentage : xfloat) (rows : list (Q * Z))
    (st : loop_state) : result loop_state :=
  fold_result (backtest_step_r fee_percentage) rows st.

(** [backtest_strategy] with every result rounded. *)
Definition backtest_strategy_r (close : list Q) (signal : list Z)
    (initial_capital fee_percentage : xfloat) : result backtest_result :=
  st <- backtest_loop_r fee_percentage (combine close signal)
          (init_state initial_capital) ;;
  frame_columns (length close) st.

(** ** Every rounding gives a simulator *)

Lemma trade_step_r_shape (fee : xfloat) (st st' : loop_state) (p : Q) (z t : Z) :
  trade_step_r fee st p z = Ok (st', t) -> trade_shape st st' z t.
Proof. unfold trade_step_r, trade_shape. trade_cases st z. Qed.

Lemma backtest_step_r_shape (fee : xfloat) (st st' : loop_state) (p : Q) (z : Z) :
  backtest_step_r fee st (p, z) = Ok st' -> step_shape st st' z.
Proof.
  unfold backtest_step_r. intros ([st1 t] & H1 & [= <-])%bind_ok.
  exists st1, t. do 2 eexists. split; [eapply trade_step_r_shape, H1|reflexivity].
Qed.

#[export] Instance backtest_strategy_r_simulator : Simulator backtest_strategy_r.
Proof.
  apply (run_loop_simulator backtest_step_r).
  - intros fee st st' p z. apply backtest_step_r_shape.
  - reflexivity.
Qed.

(** No trade without its signal, whatever the rounding. *)
Lemma backtest_strategy_r_on_signals (close : list Q) (signal : list Z) (c0 fee : xfloat)
    (res : backtest_result) :
  backtest_strategy_r close signal c0 fee = Ok res -> length signal = length close ->
  Forall2 (fun t z => t = 0%Z \/ t = z) (Trades res) signal.
Proof.
  apply (run_loop_on_signals backtest_step_r).
  intros f st st' p z. apply backtest_step_r_shape.
Qed.

End Rounded.

(** ** The two roundings *)

#[export] Instance exact_Rounding : Rounding Fin.
Proof.
  split.
  - exact Fin_Proper.
  - intros p q H. now apply Qle_bool_iff.
  - intros q v [= <-]. reflexivity.
  - reflexivity.
Qed.

#[export] Instance round64_Rounding : Rounding round64.
Proof.
  split.
  - exact round64_Proper.
  - exact round64_mono.
  - intros q v [-> H]%round64_Fin. now apply round64_fixed, round_val_binary64.
  - apply round64_fixed, is_binary64_0.
Qed.

(** The binary64 numbers are the numbers [round64] leaves alone. *)
Lemma representable_binary64 (q : Q) : representable round64 q <-> is_binary64 q.
Proof.
  unfold representable. split; [|apply round64_fixed].
  intros H. apply binary64b_spec. unfold binary64b.
  destruct (round64 q) as [v| | |]; cbn in H; try tauto. now apply Qeq_bool_iff.
Qed.

(** [backtest_strategy] as Python runs it. *)
Definition backtest_strategy64 : simulator := backtest_strategy_r round64.

(** ** Truncation, floor and remainder *)

Lemma xrnd_Fin (x : xfloat) : xrnd Fin x = x.
Proof. now destruct x. Qed.

(** Truncation is the floor of a non-negative number and the ceiling
    of a negative one. *)
Lemma Qtrunc_nonneg (q : Q) : 0 <= q -> Qtrunc q = Qfloor q.
Proof.
  destruct q as [n d]. unfold Qle, Qtrunc, Qfloor. cbn. intros H.
  apply Z.quot_div_nonneg; lia.
Qed.

Lemma Qtrunc_neg (q : Q) : q < 0 -> Qtrunc q = (- Qfloor (- q))%Z.
Proof.
  destruct q as [n d]. unfold Qlt, Qtrunc, Qfloor. cbn. intros H.
  rewrite <- (Z.opp_involutive n) at 1. rewrite Z.quot_opp_l by lia.
  f_equal. apply Z.quot_div_nonneg; lia.
Qed.

(** The floor from the truncation: one less below zero, unless the
    number is an integer. *)
Lemma Qfloor_trunc (q : Q) :
  Qfloor q = if Qltb q (inject_Z (Qtrunc q)) then (Qtrunc q - 1)%Z else Qtrunc q.
Proof.
  pose proof (Qfloor_le q) as H1. pose proof (Qlt_floor q) as H2.
  rewrite inject_Z_succ in H2.
  destruct (Qlt_le_dec q 0) as [Hq|Hq].
  - rewrite (Qtrunc_neg q Hq). pose proof (Qfloor_le (- q)) as H3.
    pose proof (Qlt_floor (- q)) as H4. rewrite inject_Z_succ in H4.
    destruct (Qltb _ _) eqn:E; qbool; rewrite inject_Z_opp in E;
      apply Z.le_antisymm; apply Zlt_succ_le, inject_Z_lt;
      unfold Z.succ; rewrite ?inject_Z_succ, ?inject_Z_minus, ?inject_Z_opp;
      change (inject_Z 1) with 1; lra.
  - rewrite (Qtrunc_nonneg q Hq). destruct (Qltb _ _) eqn:E; qbool; [lra|reflexivity].
Qed.

(** The dividend without the remainder is a multiple of the divisor. *)
Lemma fmod_quotient (a b : Q) :
  ~ b == 0 -> (a + - c_fmod a b) / b == inject_Z (Qtrunc (a / b)).
Proof. intros Hb. unfold c_fmod. field. exact Hb. Qed.

(** The remainder has not the sign of the divisor exactly when the
    quotient was truncated upwards. *)
Lemma fmod_adjust (a b : Q) :
  ~ b == 0 ->
  negb (Qeq_bool (c_fmod a b) 0) && negb (Bool.eqb (Qltb b 0) (Qltb (c_fmod a b) 0))
  = Qltb (a / b) (inject_Z (Qtrunc (a / b))).
Proof.
  intros Hb. assert (E : c_fmod a b == (a / b - inject_Z (Qtrunc (a / b))) * b)
    by (unfold c_fmod; field; exact Hb).
  set (m := c_fmod a b) in *. set (r := a / b - inject_Z (Qtrunc (a / b))) in *.
  assert (Hr : Qltb (a / b) (inject_Z (Qtrunc (a / b))) = Qltb r 0).
  { unfold r. destruct (Qltb (a / b) _) eqn:E1, (Qltb (_ - _) 0) eqn:E2; qbool; auto; lra. }
  rewrite Hr. clearbody m r.
  destruct (Qeq_bool m 0) eqn:E1, (Qltb b 0) eqn:E2, (Qltb m 0) eqn:E3, (Qltb r 0) eqn:E4;
    cbn; try reflexivity; qbool; exfalso; nra.
Qed.

(** ** Operations whose exact result the rounding leaves alone *)

Section ExactResults.
Context (rnd : Q -> xfloat) `{Rounding rnd}.

#[export] Instance xrnd_Proper : Proper (xeq ==> xeq) (xrnd rnd).
Proof.
  intros [a| | |] [b| | |] E; cbn in *; try tauto. now apply rnd_Proper.
Qed.

Lemma xrnd_exact (x : xfloat) (q : Q) :
  xeq x (Fin q) -> representable rnd q -> xeq (xrnd rnd x) (Fin q).
Proof.
  destruct x as [a| | |]; cbn; try tauto. intros E Hq. now rewrite E.
Qed.

Lemma radd_exact (x y : xfloat) (a b : Q) :
  xeq x (Fin a) -> xeq y (Fin b) -> representable rnd (a + b) ->
  xeq (radd rnd x y) (Fin (a + b)).
Proof. intros Hx Hy. apply xrnd_exact. now rewrite Hx, Hy. Qed.

Lemma rsub_exact (x y : xfloat) (a b : Q) :
  xeq x (Fin a) -> xeq y (Fin b) -> representable rnd (a - b) ->
  xeq (rsub rnd x y) (Fin (a - b)).
Proof. intros Hx Hy. apply xrnd_exact. now rewrite Hx, Hy. Qed.

Lemma rmul_exact (x y : xfloat) (a b : Q) :
  xeq x (Fin a) -> xeq y (Fin b) -> representable rnd (a * b) ->
  xeq (rmul rnd x y) (Fin (a * b)).
Proof. intros Hx Hy. apply xrnd_exact. now rewrite Hx, Hy. Qed.

(** The rounding of a number above, or below, a number it leaves
    alone. *)
Lemma rnd_above (a q : Q) :
  representable rnd a -> a <= q ->
  match rnd q with Fin v => a <= v | PInf => True | _ => False end.
Proof.
  intros Ha Hq. pose proof (rnd_mono a q Hq) as Hm. unfold representable in Ha.
  rewrite (xleb_Proper _ _ Ha _ _ (reflexivity _)) in Hm.
  destruct (rnd q); cbn in Hm; qbool; auto; discriminate.
Qed.

Lemma rnd_below (b q : Q) :
  representable rnd b -> q <= b ->
  match rnd q with Fin v => v <= b | NInf => True | _ => False end.
Proof.
  intros Hb Hq. pose proof (rnd_mono q b Hq) as Hm. unfold representable in Hb.
  rewrite (xleb_Proper _ _ (reflexivity _) _ _ Hb) in Hm.
  destruct (rnd q); cbn in Hm; qbool; auto; discriminate.
Qed.

(** A rounded result between zero and a number the rounding leaves
    alone is a number between them. *)
Lemma rnd_between (b q : Q) :
  representable rnd b -> 0 <= q -> q <= b ->
  exists v, rnd q = Fin v /\ 0 <= v /\ v <= b.
Proof.
  intros Hb H0 Hq. pose proof (rnd_above 0 q rnd_0 H0) as Ha.
  pose proof (rnd_below b q Hb Hq) as Hl.
  destruct (rnd q) as [v| | |]; try tauto. eauto.
Qed.

(** A quotient is the rounding of the exact quotient. *)
Lemma rdiv_round (x y : xfloat) (a b : Q) :
  xeq x (Fin a) -> xeq y (Fin b) -> ~ b == 0 -> xeq (rdiv rnd x y) (rnd (a / b)).
Proof.
  intros Hx Hy Hb. unfold rdiv. rewrite Hx, Hy, (xdiv_fin _ _ Hb). reflexivity.
Qed.

(** A float of the value of an integer is snapped to that integer. *)
Lemma snap_integer (d : Q) (F : Z) :
  d == inject_Z F ->
  (if nonzero (Fin d)
   then if xltb (Fin (1 # 2)) (rsub rnd (Fin d) (c_floor (Fin d)))
        then radd rnd (c_floor (Fin d)) (Fin 1) else c_floor (Fin d)
   else Fin 0) = Fin (inject_Z F).
Proof.
  intros Ed. assert (EF : Qfloor d = F) by (rewrite (Qfloor_comp _ _ Ed); apply Qfloor_Z).
  unfold nonzero. cbn [xeqb c_floor]. destruct (Qeq_bool d 0) eqn:E0; qbool; cbn [negb].
  - rewrite E0 in Ed. assert (H0 : (F = 0)%Z) by (unfold Qeq in Ed; cbn in Ed; lia). now rewrite H0.
  - rewrite EF. assert (E1 : xeq (rsub rnd (Fin d) (Fin (inject_Z F))) (Fin 0)).
    { unfold rsub. cbn [xsub xopp xadd xrnd].
      assert (E : d + - inject_Z F == 0) by lra. rewrite E. apply rnd_0. }
    destruct (rsub rnd _ _) as [z| | |]; cbn in E1; try tauto. cbn [xltb].
    assert (E2 : Qltb (1 # 2) z = false) by (apply Qltb_ge; lra). now rewrite E2.
Qed.

(** numpy's floor division of a non-negative number by a positive one
    is the floor of the quotient, when the rounding leaves the floor
    and its product with the divisor alone. *)
Lemma npy_divmod_floor (a b : Q) :
  0 <= a -> 0 < b ->
  representable rnd (inject_Z (Qfloor (a / b))) ->
  representable rnd (inject_Z (Qfloor (a / b)) * b) ->
  npy_divmod rnd a b = Fin (inject_Z (Qfloor (a / b))).
Proof.
  intros Ha Hb Hn Hnb. assert (Hb' : ~ b == 0) by lra.
  assert (Hq : 0 <= a / b) by (apply Qle_shift_div_l; lra).
  pose proof (Qtrunc_nonneg _ Hq) as Et. pose proof (Qfloor_le (a / b)) as Hf.
  unfold npy_divmod. rewrite fmod_adjust by exact Hb'. rewrite Et.
  assert (E0 : Qltb (a / b) (inject_Z (Qfloor (a / b))) = false) by now apply Qltb_ge.
  rewrite E0. clear E0.
  assert (Es : xeq (rsub rnd (Fin a) (Fin (c_fmod a b))) (Fin (inject_Z (Qfloor (a / b)) * b))).
  { unfold rsub. cbn [xsub xopp xadd xrnd]. unfold c_fmod. rewrite Et.
    assert (E : a + - (a - inject_Z (Qfloor (a / b)) * b) == inject_Z (Qfloor (a / b)) * b) by ring.
    rewrite E. exact Hnb. }
  assert (Ed : xeq (rdiv rnd (rsub rnd (Fin a) (Fin (c_fmod a b))) (Fin b))
                   (Fin (inject_Z (Qfloor (a / b))))).
  { rewrite (rdiv_round _ _ _ b Es (reflexivity _) Hb').
    assert (E : inject_Z (Qfloor (a / b)) * b / b == inject_Z (Qfloor (a / b))) by (field; exact Hb').
    rewrite E. exact Hn. }
  destruct (rdiv rnd _ _) as [d| | |]; cbn in Ed; try tauto. now apply snap_integer.
Qed.
End ExactResults.

(** ** Without rounding: the loop of [Backtest] *)

Lemma npy_divmod_exact (a b : Q) :
  ~ b == 0 -> npy_divmod Fin a b = Fin (inject_Z (Qfloor (a / b))).
Proof.
  intros Hb. unfold npy_divmod. rewrite fmod_adjust by exact Hb.
  assert (Ed : rdiv Fin (rsub Fin (Fin a) (Fin (c_fmod a b))) (Fin b)
               = Fin ((a + - c_fmod a b) / b)).
  { unfold rdiv, rsub. rewrite !xrnd_Fin. cbn [xsub xopp xadd]. now apply xdiv_fin. }
  rewrite Ed. pose proof (fmod_quotient a b Hb) as Eq. rewrite (Qfloor_trunc (a / b)).
  destruct (Qltb (a / b) _).
  - change (rsub Fin (Fin ((a + - c_fmod a b) / b)) (Fin 1))
      with (Fin ((a + - c_fmod a b) / b + - (1))).
    apply (snap_integer Fin). rewrite inject_Z_minus, Eq. change (inject_Z 1) with 1. ring.
  - now apply (snap_integer Fin).
Qed.

(** numpy's floor division computes the floor of the quotient when
    nothing is rounded. *)
Lemma floor_divide_exact (x : xfloat) (p : Q) : floor_divide Fin x p = floordiv x p.
Proof.
  unfold floor_divide, floordiv, rdiv. rewrite xrnd_Fin.
  destruct (Qeq_bool p 0) eqn:E; qbool.
  - destruct x as [c| | |]; cbn; rewrite ?(proj2 (Qeq_bool_iff _ _) E); try reflexivity.
    destruct (Qltb p 0) eqn:E'; qbool; [lra|reflexivity].
    destruct (Qltb p 0) eqn:E'; qbool; [lra|reflexivity].
  - destruct x as [c| | |]; try reflexivity. now apply npy_divmod_exact.
Qed.

Lemma trade_step_r_exact (fee : xfloat) (st : loop_state) (p : Q) (z : Z) :
  trade_step_r Fin fee st p z = trade_step fee st p z.
Proof.
  unfold trade_step_r, trade_step. rewrite floor_divide_exact.
  destruct (_ && _);
    [destruct (py_int _) as [n|e]; cbn [bind]; [|reflexivity];
     destruct (0 <? n)%Z; [|reflexivity]
    |destruct (_ && _)];
    unfold rmul, radd, rsub; rewrite ?xrnd_Fin; reflexivity.
Qed.

Lemma record_step_r_exact (st : loop_state) (p : Q) (t : Z) :
  record_step_r Fin st p t = record_step st p t.
Proof.
  unfold record_step_r, record_step, recorded, value_r, return_r, rdiv, rsub, radd, rmul.
  now rewrite !xrnd_Fin.
Qed.

Lemma backtest_loop_r_exact (fee : xfloat) (rows : list (Q * Z)) (st : loop_state) :
  backtest_loop_r Fin fee rows st = backtest_loop fee rows st.
Proof.
  unfold backtest_loop_r, backtest_loop. revert st.
  induction rows as [|[p z] rows IH]; intros st; [reflexivity|].
  cbn [fold_result]. unfold backtest_step_r, backtest_step. rewrite trade_step_r_exact.
  destruct (trade_step fee st p z) as [[st1 t]|e]; [|reflexivity].
  cbn [bind fst snd]. rewrite record_step_r_exact. apply IH.
Qed.

(** The loop stated over a rounding, numpy's floor division
    through the remainder included, is [backtest_strategy] when the
    rounding changes nothing: the exact model is the program of the
    machine without its rounding errors. *)
Theorem backtest_strategy_r_exact (close : list Q) (signal : list Z) (c0 fee : xfloat) :
  backtest_strategy_r Fin close signal c0 fee = backtest_strategy close signal c0 fee.
Proof.
  unfold backtest_strategy_r. now rewrite backtest_loop_r_exact, backtest_strategy_columns.
Qed.

(** ** The recorded value, within the tolerance of the arithmetic *)

(** A rounded operation that gives a number was given numbers. *)
Lemma xrnd_Fin_inv (rnd : Q -> xfloat) (x : xfloat) (v : Q) :
  xrnd rnd x = Fin v -> exists q, x = Fin q /\ rnd q = Fin v.
Proof. destruct x as [q| | |]; try discriminate. eauto. Qed.

Lemma xadd_Fin_inv (x y : xfloat) (q : Q) :
  xadd x y = Fin q -> exists a b, x = Fin a /\ y = Fin b /\ q = a + b.
Proof. destruct x as [a| | |], y as [b| | |]; try discriminate. intros [= <-]. eauto. Qed.

(** The error of the recorded value: two roundings, one of the product
    and one of the sum. *)
Lemma value64_error (c X w v d1 e1 d2 e2 : Q) :
  Qabs d1 <= unit_roundoff -> Qabs e1 <= eta ->
  Qabs d2 <= unit_roundoff -> Qabs e2 <= eta ->
  w == X * (1 + d1) + e1 -> v == (c + w) * (1 + d2) + e2 ->
  Qabs (v - (c + X)) <=
  unit_roundoff * (Qabs (c + X) + (1 + unit_roundoff) * Qabs X) + (2 + unit_roundoff) * eta.
Proof.
  intros Hd1 He1 Hd2 He2 Hw Hv.
  assert (E : v - (c + X) == X * d1 + e1 + (c + X) * d2 + X * d1 * d2 + e1 * d2 + e2)
    by (rewrite Hv, Hw; ring).
  pose proof (Qabs_mult_le X d1 _ Hd1) as B1. pose proof (Qabs_mult_le (c + X) d2 _ Hd2) as B2.
  pose proof (Qabs_mult_le (X * d1) d2 _ Hd2) as B3. pose proof (Qabs_mult_le e1 d2 _ Hd2) as B4.
  pose proof unit_roundoff_pos as Hu. pose proof (Qabs_nonneg X) as HX.
  assert (B3' : Qabs (X * d1 * d2) <= Qabs X * unit_roundoff * unit_roundoff) by nra.
  assert (B4' : Qabs (e1 * d2) <= eta * unit_roundoff) by nra.
  rewrite E. apply Qabs_Qle_condition in B1, B2, B3', B4', He1, He2.
  set (u := unit_roundoff) in *. set (AX := Qabs X) in *. set (AS := Qabs (c + X)) in *.
  set (t1 := X * d1) in *. set (t2 := (c + X) * d2) in *. set (t3 := X * d1 * d2) in *.
  set (t4 := e1 * d2) in *. clearbody u AX AS t1 t2 t3 t4.
  apply Qabs_Qle_condition. split; nra.
Qed.

(** C18: the portfolio value Python records in binary64 differs from
    [cash + holdings * price] by at most the bound of two roundings:
    a relative error of [2^-53] on the product and on the sum, and
    [2^-1075] for each in the subnormal range. *)
Theorem value64_tolerance (st : loop_state) (p c v : Q) :
  cash st = Fin c -> value_r round64 st p = Fin v ->
  Qabs (v - (c + inject_Z (holdings st) * p)) <=
  unit_roundoff * (Qabs (c + inject_Z (holdings st) * p)
                   + (1 + unit_roundoff) * Qabs (inject_Z (holdings st) * p))
  + (2 + unit_roundoff) * eta.
Proof.
  intros Hc. unfold value_r, radd, rmul. rewrite Hc. cbn [xmul xrnd].
  intros (s & (a & w & [= <-] & Hw & ->)%xadd_Fin_inv & Hv)%xrnd_Fin_inv.
  apply round64_model in Hw as (d1 & e1 & Hd1 & He1 & _ & Hw).
  apply round64_model in Hv as (d2 & e2 & Hd2 & He2 & _ & Hv).
  exact (value64_error c _ w v d1 e1 d2 e2 Hd1 He1 Hd2 He2 Hw Hv).
Qed.

Lemma value64_tolerance_witness :
  exists v,
    value_r round64 (mk_state (Fin (1 # 10)) 3 (Fin 0) [] [] [] [] (Fin 1)) (1 # 10) = Fin v /\
    Qabs (v - ((1 # 10) + inject_Z 3 * (1 # 10))) <=
    unit_roundoff * (Qabs ((1 # 10) + inject_Z 3 * (1 # 10))
                     + (1 + unit_roundoff) * Qabs (inject_Z 3 * (1 # 10)))
    + (2 + unit_roundoff) * eta.
Proof.
  eexists. split; [vm_compute; reflexivity|].
  apply (value64_tolerance (mk_state (Fin (1 # 10)) 3 (Fin 0) [] [] [] [] (Fin 1)) (1 # 10));
    [reflexivity|vm_compute; reflexivity].
Defined.
