(* ===== verification/Grid.v ===== *)
(** * Grid: the binary64 run on prices with few binary places

    Prices and capital are usually given to a few places.  When they
    are multiples of [2^-g], no fee is charged and the portfolio is
    worth less than [2^(53-g)] on every day, every sum, difference and
    product of the loop of [backtest_strategy]
    ([src/subcode/calculation.py]) is a binary64 number, and numpy's
    floor division computes the floor.  The run in binary64
    arithmetic ([Machine]) then raises what the exact run
    ([Backtest]) raises, or returns its columns, the daily returns
    rounded.  The argument is a simulation: the states of the two
    loops stay near each other, step by step, while the exact state
    stays on the grid. *)

From Stdlib Require Import String List ZArith QArith Qround Qabs Lia Lqa Bool.
From Stdlib Require Import Morphisms Setoid.
From S2P Require Import Prelude Floats Binary64 Series Ledger Backtest Simulator Machine.
Import ListNotations.

Local Open Scope Q_scope.
Local Open Scope res_scope.

(** ** Numbers on a binary grid *)

(** The multiples of [2^-g]. *)
Definition multiple (g : Z) (q : Q) : Prop := exists m : Z, q == inject_Z m * pow2 (- g).

#[export] Instance multiple_Proper : Proper (eq ==> Qeq ==> iff) multiple.
Proof.
  intros g ? <- p q E. unfold multiple.
  split; intros [m H]; exists m; now rewrite <- H, E.
Qed.

Lemma multiple_0 (g : Z) : multiple g 0.
Proof. exists 0%Z. change (inject_Z 0) with 0. ring. Qed.

Lemma multiple_add (g : Z) (a b : Q) : multiple g a -> multiple g b -> multiple g (a + b).
Proof. intros [m Ha] [n Hb]. exists (m + n)%Z. rewrite inject_Z_plus, Ha, Hb. ring. Qed.

Lemma multiple_sub (g : Z) (a b : Q) : multiple g a -> multiple g b -> multiple g (a - b).
Proof. intros [m Ha] [n Hb]. exists (m - n)%Z. rewrite inject_Z_minus, Ha, Hb. ring. Qed.

Lemma multiple_scale (g n : Z) (a : Q) : multiple g a -> multiple g (inject_Z n * a).
Proof. intros [m Ha]. exists (n * m)%Z. rewrite inject_Z_mult, Ha. ring. Qed.

(** A positive multiple of [2^-g] is at least [2^-g]. *)
Lemma multiple_pos (g : Z) (a : Q) : multiple g a -> 0 < a -> pow2 (- g) <= a.
Proof.
  intros [m Ha] H. pose proof (pow2_pos (- g)) as Hp. rewrite Ha in H |- *.
  assert (Hm : (1 <= m)%Z).
  { destruct (Z_lt_le_dec m 1) as [Hm|Hm]; [|exact Hm].
    assert (inject_Z m <= 0) by (change 0 with (inject_Z 0); apply inject_Z_le; lia). nra. }
  apply inject_Z_le in Hm. change (inject_Z 1) with 1 in Hm. nra.
Qed.

(** A multiple of [2^-g] of fewer than 53 bits is a binary64 number. *)
Lemma multiple_binary64 (g : Z) (q : Q) :
  (0 <= g <= - emin)%Z -> multiple g q -> Qabs q < pow2 (prec - g) -> is_binary64 q.
Proof.
  intros Hg [m E] Hq. exists m, (- g)%Z. split; [|split; [unfold emin, emax, prec in *; lia|exact E]].
  rewrite E, Qabs_mantissa in Hq. unfold Z.sub in Hq. rewrite pow2_add in Hq.
  pose proof (pow2_pos (- g)). assert (Hp : pow2 prec == inject_Z (2 ^ prec)) by now apply pow2_inject.
  rewrite Hp in Hq. apply inject_Z_lt. nra.
Qed.


(** ** On a binary grid nothing is rounded *)

(** Prices and capital are usually given to a few binary or decimal
    places.  When they are multiples of [2^-g], no fee is charged and
    the value of the portfolio stays below [B], every sum, difference
    and product of the loop is a multiple of [2^-g] below [B]; a
    rounding that leaves these alone computes the loop of [Backtest]
    but for the daily returns, which are the roundings of the exact
    ones. *)

Section Grid.
Context (rnd : Q -> xfloat) `{Rounding rnd}.
Variables (g : Z) (B : Q).
Hypothesis rep_grid : forall q, multiple g q -> Qabs q < B -> representable rnd q.
Hypothesis rep_int :
  forall n, (0 <= n)%Z -> inject_Z n * pow2 (- g) < B -> representable rnd (inject_Z n).

#[local] Instance representable_Proper : Proper (Qeq ==> iff) (representable rnd).
Proof. intros p q E. unfold representable. now rewrite E. Qed.

Lemma rep_nonneg (q : Q) : multiple g q -> 0 <= q -> q < B -> representable rnd q.
Proof. intros Hm H0 Hq. apply rep_grid; [exact Hm|]. now rewrite Qabs_pos_eq. Qed.

(** What the ledger and the price of a day are assumed to be. *)
Definition grid_ledger (l : ledger) : Prop :=
  multiple g (l_cash l) /\ 0 <= l_cash l /\ (0 <= l_shares l)%Z /\ l_fees l == 0.

Definition grid_price (p : Q) : Prop := multiple g p /\ 0 < p.

(** The state of the rounded loop holds the ledger [l]. *)
Definition near_ledger (st : loop_state) (l : ledger) : Prop :=
  xeq (cash st) (Fin (l_cash l)) /\ holdings st = l_shares l /\
  xeq (total_fees st) (Fin (l_fees l)).

Lemma multiple_notional (p : Q) (n : Z) : multiple g p -> multiple g (notional p n).
Proof. apply multiple_scale. Qed.

Lemma notional_nonneg (p : Q) (n : Z) : 0 < p -> (0 <= n)%Z -> 0 <= notional p n.
Proof.
  intros Hp Hn. apply Qmult_le_0_compat; [|lra].
  change 0 with (inject_Z 0). now apply inject_Z_le.
Qed.

(** The value of what is held, and of what the cash can pay for, are
    left alone. *)
Lemma rep_notional (p a : Q) (n : Z) :
  grid_price p -> (0 <= n)%Z -> notional p n <= a -> a < B ->
  representable rnd (notional p n).
Proof.
  intros [Hm Hp] Hn Ha Hb. pose proof (notional_nonneg p n Hp Hn).
  apply rep_nonneg; [now apply multiple_notional|assumption|lra].
Qed.

Lemma rep_purchasable (p c : Q) :
  grid_price p -> 0 <= c -> c < B -> representable rnd (inject_Z (Qfloor (c / p))).
Proof.
  intros [Hm Hp] H0 Hc. pose proof (Qfloor_div_mul_le c Hp) as Hle.
  pose proof (multiple_pos g p Hm Hp) as Hg. pose proof (pow2_pos (- g)) as Hpos.
  assert (Hn : (0 <= Qfloor (c / p))%Z).
  { change 0%Z with (Qfloor 0). apply Qfloor_resp_le, Qle_shift_div_l; lra. }
  apply rep_int; [exact Hn|]. apply inject_Z_le in Hn. change (inject_Z 0) with 0 in Hn.
  set (n := inject_Z (Qfloor (c / p))) in *. nra.
Qed.

(** numpy's floor division of the cash by the price is the floor of
    the quotient. *)
Lemma floor_divide_grid (x : xfloat) (c p : Q) :
  xeq x (Fin c) -> grid_price p -> 0 <= c -> c < B ->
  floor_divide rnd x p = floordiv (Fin c) p.
Proof.
  intros Hx Hp H0 Hc. pose proof Hp as [Hm Hpos].
  assert (Hp0 : ~ p == 0) by lra. unfold floor_divide, floordiv.
  apply Qeqb_neq in Hp0 as ->. destruct x as [a| | |]; cbn in Hx; try tauto.
  assert (E : Qfloor (a / p) = Qfloor (c / p)) by (apply Qfloor_comp; now rewrite Hx).
  rewrite <- E. apply (npy_divmod_floor rnd a p); rewrite ?E; try lra.
  - now apply rep_purchasable.
  - apply (rep_notional p c); auto.
    + change 0%Z with (Qfloor 0). apply Qfloor_resp_le, Qle_shift_div_l; lra.
    + now apply Qfloor_div_mul_le.
Qed.

(** A fee at the rate 0 is 0. *)
Lemma rmul_zero (x : xfloat) (a : Q) :
  xeq x (Fin a) -> xeq (rmul rnd x (Fin 0)) (Fin (a * 0)).
Proof.
  intros Hx. apply (rmul_exact rnd); [exact Hx|reflexivity|].
  assert (E : a * 0 == 0) by ring. rewrite E. apply rnd_0.
Qed.

Lemma multiple_fee (a : Q) : multiple g (a * 0).
Proof. assert (E : a * 0 == 0) by ring. rewrite E. apply multiple_0. Qed.

(** Without fees a step keeps the ledger on the grid, and its value at
    the price of the day. *)
Lemma grid_next (p : Q) (s : Signal) (l : ledger) :
  grid_ledger l -> grid_price p ->
  grid_ledger (fst (ledger_next 0 p s l)) /\
  equity p (fst (ledger_next 0 p s l)) == equity p l.
Proof.
  intros (Hm & Hc & Hh & Hf) [Hmp Hp].
  pose proof (ledger_next_step 0 p s l) as Hstep.
  assert (Hf' : l_fees (fst (ledger_next 0 p s l)) == 0).
  { unfold ledger_next. destruct s; [destruct (_ && _)|destruct (_ <? _)%Z|];
      cbn [fst l_fees]; rewrite Hf; ring. }
  split; [repeat split|].
  - unfold ledger_next. destruct s; [destruct (_ && _)|destruct (_ <? _)%Z|];
      cbn [fst l_cash]; try exact Hm.
    + apply multiple_sub, multiple_add; auto using multiple_notional, multiple_fee.
    + apply multiple_add, multiple_sub; auto using multiple_notional, multiple_fee.
  - now apply (step_cash_nonneg Hstep).
  - now apply (step_shares_nonneg Hstep).
  - exact Hf'.
  - rewrite (step_self_financing Hstep), Hf', Hf. ring.
Qed.

(** The cost of [n] shares, and a fee at the rate 0 added to the fees. *)
Lemma cost_grid (p a : Q) (n : Z) :
  grid_price p -> (0 <= n)%Z -> notional p n <= a -> a < B ->
  xeq (rmul rnd (Fin (inject_Z n)) (Fin p)) (Fin (notional p n)).
Proof.
  intros Hp Hn Ha Hb.
  apply (rmul_exact rnd); [reflexivity|reflexivity|now apply (rep_notional p a)].
Qed.

Lemma fees_grid (fs x : xfloat) (f a : Q) :
  xeq fs (Fin f) -> f == 0 -> xeq x (Fin a) ->
  xeq (radd rnd fs (rmul rnd x (Fin 0))) (Fin (f + a * 0)).
Proof.
  intros Hf H0 Hx. apply (radd_exact rnd); [exact Hf|now apply rmul_zero|].
  assert (E : f + a * 0 == 0) by (rewrite H0; ring). rewrite E. apply rnd_0.
Qed.

(** The cash after a purchase and after a sale. *)
Lemma buy_cash_grid (cs x : xfloat) (c a : Q) :
  xeq cs (Fin c) -> xeq x (Fin a) -> multiple g c -> multiple g a ->
  0 <= a -> a <= c -> c < B -> representable rnd a ->
  xeq (rsub rnd cs (radd rnd x (rmul rnd x (Fin 0)))) (Fin (c - (a + a * 0))).
Proof.
  intros Hc Hx Hm Hma H0 Ha Hb Hr.
  apply (rsub_exact rnd); [exact Hc|apply (radd_exact rnd); [exact Hx|now apply rmul_zero|]|].
  - assert (E : a + a * 0 == a) by ring. now rewrite E.
  - apply rep_nonneg; [|lra|lra].
    apply multiple_sub, multiple_add; auto using multiple_fee.
Qed.

Lemma sell_cash_grid (cs x : xfloat) (c a : Q) :
  xeq cs (Fin c) -> xeq x (Fin a) -> multiple g c -> multiple g a ->
  0 <= c -> 0 <= a -> c + a < B -> representable rnd a ->
  xeq (radd rnd cs (rsub rnd x (rmul rnd x (Fin 0)))) (Fin (c + (a - a * 0))).
Proof.
  intros Hc Hx Hm Hma H0 Ha Hb Hr.
  apply (radd_exact rnd); [exact Hc|apply (rsub_exact rnd); [exact Hx|now apply rmul_zero|]|].
  - assert (E : a - a * 0 == a) by ring. now rewrite E.
  - apply rep_nonneg; [|lra|lra].
    apply multiple_add, multiple_sub; auto using multiple_fee.
Qed.

(** The trade of the day is the trade of the ledger machine. *)
Lemma trade_step_r_grid (st : loop_state) (l : ledger) (p : Q) (z : Z) :
  near_ledger st l -> grid_ledger l -> grid_price p -> equity p l < B ->
  let x := ledger_next 0 p (decode z) l in
  exists cr fr,
    trade_step_r rnd (Fin 0) st p z =
    Ok (mk_state cr (l_shares (fst x)) fr (portfolio_values st)
          (if starved p (decode z) l then positions st
           else positions st ++ [appended_flag (positions st) (snd x)])
          (trades st) (daily_returns st) (prev_portfolio_value st), snd x) /\
    xeq cr (Fin (l_cash (fst x))) /\ xeq fr (Fin (l_fees (fst x))).
Proof.
  intros (Hc & Hh & Hf) (Hm & H0 & Hs & Hf0) Hp Hv x. subst x. pose proof Hp as [Hmp Hp0].
  destruct st as [cs hs fs pv pos tr dr pp], l as [c h f]. unfold equity in Hv.
  cbn [cash holdings total_fees l_cash l_shares l_fees portfolio_values positions
       trades daily_returns prev_portfolio_value] in *. subst hs.
  pose proof (notional_nonneg p h Hp0 Hs) as Hn. pose proof (Qfloor_div_mul_le c Hp0) as Hle.
  unfold trade_step_r. cbn [cash holdings total_fees portfolio_values positions
       trades daily_returns prev_portfolio_value].
  rewrite (floor_divide_grid cs c p Hc Hp H0) by lra. rewrite py_int_floordiv by lra.
  cbn [bind].
  destruct (decode_cases z) as [[-> ->]|[[-> ->]|(N1 & N2 & ->)]];
    cbn [ledger_next starved l_shares l_cash l_fees fst snd]; unfold purchasable;
    cbn [l_cash].
  - cbn [Z.eqb Pos.eqb]. destruct (Z.eqb_spec h 0) as [->|E]; cbn [andb].
    + destruct (Z.ltb_spec 0 (Qfloor (c / p))), (Z.leb_spec (Qfloor (c / p)) 0);
        try lia; [|exists cs, fs; now repeat split].
      assert (Hx := cost_grid p c (Qfloor (c / p)) Hp ltac:(lia) Hle ltac:(lra)).
      do 2 eexists. split; [reflexivity|]. cbn [fst l_cash l_fees]. split.
      * apply buy_cash_grid; auto using multiple_notional; try lra.
        apply notional_nonneg; [exact Hp0|lia].
      * now apply fees_grid.
    + exists cs, fs. destruct (0 <? h)%Z; now repeat split.
  - cbn [Z.eqb andb]. destruct (Z.ltb_spec 0 h); [|exists cs, fs; now repeat split].
    assert (Hx := cost_grid p (c + notional p h) h Hp Hs ltac:(lra) Hv).
    do 2 eexists. split; [reflexivity|]. cbn [fst l_cash l_fees]. split.
    * apply sell_cash_grid; auto using multiple_notional.
    * now apply fees_grid.
  - apply Z.eqb_neq in N1 as ->, N2 as ->. exists cs, fs. now repeat split.
Qed.

(** The value recorded for the day is the value of the ledger. *)
Lemma value_r_grid (st : loop_state) (l : ledger) (p : Q) :
  near_ledger st l -> grid_ledger l -> grid_price p -> equity p l < B ->
  xeq (value_r rnd st p) (Fin (equity p l)).
Proof.
  intros (Hc & Hh & _) (Hm & H0 & Hs & _) Hp Hv. pose proof Hp as [Hmp Hp0].
  pose proof (notional_nonneg p (l_shares l) Hp0 Hs) as Hn. unfold equity in *.
  unfold value_r. rewrite Hh. apply (radd_exact rnd); [exact Hc| |].
  - apply (cost_grid p (l_cash l + notional p (l_shares l))); auto. lra.
  - apply rep_nonneg; [|lra|lra]. apply multiple_add; auto using multiple_notional.
Qed.

(** The return of the day is the rounding of the exact return. *)
Lemma return_r_grid (prev v : xfloat) (q w : Q) :
  xeq prev (Fin q) -> xeq v (Fin w) -> representable rnd (w - q) ->
  xeq (return_r rnd prev v) (rnd (simple_return q w)).
Proof.
  intros Hq Hw Hr. unfold return_r, simple_return, nonzero.
  destruct prev as [q0| | |]; cbn in Hq; try tauto. cbn [xeqb].
  assert (E0 : Qeq_bool q0 0 = Qeq_bool q 0)
    by (destruct (Qeq_bool q0 0) eqn:E1, (Qeq_bool q 0) eqn:E2; qbool; auto; lra).
  rewrite E0.
  destruct (Qeq_bool q 0) eqn:E; qbool; cbn [negb]; [symmetry; apply rnd_0|].
  apply (rdiv_round rnd); [|now cbn|exact E].
  apply (rsub_exact rnd); [exact Hw|now cbn|exact Hr].
Qed.

(** ** The rounded loop beside the exact one *)

(** The state of the rounded loop beside the state of the exact loop:
    the same amounts, flags and markers, and the roundings of the
    same returns. *)
Definition near (sr se : loop_state) : Prop :=
  xeq (cash sr) (cash se) /\ holdings sr = holdings se /\
  xeq (total_fees sr) (total_fees se) /\
  series_eq (portfolio_values sr) (portfolio_values se) /\
  positions sr = positions se /\ trades sr = trades se /\
  Forall2 (fun a e => xeq a (xrnd rnd e)) (daily_returns sr) (daily_returns se) /\
  xeq (prev_portfolio_value sr) (prev_portfolio_value se).

(** The exact state is on the grid: its ledger, and the value of the
    day before. *)
Definition grid_state (se : loop_state) (l : ledger) (q : Q) : Prop :=
  cash se = Fin (l_cash l) /\ holdings se = l_shares l /\
  total_fees se = Fin (l_fees l) /\ prev_portfolio_value se = Fin q /\
  grid_ledger l /\ multiple g q /\ 0 <= q /\ q < B.

(** One iteration of the rounded loop, as the ledger machine computes
    it. *)
Lemma backtest_step_r_grid (st : loop_state) (l : ledger) (q p : Q) (z : Z) :
  near_ledger st l -> xeq (prev_portfolio_value st) (Fin q) ->
  grid_ledger l -> multiple g q -> 0 <= q -> q < B ->
  grid_price p -> equity p l < B ->
  let x := ledger_next 0 p (decode z) l in
  exists cr fr v d,
    backtest_step_r rnd (Fin 0) st (p, z) =
    Ok (mk_state cr (l_shares (fst x)) fr (portfolio_values st ++ [v])
          (if starved p (decode z) l then positions st
           else positions st ++ [appended_flag (positions st) (snd x)])
          (trades st ++ [snd x]) (daily_returns st ++ [d]) v) /\
    xeq cr (Fin (l_cash (fst x))) /\ xeq fr (Fin (l_fees (fst x))) /\
    xeq v (Fin (equity p (fst x))) /\
    xeq d (rnd (simple_return q (equity p (fst x)))).
Proof.
  intros Hl Hq Hg Hmq Hq0 HqB Hp Hv x.
  destruct (trade_step_r_grid st l p z Hl Hg Hp Hv) as (cr & fr & Ht & Hc & Hf).
  destruct (grid_next p (decode z) l Hg Hp) as [Hg' Ev]. fold x in Ht, Hc, Hf, Hg', Ev.
  unfold backtest_step_r. rewrite Ht. cbn [bind fst snd].
  set (st1 := mk_state cr _ fr _ _ _ _ _).
  assert (Hl1 : near_ledger st1 (fst x)) by now repeat split.
  assert (Hv1 : equity p (fst x) < B) by now rewrite Ev.
  pose proof (value_r_grid st1 (fst x) p Hl1 Hg' Hp Hv1) as Hval.
  exists cr, fr, (value_r rnd st1 p),
    (return_r rnd (prev_portfolio_value st) (value_r rnd st1 p)).
  split; [reflexivity|]. repeat split; auto.
  apply return_r_grid; auto. destruct Hg' as (Hm' & Hc' & Hs' & _), Hp as [Hmp Hp0].
  pose proof (notional_nonneg p _ Hp0 Hs') as Hn. unfold equity in *.
  apply rep_grid; [apply multiple_sub; auto using multiple_add, multiple_notional|].
  apply Qabs_Qlt_condition. split; lra.
Qed.

(** An iteration of the two loops from states that are near: both
    succeed, in states that are near. *)
Lemma backtest_step_near (sr se : loop_state) (l : ledger) (q p : Q) (z : Z) :
  near sr se -> grid_state se l q -> grid_price p -> equity p l < B ->
  let l' := fst (ledger_next 0 p (decode z) l) in
  exists sr' se',
    backtest_step_r rnd (Fin 0) sr (p, z) = Ok sr' /\
    backtest_step (Fin 0) se (p, z) = Ok se' /\
    near sr' se' /\ grid_state se' l' (equity p l').
Proof.
  intros (Nc & Nh & Nf & Npv & Npos & Ntr & Ndr & Nq)
    (Ec & Eh & Ef & Eq & Hg & Hmq & Hq0 & HqB) Hp Hv l'.
  destruct se as [cs hs fs pv pos tr dr pp], l as [c h f].
  cbn [cash holdings total_fees portfolio_values positions trades daily_returns
       prev_portfolio_value l_cash l_shares l_fees] in *. subst cs h fs pp.
  destruct (backtest_step_r_grid sr (mk_ledger c hs f) q p z) as (cr & fr & v & d & -> & Hc & Hf & Hw & Hd);
    auto; [now repeat split|].
  destruct (grid_next p (decode z) (mk_ledger c hs f) Hg Hp) as [Hg' Ev]. fold l' in Hc, Hf, Hw, Hd, Hg', Ev |- *.
  rewrite backtest_step_spec by (destruct Hp; lra). fold l'. do 2 eexists.
  split; [reflexivity|split; [reflexivity|]]. rewrite Npos, Ntr.
  pose proof Hg' as (Hm' & Hc' & Hs' & Hf'). pose proof Hp as [Hmp Hp0].
  split; [|repeat split; auto].
  - unfold near, series_eq.
    cbn [cash holdings total_fees portfolio_values positions trades daily_returns
         prev_portfolio_value].
    repeat split; auto; apply Forall2_app; auto.
  - apply multiple_add; auto using multiple_notional.
  - pose proof (notional_nonneg p _ Hp0 Hs'). unfold equity. lra.
  - now rewrite Ev.
Qed.

(** The two loops from states that are near end in states that are
    near, as long as the value of the ledger stays below [B]. *)
Lemma backtest_loop_near (rows : list (Q * Z)) :
  Forall (fun row => grid_price (fst row)) rows ->
  forall (sr se : loop_state) (l : ledger) (q : Q),
  near sr se -> grid_state se l q ->
  Forall (fun v => v < B) (equity_curve 0 (decode_rows rows) l) ->
  exists sr' se',
    backtest_loop_r rnd (Fin 0) rows sr = Ok sr' /\
    backtest_loop (Fin 0) rows se = Ok se' /\ near sr' se'.
Proof.
  unfold backtest_loop_r, backtest_loop.
  induction 1 as [|[p z] rows Hp _ IH]; intros sr se l q Hn Hg Hv.
  - now exists sr, se.
  - change (decode_rows ((p, z) :: rows)) with ((p, decode z) :: decode_rows rows) in Hv.
    cbn [equity_curve fst] in Hv, Hp. apply Forall_cons_iff in Hv as [Hv Hvs].
    destruct (grid_next p (decode z) l) as [_ Ev]; [apply Hg|exact Hp|].
    rewrite Ev in Hv.
    destruct (backtest_step_near sr se l q p z Hn Hg Hp Hv) as (sr1 & se1 & Er & Ee & Hn1 & Hg1).
    cbn [fold_result]. rewrite Er, Ee. cbn [bind]. now apply (IH sr1 se1 _ _ Hn1 Hg1).
Qed.

(** The columns of the rounded run beside the columns of the exact
    one: the same values, flags and markers, and the roundings of the
    same returns. *)
Definition result_near (a b : backtest_result) : Prop :=
  series_eq (Portfolio_Value a) (Portfolio_Value b) /\
  xeq (Total_Fees a) (Total_Fees b) /\
  Positions a = Positions b /\ Trades a = Trades b /\
  Forall2 (fun x e => xeq x (xrnd rnd e))
    (Strategy_Daily_Return a) (Strategy_Daily_Return b).

(** Both runs raise the same exception, or both return and their
    columns are near. *)
Definition outcome_near (a b : result backtest_result) : Prop :=
  match a, b with
  | Ok x, Ok y => result_near x y
  | Raise e, Raise e' => e = e'
  | _, _ => False
  end.

Lemma frame_columns_near (n : nat) (sr se : loop_state) :
  near sr se -> outcome_near (frame_columns n sr) (frame_columns n se).
Proof.
  intros (Nc & Nh & Nf & Npv & Npos & Ntr & Ndr & Nq).
  pose proof (Forall2_length Npv) as E1. pose proof (Forall2_length Ndr) as E2.
  unfold frame_columns, assign_column. rewrite E1, E2, Npos, Ntr.
  repeat (destruct (_ =? n)%nat; cbn [bind outcome_near]; [|reflexivity]).
  now repeat split.
Qed.

(** The run, for a capital and prices on the grid and no fee. *)
Lemma backtest_strategy_r_grid (close : list Q) (signal : list Z) (c : Q) :
  multiple g c -> 0 <= c -> c < B -> Forall grid_price close ->
  Forall (fun v => v < B) (equity_curve 0 (frame_rows close signal) (mk_ledger c 0 0)) ->
  outcome_near (backtest_strategy_r rnd close signal (Fin c) (Fin 0))
    (backtest_strategy close signal (Fin c) (Fin 0)).
Proof.
  intros Hm H0 Hc Hp Hv. rewrite backtest_strategy_columns. unfold backtest_strategy_r.
  destruct (backtest_loop_near (combine close signal)
              (@Forall_combine_fst _ _ _ _ signal Hp)
              (init_state (Fin c)) (init_state (Fin c)) (mk_ledger c 0 0) c)
    as (sr & se & -> & -> & Hn); [| |exact Hv|now apply frame_columns_near].
  - unfold near, series_eq. cbn. repeat split; auto; try reflexivity.
  - unfold grid_state, grid_ledger. cbn. repeat split; auto; try reflexivity.
Qed.

End Grid.

(** ** The binary64 run on a binary grid *)

(** A test for the multiples of [2^-g]. *)
Definition multipleb (g : Z) (q : Q) : bool :=
  Qeq_bool (inject_Z (Qfloor (q * pow2 g))) (q * pow2 g).

Lemma multipleb_spec (g : Z) (q : Q) : multipleb g q = true -> multiple g q.
Proof.
  unfold multipleb. intros E%Qeq_bool_iff. exists (Qfloor (q * pow2 g)).
  pose proof (pow2_add g (- g)) as Hp. rewrite Z.add_opp_diag_r in Hp.
  assert (H1 : pow2 0 == 1) by (rewrite (pow2_inject 0) by lia; reflexivity).
  rewrite E, <- Qmult_assoc, <- Hp, H1. ring.
Qed.

(** binary64 leaves alone the multiples of [2^-g] below [2^(53-g)] and
    the integers below [2^53]. *)
Lemma round64_grid (g : Z) (q : Q) :
  (0 <= g <= - emin)%Z -> multiple g q -> Qabs q < pow2 (prec - g) ->
  representable round64 q.
Proof. intros Hg Hm Hq. now apply representable_binary64, (multiple_binary64 g). Qed.

Lemma round64_integer (g n : Z) :
  (0 <= n)%Z -> inject_Z n * pow2 (- g) < pow2 (prec - g) ->
  representable round64 (inject_Z n).
Proof.
  intros Hn Hq. apply representable_binary64, integer_binary64.
  unfold Z.sub in Hq. rewrite pow2_add in Hq. pose proof (pow2_pos (- g)).
  assert (Hp : pow2 prec == inject_Z (2 ^ prec)) by now apply pow2_inject.
  rewrite Hp in Hq. rewrite Z.abs_eq by exact Hn. apply inject_Z_lt. nra.
Qed.

(** C9: with a capital and prices that are multiples of [2^-g], no fee
    and a portfolio worth less than [2^(53-g)] on every day, the run in
    binary64 arithmetic raises what the exact run raises or returns
    what it returns: the same portfolio values, fee total, position
    flags and trade markers, and the roundings of the same daily
    returns. *)
Theorem backtest_strategy64_grid (close : list Q) (signal : list Z) (c : Q) (g : Z) :
  (0 <= g <= - emin)%Z -> multiple g c -> 0 <= c -> c < pow2 (prec - g) ->
  Forall (grid_price g) close ->
  Forall (fun v => v < pow2 (prec - g))
    (equity_curve 0 (frame_rows close signal) (mk_ledger c 0 0)) ->
  outcome_near round64 (backtest_strategy64 close signal (Fin c) (Fin 0))
    (backtest_strategy close signal (Fin c) (Fin 0)).
Proof.
  intros Hg Hm H0 Hc Hp Hv.
  apply (backtest_strategy_r_grid round64 g (pow2 (prec - g))); auto.
  - intros q. now apply round64_grid.
  - intros n. now apply round64_integer.
Qed.

Lemma backtest_strategy64_grid_witness :
  outcome_near round64
    (backtest_strategy64 [401 # 4; 90; 441 # 4; 80] [1; 0; -1; 1]%Z (Fin 1000) (Fin 0))
    (backtest_strategy [401 # 4; 90; 441 # 4; 80] [1; 0; -1; 1]%Z (Fin 1000) (Fin 0)).
Proof.
  apply (backtest_strategy64_grid [401 # 4; 90; 441 # 4; 80] [1; 0; -1; 1]%Z 1000 2).
  - unfold emin. lia.
  - now apply multipleb_spec.
  - discriminate.
  - reflexivity.
  - repeat constructor; now apply multipleb_spec.
  - repeat constructor.
Defined.

(** On such data, when no row is starved, the binary64 run returns the
    columns of the ledger machine of the design. *)
Corollary backtest_strategy64_ledger (close : list Q) (signal : list Z) (c : Q) (g : Z) :
  (0 <= g <= - emin)%Z -> multiple g c -> 0 <= c -> c < pow2 (prec - g) ->
  Forall (grid_price g) close ->
  Forall (fun v => v < pow2 (prec - g))
    (equity_curve 0 (frame_rows close signal) (mk_ledger c 0 0)) ->
  length signal = length close ->
  starved_count 0 (frame_rows close signal) (mk_ledger c 0 0) = 0%nat ->
  exists res, backtest_strategy64 close signal (Fin c) (Fin 0) = Ok res /\
    result_near round64 res (machine_result 0 c (frame_rows close signal)).
Proof.
  intros Hg Hm H0 Hc Hp Hv Hlen Hk.
  assert (Hn : Forall (fun p => ~ p == 0) close).
  { eapply Forall_impl; [|exact Hp]. intros p [_ Hq] E. rewrite E in Hq. discriminate. }
  pose proof (backtest_strategy_r_grid round64 g (pow2 (prec - g))
    (fun q => round64_grid g q Hg) (fun n Hn' => round64_integer g n Hn')
    close signal c Hm H0 Hc Hp Hv) as H.
  rewrite backtest_strategy_spec, Hk in H by assumption. cbn [Nat.eqb] in H.
  unfold backtest_strategy64.
  destruct (backtest_strategy_r round64 close signal (Fin c) (Fin 0)); [eauto|contradiction].
Qed.
