(* ===== verification/Shares.v ===== *)
(** * Shares: numpy's floor division in binary64

    [shares = int(cash // price)] of [backtest_strategy]
    ([src/subcode/calculation.py]) divides two floats with numpy's
    [floor_divide] ([Machine.npy_divmod]).  This file proves that the
    result is the floor of the exact quotient of the two floats, for a
    cash that is not negative, a positive price and fewer than [2^50]
    shares: the remainder is exact, the difference and the quotient
    are rounded once each, and the last lines of [npy_divmod] snap the
    result to the integer it is near.  It follows that without fees
    an entry in binary64 arithmetic leaves the cash between zero and
    what it was. *)

From Stdlib Require Import String List ZArith QArith Qround Qabs Lia Lqa Bool.
From Stdlib Require Import Morphisms Setoid.
From S2P Require Import Prelude Floats Binary64 Backtest Machine.
Import ListNotations.

Local Open Scope Q_scope.
Local Open Scope res_scope.

(** ** The quotient before it is snapped *)

(** The quotient of [a - fmod(a, b)] by [b] is an integer [k] before
    rounding.  The difference and the quotient are rounded, each with
    a relative error of [2^-53] at most; below [2^50] the result is
    within a quarter of [k], and what follows the division in
    [npy_divmod] snaps it to [k]. *)

Lemma Qtrunc_integer (v : Q) (k : Z) : v == inject_Z k -> Qtrunc v = k.
Proof.
  destruct v as [n d]. unfold Qeq, Qtrunc. cbn. intros E.
  rewrite Z.mul_1_r in E. rewrite E. apply Z.quot_mul. lia.
Qed.

(** The rounded quotient of the rounded product [k * b] by [b]. *)
Lemma quotient64_close (b : Q) (k : Z) :
  is_binary64 b -> 0 < b -> (0 <= k)%Z -> is_binary64 (inject_Z k) ->
  Qabs (round_val (round_val (inject_Z k * b) / b) - inject_Z k)
  <= 2 * unit_roundoff * inject_Z k.
Proof.
  intros Hb Hpos Hk Hbin. destruct (binary64_multiple b Hb) as [M EM].
  assert (Ex : inject_Z k * b == inject_Z (k * M) * pow2 emin)
    by (rewrite inject_Z_mult, EM at 1; ring).
  pose proof (round_val_relative_multiple _ _ Ex) as H1.
  apply (proj2 (inject_Z_le 0 k)) in Hk. change (inject_Z 0) with 0 in Hk.
  rewrite (Qabs_pos_eq (inject_Z k * b)) in H1 by nra.
  set (sv := round_val (inject_Z k * b)) in *.
  pose proof (round_val_nearest (sv / b) (inject_Z k) Hbin) as H2.
  assert (Ey : sv / b * b == sv) by (field; lra).
  set (y := sv / b) in *. set (dv := round_val y) in *. set (K := inject_Z k) in *.
  pose proof unit_roundoff_pos as Hu. set (U := unit_roundoff) in *.
  apply Qabs_Qle_condition in H1. apply Qabs_Qle_condition.
  assert (Hy : - (U * K) <= y - K /\ y - K <= U * K) by (clearbody sv y K U; split; nra).
  revert H2. apply Qabs_case; apply Qabs_case; intros; clearbody sv y dv K U; split; lra.
Qed.

(** A binary64 number near the integer [k] is snapped to [k]. *)
Lemma snap_near (d : Q) (k : Z) :
  is_binary64 d -> (0 <= k < 2 ^ 52)%Z -> Qabs (d - inject_Z k) < 1 # 2 ->
  (k = 0%Z -> d == 0) ->
  xeq (if nonzero (Fin d)
       then if xltb (Fin (1 # 2)) (rsub round64 (Fin d) (c_floor (Fin d)))
            then radd round64 (c_floor (Fin d)) (Fin 1) else c_floor (Fin d)
       else Fin 0) (Fin (inject_Z k)).
Proof.
  intros Hd Hk Hn H0. apply Qabs_Qlt_condition in Hn.
  unfold nonzero. cbn [xeqb c_floor]. destruct (Qeq_bool d 0) eqn:E; qbool; cbn [negb].
  - assert (Ek : k = 0%Z); [|now rewrite Ek].
    assert (- 1 < k < 1)%Z; [|lia]. rewrite E in Hn.
    split; apply inject_Z_lt; change (inject_Z 1) with 1; change (inject_Z (- 1)) with (- 1); lra.
  - assert (Hk0 : 0 <= inject_Z k) by (change 0 with (inject_Z 0); apply inject_Z_le; lia).
    assert (Hf0 : (0 <= Qfloor d)%Z).
    { change 0%Z with (Qfloor 0). apply Qfloor_resp_le.
      destruct (Z.eq_dec k 0) as [->|Hne]; [rewrite H0 by reflexivity; lra|].
      assert (1 <= inject_Z k) by (change 1 with (inject_Z 1); apply inject_Z_le; lia). lra. }
    assert (Hfrac : xeq (rsub round64 (Fin d) (Fin (inject_Z (Qfloor d))))
                        (Fin (d - inject_Z (Qfloor d)))).
    { apply (rsub_exact round64); [reflexivity|reflexivity|].
      apply representable_binary64, binary64_minus_integer; auto using Qfloor_le.
      rewrite pow2_inject by (unfold prec; lia). eapply Qlt_trans with (inject_Z k + 1); [lra|].
      rewrite <- inject_Z_succ. apply inject_Z_lt. unfold prec. lia. }
    rewrite (xltb_Proper _ _ (reflexivity _) _ _ Hfrac). cbn [xltb].
    pose proof (Qfloor_le d) as Hl. pose proof (Qlt_floor d) as Hu. rewrite inject_Z_succ in Hu.
    destruct (Qltb _ _) eqn:El; qbool.
    + assert (Ef : (Qfloor d + 1)%Z = k).
      { apply Z.le_antisymm; apply Zlt_succ_le, inject_Z_lt; unfold Z.succ;
          rewrite !inject_Z_succ; lra. }
      rewrite <- Ef. unfold radd. cbn [xadd xrnd]. rewrite <- inject_Z_succ.
      apply round64_fixed, integer_binary64. unfold prec. lia.
    + assert (Ef : Qfloor d = k).
      { apply Z.le_antisymm; apply Zlt_succ_le, inject_Z_lt; unfold Z.succ;
          rewrite !inject_Z_succ; lra. }
      now rewrite Ef.
Qed.

Lemma near_integer_finite (d : Q) (k : Z) :
  (0 <= k < 2 ^ 52)%Z -> Qabs (d - inject_Z k) < 1 # 2 -> Qabs d < pow2 emax.
Proof.
  intros Hk [H1 H2]%Qabs_Qlt_condition. apply Qabs_Qlt_condition.
  pose proof (pow2_le 52 emax ltac:(unfold emax; lia)) as Hp.
  assert (E : pow2 52 == inject_Z (2 ^ 52)) by (apply pow2_inject; lia).
  assert (inject_Z (k + 1) <= inject_Z (2 ^ 52)) by (apply inject_Z_le; lia).
  assert (0 <= inject_Z k) by (change 0 with (inject_Z 0); apply inject_Z_le; lia).
  rewrite inject_Z_succ in *. split; lra.
Qed.

(** The quotient part of [npy_divmod] on binary64 numbers is the floor
    of the exact quotient. *)
Lemma npy_divmod64_floor (a b : Q) :
  is_binary64 a -> is_binary64 b -> 0 <= a -> 0 < b ->
  (Qfloor (a / b) < 2 ^ 50)%Z ->
  xeq (npy_divmod round64 a b) (Fin (inject_Z (Qfloor (a / b)))).
Proof.
  intros Ha Hb H0 Hpos Hk. assert (Hb' : ~ b == 0) by lra.
  assert (Hq : 0 <= a / b) by (apply Qle_shift_div_l; lra).
  pose proof (Qtrunc_nonneg _ Hq) as Et. pose proof (Qfloor_le (a / b)) as Hf.
  pose proof (Qfloor_div_mul_le a Hpos) as Hle.
  assert (Hk0 : (0 <= Qfloor (a / b))%Z) by (change 0%Z with (Qfloor 0); now apply Qfloor_resp_le).
  set (k := Qfloor (a / b)) in *.
  assert (Hbin : is_binary64 (inject_Z k)) by (apply integer_binary64; unfold prec; lia).
  pose proof (quotient64_close b k Hb Hpos Hk0 Hbin) as Hc.
  pose proof (round_val_mono _ _ Hle) as Hm. rewrite (round_val_fixed a Ha) in Hm.
  assert (Hs0 : 0 <= round_val (inject_Z k * b)).
  { apply round_val_nonneg, Qmult_le_0_compat; [|lra].
    change 0 with (inject_Z 0). apply inject_Z_le. exact Hk0. }
  pose proof (binary64_lt_emax a Ha) as Hmax. rewrite Qabs_pos_eq in Hmax by exact H0.
  set (sv := round_val (inject_Z k * b)) in *. set (dv := round_val (sv / b)) in *.
  assert (HK : 2 * unit_roundoff * inject_Z k <= 1 # 4).
  { assert (Hk' : inject_Z k <= inject_Z (2 ^ 50)) by (apply inject_Z_le; lia).
    assert (E : 2 * unit_roundoff * inject_Z (2 ^ 50) == 1 # 4) by (vm_compute; reflexivity).
    pose proof unit_roundoff_pos. rewrite <- E. nra. }
  assert (Hd : Qabs (dv - inject_Z k) < 1 # 2) by (eapply Qle_lt_trans; [exact Hc|lra]).
  unfold npy_divmod. rewrite fmod_adjust by exact Hb'. rewrite Et.
  assert (E0 : Qltb (a / b) (inject_Z k) = false) by now apply Qltb_ge.
  rewrite E0. clear E0.
  assert (Es : xeq (rsub round64 (Fin a) (Fin (c_fmod a b))) (Fin sv)).
  { unfold rsub. cbn [xsub xopp xadd xrnd]. unfold c_fmod. rewrite Et. fold k.
    assert (E : a + - (a - inject_Z k * b) == inject_Z k * b) by ring.
    rewrite E. unfold round64. rewrite overflow_fin; [reflexivity|fold sv; lra..]. }
  pose proof (near_integer_finite dv k ltac:(lia) Hd) as Hfin.
  assert (Ed : xeq (rdiv round64 (rsub round64 (Fin a) (Fin (c_fmod a b))) (Fin b)) (Fin dv)).
  { rewrite (rdiv_round round64 _ _ _ b Es (reflexivity _) Hb').
    apply Qabs_Qlt_condition in Hfin.
    unfold round64. rewrite overflow_fin; [reflexivity|fold dv; tauto..]. }
  destruct (rdiv round64 _ _) as [d| | |]; cbn in Ed; try tauto.
  apply snap_near; rewrite ?Ed; [|lia|exact Hd|].
  - now apply round_val_binary64.
  - intros Ek. rewrite Ek in Hc. change (inject_Z 0) with 0 in Hc.
    assert (Hz : Qabs (dv - 0) <= 0) by (eapply Qle_trans; [exact Hc|lra]).
    apply Qabs_Qle_condition in Hz. lra.
Qed.

(** C10: the shares bought in binary64 arithmetic are the floor of the
    exact quotient of the float of the cash by the float of the price,
    for a cash that is not negative, a positive price and fewer than
    [2^50] shares. *)
Theorem shares64_floor (c p : Q) :
  is_binary64 c -> is_binary64 p -> 0 <= c -> 0 < p ->
  (Qfloor (c / p) < 2 ^ 50)%Z ->
  py_int (floor_divide round64 (Fin c) p) = Ok (Qfloor (c / p)).
Proof.
  intros Hc Hp H0 Hpos Hk. unfold floor_divide.
  assert (Hp0 : ~ p == 0) by lra. apply Qeqb_neq in Hp0 as ->.
  pose proof (npy_divmod64_floor c p Hc Hp H0 Hpos Hk) as E.
  destruct (npy_divmod round64 c p) as [v| | |]; cbn in E; try tauto.
  cbn [py_int]. now rewrite (Qtrunc_integer v _ E).
Qed.

(** With one dollar and a price of ten cents nine shares are bought:
    the float nearest to 0.1 is above 0.1. *)
Lemma shares64_floor_witness :
  py_int (floor_divide round64 (Fin 1) (3602879701896397 # 36028797018963968)) = Ok 9%Z.
Proof.
  apply (shares64_floor 1 (3602879701896397 # 36028797018963968)).
  - now apply binary64b_spec.
  - now apply binary64b_spec.
  - discriminate.
  - reflexivity.
  - reflexivity.
Defined.

(** ** The cash after an entry *)

(** The cost of the shares the cash pays for, with a fee rate of
    zero, as the entry computes it: a number between zero and the
    cash. *)
Lemma cost64_within (c p : Q) (n : Z) :
  is_binary64 c -> 0 < p -> (0 <= n)%Z -> inject_Z n * p <= c ->
  exists w, radd round64 (rmul round64 (Fin (inject_Z n)) (Fin p))
              (rmul round64 (rmul round64 (Fin (inject_Z n)) (Fin p)) (Fin 0)) = Fin w /\
            0 <= w /\ w <= c.
Proof.
  intros Hc Hp Hn Hle. apply representable_binary64 in Hc.
  assert (H0 : 0 <= inject_Z n * p).
  { apply Qmult_le_0_compat; [|lra]. change 0 with (inject_Z 0). now rewrite <- Zle_Qle. }
  destruct (rnd_between round64 c _ Hc H0 Hle) as (w & Ew & Hw0 & Hwc).
  unfold rmul, radd. cbn [xmul xrnd]. rewrite Ew. cbn [xmul xrnd].
  assert (Ef : xeq (round64 (w * 0)) (Fin 0)).
  { assert (E : w * 0 == 0) by ring. rewrite E. apply rnd_0. }
  destruct (round64 (w * 0)) as [f| | |]; cbn in Ef; try tauto.
  cbn [xadd xrnd].
  assert (E : w + f == w) by (rewrite Ef; ring).
  pose proof (rnd_idem _ _ Ew) as Ei. rewrite <- E in Ei at 1.
  destruct (round64 (w + f)) as [w'| | |]; cbn in Ei; try tauto.
  exists w'. split; [reflexivity|]. rewrite Ei. now split.
Qed.

(** C24: without fees the trade of a day in binary64 arithmetic never
    overdraws a flat ledger: for a cash and a price that are floats,
    the cash not negative, the price positive and fewer than [2^50]
    shares, the cash after the trade is a number between zero and the
    cash before, whatever the signal.  The share count is the floor
    of the quotient, its cost is rounded to a float that is not above
    the cash, and the difference is rounded to a float that is not
    below zero. *)
Theorem entry64_no_overdraft (c p : Q) (z : Z) (st : loop_state) :
  is_binary64 c -> is_binary64 p -> 0 <= c -> 0 < p -> (Qfloor (c / p) < 2 ^ 50)%Z ->
  holdings st = 0%Z -> cash st = Fin c ->
  exists st' t c',
    trade_step_r round64 (Fin 0) st p z = Ok (st', t) /\
    cash st' = Fin c' /\ 0 <= c' /\ c' <= c.
Proof.
  intros Hc Hp H0 Hpos Hk Hh Hst. unfold trade_step_r. rewrite Hh, Hst.
  cbn [Z.ltb Z.compare andb]. rewrite andb_false_r.
  destruct (z =? 1)%Z; cbn [andb Z.eqb].
  2: { eexists _, _, c. split; [reflexivity|]. cbn [cash]. repeat split; auto; lra. }
  unfold floor_divide. assert (Hp0 : ~ p == 0) by lra. apply Qeqb_neq in Hp0 as ->.
  pose proof (npy_divmod64_floor c p Hc Hp H0 Hpos Hk) as E.
  destruct (npy_divmod round64 c p) as [v| | |]; unfold xeq in E; try tauto.
  cbn [py_int bind]. rewrite (Qtrunc_integer v _ E).
  destruct (Z.ltb_spec 0 (Qfloor (c / p))) as [Hn|Hn].
  2: { eexists _, _, c. split; [reflexivity|]. rewrite Hst. repeat split; auto; lra. }
  destruct (cost64_within c p (Qfloor (c / p)) Hc Hpos ltac:(lia) (Qfloor_div_mul_le c Hpos))
    as (w & -> & Hw0 & Hwc).
  apply representable_binary64 in Hc.
  destruct (rnd_between round64 c (c + - w) Hc ltac:(lra) ltac:(lra)) as (c' & Ec & H1 & H2).
  eexists _, _, c'. split; [reflexivity|]. cbn [cash]. unfold rsub. cbn [xsub xopp xadd xrnd].
  now rewrite Ec.
Qed.

(** With one dollar and a price of ten cents. *)
Lemma entry64_no_overdraft_witness :
  exists st' t c',
    trade_step_r round64 (Fin 0) (init_state (Fin 1)) (3602879701896397 # 36028797018963968) 1
    = Ok (st', t) /\ cash st' = Fin c' /\ 0 <= c' /\ c' <= 1.
Proof.
  apply (entry64_no_overdraft 1 (3602879701896397 # 36028797018963968) 1 (init_state (Fin 1))).
  - now apply binary64b_spec.
  - now apply binary64b_spec.
  - discriminate.
  - reflexivity.
  - reflexivity.
  - reflexivity.
  - reflexivity.
Defined.
