(* ===== verification/IndicatorMachine.v ===== *)
(** * IndicatorMachine: [calculate_rsi] in the arithmetic of the machine

    [Indicator] computes the Relative Strength Index with exact
    rationals.  This file states [calculate_rsi]
    ([src/subcode/calculation.py]) once more with every [-], [/] and
    [+] rounded ([Machine]), over whatever rolling mean pandas
    computes, of which only one fact is used: the mean of a column
    without negative values has no negative value.  The indicator then
    stays between 0 and 100 for every rounding that keeps the order
    and leaves 1 and 100 alone, so for binary64 as well: each step
    of the formula is monotone, and so is the rounding.  With the
    rounding that changes nothing and the rolling mean of [Series] the
    function is [Indicator.calculate_rsi]. *)

From Stdlib Require Import String List ZArith QArith Lia Lqa Bool.
From Stdlib Require Import Morphisms Setoid.
From S2P Require Import Prelude Floats Binary64 Series Indicator Machine.
Import ListNotations.

Local Open Scope Q_scope.
Local Open Scope res_scope.

(** ** Ranges of floats *)

(** Not negative: a finite number that is not negative, [+inf], or no
    number at all. *)
Definition not_negative (x : xfloat) : Prop :=
  match x with
  | Fin q => 0 <= q
  | NInf => False
  | _ => True
  end.

(** At least one, or no number at all. *)
Definition at_least_one (x : xfloat) : Prop :=
  match x with
  | Fin q => 1 <= q
  | NInf => False
  | _ => True
  end.

(** Between 0 and 100, or no number at all. *)
Definition percent_or_nan (x : xfloat) : Prop :=
  match x with
  | Fin q => 0 <= q <= 100
  | NaN => True
  | _ => False
  end.

(** Between 0 and 100. *)
Definition percent (x : xfloat) : Prop :=
  match x with
  | Fin q => 0 <= q <= 100
  | _ => False
  end.

(** ** The function *)

Section Rounded.
Variable rnd : Q -> xfloat.

(** [Series.rolling(window, min_periods).mean()] as pandas computes
    it. *)
Variable rolling : nat -> nat -> Series -> result Series.

(** The float computation on one row. *)
Definition rsi_point_r (g l : xfloat) : xfloat :=
  let r := rsub rnd 100 (rdiv rnd 100 (radd rnd 1 (rdiv rnd g l))) in
  if is_nan r then Fin 50 else r.

(** [calculate_rsi(data, period)] on the floats of [data['Close']]. *)
Definition calculate_rsi_r (close : Series) (period : nat) : result Series :=
  let delta := map2 (rsub rnd) close (shift 1 close) in
  let gain := fillna 0 (where_ delta (gt delta 0) 0) in
  let loss := fillna 0 (neg (where_ delta (lt delta 0) 0)) in
  avg_gain <- rolling period 1 gain ;;
  avg_loss <- rolling period 1 loss ;;
  let rs := map2 (rdiv rnd) avg_gain avg_loss in
  let rsi := map (rsub rnd 100) (map (rdiv rnd 100) (map (radd rnd 1) rs)) in
  Ok (fillna 50 rsi).

(** ** The gains and the losses *)

Lemma gain_not_negative (delta : Series) :
  Forall not_negative (fillna 0 (where_ delta (gt delta 0) 0)).
Proof.
  rewrite where_gt_self. unfold fillna. rewrite map_map. apply Forall_map, Forall_forall.
  intros [d| | |] _; cbn; try lra. destruct (Qltb 0 d) eqn:E; qbool; cbn; lra.
Qed.

Lemma loss_not_negative (delta : Series) :
  Forall not_negative (fillna 0 (neg (where_ delta (lt delta 0) 0))).
Proof.
  rewrite where_lt_self. unfold fillna, neg. rewrite !map_map. apply Forall_map, Forall_forall.
  intros [d| | |] _; cbn; try lra. destruct (Qltb d 0) eqn:E; qbool; cbn; lra.
Qed.

(** ** The formula, step by step *)

Context `{Rounding rnd}.
Hypothesis rep_1 : representable rnd 1.
Hypothesis rep_100 : representable rnd 100.

Lemma rnd_percent (q : Q) : 0 <= q <= 100 -> percent (rnd q).
Proof.
  intros [H0 H1]. pose proof (rnd_above rnd 0 q rnd_0 H0). pose proof (rnd_below rnd 100 q rep_100 H1).
  destruct (rnd q); cbn; tauto.
Qed.

Lemma ratio_not_negative (g l : xfloat) :
  not_negative g -> not_negative l -> not_negative (rdiv rnd g l).
Proof.
  unfold rdiv. destruct g as [a| | |], l as [b| | |]; cbn [not_negative xdiv xrnd];
    try tauto; intros Ha Hb.
  - destruct (Qeq_bool b 0) eqn:E; qbool.
    + destruct (Qlt_le_dec 0 a); [now rewrite inf_signed_pos|].
      now rewrite inf_signed_zero by lra.
    + assert (Hq : 0 <= a / b) by (apply Qle_shift_div_l; lra).
      pose proof (rnd_above rnd 0 _ rnd_0 Hq). cbn [xrnd]. destruct (rnd (a / b)); cbn; tauto.
  - pose proof (rnd_above rnd 0 0 rnd_0 (Qle_refl 0)). destruct (rnd 0); cbn; tauto.
  - destruct (Qltb b 0) eqn:E; qbool; [lra|exact I].
Qed.

Lemma one_plus_at_least_one (r : xfloat) :
  not_negative r -> at_least_one (radd rnd 1 r).
Proof.
  unfold radd. destruct r as [v| | |]; cbn [not_negative xadd xrnd at_least_one];
    try tauto; intros Hv.
  assert (Hq : 1 <= 1 + v) by lra.
  pose proof (rnd_above rnd 1 _ rep_1 Hq). destruct (rnd (1 + v)); cbn; tauto.
Qed.

Lemma hundred_over_percent (r : xfloat) :
  at_least_one r -> percent_or_nan (rdiv rnd 100 r).
Proof.
  unfold rdiv. destruct r as [w| | |]; cbn [at_least_one xdiv xrnd]; try tauto; intros Hw.
  - assert (E : Qeq_bool w 0 = false) by (apply Qeqb_neq; lra). rewrite E. cbn [xrnd].
    assert (Hq : 0 <= 100 / w <= 100).
    { split; [apply Qle_shift_div_l; lra|apply Qle_shift_div_r; lra]. }
    pose proof (rnd_percent _ Hq). destruct (rnd (100 / w)); cbn in *; tauto.
  - pose proof (rnd_percent 0 ltac:(lra)). destruct (rnd 0); cbn in *; tauto.
Qed.

Lemma hundred_minus_percent (r : xfloat) :
  percent_or_nan r -> percent_or_nan (rsub rnd 100 r).
Proof.
  unfold rsub. destruct r as [t| | |]; cbn [percent_or_nan xsub xopp xadd xrnd];
    try tauto; intros Ht.
  pose proof (rnd_percent (100 + - t) ltac:(lra)). destruct (rnd (100 + - t)); cbn in *; tauto.
Qed.

(** The indicator of a row is a percentage, whatever the rounding. *)
Lemma rsi_point_r_percent (g l : xfloat) :
  not_negative g -> not_negative l -> percent (rsi_point_r g l).
Proof.
  intros Hg Hl. unfold rsi_point_r.
  pose proof (hundred_minus_percent _ (hundred_over_percent _
    (one_plus_at_least_one _ (ratio_not_negative g l Hg Hl)))) as Hr.
  destruct (rsub rnd 100 _); cbn in *; try tauto. lra.
Qed.

(** The columns of the formula, row by row. *)
Lemma rsi_columns_r (G L : Series) :
  fillna 50 (map (rsub rnd 100) (map (rdiv rnd 100) (map (radd rnd 1) (map2 (rdiv rnd) G L)))) =
  map2 rsi_point_r G L.
Proof. unfold fillna. now rewrite !map_map, map_map2. Qed.

(** ** The function *)

Hypothesis rolling_not_negative : forall w mp s s',
  Forall not_negative s -> rolling w mp s = Ok s' ->
  Forall not_negative s' /\ length s' = length s.

Lemma length_delta (close : Series) :
  length (map2 (rsub rnd) close (shift 1 close)) = length close.
Proof. rewrite length_map2, length_shift. lia. Qed.

Lemma calculate_rsi_r_ok (close : Series) (period : nat) (rsi : Series) :
  calculate_rsi_r close period = Ok rsi ->
  exists G L,
    Forall not_negative G /\ Forall not_negative L /\
    length G = length close /\ length L = length close /\
    rsi = map2 rsi_point_r G L.
Proof.
  unfold calculate_rsi_r. intros (G & HG & (L & HL & [= <-])%bind_ok)%bind_ok.
  apply rolling_not_negative in HG as [HG EG]; [|apply gain_not_negative].
  apply rolling_not_negative in HL as [HL EL]; [|apply loss_not_negative].
  exists G, L. rewrite rsi_columns_r. repeat split; auto.
  - rewrite EG. unfold fillna, where_, gt. now rewrite length_map, length_map2, length_map, length_delta, Nat.min_id.
  - rewrite EL. unfold fillna, neg, where_, lt.
    now rewrite !length_map, length_map2, length_map, length_delta, Nat.min_id.
Qed.

Lemma calculate_rsi_r_percent (close : Series) (period : nat) (rsi : Series) :
  calculate_rsi_r close period = Ok rsi ->
  length rsi = length close /\ Forall percent rsi.
Proof.
  intros (G & L & HG & HL & EG & EL & ->)%calculate_rsi_r_ok. split.
  - rewrite length_map2. lia.
  - apply Forall_map2_each with (P := not_negative) (Q := not_negative);
      auto using rsi_point_r_percent.
Qed.

(** C13: whatever the rounding of the arithmetic and whatever pandas
    computes for the rolling means, as long as the rounding keeps the
    order and leaves 1 and 100 alone and the mean of a column without
    negative values has none, [calculate_rsi] returns one value per
    row and every value is between 0 and 100. *)
Theorem calculate_rsi_r_range (close : Series) (period : nat) (rsi : Series) :
  calculate_rsi_r close period = Ok rsi ->
  length rsi = length close /\ Forall percent rsi.
Proof. apply calculate_rsi_r_percent. Qed.

End Rounded.

(** ** The rolling mean of [Series] *)

Lemma xadd_not_negative (x y : xfloat) :
  not_negative x -> not_negative y -> not_negative (xadd x y).
Proof. destruct x, y; cbn; try tauto. lra. Qed.

Lemma xsum_not_negative (s : Series) : Forall not_negative s -> not_negative (xsum s).
Proof.
  unfold xsum. induction 1 as [|x s Hx _ IH]; cbn [fold_right]; [cbn; lra|].
  now apply xadd_not_negative.
Qed.

Lemma mean_obs_not_negative (mp : nat) (win : Series) :
  Forall not_negative win -> not_negative (mean_obs mp win).
Proof.
  intros Hw. unfold mean_obs. set (obs := filter _ win).
  destruct (mp <=? length obs)%nat; [|exact I].
  assert (Ho : not_negative (xsum obs)).
  { apply xsum_not_negative. unfold obs. apply Forall_forall.
    intros x [Hx _]%filter_In. revert x Hx. now apply Forall_forall. }
  assert (Hn : 0 <= inject_Z (Z.of_nat (length obs)))
    by (change 0 with (inject_Z 0); rewrite <- Zle_Qle; lia).
  destruct (xsum obs) as [a| | |]; cbn [xdiv not_negative] in *; try tauto.
  - destruct (Qeq_bool _ 0) eqn:E; qbool.
    + destruct (Qlt_le_dec 0 a); [now rewrite inf_signed_pos|].
      now rewrite inf_signed_zero by lra.
    + cbn. apply Qle_shift_div_l; lra.
  - destruct (Qltb _ 0) eqn:E; qbool; [lra|exact I].
Qed.

(** The mean of a column without negative values has none. *)
Lemma rolling_mean_not_negative (w mp : nat) (s s' : Series) :
  Forall not_negative s -> rolling_mean w mp s = Ok s' ->
  Forall not_negative s' /\ length s' = length s.
Proof.
  unfold rolling_mean. intros Hs. destruct (w <? mp)%nat; [discriminate|].
  intros [= <-]. split; [|apply length_window_means].
  unfold window_means. apply Forall_map, Forall_forall. intros i _.
  now apply mean_obs_not_negative, Forall_window_at.
Qed.

(** ** The two roundings *)

(** Without rounding, and with the rolling mean of [Series], the
    function is [Indicator.calculate_rsi]. *)
Lemma calculate_rsi_r_exact (close : list Q) (period : nat) :
  calculate_rsi_r Fin rolling_mean (of_Q close) period = calculate_rsi close period.
Proof.
  unfold calculate_rsi_r, calculate_rsi, diff, sdiv, scalar_sub, scalar_div, scalar_add.
  assert (E1 : forall s1 s2, map2 (rsub Fin) s1 s2 = map2 xsub s1 s2)
    by (intros; apply map2_ext; intros; apply xrnd_Fin).
  assert (E2 : forall s1 s2, map2 (rdiv Fin) s1 s2 = map2 xdiv s1 s2)
    by (intros; apply map2_ext; intros; apply xrnd_Fin).
  rewrite E1. destruct (rolling_mean period 1 _) as [G|e]; [|reflexivity].
  destruct (rolling_mean period 1 _) as [L|e]; [|reflexivity].
  cbn [bind]. rewrite E2. do 2 f_equal.
  rewrite !map_map. apply map_ext. intros x. unfold rsub, rdiv, radd. now rewrite !xrnd_Fin.
Qed.

Lemma representable64_1 : representable round64 1.
Proof. now apply representable_binary64, binary64b_spec. Qed.

Lemma representable64_100 : representable round64 100.
Proof. now apply representable_binary64, binary64b_spec. Qed.

Lemma calculate_rsi_r_range_witness :
  let close := of_Q [100; 3602879701896397 # 36028797018963968; 101; 99; 99; 105] in
  exists rsi,
    calculate_rsi_r round64 rolling_mean close 3 = Ok rsi /\
    length rsi = length close /\ Forall percent rsi.
Proof.
  eexists. split; [reflexivity|].
  apply (calculate_rsi_r_range round64 rolling_mean representable64_1 representable64_100
           rolling_mean_not_negative _ 3).
  reflexivity.
Defined.
