(* ===== verification/Metrics.v ===== *)
(** * Metrics: [calculate_performance_metrics]

    The performance report of [src/subcode/calculation.py]: total
    return, maximum drawdown, annualised volatility, Sharpe ratio and
    trade count of the strategy, and the same figures for the
    buy-and-hold baseline.  The pandas reductions the function calls
    ([iloc], [expanding().max()], [min], [mean], [std], [pct_change],
    [abs().sum()]) are defined first.  Square roots are kept symbolic
    (a [root] is known by its radicand), and the format of each entry
    of the report is recorded by the constructor of its [cell] instead
    of being rendered to digits. *)

From Stdlib Require Import String List ZArith QArith Qround Lia Lqa Bool.
From S2P Require Import Prelude Floats Series Ledger Backtest Simulator.
Import ListNotations.

Set Implicit Arguments.

Local Open Scope string_scope.
Local Open Scope Q_scope.
Local Open Scope res_scope.

(** ** The pandas reductions *)

(** [s.iloc[-1]] and [s.iloc[0]]: out of bounds on an empty column. *)
Definition iloc_last (A : Type) (s : list A) : result A :=
  match rev s with
  | x :: _ => Ok x
  | [] => Raise IndexError
  end.

Definition iloc_first (A : Type) (s : list A) : result A :=
  match s with
  | x :: _ => Ok x
  | [] => Raise IndexError
  end.

(** The larger and the smaller of two floats, a [NaN] not being an
    observation. *)
Definition xmax (a b : xfloat) : xfloat :=
  if is_nan a then b else if is_nan b then a else if xltb a b then b else a.

Definition xmin (a b : xfloat) : xfloat :=
  if is_nan a then b else if is_nan b then a else if xltb b a then b else a.

(** [s.expanding(min_periods=1).max()]: the largest observation so
    far, [NaN] before the first one. *)
Fixpoint expanding_max_from (acc : xfloat) (s : Series) : Series :=
  match s with
  | [] => []
  | x :: s' => let m := xmax acc x in m :: expanding_max_from m s'
  end.

Definition expanding_max (s : Series) : Series := expanding_max_from NaN s.

(** [s.min()]: the smallest observation, [NaN] when there is none. *)
Definition smin (s : Series) : xfloat := fold_right xmin NaN s.

(** [s.mean()]: the mean of the observations. *)
Definition mean (s : Series) : xfloat := mean_obs 1 s.

(** The variance with one degree of freedom removed, as [s.std()]
    computes it: [NaN] for fewer than two observations. *)
Definition var (s : Series) : xfloat :=
  let o := filter (fun x => negb (is_nan x)) s in
  let n := inject_Z (Z.of_nat (length o)) in
  if (length o <=? 1)%nat then NaN
  else
    let m := xdiv (xsum o) (Fin n) in
    xdiv (xsum (map (fun x => xmul (xsub x m) (xsub x m)) o)) (Fin (n - 1)).

(** A non-negative float known by its square: [Root v] is the square
    root of [v]. *)
Record root : Type := Root { radicand : xfloat }.

Definition std (s : Series) : root := Root (var s).
Definition np_sqrt (x : xfloat) : root := Root x.
Definition root_mul (a b : root) : root := Root (xmul (radicand a) (radicand b)).

(** [a != 0]: a root is zero exactly when its radicand is. *)
Definition root_nonzero (a : root) : bool := nonzero (radicand a).

(** A float, or a float divided by a root. *)
Inductive ratio : Type :=
| Plain (x : xfloat)
| Over (num : xfloat) (den : root).

(** [s.pct_change()]. *)
Definition pct_change (s : Series) : Series :=
  map2 (fun x p => xsub (xdiv x p) (Fin 1)) s (shift 1 s).

(** [s.abs().sum()] on an integer column. *)
Definition abs_sum (s : list Z) : Z := fold_right Z.add 0%Z (map Z.abs s).

(** ** The report *)

(** An entry of the report with the format it is rendered in. *)
Inductive cell : Type :=
| Dollars (x : xfloat)
| Percent (x : xfloat)
| PercentRoot (v : root)
| Fixed2 (v : ratio)
| Count (n : Z)
| Text (s : string).

(** The columns the function adds to the frame. *)
Record metrics_frame : Type := mk_metrics_frame {
  Buy_and_Hold_Position : list Z;
  Buy_and_Hold_Portfolio_Value : Series;
  Buy_and_Hold_Daily_Return : Series
}.

(** The drawdown column of a value column and its minimum. *)
Definition drawdown_of (values : Series) : Series :=
  let cumulative_max := expanding_max values in
  sdiv (map2 xsub values cumulative_max) cumulative_max.

(** The Sharpe ratio of a column of daily returns with volatility
    [volatility]. *)
Definition sharpe_of (returns : Series) (risk_free_rate : xfloat) (volatility : root)
  : ratio :=
  if root_nonzero volatility
  then Over (xsub (xmul (mean returns) (Fin 252)) risk_free_rate) volatility
  else Plain (Fin 0).

(** [calculate_performance_metrics(data, initial_capital)] on the
    column [data['Close']] and the columns [backtest_strategy] added. *)
Definition calculate_performance_metrics (close : list Q) (bt : backtest_result)
    (initial_capital : xfloat) : result (metrics_frame * list (string * cell)) :=
  last_value <- iloc_last (Portfolio_Value bt) ;;
  let total_return := xsub (xdiv last_value initial_capital) (Fin 1) in
  let max_drawdown := smin (drawdown_of (Portfolio_Value bt)) in
  total_fees <- iloc_last (repeat (Total_Fees bt) (length close)) ;;
  final_portfolio_value <- iloc_last (Portfolio_Value bt) ;;
  let strategy_daily_returns := Strategy_Daily_Return bt in
  let strategy_volatility := root_mul (std strategy_daily_returns) (np_sqrt (Fin 252)) in
  let risk_free_rate := Fin (1 # 100) in
  let strategy_sharpe_ratio :=
    sharpe_of strategy_daily_returns risk_free_rate strategy_volatility in
  let num_trades := abs_sum (Trades bt) in
  let bh_position := repeat 1%Z (length close) in
  first_close <- iloc_first (of_Q close) ;;
  let bh_value := map (fun x => xmul initial_capital (xdiv x first_close)) (of_Q close) in
  bh_last <- iloc_last bh_value ;;
  let bh_total_return := xsub (xdiv bh_last initial_capital) (Fin 1) in
  let bh_max_drawdown := smin (drawdown_of bh_value) in
  let bh_daily_return := fillna (Fin 0) (pct_change (of_Q close)) in
  let bh_volatility := root_mul (std bh_daily_return) (np_sqrt (Fin 252)) in
  let bh_sharpe_ratio := sharpe_of bh_daily_return risk_free_rate bh_volatility in
  bh_final_portfolio_value <- iloc_last bh_value ;;
  Ok ({| Buy_and_Hold_Position := bh_position;
         Buy_and_Hold_Portfolio_Value := bh_value;
         Buy_and_Hold_Daily_Return := bh_daily_return |},
      [ ("portfolio_value", Dollars final_portfolio_value);
        ("total_return", Percent total_return);
        ("max_drawdown", Percent max_drawdown);
        ("volatility", PercentRoot strategy_volatility);
        ("sharpe_ratio", Fixed2 strategy_sharpe_ratio);
        ("fees_paid", Dollars total_fees);
        ("number_of_trades", Count num_trades);
        ("bh_portfolio_value", Dollars bh_final_portfolio_value);
        ("bh_total_return", Percent bh_total_return);
        ("bh_max_drawdown", Percent bh_max_drawdown);
        ("bh_volatility", PercentRoot bh_volatility);
        ("bh_sharpe_ratio", Fixed2 bh_sharpe_ratio);
        ("bh_number_of_trades", Text "N/A");
        ("bh_fees_paid", Text "N/A") ]).

(** [metrics[key]]. *)
Fixpoint lookup (key : string) (m : list (string * cell)) : result cell :=
  match m with
  | [] => Raise (KeyError key)
  | (k, v) :: m' => if String.eqb k key then Ok v else lookup key m'
  end.

(** ** Positions in a column *)

Lemma iloc_last_snoc (A : Type) (s : list A) (x : A) : iloc_last (s ++ [x]) = Ok x.
Proof. unfold iloc_last. now rewrite rev_app_distr. Qed.

Lemma iloc_last_nonempty (A : Type) (s : list A) :
  s <> [] -> exists x, iloc_last s = Ok x /\ In x s.
Proof.
  intros Hne. destruct (exists_last Hne) as (s' & x & ->).
  exists x. rewrite iloc_last_snoc. split; [reflexivity|].
  apply in_or_app. right. now left.
Qed.

Lemma iloc_last_last (A : Type) (s : list A) (x d : A) :
  iloc_last s = Ok x -> last s d = x.
Proof.
  destruct s as [|a s] using rev_ind; [discriminate|].
  rewrite iloc_last_snoc, last_last. now intros [= ->].
Qed.

Lemma iloc_last_map (A B : Type) (f : A -> B) (s : list A) (x : A) :
  iloc_last s = Ok x -> iloc_last (map f s) = Ok (f x).
Proof.
  unfold iloc_last. rewrite <- map_rev. destruct (rev s); [discriminate|].
  now intros [= ->].
Qed.

(** ** Finite columns *)

(** A float that is a finite number satisfying [P]. *)
Definition fin_in (P : Q -> Prop) (x : xfloat) : Prop := exists q, x = Fin q /\ P q.

Lemma fin_in_impl (P R : Q -> Prop) (x : xfloat) :
  (forall q, P q -> R q) -> fin_in P x -> fin_in R x.
Proof. intros H (q & -> & Hq). exists q. auto. Qed.

Lemma xmin_fin_in (P : Q -> Prop) (a b : xfloat) :
  fin_in P a -> fin_in P b \/ b = NaN -> fin_in P (xmin a b).
Proof.
  intros (q & -> & Hq) [(q' & -> & Hq')| ->]; unfold xmin; cbn [is_nan].
  - destruct (xltb (Fin q') (Fin q)); [exists q'|exists q]; auto.
  - exists q. auto.
Qed.

(** The minimum of a non-empty finite column is one of its values. *)
Lemma smin_fin_in (P : Q -> Prop) (s : Series) :
  s <> [] -> Forall (fin_in P) s -> fin_in P (smin s).
Proof.
  intros Hne H. induction H as [|x s Hx Hs IH]; [congruence|].
  cbn [smin fold_right]. apply xmin_fin_in; [assumption|].
  destruct s; [now right|left]. now apply IH.
Qed.

(** ** Drawdowns *)

Lemma xmax_fin (a x : Q) :
  xmax (Fin a) (Fin x) = Fin (if Qltb a x then x else a).
Proof. unfold xmax. cbn [is_nan xltb]. now destruct (Qltb a x). Qed.

(** The drawdown of a value [x] under a peak [m]. *)
Lemma drawdown_range (x m : Q) :
  0 < x -> x <= m -> fin_in (fun d => -1 < d <= 0) (xdiv (xsub (Fin x) (Fin m)) (Fin m)).
Proof.
  intros Hx Hm. cbn [xsub xadd xopp]. rewrite xdiv_fin by lra.
  eexists. split; [reflexivity|].
  assert (0 < m) by lra. assert (0 < / m) by now apply Qinv_lt_0_compat.
  unfold Qdiv. split.
  - apply Qmult_lt_r with (z := m); [assumption|].
    rewrite <- Qmult_assoc, (Qmult_comm (/ m)), Qmult_inv_r by lra. lra.
  - apply Qmult_le_r with (z := m); [assumption|].
    rewrite <- Qmult_assoc, (Qmult_comm (/ m)), Qmult_inv_r by lra. lra.
Qed.

(** Under a positive running peak every later drawdown is in (-1, 0]. *)
Lemma drawdown_from_range (a : Q) (l : list Q) :
  0 < a -> Forall (fun x => 0 < x) l ->
  Forall (fin_in (fun d => -1 < d <= 0))
    (sdiv (map2 xsub (of_Q l) (expanding_max_from (Fin a) (of_Q l)))
          (expanding_max_from (Fin a) (of_Q l))).
Proof.
  intros Ha Hl. revert a Ha. induction Hl as [|x l Hx _ IH]; intros a Ha; [constructor|].
  cbn [of_Q map expanding_max_from]. rewrite xmax_fin.
  set (m := if Qltb a x then x else a).
  assert (Hm : x <= m /\ 0 < m).
  { subst m. destruct (Qltb a x) eqn:E; [split; lra|]. apply Qltb_ge in E. split; lra. }
  unfold sdiv. cbn [map2]. constructor; [now apply drawdown_range|].
  now apply IH.
Qed.

Lemma drawdown_of_range (vs : list Q) :
  Forall (fun x => 0 < x) vs ->
  Forall (fin_in (fun d => -1 < d <= 0)) (drawdown_of (of_Q vs)).
Proof.
  intros H. destruct H as [|x l Hx Hl]; [constructor|].
  unfold drawdown_of, expanding_max. cbn [of_Q map expanding_max_from xmax is_nan].
  unfold sdiv. cbn [map2]. constructor.
  - apply drawdown_range; [assumption|lra].
  - now apply drawdown_from_range.
Qed.

Lemma length_expanding_max_from (acc : xfloat) (s : Series) :
  length (expanding_max_from acc s) = length s.
Proof. revert acc. induction s as [|x s IH]; intros acc; simpl; auto. Qed.

Lemma drawdown_of_nonempty (s : Series) : s <> [] -> drawdown_of s <> [].
Proof. destruct s; [congruence|]. discriminate. Qed.

(** ** Variance *)

Lemma var_short (s : Series) : (length s <= 1)%nat -> var s = NaN.
Proof.
  intros H. unfold var.
  pose proof (filter_length_le (fun x => negb (is_nan x)) s) as Hf.
  now destruct (Nat.leb_spec (length (filter (fun x => negb (is_nan x)) s)) 1); [|lia].
Qed.

Lemma Qsum_squares_nonneg (m : Q) (l : list Q) :
  0 <= Qsum (map (fun x => (x - m) * (x - m)) l).
Proof.
  apply Qsum_nonneg, Forall_map, Forall_forall. intros x _. auto with bt.
Qed.

(** The variance of a list of rationals, one degree of freedom
    removed. *)
Definition Qvar (l : list Q) : Q :=
  let n := inject_Z (Z.of_nat (length l)) in
  let m := Qsum l / n in
  Qsum (map (fun x => (x - m) * (x - m)) l) / (n - 1).

Lemma inject_Z_length_gt_1 (A : Type) (l : list A) :
  (2 <= length l)%nat -> 1 < inject_Z (Z.of_nat (length l)).
Proof. intros H. change 1 with (inject_Z 1). rewrite <- Zlt_Qlt. lia. Qed.

(** On at least two finite values [var] is [Qvar]. *)
Lemma var_of_Q (l : list Q) : (2 <= length l)%nat -> var (of_Q l) = Fin (Qvar l).
Proof.
  intros H. unfold var, Qvar. rewrite filter_obs_of_Q, !length_of_Q.
  destruct (Nat.leb_spec (length l) 1); [lia|].
  pose proof (inject_Z_length_gt_1 l H) as Hn.
  set (n := inject_Z (Z.of_nat (length l))) in *. clearbody n.
  assert (Hn0 : ~ n == 0) by (intros E; rewrite E in Hn; lra).
  assert (Hn1 : ~ n - 1 == 0) by (intros E; lra).
  rewrite xsum_of_Q, xdiv_fin by assumption.
  set (m := Qsum l / n).
  replace (map (fun x => xmul (xsub x (Fin m)) (xsub x (Fin m))) (of_Q l))
    with (of_Q (map (fun x => (x - m) * (x - m)) l))
    by (unfold of_Q; rewrite !map_map; reflexivity).
  now rewrite xsum_of_Q, xdiv_fin by assumption.
Qed.

Lemma Qvar_nonneg (l : list Q) : (2 <= length l)%nat -> 0 <= Qvar l.
Proof.
  intros H. unfold Qvar. pose proof (inject_Z_length_gt_1 l H).
  apply Qle_shift_div_l; [lra|]. rewrite Qmult_0_l. apply Qsum_squares_nonneg.
Qed.

Lemma Qsum_all_eq (a : Q) (l : list Q) :
  Forall (fun x => x == a) l -> Qsum l == inject_Z (Z.of_nat (length l)) * a.
Proof.
  induction 1 as [|x l Hx _ IH]; [reflexivity|].
  change (Qsum (x :: l)) with (x + Qsum l). change (length (x :: l)) with (S (length l)).
  rewrite IH, Hx.
  rewrite Nat2Z.inj_succ, <- Z.add_1_r, inject_Z_plus. change (inject_Z 1) with 1. ring.
Qed.

(** Values that are all the same have no variance. *)
Lemma Qvar_all_eq (a : Q) (l : list Q) :
  (2 <= length l)%nat -> Forall (fun x => x == a) l -> Qvar l == 0.
Proof.
  intros H Hl. unfold Qvar. pose proof (inject_Z_length_gt_1 l H) as Hn.
  set (n := inject_Z (Z.of_nat (length l))) in *.
  assert (Hm : Qsum l / n == a) by (rewrite (Qsum_all_eq Hl); fold n; field; lra).
  set (m := Qsum l / n) in *. rewrite (@Qsum_all_eq 0).
  - rewrite length_map. fold n. field. lra.
  - apply Forall_map. eapply Forall_impl; [|exact Hl]. cbv beta.
    intros x Hx. rewrite Hx, Hm. ring.
Qed.

(** ** Reading a report *)

(** The successful run of [calculate_performance_metrics] in [H]: the
    values it read from the frame, and the frame and the report it
    returns. *)
Ltac metrics_inv H :=
  unfold calculate_performance_metrics in H;
  repeat (let x := fresh "x" in let Hx := fresh "Hx" in
          apply bind_ok in H as (x & Hx & H));
  injection H as <- <-.

Ltac lookup_report := cbv [lookup String.eqb Ascii.eqb Bool.eqb].

(** ** Correctness of the report *)

(** On a frame with at least one row nothing raises. *)
Lemma calculate_performance_metrics_defined (close : list Q) (bt : backtest_result)
    (c0 : xfloat) :
  close <> [] -> Portfolio_Value bt <> [] ->
  exists f m, calculate_performance_metrics close bt c0 = Ok (f, m).
Proof.
  intros Hc Hpv. unfold calculate_performance_metrics.
  destruct (iloc_last_nonempty Hpv) as (v & -> & _).
  destruct close as [|p close]; [congruence|].
  destruct (@iloc_last_nonempty _ (repeat (Total_Fees bt) (length (p :: close))))
    as (tf & -> & _); [discriminate|].
  cbn [bind iloc_first of_Q map].
  destruct (@iloc_last_nonempty _
              (xmul c0 (xdiv (Fin p) (Fin p)) ::
               map (fun x => xmul c0 (xdiv x (Fin p))) (map Fin close)))
    as (b & -> & _); [discriminate|].
  cbn [bind]. eauto.
Qed.

(** On a frame with at least one row the report is produced,
    whatever the values are: division by zero yields special values,
    never an exception. *)
Theorem calculate_performance_metrics_total (close : list Q) (bt : backtest_result)
    (c0 : xfloat) :
  close <> [] -> Portfolio_Value bt <> [] ->
  exists f m, calculate_performance_metrics close bt c0 = Ok (f, m).
Proof. apply calculate_performance_metrics_defined. Qed.

Lemma calculate_performance_metrics_total_witness :
  exists f m,
    calculate_performance_metrics [10; 12; 11]
      (mk_result [Fin 100; Fin 120; Fin 110] (Fin 0) [1; 1; 0]%Z [1; 0; -1]%Z
         [Fin 0; Fin (1 # 5); Fin (-1 # 12)]) (Fin 100) = Ok (f, m).
Proof.
  apply (@calculate_performance_metrics_total [10; 12; 11]
           (mk_result [Fin 100; Fin 120; Fin 110] (Fin 0) [1; 1; 0]%Z [1; 0; -1]%Z
              [Fin 0; Fin (1 # 5); Fin (-1 # 12)]) (Fin 100)); discriminate.
Defined.

(** On a frame without rows the function raises [IndexError]: it
    reads the last portfolio value before anything else. *)
Theorem calculate_performance_metrics_empty (close : list Q) (bt : backtest_result)
    (c0 : xfloat) :
  Portfolio_Value bt = [] ->
  calculate_performance_metrics close bt c0 = Raise IndexError.
Proof. intros H. unfold calculate_performance_metrics. now rewrite H. Qed.

Lemma calculate_performance_metrics_empty_witness :
  calculate_performance_metrics [] (mk_result [] (Fin 0) [] [] []) (Fin 100) =
  Raise IndexError.
Proof.
  apply (@calculate_performance_metrics_empty [] (mk_result [] (Fin 0) [] [] [])
           (Fin 100)).
  reflexivity.
Defined.

(** C12: the maximum drawdown of a positive value column is a finite
    number in (-1, 0]: no value is above the running peak, and a
    positive value is less than the whole peak below it. *)
Theorem max_drawdown_range (close : list Q) (bt : backtest_result) (c0 : xfloat)
    (f : metrics_frame) (m : list (string * cell)) (vs : list Q) :
  calculate_performance_metrics close bt c0 = Ok (f, m) ->
  Portfolio_Value bt = of_Q vs -> Forall (fun v => 0 < v) vs ->
  exists d, lookup "max_drawdown" m = Ok (Percent (Fin d)) /\ -1 < d <= 0.
Proof.
  intros H Hpv Hvs.
  assert (Hne : of_Q vs <> []).
  { rewrite <- Hpv. intros E. unfold calculate_performance_metrics in H.
    now rewrite E in H. }
  metrics_inv H. lookup_report. rewrite Hpv.
  destruct (smin_fin_in (drawdown_of_nonempty Hne) (drawdown_of_range Hvs))
    as (d & -> & Hd).
  now exists d.
Qed.

Lemma max_drawdown_range_witness :
  exists f m,
    calculate_performance_metrics [10; 12; 11]
      (mk_result [Fin 100; Fin 120; Fin 110] (Fin 0) [1; 1; 0]%Z [1; 0; -1]%Z
         [Fin 0; Fin (1 # 5); Fin (-1 # 12)]) (Fin 100) = Ok (f, m) /\
    exists d, lookup "max_drawdown" m = Ok (Percent (Fin d)) /\ -1 < d <= 0.
Proof.
  eexists _, _. split; [vm_compute; reflexivity|].
  eapply (@max_drawdown_range [10; 12; 11]
           (mk_result [Fin 100; Fin 120; Fin 110] (Fin 0) [1; 1; 0]%Z [1; 0; -1]%Z
              [Fin 0; Fin (1 # 5); Fin (-1 # 12)]) (Fin 100) _ _ [100; 120; 110]).
  - now vm_compute.
  - reflexivity.
  - repeat constructor.
Defined.

(** The report carries the last portfolio value, and the total
    return is the growth factor of the capital minus one: the last
    value is the capital times one plus the total return. *)
Theorem total_return_growth (close : list Q) (bt : backtest_result) (c v : Q)
    (f : metrics_frame) (m : list (string * cell)) :
  calculate_performance_metrics close bt (Fin c) = Ok (f, m) ->
  ~ c == 0 -> iloc_last (Portfolio_Value bt) = Ok (Fin v) ->
  lookup "portfolio_value" m = Ok (Dollars (Fin v)) /\
  exists tr, lookup "total_return" m = Ok (Percent (Fin tr)) /\ v == c * (1 + tr).
Proof.
  intros H Hc Hv. metrics_inv H. lookup_report.
  rewrite Hv in Hx, Hx1. injection Hx as <-. injection Hx1 as <-.
  split; [reflexivity|]. rewrite xdiv_fin by assumption. cbn [xsub xadd xopp].
  eexists. split; [reflexivity|]. field. assumption.
Qed.

Lemma total_return_growth_witness :
  exists f m,
    calculate_performance_metrics [10; 12; 11]
      (mk_result [Fin 100; Fin 120; Fin 110] (Fin 0) [1; 1; 0]%Z [1; 0; -1]%Z
         [Fin 0; Fin (1 # 5); Fin (-1 # 12)]) (Fin 100) = Ok (f, m) /\
    lookup "portfolio_value" m = Ok (Dollars (Fin 110)) /\
    exists tr, lookup "total_return" m = Ok (Percent (Fin tr)) /\ 110 == 100 * (1 + tr).
Proof.
  eexists _, _. split; [vm_compute; reflexivity|].
  eapply (@total_return_growth [10; 12; 11]
            (mk_result [Fin 100; Fin 120; Fin 110] (Fin 0) [1; 1; 0]%Z [1; 0; -1]%Z
               [Fin 0; Fin (1 # 5); Fin (-1 # 12)]) 100 110).
  - now vm_compute.
  - discriminate.
  - reflexivity.
Defined.

Lemma abs_sum_markers (ts : list Z) :
  Forall (fun t => In t [-1; 0; 1]%Z) ts ->
  abs_sum ts = Z.of_nat (length (filter (fun t => negb (t =? 0)%Z) ts)).
Proof.
  unfold abs_sum. induction 1 as [|t ts Ht _ IH]; [reflexivity|].
  cbn [map fold_right filter]. rewrite IH.
  destruct Ht as [<-|[<-|[<-|[]]]]; cbn [Z.eqb negb length Z.abs]; lia.
Qed.

Lemma lookup_number_of_trades (close : list Q) (bt : backtest_result) (c0 : xfloat)
    (f : metrics_frame) (m : list (string * cell)) :
  calculate_performance_metrics close bt c0 = Ok (f, m) ->
  lookup "number_of_trades" m = Ok (Count (abs_sum (Trades bt))).
Proof. intros H. metrics_inv H. now lookup_report. Qed.

(** C38: the trade count of the report of a backtest, whatever
    simulator produced its columns, is the number of rows on which a
    trade was executed, entries and exits alike. *)
Theorem number_of_trades_counts (run : simulator) `{Simulator run}
    (close : list Q) (signal : list Z) (c0 fee : xfloat)
    (bt : backtest_result) (f : metrics_frame) (m : list (string * cell)) :
  run close signal c0 fee = Ok bt ->
  calculate_performance_metrics close bt c0 = Ok (f, m) ->
  lookup "number_of_trades" m =
  Ok (Count (Z.of_nat (length (filter (fun t => negb (t =? 0)%Z) (Trades bt))))).
Proof.
  intros Hbt%sim_markers H0. metrics_inv H0. lookup_report.
  now rewrite abs_sum_markers.
Qed.

Lemma number_of_trades_counts_witness :
  exists bt f m,
    backtest_strategy [100; 100; 90; 90; 110; 110; 130; 80; 80; 80]
      [0; 0; 0; 0; 1; 0; 0; -1; 0; 1]%Z (Fin 1000) (Fin 0) = Ok bt /\
    calculate_performance_metrics [100; 100; 90; 90; 110; 110; 130; 80; 80; 80] bt
      (Fin 1000) = Ok (f, m) /\
    lookup "number_of_trades" m =
    Ok (Count (Z.of_nat (length (filter (fun t => negb (t =? 0)%Z) (Trades bt))))).
Proof.
  eexists _, _, _. split; [vm_compute; reflexivity|].
  split; [vm_compute; reflexivity|].
  eapply (@number_of_trades_counts backtest_strategy _
            [100; 100; 90; 90; 110; 110; 130; 80; 80; 80]
            [0; 0; 0; 0; 1; 0; 0; -1; 0; 1]%Z (Fin 1000) (Fin 0)); now vm_compute.
Defined.

Lemma bh_value_of_Q (c p0 : Q) (l : list Q) :
  ~ p0 == 0 ->
  map (fun x => xmul (Fin c) (xdiv x (Fin p0))) (of_Q l) =
  of_Q (map (fun p => c * (p / p0)) l).
Proof.
  intros Hp. unfold of_Q. rewrite !map_map. apply map_ext. intros p.
  now rewrite xdiv_fin.
Qed.

(** The baseline holds the capital scaled by the price relative
    to the first price on every row, so it starts at the capital; its
    position column is 1 on every row. *)
Theorem buy_and_hold_scaled (p0 : Q) (close : list Q) (bt : backtest_result) (c : Q)
    (f : metrics_frame) (m : list (string * cell)) :
  calculate_performance_metrics (p0 :: close) bt (Fin c) = Ok (f, m) -> ~ p0 == 0 ->
  Buy_and_Hold_Portfolio_Value f = of_Q (map (fun p => c * (p / p0)) (p0 :: close)) /\
  Buy_and_Hold_Position f = repeat 1%Z (S (length close)) /\
  c * (p0 / p0) == c.
Proof.
  intros H Hp. metrics_inv H.
  cbn [Buy_and_Hold_Portfolio_Value Buy_and_Hold_Position length].
  injection Hx2 as <-. split; [|split; [reflexivity|now field]].
  now apply (bh_value_of_Q c (p0 :: close)).
Qed.

Lemma buy_and_hold_scaled_witness :
  exists f m,
    calculate_performance_metrics [10; 12; 11]
      (mk_result [Fin 100; Fin 120; Fin 110] (Fin 0) [1; 1; 0]%Z [1; 0; -1]%Z
         [Fin 0; Fin (1 # 5); Fin (-1 # 12)]) (Fin 100) = Ok (f, m) /\
    Buy_and_Hold_Portfolio_Value f =
      of_Q (map (fun p => 100 * (p / 10)) [10; 12; 11]) /\
    Buy_and_Hold_Position f = repeat 1%Z 3 /\
    100 * (10 / 10) == 100.
Proof.
  eexists _, _. split; [vm_compute; reflexivity|].
  eapply (@buy_and_hold_scaled 10 [12; 11]
            (mk_result [Fin 100; Fin 120; Fin 110] (Fin 0) [1; 1; 0]%Z [1; 0; -1]%Z
               [Fin 0; Fin (1 # 5); Fin (-1 # 12)]) 100).
  - now vm_compute.
  - discriminate.
Defined.

(** The annualised volatility of at least two finite daily
    returns is the root of a finite, non-negative number: 252 times
    their variance. *)
Theorem volatility_radicand (close : list Q) (bt : backtest_result) (c0 : xfloat)
    (f : metrics_frame) (m : list (string * cell)) (rs : list Q) :
  calculate_performance_metrics close bt c0 = Ok (f, m) ->
  Strategy_Daily_Return bt = of_Q rs -> (2 <= length rs)%nat ->
  lookup "volatility" m = Ok (PercentRoot (Root (Fin (Qvar rs * 252)))) /\
  0 <= Qvar rs * 252.
Proof.
  intros H Hrs Hn. metrics_inv H. lookup_report.
  rewrite Hrs. unfold root_mul, std, np_sqrt. cbn [radicand].
  rewrite var_of_Q by assumption. split; [reflexivity|].
  pose proof (Qvar_nonneg rs Hn). lra.
Qed.

Lemma volatility_radicand_witness :
  exists f m,
    calculate_performance_metrics [10; 12; 11]
      (mk_result [Fin 100; Fin 120; Fin 110] (Fin 0) [1; 1; 0]%Z [1; 0; -1]%Z
         [Fin 0; Fin (1 # 5); Fin (-1 # 12)]) (Fin 100) = Ok (f, m) /\
    lookup "volatility" m =
      Ok (PercentRoot (Root (Fin (Qvar [0; 1 # 5; -1 # 12] * 252)))) /\
    0 <= Qvar [0; 1 # 5; -1 # 12] * 252.
Proof.
  eexists _, _. split; [vm_compute; reflexivity|].
  eapply (@volatility_radicand [10; 12; 11]
            (mk_result [Fin 100; Fin 120; Fin 110] (Fin 0) [1; 1; 0]%Z [1; 0; -1]%Z
               [Fin 0; Fin (1 # 5); Fin (-1 # 12)]) (Fin 100)).
  - now vm_compute.
  - reflexivity.
  - cbn. lia.
Defined.

(** C39: daily returns that are all the same have no volatility, and
    the Sharpe ratio of the report is then the default 0 instead of a
    division by zero. *)
Theorem sharpe_zero_volatility (close : list Q) (bt : backtest_result) (c0 : xfloat)
    (f : metrics_frame) (m : list (string * cell)) (rs : list Q) (a : Q) :
  calculate_performance_metrics close bt c0 = Ok (f, m) ->
  Strategy_Daily_Return bt = of_Q rs -> (2 <= length rs)%nat ->
  Forall (fun x => x == a) rs ->
  lookup "sharpe_ratio" m = Ok (Fixed2 (Plain (Fin 0))).
Proof.
  intros H Hrs Hn Ha. metrics_inv H. lookup_report.
  rewrite Hrs. unfold sharpe_of, root_nonzero, root_mul, std, np_sqrt. cbn [radicand].
  rewrite var_of_Q by assumption. cbn [xmul]. unfold nonzero. cbn [xeqb].
  assert (E : Qvar rs * 252 == 0) by (rewrite (Qvar_all_eq Hn Ha); ring).
  now apply Qeq_bool_iff in E as ->.
Qed.

Lemma sharpe_zero_volatility_witness :
  exists f m,
    calculate_performance_metrics [10; 12; 11]
      (mk_result [Fin 100; Fin 100; Fin 100] (Fin 0) [0; 0; 0]%Z [0; 0; 0]%Z
         [Fin 0; Fin 0; Fin 0]) (Fin 100) = Ok (f, m) /\
    lookup "sharpe_ratio" m = Ok (Fixed2 (Plain (Fin 0))).
Proof.
  eexists _, _. split; [vm_compute; reflexivity|].
  eapply (@sharpe_zero_volatility [10; 12; 11]
            (mk_result [Fin 100; Fin 100; Fin 100] (Fin 0) [0; 0; 0]%Z [0; 0; 0]%Z
               [Fin 0; Fin 0; Fin 0]) (Fin 100) _ _ [0; 0; 0] 0).
  - now vm_compute.
  - reflexivity.
  - cbn. lia.
  - repeat constructor.
Defined.

(** C37: on a frame of a single row the standard deviation is
    undefined: the volatility is [NaN], which is not equal to zero, so
    the Sharpe ratio is a division by [NaN] and not the default 0. *)
Theorem sharpe_single_row (close : list Q) (bt : backtest_result) (c0 : xfloat)
    (f : metrics_frame) (m : list (string * cell)) :
  calculate_performance_metrics close bt c0 = Ok (f, m) ->
  length (Strategy_Daily_Return bt) = 1%nat ->
  lookup "volatility" m = Ok (PercentRoot (Root NaN)) /\
  exists num, lookup "sharpe_ratio" m = Ok (Fixed2 (Over num (Root NaN))).
Proof.
  intros H Hn. metrics_inv H. lookup_report.
  unfold sharpe_of, root_nonzero, root_mul, std, np_sqrt. cbn [radicand].
  rewrite var_short by lia. cbn [xmul]. unfold nonzero. cbn [xeqb negb]. eauto.
Qed.

Lemma sharpe_single_row_witness :
  exists f m,
    calculate_performance_metrics [10] (mk_result [Fin 100] (Fin 0) [0%Z] [0%Z] [Fin 0])
      (Fin 100) = Ok (f, m) /\
    lookup "volatility" m = Ok (PercentRoot (Root NaN)) /\
    exists num, lookup "sharpe_ratio" m = Ok (Fixed2 (Over num (Root NaN))).
Proof.
  eexists _, _. split; [vm_compute; reflexivity|].
  eapply (@sharpe_single_row [10] (mk_result [Fin 100] (Fin 0) [0%Z] [0%Z] [Fin 0])
            (Fin 100)).
  - now vm_compute.
  - reflexivity.
Defined.

(** ** Flat value columns *)

(** A column whose values are all the finite number [c]. *)
Lemma Forall_xeq_of_Q (c : Q) (s : Series) :
  Forall (fun v => xeq v (Fin c)) s -> exists vs, s = of_Q vs /\ Forall (fun v => v == c) vs.
Proof.
  induction 1 as [|x s Hx _ (vs & -> & Hvs)]; [now exists []|].
  destruct x as [q| | |]; try contradiction.
  exists (q :: vs). split; [reflexivity|]. now constructor.
Qed.

Lemma drawdown_zero (x m : Q) :
  ~ m == 0 -> x == m -> fin_in (fun d => d == 0) (xdiv (xsub (Fin x) (Fin m)) (Fin m)).
Proof.
  intros Hm Hx. cbn [xsub xadd xopp]. rewrite xdiv_fin by assumption.
  eexists. split; [reflexivity|]. rewrite Hx. now field.
Qed.

Lemma drawdown_from_flat (a c : Q) (l : list Q) :
  ~ c == 0 -> a == c -> Forall (fun x => x == c) l ->
  Forall (fin_in (fun d => d == 0))
    (sdiv (map2 xsub (of_Q l) (expanding_max_from (Fin a) (of_Q l)))
          (expanding_max_from (Fin a) (of_Q l))).
Proof.
  intros Hc Ha Hl. revert a Ha. induction Hl as [|x l Hx _ IH]; intros a Ha; [constructor|].
  cbn [of_Q map expanding_max_from]. rewrite xmax_fin.
  set (m := if Qltb a x then x else a).
  assert (Hm : m == c) by (subst m; now destruct (Qltb a x)).
  unfold sdiv. cbn [map2]. constructor; [|now apply IH].
  apply drawdown_zero; rewrite Hm; [assumption|exact Hx].
Qed.

Lemma drawdown_of_flat (c : Q) (vs : list Q) :
  ~ c == 0 -> Forall (fun v => v == c) vs ->
  Forall (fin_in (fun d => d == 0)) (drawdown_of (of_Q vs)).
Proof.
  intros Hc H. destruct H as [|x l Hx Hl]; [constructor|].
  unfold drawdown_of, expanding_max. cbn [of_Q map expanding_max_from xmax is_nan].
  unfold sdiv. cbn [map2]. constructor.
  - apply drawdown_zero; [now rewrite Hx|reflexivity].
  - now apply drawdown_from_flat with (c := c).
Qed.

Lemma abs_sum_zero (ts : list Z) : Forall (fun t => t = 0%Z) ts -> abs_sum ts = 0%Z.
Proof.
  unfold abs_sum. induction 1 as [|t ts -> _ IH]; [reflexivity|].
  cbn [map fold_right Z.abs]. now rewrite IH.
Qed.

(** The report of a run whose value never left the capital: no
    return, no drawdown, no trade. *)
Lemma report_of_flat_run (close : list Q) (bt : backtest_result) (c : Q)
    (f : metrics_frame) (m : list (string * cell)) :
  calculate_performance_metrics close bt (Fin c) = Ok (f, m) -> ~ c == 0 ->
  Forall (fun v => xeq v (Fin c)) (Portfolio_Value bt) ->
  Forall (fun t => t = 0%Z) (Trades bt) ->
  (exists tr, lookup "total_return" m = Ok (Percent (Fin tr)) /\ tr == 0) /\
  (exists dd, lookup "max_drawdown" m = Ok (Percent (Fin dd)) /\ dd == 0) /\
  lookup "number_of_trades" m = Ok (Count 0).
Proof.
  intros H Hc (vs & Hpv & Hvs)%Forall_xeq_of_Q Htr.
  assert (Hne : of_Q vs <> []).
  { rewrite <- Hpv. intros E. unfold calculate_performance_metrics in H.
    now rewrite E in H. }
  metrics_inv H. lookup_report. rewrite Hpv in *. rewrite abs_sum_zero by assumption.
  destruct (iloc_last_nonempty Hne) as (v & Hv & Hin). rewrite Hv in Hx. injection Hx as <-.
  apply in_map_iff in Hin as (q & <- & Hq).
  destruct (smin_fin_in (drawdown_of_nonempty Hne) (drawdown_of_flat Hc Hvs))
    as (d & -> & Hd).
  rewrite xdiv_fin by assumption. cbn [xsub xadd xopp].
  split; [|split; [now exists d|reflexivity]].
  eexists. split; [reflexivity|].
  rewrite Forall_forall in Hvs. rewrite (Hvs q Hq). now field.
Qed.
