(* ===== verification/MetricsMachine.v ===== *)
(** * MetricsMachine: drawdown and total return in the arithmetic of the machine

    [Metrics] computes the report with exact rationals.  The drawdown
    column and the total return of [calculate_performance_metrics]
    ([src/subcode/calculation.py]) are a subtraction and a division
    each, which Python rounds.  This file states them over a rounding
    ([Machine]) and proves that the bounds of the exact model survive:
    a drawdown is between -1 and 0 and a total return is at least -1,
    for every rounding that keeps the order and leaves 1 and the
    values of the column alone, so for binary64 on the columns a
    binary64 run returns.  The lower bound is no longer strict: a
    value far below the peak has the drawdown -1. *)

From Stdlib Require Import String List ZArith QArith Lia Lqa Bool.
From Stdlib Require Import Morphisms Setoid.
From S2P Require Import Prelude Floats Binary64 Series Machine Metrics.
Import ListNotations.

Local Open Scope Q_scope.

Section Rounded.
Context (rnd : Q -> xfloat) `{Rounding rnd}.

(** The drawdown column of a value column. *)
Definition drawdown_of_r (values : Series) : Series :=
  let cumulative_max := expanding_max values in
  map2 (rdiv rnd) (map2 (rsub rnd) values cumulative_max) cumulative_max.

(** [drawdown.min()]. *)
Definition max_drawdown_r (values : Series) : xfloat := smin (drawdown_of_r values).

(** [(last_value / initial_capital) - 1]. *)
Definition total_return_r (last_value initial_capital : xfloat) : xfloat :=
  rsub rnd (rdiv rnd last_value initial_capital) (Fin 1).

(** ** The bounds *)

Hypothesis rep_1 : representable rnd 1.
Hypothesis rep_opp : forall q, representable rnd q -> representable rnd (- q).

(** A positive value as the machine holds it. *)
Definition float_value (x : xfloat) : Prop :=
  exists v, x = Fin v /\ 0 < v /\ representable rnd v.

(** The drawdown of a value [x] under a peak [m]. *)
Lemma drawdown_r_range (x m : Q) :
  0 < x -> x <= m -> representable rnd m ->
  fin_in (fun d => -1 <= d <= 0) (rdiv rnd (rsub rnd (Fin x) (Fin m)) (Fin m)).
Proof.
  intros Hx Hm Hr. unfold rsub. cbn [xsub xopp xadd xrnd].
  pose proof (rnd_above rnd (- m) (x + - m) (rep_opp m Hr) ltac:(lra)) as H1.
  pose proof (rnd_below rnd 0 (x + - m) rnd_0 ltac:(lra)) as H2.
  destruct (rnd (x + - m)) as [t| | |]; try tauto.
  unfold rdiv. rewrite xdiv_fin by lra. cbn [xrnd].
  assert (Hq : -1 <= t / m /\ t / m <= 0).
  { split; [apply Qle_shift_div_l|apply Qle_shift_div_r]; lra. }
  pose proof (rnd_above rnd (- (1)) (t / m) (rep_opp 1 rep_1) (proj1 Hq)) as H3.
  pose proof (rnd_below rnd 0 (t / m) rnd_0 (proj2 Hq)) as H4.
  destruct (rnd (t / m)) as [d| | |]; try tauto. exists d. split; [reflexivity|lra].
Qed.

(** Under a peak the machine holds every later drawdown is in
    [-1, 0]. *)
Lemma drawdown_from_r_range (a : Q) (l : Series) :
  0 < a -> representable rnd a -> Forall float_value l ->
  Forall (fin_in (fun d => -1 <= d <= 0))
    (map2 (rdiv rnd) (map2 (rsub rnd) l (expanding_max_from (Fin a) l))
          (expanding_max_from (Fin a) l)).
Proof.
  intros Ha Hr Hl. revert a Ha Hr.
  induction Hl as [|? l (x & -> & Hx & Hxr) _ IH]; intros a Ha Hr; [constructor|].
  cbn [expanding_max_from]. rewrite xmax_fin. set (m := if Qltb a x then x else a).
  assert (Hm : x <= m /\ 0 < m /\ representable rnd m).
  { subst m. destruct (Qltb a x) eqn:E; qbool; repeat split; auto; lra. }
  cbn [map2]. constructor; [now apply drawdown_r_range|]. now apply IH.
Qed.

Lemma drawdown_of_r_range (values : Series) :
  Forall float_value values ->
  Forall (fin_in (fun d => -1 <= d <= 0)) (drawdown_of_r values).
Proof.
  intros Hv. destruct Hv as [|? l (x & -> & Hx & Hxr) Hl]; [constructor|].
  unfold drawdown_of_r, expanding_max. cbn [expanding_max_from xmax is_nan map2].
  constructor; [apply drawdown_r_range; auto; lra|]. now apply drawdown_from_r_range.
Qed.

Lemma length_drawdown_of_r (values : Series) :
  length (drawdown_of_r values) = length values.
Proof.
  unfold drawdown_of_r, expanding_max.
  rewrite !length_map2, length_expanding_max_from. lia.
Qed.

(** C19: the maximum drawdown the machine computes for a column of
    positive values is a number between -1 and 0, whatever the
    rounding, as long as it keeps the order and leaves alone the
    values of the column, their opposites and 1. *)
Theorem max_drawdown_r_range (values : Series) :
  values <> [] -> Forall float_value values ->
  fin_in (fun d => -1 <= d <= 0) (max_drawdown_r values).
Proof.
  intros Hne Hv. apply smin_fin_in; [|now apply drawdown_of_r_range].
  intros E. apply Hne, length_zero_iff_nil.
  now rewrite <- length_drawdown_of_r, E.
Qed.

(** The total return of a value that is not negative on a positive
    capital is at least -1. *)
Lemma total_return_r_range (v c : Q) :
  0 <= v -> 0 < c ->
  match total_return_r (Fin v) (Fin c) with
  | Fin t => -1 <= t
  | PInf => True
  | _ => False
  end.
Proof.
  intros Hv Hc. unfold total_return_r, rdiv. rewrite xdiv_fin by lra. cbn [xrnd].
  assert (Hq : 0 <= v / c) by (apply Qle_shift_div_l; lra).
  pose proof (rnd_above rnd 0 (v / c) rnd_0 Hq) as H1.
  unfold rsub. destruct (rnd (v / c)) as [t| | |]; cbn [xsub xopp xadd xrnd]; try tauto.
  apply (rnd_above rnd (- (1))); [now apply rep_opp|lra].
Qed.

End Rounded.

(** ** The two roundings *)

Lemma drawdown_of_r_exact (values : Series) : drawdown_of_r Fin values = drawdown_of values.
Proof.
  unfold drawdown_of_r, drawdown_of, sdiv.
  rewrite (map2_ext (rsub Fin) xsub) by (intros; apply xrnd_Fin).
  apply map2_ext. intros. apply xrnd_Fin.
Qed.

Lemma representable64_opp (q : Q) : representable round64 q -> representable round64 (- q).
Proof. rewrite !representable_binary64. apply is_binary64_opp. Qed.

Lemma representable64_one : representable round64 1.
Proof. now apply representable_binary64, binary64b_spec. Qed.

Lemma max_drawdown_r_range_witness :
  fin_in (fun d => -1 <= d <= 0) (max_drawdown_r round64 [Fin 100; Fin 120; Fin (1 # 4)]).
Proof.
  apply (max_drawdown_r_range round64 representable64_one representable64_opp).
  - discriminate.
  - repeat constructor; eexists; (split; [reflexivity|]);
      (split; [reflexivity|now apply representable_binary64, binary64b_spec]).
Defined.
