(* ===== verification/Plot.v ===== *)
(** * Plot: the figure of a run

    [plot_results] of [src/subcode/app.py] draws three stacked axes
    from the frame of a run: the closing prices with a marker on every
    executed trade, the indicator with its two threshold lines, and the
    value of the strategy beside the value of the baseline.  A figure
    is modelled by what is drawn: the curves with their points, format
    and label, the horizontal lines, the titles.  The index of the
    frame is the number of the row; colours, fonts, sizes and margins
    are left out. *)

From Stdlib Require Import String List ZArith QArith Lia Bool.
From S2P Require Import Prelude Floats Series Ledger Backtest Simulator Metrics.
Import ListNotations.

Set Implicit Arguments.

Local Open Scope string_scope.

(** ** Figures *)

(** [ax.plot(x, y, fmt, label=...)]. *)
Record curve : Type := mk_curve {
  curve_x : list nat;
  curve_y : Series;
  curve_fmt : string;
  curve_label : string
}.

(** [ax.axhline(y=..., color=..., label=...)]; the label shows the
    level after the name. *)
Record hline : Type := mk_hline {
  hline_y : xfloat;
  hline_color : string;
  hline_name : string
}.

Record axes : Type := mk_axes {
  curves : list curve;
  hlines : list hline;
  axes_title : string;
  axes_xlabel : string;
  axes_ylabel : string
}.

(** [plt.subplots(3, 1, sharex=True)]. *)
Record figure : Type := mk_figure {
  ax1 : axes;
  ax2 : axes;
  ax3 : axes
}.

(** ** The rows with a trade *)

(** The rows of the frame: index, closing price and trade marker. *)
Definition frame (close : list Q) (trades : list Z) : list (nat * Q * Z) :=
  combine (combine (seq 0 (length close)) close) trades.

(** [data[data['Trades'] != 0]]. *)
Definition trade_rows (close : list Q) (trades : list Z) : list (nat * Q * Z) :=
  filter (fun r => nonzerob (snd r)) (frame close trades).

(** [trades.loc[trades['Trades'] == m]]. *)
Definition marked (m : Z) (rows : list (nat * Q * Z)) : list (nat * Q * Z) :=
  filter (fun r => (snd r =? m)%Z) rows.

(** The markers of the trades [m]: the index and the closing price of
    their rows. *)
Definition markers (m : Z) (fmt label : string) (rows : list (nat * Q * Z)) : curve :=
  mk_curve (map (fun r => fst (fst r)) (marked m rows))
           (of_Q (map (fun r => snd (fst r)) (marked m rows))) fmt label.

(** ** [plot_results] *)

Definition plot_results (close : list Q) (rsi : Series) (bt : backtest_result)
    (bh : metrics_frame) (company_name : string) (rsi_overbought rsi_oversold : xfloat)
  : figure :=
  let index := seq 0 (length close) in
  let trades := trade_rows close (Trades bt) in
  {| ax1 := {| curves := [ mk_curve index (of_Q close) "-" (company_name ++ " Price");
                           markers 1 "^" "Buy" trades;
                           markers (-1) "v" "Sell" trades ];
               hlines := [];
               axes_title := company_name ++ " Price with Buy/Sell Signals";
               axes_xlabel := EmptyString;
               axes_ylabel := "Price ($)" |};
     ax2 := {| curves := [ mk_curve index rsi "-" "RSI" ];
               hlines := [ mk_hline rsi_overbought "r" "Overbought";
                           mk_hline rsi_oversold "g" "Oversold" ];
               axes_title := "Relative Strength Index (RSI)";
               axes_xlabel := EmptyString;
               axes_ylabel := "RSI" |};
     ax3 := {| curves := [ mk_curve index (Portfolio_Value bt) "-"
                             "RSI-Strategy Portfolio Value";
                           mk_curve index (Buy_and_Hold_Portfolio_Value bh) "--"
                             "Buy-n-Hold Portfolio Value" ];
               hlines := [];
               axes_title := "Portfolio Value Over Time";
               axes_xlabel := "Date";
               axes_ylabel := "Portfolio Value ($)" |} |}.

(** All the curves of a figure. *)
Definition figure_curves (fig : figure) : list curve :=
  curves (ax1 fig) ++ curves (ax2 fig) ++ curves (ax3 fig).

(** A curve can be drawn: [plot] raises on an [x] and a [y] of
    different lengths. *)
Definition drawable (c : curve) : Prop := length (curve_x c) = length (curve_y c).

(** The points of a curve. *)
Definition points (c : curve) : list (nat * xfloat) := combine (curve_x c) (curve_y c).

(** ** Markers *)

Lemma marked_trade_rows (m : Z) (close : list Q) (trades : list Z) :
  m <> 0%Z ->
  marked m (trade_rows close trades) = filter (fun r => (snd r =? m)%Z) (frame close trades).
Proof.
  intros Hm. unfold marked, trade_rows. induction (frame close trades) as [|r l IH];
    [reflexivity|].
  cbn [filter]. unfold nonzerob at 1.
  destruct (Z.eqb_spec (snd r) 0) as [E|E]; cbn [negb filter]; rewrite IH; [|reflexivity].
  now destruct (Z.eqb_spec (snd r) m); [congruence|].
Qed.

Lemma markers_drawable (m : Z) (fmt label : string) (rows : list (nat * Q * Z)) :
  drawable (markers m fmt label rows).
Proof. unfold drawable, markers, of_Q. cbn. now rewrite !length_map. Qed.

(** A row of the frame holds the price and the marker of its index. *)
Lemma In_frame (close : list Q) (trades : list Z) (i : nat) (p : Q) (t : Z) :
  In (i, p, t) (frame close trades) ->
  nth_error close i = Some p /\ nth_error trades i = Some t.
Proof.
  unfold frame. intros (k & Hk & Ht)%In_combine_nth_error.
  pose proof (nth_error_In _ _ Hk) as Hin. apply In_combine_seq in Hin.
  assert (Hlt : (k < length close)%nat).
  { apply nth_error_Some. intros E.
    assert (nth_error (combine (seq 0 (length close)) close) k = None); [|congruence].
    apply nth_error_None. rewrite length_combine, length_seq.
    apply nth_error_None in E. lia. }
  assert (k = i); [|now subst].
  apply (f_equal (option_map fst)) in Hk.
  rewrite <- nth_error_map, map_fst_combine_seq in Hk.
  rewrite nth_error_nth' with (d := 0%nat) in Hk by now rewrite length_seq.
  rewrite seq_nth in Hk by assumption. now injection Hk.
Qed.

Lemma length_frame_filter (p : Z -> bool) (close : list Q) (trades : list Z) :
  length trades = length close ->
  length (filter (fun r => p (snd r)) (frame close trades)) = length (filter p trades).
Proof.
  intros Hl. unfold frame.
  rewrite <- (filter_snd_combine p (combine (seq 0 (length close)) close) trades), length_map;
    [reflexivity|].
  rewrite length_combine, length_seq. lia.
Qed.

Lemma trades_of_trade_rows (close : list Q) (trades : list Z) :
  length trades = length close ->
  map snd (trade_rows close trades) = filter nonzerob trades.
Proof.
  intros Hl. unfold trade_rows, frame. apply filter_snd_combine.
  rewrite length_combine, length_seq. lia.
Qed.

(** Buys and sells are all the trades there are. *)
Lemma count_markers (ts : list Z) :
  Forall (fun t => In t [-1; 0; 1]%Z) ts ->
  Z.of_nat (length (filter (fun t => t =? 1)%Z ts) + length (filter (fun t => t =? -1)%Z ts))
  = abs_sum ts.
Proof.
  intros H. rewrite (abs_sum_markers H). f_equal.
  induction H as [|t ts Ht _ IH]; [reflexivity|]. cbn [filter].
  destruct Ht as [<-|[<-|[<-|[]]]]; cbn [Z.eqb Pos.eqb negb length]; lia.
Qed.

Lemma length_points_markers (m : Z) (fmt label : string) (rows : list (nat * Q * Z)) :
  length (points (markers m fmt label rows)) = length (marked m rows).
Proof. unfold points, markers, of_Q. cbn. rewrite length_combine, !length_map. lia. Qed.

(** A point of a marker curve is a row of the frame with that marker,
    at its closing price. *)
Lemma In_points_markers (m : Z) (fmt label : string) (close : list Q) (trades : list Z)
    (i : nat) (y : xfloat) :
  In (i, y) (points (markers m fmt label (trade_rows close trades))) ->
  exists p, y = Fin p /\ nth_error close i = Some p /\ nth_error trades i = Some m.
Proof.
  unfold points, markers, of_Q. cbn [curve_x curve_y]. rewrite map_map.
  rewrite combine_map_same. intros ([[j p] t] & E & Hin)%in_map_iff.
  cbn in E. injection E as <- <-.
  apply filter_In in Hin as [Hin Hm]. apply filter_In in Hin as [Hin _].
  apply Z.eqb_eq in Hm. cbn in Hm. subst t. exists p. split; [reflexivity|].
  now apply In_frame.
Qed.

(** ** The figure of a run *)

Section PlotOfRun.
Context (run : simulator) `{Simulator run}.
Variables (close : list Q) (signal : list Z) (c0 fee : xfloat) (bt : backtest_result).
Variables (rsi : Series) (bh : metrics_frame) (company_name : string) (ob os : xfloat).
Hypothesis Hrun : run close signal c0 fee = Ok bt.

Lemma run_trades_length : length (Trades bt) = length close.
Proof. now destruct (sim_lengths _ _ _ _ _ Hrun) as (_ & _ & ? & _). Qed.

(** The buy and the sell markers of a run are as many as its trades. *)
Lemma markers_count :
  Z.of_nat (length (points (markers 1 "^" "Buy" (trade_rows close (Trades bt))))
            + length (points (markers (-1) "v" "Sell" (trade_rows close (Trades bt)))))
  = abs_sum (Trades bt).
Proof.
  rewrite !length_points_markers, !marked_trade_rows by discriminate.
  rewrite !(length_frame_filter (fun t => t =? _)%Z) by apply run_trades_length.
  apply count_markers. eapply sim_markers, Hrun.
Qed.

(** C17: the figure of a run marks every executed trade once: the buy
    and the sell markers on the price curve are together as many as
    the trades the report counts. *)
Theorem plot_markers_count :
  exists price buy sell,
    curves (ax1 (plot_results close rsi bt bh company_name ob os)) = [price; buy; sell] /\
    Z.of_nat (length (points buy) + length (points sell)) = abs_sum (Trades bt).
Proof. eexists _, _, _. split; [reflexivity|]. apply markers_count. Qed.

(** Every marker of the figure sits on the price curve: a buy
    marker at index [i] is at the closing price of row [i] and that row
    has trade 1; a sell marker is at the closing price of a row with
    trade -1. *)
Theorem plot_markers_on_price (i : nat) (y : xfloat) :
  let fig := plot_results close rsi bt bh company_name ob os in
  (In (i, y) (points (nth 1 (curves (ax1 fig)) (mk_curve [] [] "" ""))) ->
   exists p, y = Fin p /\ nth_error close i = Some p /\ nth_error (Trades bt) i = Some 1%Z)
  /\
  (In (i, y) (points (nth 2 (curves (ax1 fig)) (mk_curve [] [] "" ""))) ->
   exists p, y = Fin p /\ nth_error close i = Some p /\ nth_error (Trades bt) i = Some (-1)%Z).
Proof. split; apply In_points_markers. Qed.

(** C27: the markers of the figure alternate along the index, a buy
    first: between two buys there is a sell. *)
Theorem plot_markers_alternate :
  alternating 1 (map snd (trade_rows close (Trades bt))).
Proof.
  rewrite trades_of_trade_rows by apply run_trades_length.
  exact (sim_alternating run close signal c0 fee bt Hrun).
Qed.

(** Every curve of the figure can be drawn when the indicator
    and the baseline have a row per row of the frame: no [plot] call is
    given an [x] and a [y] of different lengths. *)
Theorem plot_results_drawable :
  length rsi = length close ->
  length (Buy_and_Hold_Portfolio_Value bh) = length close ->
  Forall (@drawable) (figure_curves (plot_results close rsi bt bh company_name ob os)).
Proof.
  intros Hr Hb. destruct (sim_lengths _ _ _ _ _ Hrun) as (Hpv & _).
  unfold figure_curves. cbn [plot_results ax1 ax2 ax3 curves app].
  repeat constructor; try apply markers_drawable;
    unfold drawable, of_Q; cbn [curve_x curve_y]; rewrite length_seq, ?length_map; congruence.
Qed.
End PlotOfRun.

Lemma plot_markers_count_witness :
  exists bt,
    backtest_strategy [100; 100; 90; 90; 110; 110; 130; 80; 80; 80]%Q
      [0; 0; 0; 0; 1; 0; 0; -1; 0; 1]%Z (Fin 1000) (Fin (1 # 1000)) = Ok bt /\
    exists price buy sell,
      curves (ax1 (plot_results [100; 100; 90; 90; 110; 110; 130; 80; 80; 80]%Q []
                     bt (mk_metrics_frame [] [] []) "TSLA" (Fin 70) (Fin 30)))
      = [price; buy; sell] /\
      Z.of_nat (length (points buy) + length (points sell)) = abs_sum (Trades bt).
Proof.
  eexists. split; [vm_compute; reflexivity|].
  apply (@plot_markers_count backtest_strategy _
           [100; 100; 90; 90; 110; 110; 130; 80; 80; 80]%Q
           [0; 0; 0; 0; 1; 0; 0; -1; 0; 1]%Z (Fin 1000) (Fin (1 # 1000))).
  now vm_compute.
Defined.

Lemma plot_markers_alternate_witness :
  exists bt,
    backtest_strategy [100; 100; 90; 90; 110; 110; 130; 80; 80; 80]%Q
      [0; 0; 0; 0; 1; 0; 0; -1; 0; 1]%Z (Fin 1000) (Fin (1 # 1000)) = Ok bt /\
    alternating 1
      (map snd (trade_rows [100; 100; 90; 90; 110; 110; 130; 80; 80; 80]%Q (Trades bt))).
Proof.
  eexists. split; [vm_compute; reflexivity|].
  apply (@plot_markers_alternate backtest_strategy _
           [100; 100; 90; 90; 110; 110; 130; 80; 80; 80]%Q
           [0; 0; 0; 0; 1; 0; 0; -1; 0; 1]%Z (Fin 1000) (Fin (1 # 1000))).
  now vm_compute.
Defined.

Lemma plot_results_drawable_witness :
  exists bt,
    backtest_strategy [10; 12; 11]%Q [1; 0; -1]%Z (Fin 100) (Fin 0) = Ok bt /\
    Forall (@drawable)
      (figure_curves (plot_results [10; 12; 11]%Q [NaN; NaN; NaN] bt
                        (mk_metrics_frame [] [Fin 100; Fin 120; Fin 110] [])
                        "TSLA" (Fin 70) (Fin 30))).
Proof.
  eexists. split; [vm_compute; reflexivity|].
  apply (@plot_results_drawable backtest_strategy _ [10; 12; 11]%Q [1; 0; -1]%Z
           (Fin 100) (Fin 0)); now vm_compute.
Defined.
