(* ===== verification/Format.v ===== *)
(** * Format: the text of the entries of the report

    [calculate_performance_metrics] stores its figures as text
    ([src/subcode/calculation.py], the dictionary [metrics]): amounts
    with [f"${x:,.2f}"], returns, drawdowns and volatilities with
    [f"{x:.2%}"], Sharpe ratios with [f"{x:.2f}"], the trade count as
    an [int].  [render] is that text for a [cell].  A number is rounded
    to its last digit half to even ([round_half_even] of [Binary64]),
    as Python's formatting does on the exact value of the float.
    The format specifications are Python's, modelled from its
    documentation.  The program formats the float
    [std() * np.sqrt(252)]; the model keeps the root symbolic and
    prints it with [round_sqrt], the decimal nearest to the root of
    the radicand. *)

From Stdlib Require Import String Ascii List NArith ZArith QArith Qround Qabs Lia Lqa Bool.
From Stdlib Require Import Morphisms Setoid.
From Stdlib Require Import DecimalString DecimalN DecimalFacts.
From S2P Require Import Prelude Floats Binary64 Parse Series Ledger Backtest Metrics.
Import ListNotations.

Set Implicit Arguments.

Local Open Scope char_scope.
Local Open Scope Q_scope.

(** ** Rounding *)

(** The integer nearest to the square root of a non-negative rational,
    the even one of the two when the root is half way. *)
Definition round_sqrt (q : Q) : Z :=
  let k := Z.sqrt (Qfloor q) in
  match Qcompare q ((inject_Z k + (1 # 2)) * (inject_Z k + (1 # 2))) with
  | Lt => k
  | Gt => (k + 1)%Z
  | Eq => if Z.even k then k else (k + 1)%Z
  end.

(** A value rounded to hundredths: a special value, or a sign and a
    number of hundredths. *)
Inductive rounded : Type :=
| Special (x : xfloat)
| Cents (neg : bool) (n : Z).

(** [x] to two decimals. *)
Definition cents_of (x : xfloat) : rounded :=
  match x with
  | Fin q => Cents (Qltb q 0) (round_half_even (Qabs q * 100))
  | _ => Special x
  end.

(** [s * sqrt v] to two decimals, for a finite scale [s >= 0]. *)
Definition cents_of_root (s : Q) (v : xfloat) : rounded :=
  match v with
  | Fin q => if Qltb q 0 then Special NaN
             else Cents false (round_sqrt (q * (s * 100) * (s * 100)))
  | PInf => Special PInf
  | _ => Special NaN
  end.

(** [num / sqrt v] to two decimals. *)
Definition cents_of_over (num v : xfloat) : rounded :=
  match num, v with
  | NaN, _ | _, NaN | _, NInf => Special NaN
  | Fin a, Fin q =>
      if Qltb q 0 then Special NaN
      else if Qeq_bool q 0 then Special (inf_signed a)
      else Cents (Qltb a 0) (round_sqrt (a * a * 10000 / q))
  | Fin a, PInf => Cents (Qltb a 0) 0
  | _, PInf => Special NaN
  | PInf, Fin q => if Qltb q 0 then Special NaN else Special PInf
  | NInf, Fin q => if Qltb q 0 then Special NaN else Special NInf
  end.

(** ** Digits *)

(** The decimal digits of a natural number. *)
Definition digits_of_N (n : N) : list ascii :=
  list_ascii_of_string (NilZero.string_of_uint (N.to_uint n)).

(** Zeros on the left up to [k] digits. *)
Definition pad_left (k : nat) (ds : list ascii) : list ascii :=
  repeat "0" (k - length ds) ++ ds.

(** A comma after every third digit, on digits in reverse order; [k]
    digits of the current group are out. *)
Fixpoint group3 (k : nat) (rs : list ascii) : list ascii :=
  match rs with
  | [] => []
  | c :: rs' =>
      match k, rs' with
      | 2%nat, _ :: _ => c :: "," :: group3 0 rs'
      | _, _ => c :: group3 (S k) rs'
      end
  end.

(** The thousands separators of the [,] option. *)
Definition with_commas (ds : list ascii) : list ascii := rev (group3 0 (rev ds)).

(** [n] hundredths as [digits.dd]. *)
Definition text_of_cents (grouped : bool) (n : Z) : list ascii :=
  let ds := pad_left 3 (digits_of_N (Z.to_N n)) in
  let ip := firstn (length ds - 2) ds in
  let fp := skipn (length ds - 2) ds in
  (if grouped then with_commas ip else ip) ++ "." :: fp.

Definition text_of_special (x : xfloat) : list ascii :=
  match x with
  | NInf => ["-"; "i"; "n"; "f"]
  | PInf => ["i"; "n"; "f"]
  | _ => ["n"; "a"; "n"]
  end.

(** The text of the [.2f] format, with the [,] option when [grouped]. *)
Definition text_of_rounded (grouped : bool) (r : rounded) : list ascii :=
  match r with
  | Special x => text_of_special x
  | Cents neg n => (if neg then ["-"] else []) ++ text_of_cents grouped n
  end.

(** [str(n)] for an [int]. *)
Definition text_of_Z (n : Z) : list ascii :=
  (if (n <? 0)%Z then ["-"] else []) ++ digits_of_N (Z.abs_N n).

(** ** The entries *)

(** The text of an entry of the report. *)
Definition render (c : cell) : string :=
  match c with
  | Dollars x => string_of_list_ascii ("$" :: text_of_rounded true (cents_of x))
  | Percent x =>
      string_of_list_ascii (text_of_rounded false (cents_of (xmul x (Fin 100))) ++ ["%"])
  | PercentRoot v =>
      string_of_list_ascii (text_of_rounded false (cents_of_root 100 (radicand v)) ++ ["%"])
  | Fixed2 (Plain x) => string_of_list_ascii (text_of_rounded false (cents_of x))
  | Fixed2 (Over num den) =>
      string_of_list_ascii (text_of_rounded false (cents_of_over num (radicand den)))
  | Count n => string_of_list_ascii (text_of_Z n)
  | Text s => s
  end.

(** The report as the dictionary of texts the function returns. *)
Definition render_report (m : list (string * cell)) : list (string * string) :=
  map (fun kv => (fst kv, render (snd kv))) m.

(** ** Rounding errors *)

(** The root of the integer part, as rationals. *)
Lemma sqrt_floor_bounds (q : Q) :
  0 <= q ->
  let k := inject_Z (Z.sqrt (Qfloor q)) in 0 <= k /\ k * k <= q /\ q < (k + 1) * (k + 1).
Proof.
  intros Hq. assert (Hf : (0 <= Qfloor q)%Z)
    by (change 0%Z with (Qfloor 0); now apply Qfloor_resp_le).
  pose proof (Z.sqrt_spec _ Hf) as [Hlo Hhi].
  pose proof (Z.sqrt_nonneg (Qfloor q)) as Hk.
  pose proof (Qfloor_le q) as Hfl. pose proof (Qlt_floor q) as Hfh.
  cbv zeta. change 1 with (inject_Z 1).
  rewrite <- inject_Z_plus, <- !inject_Z_mult.
  repeat split.
  - now apply inject_Z_nonneg.
  - eapply Qle_trans; [|exact Hfl]. now rewrite <- Zle_Qle.
  - eapply Qlt_le_trans; [exact Hfh|]. rewrite <- Zle_Qle. lia.
Qed.

Lemma round_sqrt_cases (q : Q) :
  let k := inject_Z (Z.sqrt (Qfloor q)) in
  round_sqrt q = Z.sqrt (Qfloor q) /\ q <= (k + (1 # 2)) * (k + (1 # 2))
  \/ round_sqrt q = (Z.sqrt (Qfloor q) + 1)%Z /\ (k + (1 # 2)) * (k + (1 # 2)) <= q.
Proof.
  cbv zeta. unfold round_sqrt.
  destruct (Qcompare_spec q ((inject_Z (Z.sqrt (Qfloor q)) + (1 # 2))
                             * (inject_Z (Z.sqrt (Qfloor q)) + (1 # 2)))) as [E|L|G].
  - destruct (Z.even _); [left|right]; split; try reflexivity; lra.
  - left. split; [reflexivity|lra].
  - right. split; [reflexivity|lra].
Qed.

Lemma round_sqrt_nonneg (q : Q) : (0 <= round_sqrt q)%Z.
Proof.
  pose proof (Z.sqrt_nonneg (Qfloor q)).
  destruct (round_sqrt_cases q) as [[-> _]|[-> _]]; lia.
Qed.

Lemma Qsquare_le_inv (a b : Q) : 0 <= b -> a * a <= b * b -> a <= b.
Proof.
  intros Hb H. destruct (Qlt_le_dec b a) as [L|]; [exfalso|assumption].
  assert (0 < (a - b) * (a + b)) by (apply Qmult_lt_0_compat; lra). lra.
Qed.

(** No number whose square is at most [q] exceeds the rounded root of
    [q] by more than a half. *)
Lemma round_sqrt_upper (q y : Q) :
  0 <= q -> y * y <= q -> y <= inject_Z (round_sqrt q) + (1 # 2).
Proof.
  intros Hq Hy. destruct (sqrt_floor_bounds Hq) as (Hk & _ & Hhi).
  destruct (round_sqrt_cases q) as [[-> H]|[-> H]].
  - apply Qsquare_le_inv; lra.
  - rewrite inject_Z_plus. change (inject_Z 1) with 1.
    assert (y <= inject_Z (Z.sqrt (Qfloor q)) + 1) by (apply Qsquare_le_inv; lra). lra.
Qed.

(** No non-negative number whose square is at least [q] is below the
    rounded root of [q] by more than a half. *)
Lemma round_sqrt_lower (q y : Q) :
  0 <= q -> 0 <= y -> q <= y * y -> inject_Z (round_sqrt q) - (1 # 2) <= y.
Proof.
  intros Hq Hy0 Hy. destruct (sqrt_floor_bounds Hq) as (Hk & Hlo & _).
  destruct (round_sqrt_cases q) as [[-> H]|[-> H]].
  - assert (inject_Z (Z.sqrt (Qfloor q)) <= y) by (apply Qsquare_le_inv; lra). lra.
  - rewrite inject_Z_plus. change (inject_Z 1) with 1.
    assert (inject_Z (Z.sqrt (Qfloor q)) + (1 # 2) <= y) by (apply Qsquare_le_inv; lra). lra.
Qed.

(** ** Rounding does not depend on how a number is written *)

#[export] Instance round_sqrt_Proper : Proper (Qeq ==> eq) round_sqrt.
Proof.
  intros x y H. unfold round_sqrt. rewrite (Qfloor_comp x y H).
  set (k := inject_Z (Z.sqrt (Qfloor y)) + (1 # 2)).
  assert (E : Qcompare x (k * k) = Qcompare y (k * k)) by now rewrite H.
  now rewrite E.
Qed.

#[export] Instance cents_of_Proper : Proper (xeq ==> eq) cents_of.
Proof.
  intros [a| | |] [b| | |] H; try contradiction; try reflexivity.
  cbn in H. cbn [cents_of]. now rewrite H.
Qed.

#[export] Instance cents_of_root_Proper : Proper (Qeq ==> xeq ==> eq) cents_of_root.
Proof.
  intros s t Hs [a| | |] [b| | |] H; try contradiction; try reflexivity.
  cbn in H. cbn [cents_of_root]. rewrite H.
  assert (E : a * (s * 100) * (s * 100) == b * (t * 100) * (t * 100)) by now rewrite H, Hs.
  now rewrite E.
Qed.

#[export] Instance cents_of_over_Proper : Proper (xeq ==> xeq ==> eq) cents_of_over.
Proof.
  intros [a| | |] [b| | |] Hab [q| | |] [r| | |] Hqr; try contradiction; try reflexivity;
    cbn in Hab, Hqr; cbn [cents_of_over]; rewrite ?Hab, ?Hqr; reflexivity.
Qed.

(** Two entries of the same format with equal values. *)
Definition cell_eq (c d : cell) : Prop :=
  match c, d with
  | Dollars x, Dollars y | Percent x, Percent y => xeq x y
  | PercentRoot u, PercentRoot v => xeq (radicand u) (radicand v)
  | Fixed2 (Plain x), Fixed2 (Plain y) => xeq x y
  | Fixed2 (Over a u), Fixed2 (Over b v) => xeq a b /\ xeq (radicand u) (radicand v)
  | Count m, Count n => m = n
  | Text s, Text t => s = t
  | _, _ => False
  end.

(** Entries with equal values have the same text. *)
#[export] Instance render_Proper : Proper (cell_eq ==> eq) render.
Proof.
  intros [x|x|u|[x|a u]|m|s] [y|y|v|[y|b v]|n|t] H; try contradiction; cbn in H;
    cbn [render]; try (now rewrite H); try congruence.
  destruct H as [H1 H2]. now rewrite H1, H2.
Qed.

(** ** Digits *)

Lemma digits_of_N_digits (n : N) : Forall (fun c => is_digit c = true) (digits_of_N n).
Proof. apply digits_NilZero. Qed.

Lemma digits_of_N_nonempty (n : N) : digits_of_N n <> [].
Proof. apply NilZero_nonempty. Qed.

(** The digits of a number write that number. *)
Lemma N_of_digits_of_N (n : N) : N_of_digits (digits_of_N n) = n.
Proof. unfold digits_of_N. now rewrite N_of_digits_NilZero, DecimalN.Unsigned.of_to. Qed.

Lemma pad_left_digits (k : nat) (ds : list ascii) :
  Forall (fun c => is_digit c = true) ds ->
  Forall (fun c => is_digit c = true) (pad_left k ds).
Proof.
  intros H. apply Forall_app. split; [|exact H].
  apply Forall_forall. now intros c ->%repeat_spec.
Qed.

Lemma length_pad_left (k : nat) (ds : list ascii) : (k <= length (pad_left k ds))%nat.
Proof. unfold pad_left. rewrite length_app, repeat_length. lia. Qed.

Lemma N_of_digits_pad_left (k : nat) (ds : list ascii) :
  N_of_digits (pad_left k ds) = N_of_digits ds.
Proof. apply N_of_digits_zeros. Qed.

(** ** Reading the text back *)

(** The parts of a number of hundredths: digits, at least one before
    the point and two after it, that write the number. *)
Lemma text_of_cents_parts (n : Z) :
  exists ip fp, text_of_cents false n = ip ++ "." :: fp
    /\ Forall (fun c => is_digit c = true) ip /\ ip <> []
    /\ Forall (fun c => is_digit c = true) fp /\ length fp = 2%nat
    /\ N_of_digits (ip ++ fp) = Z.to_N n.
Proof.
  unfold text_of_cents. set (ds := pad_left 3 (digits_of_N (Z.to_N n))).
  assert (Hd : Forall (fun c => is_digit c = true) ds) by apply pad_left_digits, digits_of_N_digits.
  assert (Hl : (3 <= length ds)%nat) by apply length_pad_left.
  exists (firstn (length ds - 2) ds), (skipn (length ds - 2) ds).
  repeat split.
  - now apply Forall_firstn.
  - intros E%(f_equal (@length _)). rewrite length_firstn in E.
    change (@length ascii []) with 0%nat in E. lia.
  - now apply Forall_skipn.
  - rewrite length_skipn. lia.
  - rewrite firstn_skipn. unfold ds. now rewrite N_of_digits_pad_left, N_of_digits_of_N.
Qed.

Lemma scale_cents (n : Z) : (0 <= n)%Z -> scale (Z.to_N n) (-2) == inject_Z n * (1 # 100).
Proof. intros H. unfold scale. rewrite Z2N.id by exact H. reflexivity. Qed.

(** A number of hundredths is read back from its text, with its sign. *)
Lemma float_of_text_cents (neg : bool) (n : Z) :
  float_of_text (string_of_list_ascii (text_of_rounded false (Cents neg n)))
  = Some (Fin (if neg then - scale (Z.to_N n) (-2) else scale (Z.to_N n) (-2))).
Proof.
  destruct (text_of_cents_parts n) as (ip & fp & E & Hi & Hin & Hf & Hl & HN).
  cbn [text_of_rounded]. rewrite E.
  assert (Hq : number (ip ++ "." :: fp) = Some (scale (Z.to_N n) (-2))).
  { rewrite number_fixed, HN, Hl by (auto; now destruct fp). reflexivity. }
  destruct ip as [|c s]; [congruence|]. cbn [app] in *.
  apply float_of_text_signed; [now inversion Hi| |exact Hq].
  change (c :: s ++ "." :: fp) with ((c :: s) ++ "." :: fp).
  rewrite last_app_cons. apply is_digit_not_space.
  destruct fp as [|a fp]; [discriminate|].
  change (last ("." :: a :: fp) c) with (last (a :: fp) c).
  now apply (@Forall_last _ (fun c => is_digit c = true)).
Qed.

Lemma scale_0 (m : N) : scale m 0 = inject_Z (Z.of_N m).
Proof. unfold scale, Qmult, inject_Z. cbn. f_equal. lia. Qed.

Lemma Qopp_inject_Z_abs (n : Z) : (n < 0)%Z -> - inject_Z (Z.abs n) = inject_Z n.
Proof. intros H. unfold Qopp, inject_Z. cbn. f_equal. lia. Qed.

(** An integer is read back from its text. *)
Lemma float_of_text_Z (n : Z) :
  float_of_text (string_of_list_ascii (text_of_Z n)) = Some (Fin (inject_Z n)).
Proof.
  unfold text_of_Z. pose proof (digits_of_N_digits (Z.abs_N n)) as Hd.
  pose proof (@digits_of_N_nonempty (Z.abs_N n)) as Hn.
  assert (Hq : number (digits_of_N (Z.abs_N n)) = Some (inject_Z (Z.abs n))).
  { rewrite number_digits, N_of_digits_of_N by auto.
    now rewrite scale_0, N2Z.inj_abs_N. }
  destruct (digits_of_N (Z.abs_N n)) as [|c s] eqn:E; [congruence|].
  rewrite (float_of_text_signed (n <? 0)%Z c s (inject_Z (Z.abs n))); [| now inversion Hd | | exact Hq].
  - do 2 f_equal. destruct (Z.ltb_spec n 0).
    + now apply Qopp_inject_Z_abs.
    + now rewrite Z.abs_eq by lia.
  - apply is_digit_not_space. now apply (@Forall_last _ (fun c => is_digit c = true)).
Qed.

(** ** Thousands separators *)

Definition not_comma (c : ascii) : bool := negb (Ascii.eqb c ",").

Lemma is_digit_not_comma (c : ascii) : is_digit c = true -> not_comma c = true.
Proof. destruct c as [[] [] [] [] [] [] [] []]; (discriminate || reflexivity). Qed.

Lemma filter_group3 (k : nat) (rs : list ascii) :
  Forall (fun c => is_digit c = true) rs -> filter not_comma (group3 k rs) = rs.
Proof.
  intros H. revert k. induction H as [|c rs Hc _ IH]; intros k; [reflexivity|].
  cbn [group3].
  destruct k as [|[|[|k]]]; destruct rs; cbn [filter];
    rewrite ?(is_digit_not_comma _ Hc); cbn [not_comma negb Ascii.eqb]; now rewrite ?IH.
Qed.

(** Removing the commas gives the digits back. *)
Lemma filter_with_commas (ds : list ascii) :
  Forall (fun c => is_digit c = true) ds -> filter not_comma (with_commas ds) = ds.
Proof.
  intros H. unfold with_commas. rewrite filter_rev, filter_group3, rev_involutive; auto.
  now apply Forall_rev.
Qed.

(** The grouped text of a number without its commas is its plain text. *)
Lemma filter_text_of_cents (n : Z) :
  filter not_comma (text_of_cents true n) = text_of_cents false n.
Proof.
  unfold text_of_cents. set (ds := pad_left 3 (digits_of_N (Z.to_N n))).
  assert (Hd : Forall (fun c => is_digit c = true) ds)
    by apply pad_left_digits, digits_of_N_digits.
  rewrite filter_app, filter_with_commas by now apply Forall_firstn.
  f_equal. cbn [filter]. change (not_comma ".") with true. cbv iota. f_equal.
  apply forallb_filter_id, forallb_forall. intros c Hc. apply is_digit_not_comma.
  now apply (proj1 (Forall_forall _ _) (Forall_skipn (length ds - 2) Hd)).
Qed.

(** ** The figures of the report read back *)

(** The number of hundredths of [q], with its sign, is within half a
    hundredth of [q]. *)
Lemma cents_of_close (q : Q) :
  let n := round_half_even (Qabs q * 100) in
  (0 <= n)%Z
  /\ Qabs ((if Qltb q 0 then - scale (Z.to_N n) (-2) else scale (Z.to_N n) (-2)) - q)
     <= 1 # 200.
Proof.
  cbv zeta. set (n := round_half_even (Qabs q * 100)).
  assert (Hn : (0 <= n)%Z).
  { apply round_half_even_nonneg. pose proof (Qabs_nonneg q). lra. }
  split; [exact Hn|].
  pose proof (round_half_even_error (Qabs q * 100)) as He. fold n in He.
  apply Qabs_Qle_condition in He. apply Qabs_Qle_condition. clearbody n.
  destruct (Qltb q 0) eqn:Hq; qbool; rewrite (scale_cents Hn).
  - rewrite (Qabs_neg q) in He by lra. split; lra.
  - rewrite (Qabs_pos q) in He by lra. split; lra.
Qed.

Lemma float_of_text_cents_of (q : Q) :
  exists q', float_of_text (string_of_list_ascii (text_of_rounded false (cents_of (Fin q))))
             = Some (Fin q')
             /\ Qabs (q' - q) <= 1 # 200.
Proof.
  eexists. split; [apply float_of_text_cents|]. apply cents_of_close.
Qed.

(** An amount of the report, without its dollar sign and its
    thousands separators, reads back through [float] as a number within
    half a cent of the amount. *)
Theorem render_dollars_roundtrip (q : Q) :
  exists q',
    float_of_text (string_of_list_ascii
                     (filter not_comma (tl (list_ascii_of_string (render (Dollars (Fin q)))))))
    = Some (Fin q')
    /\ Qabs (q' - q) <= 1 # 200.
Proof.
  cbn [render]. rewrite list_ascii_of_string_of_list_ascii. cbn [tl cents_of text_of_rounded].
  rewrite filter_app, filter_text_of_cents.
  replace (filter not_comma (if Qltb q 0 then ["-"] else []))
    with (if Qltb q 0 then ["-"] else []) by now destruct (Qltb q 0).
  apply (float_of_text_cents_of q).
Qed.

(** The number of trades reads back from its text exactly. *)
Theorem render_count_roundtrip (n : Z) :
  float_of_text (render (Count n)) = Some (Fin (inject_Z n)).
Proof. apply float_of_text_Z. Qed.

(** The volatility printed is the percentage, to two decimals,
    nearest to the square root of the radicand: it is a number [n] of
    hundredths of a percent such that no [y] with [y * y] at most the
    radicand is above [n + 1/2] and no [y] with [y * y] at least the
    radicand is below [n - 1/2], in hundredths of a percent. *)
Theorem render_volatility_nearest (q y : Q) :
  0 <= q -> 0 <= y ->
  exists n, render (PercentRoot (Root (Fin q)))
            = string_of_list_ascii (text_of_cents false n ++ ["%"])
            /\ (y * y <= q -> y * 10000 <= inject_Z n + (1 # 2))
            /\ (q <= y * y -> inject_Z n - (1 # 2) <= y * 10000).
Proof.
  intros Hq Hy. exists (round_sqrt (q * (100 * 100) * (100 * 100))).
  assert (Hq' : 0 <= q * (100 * 100) * (100 * 100)) by lra.
  split; [|split; intros H].
  - cbn [render radicand cents_of_root]. destruct (Qltb q 0) eqn:E; qbool; [lra|reflexivity].
  - apply round_sqrt_upper; [exact Hq'|]. nra.
  - apply round_sqrt_lower; [exact Hq'|lra|]. nra.
Qed.

Lemma render_volatility_nearest_witness :
  exists n, render (PercentRoot (Root (Fin (1 # 10000))))
            = string_of_list_ascii (text_of_cents false n ++ ["%"])
            /\ ((1 # 100) * (1 # 100) <= 1 # 10000 -> (1 # 100) * 10000 <= inject_Z n + (1 # 2))
            /\ (1 # 10000 <= (1 # 100) * (1 # 100) -> inject_Z n - (1 # 2) <= (1 # 100) * 10000).
Proof.
  apply (@render_volatility_nearest (1 # 10000) (1 # 100)); now vm_compute.
Defined.
