(* ===== verification/App.v ===== *)
(** * App: one run of the backtest from the form

    The configuration of [src/subcode/configuration.py], the data
    provider [get_historical_data] of [src/subcode/calculation.py], and
    the methods [run_backtest] and [display_metrics] of the class
    [BacktestApp] of [src/subcode/app.py], as functions: the entries
    of the form are what [float] returns or raises on their text, the
    dialogs and the table are the [outcome] of the run, and the
    download of the prices is a variable of the section.  [Gui.v] has
    the same methods on the window. *)

From Stdlib Require Import String Ascii List ZArith QArith Qround Lia Lqa Bool.
From S2P Require Import Prelude Floats Parse Series Indicator Signals Ledger Backtest Metrics.
Import ListNotations.

Set Implicit Arguments.

Local Open Scope string_scope.
Local Open Scope Q_scope.
Local Open Scope res_scope.

(** ** Configuration *)

Definition COMPANIES : list (string * string) :=
  [ ("Apple Inc. (AAPL)", "AAPL");
    ("Microsoft Corporation (MSFT)", "MSFT");
    ("Amazon.com, Inc. (AMZN)", "AMZN");
    ("Alphabet Inc. Class A (GOOGL)", "GOOGL");
    ("Alphabet Inc. Class C (GOOG)", "GOOG");
    ("Meta Platforms, Inc. (META)", "META");
    ("Tesla, Inc. (TSLA)", "TSLA");
    ("NVIDIA Corporation (NVDA)", "NVDA");
    ("JPMorgan Chase & Co. (JPM)", "JPM") ].

Definition START_DATE : string := "2020-01-01".
Definition END_DATE : string := "2023-12-31".

(** [d[key]] on a dictionary. *)
Fixpoint dict_get (A : Type) (key : string) (d : list (string * A)) : result A :=
  match d with
  | [] => Raise (KeyError key)
  | (k, v) :: d' => if String.eqb k key then Ok v else dict_get key d'
  end.

(** ** The data provider *)

(** A downloaded row: the close and the other columns, each present or
    missing. *)
Record raw_row : Type := mk_row {
  row_close : option Q;
  row_others : list (option Q)
}.

Definition present (A : Type) (o : option A) : bool :=
  match o with Some _ => true | None => false end.

(** [data.dropna()]: the rows without a missing value; what is kept
    of a row is its close. *)
Fixpoint dropna (rows : list raw_row) : list Q :=
  match rows with
  | [] => []
  | r :: rows' =>
      match row_close r with
      | Some p => if forallb (@present Q) (row_others r) then p :: dropna rows'
                  else dropna rows'
      | None => dropna rows'
      end
  end.

(** ** The form *)

(** The entries as [run_backtest] reads them: the variable of the
    dropdown, and for each entry what [float(entry.get())] returns or
    raises ([Parse.py_float] on its text). *)
Record form : Type := mk_form {
  company_var : string;
  capital_entry : result xfloat;
  fee_entry : result xfloat;
  overbought_entry : result xfloat;
  oversold_entry : result xfloat
}.

(** The values the run works with. *)
Record inputs : Type := mk_inputs {
  ticker : string;
  initial_capital : xfloat;
  fee_percentage : xfloat;
  rsi_overbought : xfloat;
  rsi_oversold : xfloat
}.

(** The body of the [try] block of [run_backtest]. *)
Definition read_inputs (ui : form) : result inputs :=
  ticker <- dict_get (company_var ui) COMPANIES ;;
  initial_capital <- capital_entry ui ;;
  if xleb initial_capital (Fin 0)
  then Raise (ValueError "Starting capital must be positive.")
  else
    fee <- fee_entry ui ;;
    let fee_percentage := xdiv fee (Fin 100) in
    if xltb fee_percentage (Fin 0)
    then Raise (ValueError "Fee percentage cannot be negative.")
    else
      rsi_overbought <- overbought_entry ui ;;
      if negb (xltb (Fin 0) rsi_overbought && xltb rsi_overbought (Fin 100))
      then Raise (ValueError "RSI Overbought level must be between 0 and 100.")
      else
        rsi_oversold <- oversold_entry ui ;;
        if negb (xltb (Fin 0) rsi_oversold && xltb rsi_oversold (Fin 100))
        then Raise (ValueError "RSI Oversold level must be between 0 and 100.")
        else if xleb rsi_overbought rsi_oversold
        then Raise (ValueError "RSI Oversold level must be less than RSI Overbought level.")
        else Ok (mk_inputs ticker initial_capital fee_percentage
                   rsi_overbought rsi_oversold).

(** ** The table of the report *)

(** [s.lower()]. *)
Fixpoint lower (s : string) : string :=
  match s with
  | EmptyString => EmptyString
  | String c s' => String (lower_ascii c) (lower s')
  end.

(** [s.replace(a, b)] for one-character [a]; [b] may be empty. *)
Fixpoint replace (a : ascii) (b : string) (s : string) : string :=
  match s with
  | EmptyString => EmptyString
  | String c s' => if Ascii.eqb c a then b ++ replace a b s' else String c (replace a b s')
  end.

(** The key of a label of the table. *)
Definition key_of (metric : string) : string :=
  replace "." EmptyString (replace " " "_" (lower metric)).

Definition metrics_labels : list string :=
  [ "Portfolio Value"; "Total Return"; "Max. Drawdown";
    "Volatility"; "Sharpe Ratio"; "Fees Paid"; "Number of Trades" ].

(** [metrics.get(key, default)] with the empty string as default. *)
Definition get_or_empty (key : string) (m : list (string * cell)) : cell :=
  match lookup key m with
  | Ok v => v
  | Raise _ => Text EmptyString
  end.

(** The rows [display_metrics] fills the table with: the label, the
    value of the strategy and the value of the baseline. *)
Definition display_metrics (m : list (string * cell)) : list (string * cell * cell) :=
  map (fun metric =>
         let key := key_of metric in
         (metric ++ ":", get_or_empty key m, get_or_empty ("bh_" ++ key) m))
      metrics_labels.

(** ** The run *)

(** What the user sees at the end of a run. *)
Inductive outcome : Type :=
| InputError (msg : string)
| NoData
| Displayed (table : list (string * cell * cell)) (rsi : Series) (signal : list Z)
    (bt : backtest_result) (bh : metrics_frame).

Section Run.
(** [yf.download(tickers, start, end)]. *)
Variable yf_download : string -> string -> string -> list raw_row.

Definition get_historical_data (ticker start_date end_date : string) : list Q :=
  dropna (yf_download ticker start_date end_date).

(** [run_backtest]: a [ValueError] of the [try] block ends the run
    with the error dialog, any other exception propagates. *)
Definition run_backtest (ui : form) : result outcome :=
  match read_inputs ui with
  | Raise (ValueError msg) => Ok (InputError msg)
  | Raise e => Raise e
  | Ok inp =>
      let start_date := START_DATE in
      let end_date := END_DATE in
      let data := get_historical_data (ticker inp) start_date end_date in
      match data with
      | [] => Ok NoData
      | _ =>
          rsi <- calculate_rsi data 14 ;;
          let signal := generate_signals rsi (rsi_overbought inp) (rsi_oversold inp) in
          bt <- backtest_strategy data signal (initial_capital inp) (fee_percentage inp) ;;
          r <- calculate_performance_metrics data bt (initial_capital inp) ;;
          Ok (Displayed (display_metrics (snd r)) rsi signal bt (fst r))
      end
  end.
End Run.

(** ** The ticker of a run *)

Lemma dict_get_Ok_In (A : Type) (key : string) (d : list (string * A)) (v : A) :
  dict_get key d = Ok v -> In (key, v) d.
Proof.
  induction d as [|[k x] d IH]; cbn; [discriminate|].
  destruct (String.eqb_spec k key) as [->|]; [intros [= ->]; now left|auto].
Qed.

(** Accepted inputs carry the ticker of the company selected. *)
Lemma read_inputs_ticker (ui : form) (inp : inputs) :
  read_inputs ui = Ok inp -> In (company_var ui, ticker inp) COMPANIES.
Proof.
  unfold read_inputs. destruct (dict_get _ _) as [t|] eqn:E; [|discriminate].
  apply dict_get_Ok_In in E. cbn [bind].
  repeat (first [destruct_bind|destruct_match]; cbn [bind]; try discriminate).
  now intros [= <-].
Qed.

(** ** What the validation lets through *)

(** A capital the [try] block accepts: a positive number, an
    infinity, or not a number. *)
Definition capital_accepted (x : xfloat) : Prop :=
  x = NaN \/ x = PInf \/ exists c, x = Fin c /\ 0 < c.

(** A fee rate the [try] block accepts: a non-negative number, an
    infinity, or not a number. *)
Definition fee_accepted (x : xfloat) : Prop :=
  x = NaN \/ x = PInf \/ exists f, x = Fin f /\ 0 <= f.

Lemma capital_accepted_iff (x : xfloat) : xleb x (Fin 0) = false <-> capital_accepted x.
Proof.
  unfold capital_accepted. destruct x as [c| | |]; cbn; split; auto; try discriminate.
  - intros H. qbool. eauto.
  - intros [?|[?|(c' & [= <-] & H)]]; try discriminate. now apply Qleb_gt.
  - intros [?|[?|(c' & ? & _)]]; discriminate.
Qed.

Lemma fee_accepted_iff (x : xfloat) : xltb x (Fin 0) = false <-> fee_accepted x.
Proof.
  unfold fee_accepted. destruct x as [f| | |]; cbn; split; auto; try discriminate.
  - intros H. qbool. eauto.
  - intros [?|[?|(f' & [= <-] & H)]]; try discriminate. now apply Qltb_ge.
  - intros [?|[?|(f' & ? & _)]]; discriminate.
Qed.

Lemma threshold_in_range (x : xfloat) :
  xltb (Fin 0) x && xltb x (Fin 100) = true -> exists q, x = Fin q /\ 0 < q /\ q < 100.
Proof.
  destruct x as [q| | |]; cbn; try discriminate.
  intros [H1 H2]%andb_true_iff. qbool. eauto.
Qed.

(** C32: whatever the entries hold, special values included, inputs
    that pass the [try] block of [run_backtest] have thresholds that
    are numbers with 0 < oversold < overbought < 100 and the ticker of
    the company selected; the capital is positive, infinite or not a
    number, and the fee rate non-negative, infinite or not a number. *)
Theorem read_inputs_sound (ui : form) (inp : inputs) :
  read_inputs ui = Ok inp ->
  (exists ob os, rsi_overbought inp = Fin ob /\ rsi_oversold inp = Fin os /\
                 0 < os /\ os < ob /\ ob < 100) /\
  capital_accepted (initial_capital inp) /\
  fee_accepted (fee_percentage inp) /\
  In (company_var ui, ticker inp) COMPANIES.
Proof.
  intros H. pose proof (read_inputs_ticker _ H) as Ht. revert H. unfold read_inputs.
  destruct (dict_get _ _) as [t|]; [|discriminate]. cbn [bind].
  destruct (capital_entry ui) as [c|]; [|discriminate]. cbn [bind].
  destruct (xleb c (Fin 0)) eqn:Ec; [discriminate|].
  destruct (fee_entry ui) as [f|]; [|discriminate]. cbn [bind].
  destruct (xltb (xdiv f (Fin 100)) (Fin 0)) eqn:Ef; [discriminate|].
  destruct (overbought_entry ui) as [ob|]; [|discriminate]. cbn [bind].
  destruct (xltb (Fin 0) ob && xltb ob (Fin 100)) eqn:Eob; [|discriminate]. cbn [negb].
  destruct (oversold_entry ui) as [os|]; [|discriminate]. cbn [bind].
  destruct (xltb (Fin 0) os && xltb os (Fin 100)) eqn:Eos; [|discriminate]. cbn [negb].
  destruct (xleb ob os) eqn:Eo; [discriminate|]. intros [= <-].
  cbn [rsi_overbought rsi_oversold initial_capital fee_percentage ticker] in *.
  apply threshold_in_range in Eob as (qo & -> & Ho1 & Ho2).
  apply threshold_in_range in Eos as (qs & -> & Hs1 & Hs2).
  cbn in Eo. qbool. split; [exists qo, qs; now repeat split|].
  split; [now apply capital_accepted_iff|]. split; [now apply fee_accepted_iff|exact Ht].
Qed.

Lemma read_inputs_sound_witness :
  exists inp,
    read_inputs (mk_form "Tesla, Inc. (TSLA)" (Ok PInf) (Ok NaN)
                   (Ok (Fin 70)) (Ok (Fin 30))) = Ok inp /\
    (exists ob os, rsi_overbought inp = Fin ob /\ rsi_oversold inp = Fin os /\
                   0 < os /\ os < ob /\ ob < 100) /\
    capital_accepted (initial_capital inp) /\
    fee_accepted (fee_percentage inp) /\
    In ("Tesla, Inc. (TSLA)", ticker inp) COMPANIES.
Proof.
  eexists. split; [reflexivity|].
  apply (@read_inputs_sound (mk_form "Tesla, Inc. (TSLA)" (Ok PInf) (Ok NaN)
                               (Ok (Fin 70)) (Ok (Fin 30)))).
  reflexivity.
Defined.

(** ** The analysis of a frame *)

(** What a run computes from the prices: the columns it adds to the
    frame and the report. *)
Record analysis : Type := mk_analysis {
  a_rsi : Series;
  a_signal : list Z;
  a_bt : backtest_result;
  a_bh : metrics_frame;
  a_metrics : list (string * cell)
}.

(** The four calls of [run_backtest] on the frame, in their order. *)
Definition analyse (data : list Q) (inp : inputs) : result analysis :=
  rsi <- calculate_rsi data 14 ;;
  let signal := generate_signals rsi (rsi_overbought inp) (rsi_oversold inp) in
  bt <- backtest_strategy data signal (initial_capital inp) (fee_percentage inp) ;;
  r <- calculate_performance_metrics data bt (initial_capital inp) ;;
  Ok (mk_analysis rsi signal bt (fst r) (snd r)).

(** The steps of an analysis that ends in a report. *)
Lemma analyse_ok (data : list Q) (inp : inputs) (a : analysis) :
  analyse data inp = Ok a ->
  calculate_rsi data 14 = Ok (a_rsi a) /\
  a_signal a = generate_signals (a_rsi a) (rsi_overbought inp) (rsi_oversold inp) /\
  backtest_strategy data (a_signal a) (initial_capital inp) (fee_percentage inp)
  = Ok (a_bt a) /\
  calculate_performance_metrics data (a_bt a) (initial_capital inp)
  = Ok (a_bh a, a_metrics a).
Proof.
  unfold analyse. intros (rsi & Hr & (bt & Hb & ([f m] & Hm & [= <-])%bind_ok)%bind_ok)%bind_ok.
  now cbn.
Qed.

(** The outcome of a run whose analysis is [a]. *)
Definition displayed (a : analysis) : outcome :=
  Displayed (display_metrics (a_metrics a)) (a_rsi a) (a_signal a) (a_bt a) (a_bh a).

(** [run_backtest] in terms of the analysis of the frame it downloads. *)
Lemma run_backtest_analyse (yf_download : string -> string -> string -> list raw_row)
    (ui : form) :
  run_backtest yf_download ui =
  match read_inputs ui with
  | Raise (ValueError msg) => Ok (InputError msg)
  | Raise e => Raise e
  | Ok inp =>
      match get_historical_data yf_download (ticker inp) START_DATE END_DATE with
      | [] => Ok NoData
      | data => a <- analyse data inp ;; Ok (displayed a)
      end
  end.
Proof.
  unfold run_backtest, analyse. destruct (read_inputs ui) as [inp|e]; [|reflexivity].
  destruct (get_historical_data _ _ _ _) as [|p data]; [reflexivity|].
  destruct (calculate_rsi _ _) as [rsi|]; [|reflexivity]. cbn [bind].
  destruct (backtest_strategy _ _ _ _) as [bt|]; [|reflexivity]. cbn [bind].
  now destruct (calculate_performance_metrics _ _ _) as [r|].
Qed.

(** ** Reading the table *)

Lemma get_or_empty_lookup (key : string) (m : list (string * cell)) (v : cell) :
  lookup key m = Ok v -> get_or_empty key m = v.
Proof. intros H. unfold get_or_empty. now rewrite H. Qed.

(** The row of the table for the label at position [i]. *)
Lemma nth_error_display_metrics (m : list (string * cell)) (i : nat) (metric : string) :
  nth_error metrics_labels i = Some metric ->
  nth_error (display_metrics m) i =
  Some (metric ++ ":", get_or_empty (key_of metric) m,
        get_or_empty ("bh_" ++ key_of metric) m).
Proof. intros H. unfold display_metrics. now rewrite nth_error_map, H. Qed.

(** ** Validation *)

(** The entries of a form all hold finite numbers. *)
Definition finite_form (company : string) (c fee ob os : Q) : form :=
  mk_form company (Ok (Fin c)) (Ok (Fin fee)) (Ok (Fin ob)) (Ok (Fin os)).

(** The conditions the [try] block checks, in its order, with the
    message of the first that fails. *)
Definition first_invalid (c fee ob os : Q) : option string :=
  if Qle_bool c 0 then Some "Starting capital must be positive."
  else if Qltb (fee / 100) 0 then Some "Fee percentage cannot be negative."
  else if negb (Qltb 0 ob && Qltb ob 100)
  then Some "RSI Overbought level must be between 0 and 100."
  else if negb (Qltb 0 os && Qltb os 100)
  then Some "RSI Oversold level must be between 0 and 100."
  else if Qle_bool ob os
  then Some "RSI Oversold level must be less than RSI Overbought level."
  else None.

Lemma read_inputs_finite (company t : string) (c fee ob os : Q) :
  dict_get company COMPANIES = Ok t ->
  read_inputs (finite_form company c fee ob os) =
  match first_invalid c fee ob os with
  | Some msg => Raise (ValueError msg)
  | None => Ok (mk_inputs t (Fin c) (Fin (fee / 100)) (Fin ob) (Fin os))
  end.
Proof.
  intros Ht. unfold read_inputs, first_invalid, finite_form.
  cbn [company_var capital_entry fee_entry overbought_entry oversold_entry bind].
  rewrite Ht. cbn [bind xleb xltb]. rewrite xdiv_fin by discriminate. cbn [xltb].
  repeat (destruct_match; try reflexivity).
Qed.

Lemma first_invalid_none (c fee ob os : Q) :
  first_invalid c fee ob os = None <->
  0 < c /\ 0 <= fee /\ 0 < os /\ os < ob /\ ob < 100.
Proof.
  unfold first_invalid. split.
  - repeat (destruct_match; try discriminate). intros _. qbool.
    assert (0 <= fee / 100) by assumption.
    assert (fee == fee / 100 * 100) by (field; discriminate).
    repeat split; lra.
  - intros (H1 & H2 & H3 & H4 & H5).
    assert (Hf : 0 <= fee / 100) by (apply Qle_shift_div_l; lra).
    apply Qleb_gt in H1 as ->. apply Qltb_ge in Hf as ->.
    assert (H6 : 0 < ob) by lra. assert (H7 : os < 100) by lra.
    apply Qltb_lt in H3 as ->, H5 as ->, H6 as ->, H7 as ->.
    now apply Qleb_gt in H4 as ->.
Qed.

(** The conditions a finite form has to meet. *)
Definition valid_inputs (c fee ob os : Q) : Prop :=
  0 < c /\ 0 <= fee /\ 0 < os /\ os < ob /\ ob < 100.

Section RunProperties.
Variable yf_download : string -> string -> string -> list raw_row.

Lemma read_inputs_valid (company t : string) (c fee ob os : Q) :
dict_get company COMPANIES = Ok t ->
(read_inputs (finite_form company c fee ob os) =
 Ok (mk_inputs t (Fin c) (Fin (fee / 100)) (Fin ob) (Fin os))) <->
valid_inputs c fee ob os.
Proof.
intros Ht. unfold valid_inputs.
rewrite (@read_inputs_finite company t c fee ob os Ht), <- first_invalid_none.
destruct (first_invalid c fee ob os); split; congruence.
Qed.

(** C14: a form whose entries are finite numbers is accepted exactly
  when the capital is positive, the fee is not negative and the
  thresholds satisfy 0 < oversold < overbought < 100; the fee is
  then taken as a fraction of 100. *)
Theorem read_inputs_accepts (company t : string) (c fee ob os : Q) :
dict_get company COMPANIES = Ok t ->
(read_inputs (finite_form company c fee ob os) =
 Ok (mk_inputs t (Fin c) (Fin (fee / 100)) (Fin ob) (Fin os))) <->
valid_inputs c fee ob os.
Proof. apply read_inputs_valid. Qed.

Lemma read_inputs_accepts_witness :
(read_inputs (finite_form "Tesla, Inc. (TSLA)" 10000 (1 # 10) 70 30) =
 Ok (mk_inputs "TSLA" (Fin 10000) (Fin ((1 # 10) / 100)) (Fin 70) (Fin 30))) <->
valid_inputs 10000 (1 # 10) 70 30.
Proof.
apply (@read_inputs_accepts "Tesla, Inc. (TSLA)" "TSLA" 10000 (1 # 10) 70 30).
reflexivity.
Defined.

(** A finite form that breaks one of the conditions ends the
  run with the error dialog, whatever the provider would return: the
  message is that of the first condition broken, in the order
  capital, fee, overbought, oversold, ordering of the thresholds. *)
Theorem run_backtest_rejects (company t : string) (c fee ob os : Q) :
dict_get company COMPANIES = Ok t -> ~ valid_inputs c fee ob os ->
exists msg,
  first_invalid c fee ob os = Some msg /\
  run_backtest yf_download (finite_form company c fee ob os) = Ok (InputError msg).
Proof.
intros Ht Hv. unfold run_backtest. rewrite (@read_inputs_finite company t c fee ob os Ht).
destruct (first_invalid c fee ob os) as [msg|] eqn:E; [now exists msg|].
now apply first_invalid_none in E.
Qed.

(** Valid inputs and a provider without a complete row end the
  run with the no-data notice; nothing is computed and nothing is
  raised. *)
Theorem run_backtest_no_data (company t : string) (c fee ob os : Q) :
dict_get company COMPANIES = Ok t -> valid_inputs c fee ob os ->
dropna (yf_download t START_DATE END_DATE) = [] ->
run_backtest yf_download (finite_form company c fee ob os) = Ok NoData.
Proof.
intros Ht Hv Hd. unfold run_backtest.
apply (@read_inputs_valid company t c fee ob os Ht) in Hv as ->.
unfold get_historical_data. cbn [ticker]. now rewrite Hd.
Qed.

(** A company that is not in the configuration is not an input
  error: the lookup raises [KeyError], which the [try] block does
  not catch, and the run ends with that exception. *)
Theorem run_backtest_unknown_company (ui : form) :
dict_get (company_var ui) COMPANIES = Raise (KeyError (company_var ui)) ->
run_backtest yf_download ui = Raise (KeyError (company_var ui)).
Proof. intros H. unfold run_backtest, read_inputs. now rewrite H. Qed.

End RunProperties.

Lemma run_backtest_rejects_witness :
  exists msg,
    first_invalid 10000 (1 # 10) 30 70 = Some msg /\
    run_backtest (fun _ _ _ => []) (finite_form "Tesla, Inc. (TSLA)" 10000 (1 # 10) 30 70) =
    Ok (InputError msg).
Proof.
  apply (@run_backtest_rejects (fun _ _ _ => []) "Tesla, Inc. (TSLA)" "TSLA"
           10000 (1 # 10) 30 70).
  - reflexivity.
  - unfold valid_inputs. lra.
Defined.

Lemma run_backtest_no_data_witness :
  run_backtest (fun _ _ _ => [mk_row None [Some 1]; mk_row (Some 2) [None]])
    (finite_form "Tesla, Inc. (TSLA)" 10000 (1 # 10) 70 30) = Ok NoData.
Proof.
  apply (@run_backtest_no_data
           (fun _ _ _ => [mk_row None [Some 1]; mk_row (Some 2) [None]])
           "Tesla, Inc. (TSLA)" "TSLA" 10000 (1 # 10) 70 30).
  - reflexivity.
  - unfold valid_inputs. lra.
  - reflexivity.
Defined.

Lemma run_backtest_unknown_company_witness :
  run_backtest (fun _ _ _ => []) (finite_form "Acme" 10000 (1 # 10) 70 30) =
  Raise (KeyError "Acme").
Proof.
  apply (@run_backtest_unknown_company (fun _ _ _ => [])
           (finite_form "Acme" 10000 (1 # 10) 70 30)).
  reflexivity.
Defined.

(** A fee entry that is accepted is still one after the division by
    100. *)
Lemma fee_accepted_percent (f : xfloat) : fee_accepted f -> fee_accepted (xdiv f (Fin 100)).
Proof.
  intros [->|[->|(q & -> & Hq)]]; [now left|right; now left|].
  right. right. exists (q / 100). split; [reflexivity|].
  apply Qle_shift_div_l; [reflexivity|]. now rewrite Qmult_0_l.
Qed.

(** C35: the validation lets through what is not a number.  For a
    company of the configuration and thresholds with
    0 < oversold < overbought < 100, every capital that is positive,
    infinite or [NaN] and every fee that is non-negative, infinite or
    [NaN] passes the [try] block, no comparison with [NaN] being
    true; by [read_inputs_sound] nothing else passes. *)
Theorem read_inputs_accepts_special (company t : string) (c f : xfloat) (ob os : Q) :
  dict_get company COMPANIES = Ok t ->
  capital_accepted c -> fee_accepted f -> 0 < os -> os < ob -> ob < 100 ->
  read_inputs (mk_form company (Ok c) (Ok f) (Ok (Fin ob)) (Ok (Fin os))) =
  Ok (mk_inputs t c (xdiv f (Fin 100)) (Fin ob) (Fin os)).
Proof.
  intros Ht Hc Hf%fee_accepted_percent Hs Ho Hb. unfold read_inputs.
  cbn [company_var capital_entry fee_entry overbought_entry oversold_entry].
  rewrite Ht. cbn [bind].
  apply capital_accepted_iff in Hc as ->. apply fee_accepted_iff in Hf as ->.
  cbn [bind xltb xleb].
  assert (H1 : Qltb 0 ob = true) by (apply Qltb_lt; lra).
  assert (H2 : Qltb ob 100 = true) by now apply Qltb_lt.
  assert (H3 : Qltb 0 os = true) by now apply Qltb_lt.
  assert (H4 : Qltb os 100 = true) by (apply Qltb_lt; lra).
  rewrite H1, H2, H3, H4. cbn [andb negb]. now apply Qleb_gt in Ho as ->.
Qed.

Lemma read_inputs_accepts_special_witness :
  read_inputs (mk_form "Tesla, Inc. (TSLA)" (Ok NaN) (Ok NaN) (Ok (Fin 70)) (Ok (Fin 30))) =
  Ok (mk_inputs "TSLA" NaN (xdiv NaN (Fin 100)) (Fin 70) (Fin 30)).
Proof.
  apply (@read_inputs_accepts_special "Tesla, Inc. (TSLA)" "TSLA" NaN NaN 70 30).
  - reflexivity.
  - now left.
  - now left.
  - reflexivity.
  - reflexivity.
  - reflexivity.
Defined.

(** ** The pipeline *)

Section Pipeline.
Variable yf_download : string -> string -> string -> list raw_row.

(** The run on accepted inputs and a frame with rows: the indicator
  and the signals are always produced, and the run ends in the
  table unless the backtest raises. *)
Lemma run_backtest_pipeline (company t : string) (c fee ob os : Q) :
dict_get company COMPANIES = Ok t -> valid_inputs c fee ob os ->
let data := dropna (yf_download t START_DATE END_DATE) in
let rsi := of_Q (rsi_reference 14 data) in
let signal := generate_signals rsi (Fin ob) (Fin os) in
data <> [] ->
run_backtest yf_download (finite_form company c fee ob os) =
(bt <- backtest_strategy data signal (Fin c) (Fin (fee / 100)) ;;
 r <- calculate_performance_metrics data bt (Fin c) ;;
 Ok (Displayed (display_metrics (snd r)) rsi signal bt (fst r))).
Proof.
intros Ht Hv data rsi signal Hne. unfold run_backtest.
apply (@read_inputs_valid company t c fee ob os Ht) in Hv as ->.
unfold get_historical_data.
cbn [ticker initial_capital fee_percentage rsi_overbought rsi_oversold].
fold data. destruct data as [|p data'] eqn:E; [congruence|].
now rewrite calculate_rsi_reference by lia.
Qed.

(** C7: on accepted inputs and a frame of non-zero prices a run has
  two outcomes only: the table of the report, or the length mismatch
  of the position column when a buy signal found the cash short of
  one share. *)
Theorem run_backtest_outcomes (company t : string) (c fee ob os : Q) :
dict_get company COMPANIES = Ok t -> valid_inputs c fee ob os ->
dropna (yf_download t START_DATE END_DATE) <> [] ->
Forall (fun p => ~ p == 0) (dropna (yf_download t START_DATE END_DATE)) ->
(exists table rsi signal bt bh,
   run_backtest yf_download (finite_form company c fee ob os) =
   Ok (Displayed table rsi signal bt bh)) \/
(exists k,
   (k < length (dropna (yf_download t START_DATE END_DATE)))%nat /\
   run_backtest yf_download (finite_form company c fee ob os) =
   Raise (LengthMismatch k (length (dropna (yf_download t START_DATE END_DATE))))).
Proof.
intros Ht Hv Hne Hp. rewrite (@run_backtest_pipeline company t c fee ob os Ht Hv Hne).
set (data := dropna (yf_download t START_DATE END_DATE)) in *.
set (signal := generate_signals _ _ _).
assert (Hlen : length signal = length data)
  by (subst signal; now rewrite length_generate_signals, length_of_Q,
        length_rsi_reference).
rewrite backtest_strategy_spec by assumption.
set (rows := frame_rows data signal). set (k := starved_count _ rows _).
destruct (Nat.eqb_spec k 0) as [E|E]; cbn [bind].
- left. destruct (@calculate_performance_metrics_defined data
                    (machine_result (fee / 100) c rows) (Fin c) Hne)
    as (f & m & ->); [|cbn [bind]; eauto 6].
  cbn [machine_result Portfolio_Value]. intros H%(f_equal (@length _)).
  rewrite length_of_Q, length_equity_curve in H. subst rows.
  rewrite length_frame_rows in H by assumption. now destruct data.
- right. exists (length data - k)%nat. split; [|reflexivity].
  destruct data; [congruence|]. cbn [length] in *. lia.
Qed.

End Pipeline.

Lemma run_backtest_outcomes_witness :
  let dl := fun _ _ _ : string =>
    map (fun p => mk_row (Some p) []) [100; 100; 90; 90; 110; 110; 130; 80; 80; 80] in
  (exists table rsi signal bt bh,
     run_backtest dl (finite_form "Tesla, Inc. (TSLA)" 1000 0 70 30) =
     Ok (Displayed table rsi signal bt bh)) \/
  (exists k,
     (k < length (dropna (dl "TSLA" START_DATE END_DATE)))%nat /\
     run_backtest dl (finite_form "Tesla, Inc. (TSLA)" 1000 0 70 30) =
     Raise (LengthMismatch k (length (dropna (dl "TSLA" START_DATE END_DATE))))).
Proof.
  cbv zeta.
  apply (@run_backtest_outcomes
           (fun _ _ _ : string =>
              map (fun p => mk_row (Some p) [])
                [100; 100; 90; 90; 110; 110; 130; 80; 80; 80])
           "Tesla, Inc. (TSLA)" "TSLA" 1000 0 70 30).
  - reflexivity.
  - unfold valid_inputs. lra.
  - discriminate.
  - repeat constructor; discriminate.
Defined.

(** ** The table *)

(** The table shows the report in full: each of its seven rows
    carries the label, the entry of the report under the key derived
    from the label and the entry under that key prefixed for the
    baseline; no cell falls back to the empty default. *)
Theorem display_metrics_complete (close : list Q) (bt : backtest_result) (c0 : xfloat)
    (f : metrics_frame) (m : list (string * cell)) :
  calculate_performance_metrics close bt c0 = Ok (f, m) ->
  Forall2 (fun metric row =>
             fst (fst row) = metric ++ ":" /\
             lookup (key_of metric) m = Ok (snd (fst row)) /\
             lookup ("bh_" ++ key_of metric) m = Ok (snd row))
          metrics_labels (display_metrics m).
Proof.
  intros H. metrics_inv H. unfold display_metrics, metrics_labels. cbn [map].
  repeat constructor.
Qed.

Lemma display_metrics_complete_witness :
  exists f m,
    calculate_performance_metrics [10; 12; 11]
      (mk_result [Fin 100; Fin 120; Fin 110] (Fin 0) [1; 1; 0]%Z [1; 0; -1]%Z
         [Fin 0; Fin (1 # 5); Fin (-1 # 12)]) (Fin 100) = Ok (f, m) /\
    Forall2 (fun metric row =>
               fst (fst row) = metric ++ ":" /\
               lookup (key_of metric) m = Ok (snd (fst row)) /\
               lookup ("bh_" ++ key_of metric) m = Ok (snd row))
            metrics_labels (display_metrics m).
Proof.
  eexists _, _. split; [vm_compute; reflexivity|].
  eapply (@display_metrics_complete [10; 12; 11]
            (mk_result [Fin 100; Fin 120; Fin 110] (Fin 0) [1; 1; 0]%Z [1; 0; -1]%Z
               [Fin 0; Fin (1 # 5); Fin (-1 # 12)]) (Fin 100)).
  now vm_compute.
Defined.

(** Every company of the menu maps to its own ticker: the names
    of the configuration are distinct, so no entry shadows another. *)
Example companies_distinct :
  Forall (fun kv => dict_get (fst kv) COMPANIES = Ok (snd kv)) COMPANIES.
Proof. repeat constructor. Qed.
