(* ===== verification/Gui.v ===== *)
(** * Gui: the window of the application and its callbacks

    The class [BacktestApp] of [src/subcode/app.py] as a state and the
    functions that change it: [__init__] and [create_widgets] build
    the window with its default entries, [run_backtest] is the callback
    of the button, [display_metrics] and [plot_results] replace the
    table and the figure on screen, [exit_application] closes the
    window.  A widget made at run time carries the number it was made
    with, so that destroying one removes that widget and no other.
    The actions of the user are the [event]s; what the user is shown
    besides the window is a [response].  What an action does to a
    widget is Tk's, modelled from its documentation; [display_metrics]
    and [plot_results] are taken not to raise. *)

From Stdlib Require Import String Ascii List ZArith QArith Lia Bool.
From S2P Require Import Prelude Floats Parse Series Indicator Signals Ledger Backtest.
From S2P Require Import Simulator Metrics Plot Format App.
Import ListNotations.

Set Implicit Arguments.

Local Open Scope string_scope.
Local Open Scope res_scope.

(** ** The window *)

(** The texts of the input frame: the variable of the dropdown and the
    four entries. *)
Record entries : Type := mk_entries {
  company_text : string;
  capital_text : string;
  fee_text : string;
  overbought_text : string;
  oversold_text : string
}.

(** The table of the summary frame: a row of headers, then a label and
    two texts per metric. *)
Definition table : Type := list (string * string * string).

Record window : Type := mk_window {
  window_title : string;
  window_geometry : string;
  input_frame : entries;
  ticker_map : list (string * string);
  company_dropdown : list string;
  summary_frame : list (nat * table);
  results_frame : list (nat * figure);
  self_canvas : option (nat * figure);
  self_metrics_frame : option (nat * table);
  widgets_made : nat;
  destroyed : bool
}.

(** [tk.Tk.__init__], [title] and [geometry]: a window without
    widgets. *)
Definition root_window : window :=
  {| window_title := "RSI Backtesting Tool";
     window_geometry := "1200x680";
     input_frame := mk_entries EmptyString EmptyString EmptyString EmptyString EmptyString;
     ticker_map := [];
     company_dropdown := [];
     summary_frame := [];
     results_frame := [];
     self_canvas := None;
     self_metrics_frame := None;
     widgets_made := 0;
     destroyed := false |}.

(** [create_widgets]: the frames, the dropdown over the companies of
    the configuration and the entries with their default texts. *)
Definition create_widgets (w : window) : window :=
  {| window_title := window_title w;
     window_geometry := window_geometry w;
     input_frame := mk_entries "JPMorgan Chase & Co. (JPM)" "10000" "0.1" "70" "30";
     ticker_map := COMPANIES;
     company_dropdown := map fst COMPANIES;
     summary_frame := [];
     results_frame := [];
     self_canvas := self_canvas w;
     self_metrics_frame := self_metrics_frame w;
     widgets_made := widgets_made w;
     destroyed := destroyed w |}.

(** [BacktestApp.__init__]. *)
Definition BacktestApp : window :=
  let w := create_widgets root_window in
  {| window_title := window_title w;
     window_geometry := window_geometry w;
     input_frame := input_frame w;
     ticker_map := ticker_map w;
     company_dropdown := company_dropdown w;
     summary_frame := summary_frame w;
     results_frame := results_frame w;
     self_canvas := None;
     self_metrics_frame := None;
     widgets_made := widgets_made w;
     destroyed := destroyed w |}.

(** [destroy]: the window and all its widgets are gone. *)
Definition destroy (w : window) : window :=
  {| window_title := window_title w;
     window_geometry := window_geometry w;
     input_frame := input_frame w;
     ticker_map := ticker_map w;
     company_dropdown := company_dropdown w;
     summary_frame := [];
     results_frame := [];
     self_canvas := self_canvas w;
     self_metrics_frame := self_metrics_frame w;
     widgets_made := widgets_made w;
     destroyed := true |}.

(** [exit_application]: [quit], which ends the event loop, and
    [destroy].  No widget is bound to it. *)
Definition exit_application (w : window) : window := destroy w.

(** ** The table and the figure on screen *)

(** [child.destroy()] for the child made with number [id]. *)
Definition destroy_child {A : Type} (id : nat) (children : list (nat * A)) : list (nat * A) :=
  filter (fun c => negb (fst c =? id)%nat) children.

Definition headers : string * string * string := (EmptyString, "RSI-Strategy", "Buy-n-Hold").

(** The texts of the labels of the table. *)
Definition table_of (metrics : list (string * cell)) : table :=
  headers :: map (fun row => (fst (fst row), render (snd (fst row)), render (snd row)))
                 (display_metrics metrics).

(** [display_metrics]: the old table, if any, is destroyed and a new
    one is packed into the summary frame. *)
Definition display_metrics_widget (w : window) (metrics : list (string * cell)) : window :=
  let kept :=
    match self_metrics_frame w with
    | Some old => destroy_child (fst old) (summary_frame w)
    | None => summary_frame w
    end in
  let frame := (widgets_made w, table_of metrics) in
  {| window_title := window_title w;
     window_geometry := window_geometry w;
     input_frame := input_frame w;
     ticker_map := ticker_map w;
     company_dropdown := company_dropdown w;
     summary_frame := (kept ++ [frame])%list;
     results_frame := results_frame w;
     self_canvas := self_canvas w;
     self_metrics_frame := Some frame;
     widgets_made := S (widgets_made w);
     destroyed := destroyed w |}.

(** [plot_results]: the old canvas, if any, is destroyed and the new
    figure is packed into the results frame. *)
Definition plot_results_widget (w : window) (fig : figure) : window :=
  let kept :=
    match self_canvas w with
    | Some old => destroy_child (fst old) (results_frame w)
    | None => results_frame w
    end in
  let canvas := (widgets_made w, fig) in
  {| window_title := window_title w;
     window_geometry := window_geometry w;
     input_frame := input_frame w;
     ticker_map := ticker_map w;
     company_dropdown := company_dropdown w;
     summary_frame := summary_frame w;
     results_frame := (kept ++ [canvas])%list;
     self_canvas := Some canvas;
     self_metrics_frame := self_metrics_frame w;
     widgets_made := S (widgets_made w);
     destroyed := destroyed w |}.

(** ** The callback of the button *)

(** What a callback shows besides the window: a dialog, the new table
    and figure, or the traceback Tk prints for an exception that
    leaves the callback. *)
Inductive response : Type :=
| ShowError (title msg : string)
| ShowInfo (title msg : string)
| Drawn
| Reported (e : exn).

(** [float(entry.get())] on every entry. *)
Definition form_of_entries (e : entries) : form :=
  {| company_var := company_text e;
     capital_entry := py_float (capital_text e);
     fee_entry := py_float (fee_text e);
     overbought_entry := py_float (overbought_text e);
     oversold_entry := py_float (oversold_text e) |}.

(** The [try] block of [run_backtest] on the window. *)
Definition prepare (w : window) : result inputs :=
  read_inputs (form_of_entries (input_frame w)).

(** [run_backtest] from the downloaded rows on. *)
Definition finish (w : window) (inp : inputs) (rows : list raw_row) : window * response :=
  match dropna rows with
  | [] => (w, ShowInfo "No Data" "No data available for the selected parameters.")
  | data =>
      match analyse data inp with
      | Ok a =>
          let w1 := display_metrics_widget w (a_metrics a) in
          let fig := plot_results data (a_rsi a) (a_bt a) (a_bh a)
                       (company_text (input_frame w))
                       (rsi_overbought inp) (rsi_oversold inp) in
          (plot_results_widget w1 fig, Drawn)
      | Raise e => (w, Reported e)
      end
  end.

Section Callbacks.
(** [yf.download(tickers, start, end)]. *)
Variable yf_download : string -> string -> string -> list raw_row.

(** [run_backtest] as the callback of the button. *)
Definition run_backtest_callback (w : window) : window * response :=
  match prepare w with
  | Raise (ValueError msg) => (w, ShowError "Input Error" msg)
  | Raise e => (w, Reported e)
  | Ok inp => finish w inp (yf_download (ticker inp) START_DATE END_DATE)
  end.

(** ** Events *)

(** What the user can change in the input frame: pick an entry of the
    dropdown, replace the text of an entry. *)
Inductive edit : Type :=
| Select (i : nat)
| TypeCapital (text : string)
| TypeFee (text : string)
| TypeOverbought (text : string)
| TypeOversold (text : string).

(** What the user can do in the window: change an input, press the
    button. *)
Inductive event : Type :=
| Edit (e : edit)
| ClickRun.

Definition set_entries (w : window) (e : entries) : window :=
  {| window_title := window_title w;
     window_geometry := window_geometry w;
     input_frame := e;
     ticker_map := ticker_map w;
     company_dropdown := company_dropdown w;
     summary_frame := summary_frame w;
     results_frame := results_frame w;
     self_canvas := self_canvas w;
     self_metrics_frame := self_metrics_frame w;
     widgets_made := widgets_made w;
     destroyed := destroyed w |}.

(** The entries after a change. *)
Definition apply_edit (w : window) (ed : edit) : window :=
  let e := input_frame w in
  match ed with
  | Select i =>
      match nth_error (company_dropdown w) i with
      | Some name =>
          set_entries w (mk_entries name (capital_text e) (fee_text e)
                           (overbought_text e) (oversold_text e))
      | None => w
      end
  | TypeCapital s =>
      set_entries w (mk_entries (company_text e) s (fee_text e)
                       (overbought_text e) (oversold_text e))
  | TypeFee s =>
      set_entries w (mk_entries (company_text e) (capital_text e) s
                       (overbought_text e) (oversold_text e))
  | TypeOverbought s =>
      set_entries w (mk_entries (company_text e) (capital_text e) (fee_text e)
                       s (oversold_text e))
  | TypeOversold s =>
      set_entries w (mk_entries (company_text e) (capital_text e) (fee_text e)
                       (overbought_text e) s)
  end.

(** The window after an event, and what the user is shown. *)
Definition handle (w : window) (ev : event) : window * list response :=
  match ev with
  | Edit ed => (apply_edit w ed, [])
  | ClickRun => let (w', r) := run_backtest_callback w in (w', [r])
  end.

End Callbacks.

(** ** Sessions *)

Section Sessions.
(** [network t] is what [yf.download] returns once the user has made
    [t] actions: the provider may answer differently from one press
    of the button to the next. *)
Variable network : nat -> string -> string -> string -> list raw_row.

(** The window after a sequence of actions, the first of them being
    action [S n] of the session, with all that was shown. *)
Fixpoint handle_all (n : nat) (w : window) (evs : list event) : window * list response :=
  match evs with
  | [] => (w, [])
  | ev :: evs' =>
      let (w1, r1) := handle (network (S n)) w ev in
      let (w2, r2) := handle_all (S n) w1 evs' in
      (w2, (r1 ++ r2)%list)
  end.
End Sessions.

(** ** What every window of a session satisfies *)

Definition shown {A : Type} (o : option (nat * A)) : list (nat * A) :=
  match o with
  | Some c => [c]
  | None => []
  end.

(** The summary frame holds the current table and nothing else, the
    results frame the current canvas and nothing else, there is a table
    exactly when there is a canvas, and the company selected is an
    entry of the dropdown, which lists the companies of the
    configuration. *)
Record window_ok (w : window) : Prop := {
  ok_summary : summary_frame w = shown (self_metrics_frame w);
  ok_results : results_frame w = shown (self_canvas w);
  ok_both : self_canvas w = None <-> self_metrics_frame w = None;
  ok_dropdown : company_dropdown w = map fst COMPANIES;
  ok_company : In (company_text (input_frame w)) (company_dropdown w)
}.

Lemma destroy_child_shown (A : Type) (o : option (nat * A)) :
  match o with
  | Some old => destroy_child (fst old) (shown o)
  | None => shown o
  end = [].
Proof.
  destruct o as [[id a]|]; [|reflexivity]. cbn. now rewrite Nat.eqb_refl.
Qed.

Lemma BacktestApp_ok : window_ok BacktestApp.
Proof. split; cbn; auto; tauto. Qed.

Lemma display_metrics_widget_spec (w : window) (metrics : list (string * cell)) :
  summary_frame w = shown (self_metrics_frame w) ->
  let w' := display_metrics_widget w metrics in
  summary_frame w' = shown (self_metrics_frame w') /\
  self_metrics_frame w' = Some (widgets_made w, table_of metrics).
Proof.
  intros Hs. cbn. rewrite Hs, destroy_child_shown. now split.
Qed.

Lemma plot_results_widget_spec (w : window) (fig : figure) :
  results_frame w = shown (self_canvas w) ->
  let w' := plot_results_widget w fig in
  results_frame w' = shown (self_canvas w') /\
  self_canvas w' = Some (widgets_made w, fig).
Proof.
  intros Hs. cbn. rewrite Hs, destroy_child_shown. now split.
Qed.

(** A window that shows the table of [metrics] and the figure [fig]. *)
Definition shows (w : window) (metrics : list (string * cell)) (fig : figure) : Prop :=
  exists i j, self_metrics_frame w = Some (i, table_of metrics) /\
              self_canvas w = Some (j, fig).

Lemma finish_cases (w : window) (inp : inputs) (rows : list raw_row) :
  (dropna rows = [] /\
   finish w inp rows = (w, ShowInfo "No Data" "No data available for the selected parameters."))
  \/ (dropna rows <> [] /\ exists e,
        analyse (dropna rows) inp = Raise e /\ finish w inp rows = (w, Reported e))
  \/ (dropna rows <> [] /\ exists a,
        analyse (dropna rows) inp = Ok a /\
        finish w inp rows =
        (plot_results_widget (display_metrics_widget w (a_metrics a))
           (plot_results (dropna rows) (a_rsi a) (a_bt a) (a_bh a)
              (company_text (input_frame w)) (rsi_overbought inp) (rsi_oversold inp)),
         Drawn)).
Proof.
  unfold finish. destruct (dropna rows) as [|p data] eqn:E; [now left|right].
  destruct (analyse (p :: data) inp) as [a|e]; [right|left]; (split; [discriminate|eauto]).
Qed.

Lemma finish_ok (w : window) (inp : inputs) (rows : list raw_row) :
  window_ok w -> window_ok (fst (finish w inp rows)).
Proof.
  intros Hw. destruct (finish_cases w inp rows) as [[_ ->]|[(_ & e & _ & ->)|(_ & a & _ & ->)]];
    try exact Hw.
  destruct Hw as [Hs Hr Hb Hd Hc]. split; cbn [fst]; cbn -[table_of plot_results]; auto.
  - now rewrite Hs, destroy_child_shown.
  - now rewrite Hr, destroy_child_shown.
  - split; discriminate.
Qed.

Section Session.
Variable yf_download : string -> string -> string -> list raw_row.

Lemma run_backtest_callback_ok (w : window) :
  window_ok w -> window_ok (fst (run_backtest_callback yf_download w)).
Proof.
  intros Hw. unfold run_backtest_callback.
  destruct (prepare w) as [inp|[]]; try exact Hw. now apply finish_ok.
Qed.

Lemma set_entries_ok (w : window) (e : entries) :
  window_ok w -> In (company_text e) (company_dropdown w) -> window_ok (set_entries w e).
Proof. intros [Hs Hr Hb Hd Hc] He. now split. Qed.

Lemma apply_edit_ok (w : window) (ed : edit) : window_ok w -> window_ok (apply_edit w ed).
Proof.
  intros Hw. destruct ed; cbn [apply_edit]; try (apply set_entries_ok; [exact Hw|apply Hw]).
  destruct (nth_error (company_dropdown w) i) as [name|] eqn:E; [|exact Hw].
  apply set_entries_ok; [exact Hw|]. eapply nth_error_In, E.
Qed.

Lemma handle_ok (w : window) (ev : event) :
  window_ok w -> window_ok (fst (handle yf_download w ev)).
Proof.
  intros Hw. destruct ev as [ed|]; cbn [handle fst]; [now apply apply_edit_ok|].
  pose proof (run_backtest_callback_ok Hw) as H.
  now destruct (run_backtest_callback yf_download w).
Qed.

End Session.

Lemma handle_all_ok (network : nat -> string -> string -> string -> list raw_row)
    (evs : list event) (n : nat) (w : window) :
  window_ok w -> window_ok (fst (handle_all network n w evs)).
Proof.
  revert n w. induction evs as [|ev evs IH]; intros n w Hw; [exact Hw|].
  cbn [handle_all]. pose proof (handle_ok (network (S n)) ev Hw) as H1.
  destruct (handle (network (S n)) w ev) as [w1 r1]. cbn [fst] in H1.
  specialize (IH (S n) _ H1). now destruct (handle_all network (S n) w1 evs).
Qed.

(** ** The callback and the run *)

(** What the user is shown for the result of a run. *)
Definition response_of (r : result outcome) : response :=
  match r with
  | Ok (InputError msg) => ShowError "Input Error" msg
  | Ok NoData => ShowInfo "No Data" "No data available for the selected parameters."
  | Ok (Displayed _ _ _ _ _) => Drawn
  | Raise e => Reported e
  end.

(** The ticker of a company of the configuration is found. *)
Lemma dict_get_In (A : Type) (key : string) (d : list (string * A)) :
  In key (map fst d) -> exists v, dict_get key d = Ok v.
Proof.
  induction d as [|[k v] d IH]; cbn; [tauto|].
  destruct (String.eqb_spec k key) as [->|Hk]; [eauto|]. intros [?|?]; [congruence|auto].
Qed.

(** On the entries of a window the [try] block raises [KeyError] for
    the company only: [float] raises nothing but [ValueError]. *)
Lemma read_inputs_KeyError (e : entries) (key : string) :
  read_inputs (form_of_entries e) = Raise (KeyError key) ->
  dict_get (company_text e) COMPANIES = Raise (KeyError key).
Proof.
  unfold read_inputs. cbn [form_of_entries company_var capital_entry fee_entry
    overbought_entry oversold_entry].
  destruct (dict_get _ _) as [t|err]; [|now intros [= ->]]. cbn [bind].
  repeat (first [destruct_bind|destruct_match]; cbn [bind]; try discriminate;
          try match goal with
              | H : py_float _ = Raise _ |- _ => apply py_float_ValueError in H as [? ->]
              end; try discriminate).
Qed.

Section SessionProperties.
Variable yf_download : string -> string -> string -> list raw_row.

(** C16: whatever the user does, the window shows at most one table
    and at most one figure, those of the same run, and the company
    selected is one of the configuration. *)
Theorem session_window_ok (network : nat -> string -> string -> string -> list raw_row)
    (evs : list event) :
  window_ok (fst (handle_all network 0 BacktestApp evs)).
Proof. apply handle_all_ok, BacktestApp_ok. Qed.

(** C29: in a session the lookup of the ticker never fails: the
    callback of the button never ends in a [KeyError], which its
    [try] block would not catch. *)
Theorem session_ticker_found (network : nat -> string -> string -> string -> list raw_row)
    (evs : list event) (key : string) :
  prepare (fst (handle_all network 0 BacktestApp evs)) <> Raise (KeyError key).
Proof.
  pose proof (handle_all_ok network evs 0 BacktestApp_ok) as [_ _ _ Hd Hc].
  intros H%read_inputs_KeyError. rewrite Hd in Hc.
  apply dict_get_In in Hc as [t Ht]. congruence.
Qed.

Lemma run_backtest_callback_outcome (w : window) :
  snd (run_backtest_callback yf_download w) =
  response_of (run_backtest yf_download (form_of_entries (input_frame w))).
Proof.
  rewrite run_backtest_analyse. unfold run_backtest_callback, prepare.
  destruct (read_inputs _) as [inp|[]]; try reflexivity.
  unfold get_historical_data.
  destruct (finish_cases w inp (yf_download (ticker inp) START_DATE END_DATE))
    as [[E ->]|[(Hne & e & E & ->)|(Hne & a & E & ->)]]; cbn [snd].
  - now rewrite E.
  - destruct (dropna _); [congruence|]. now rewrite E.
  - destruct (dropna _); [congruence|]. now rewrite E.
Qed.

Lemma run_backtest_callback_cases (w w' : window) (r : response) :
  run_backtest_callback yf_download w = (w', r) ->
  (r <> Drawn /\ w' = w) \/
  (r = Drawn /\ exists inp a,
     prepare w = Ok inp /\
     analyse (dropna (yf_download (ticker inp) START_DATE END_DATE)) inp = Ok a /\
     shows w' (a_metrics a)
       (plot_results (dropna (yf_download (ticker inp) START_DATE END_DATE))
          (a_rsi a) (a_bt a) (a_bh a) (company_text (input_frame w))
          (rsi_overbought inp) (rsi_oversold inp))).
Proof.
  unfold run_backtest_callback.
  destruct (prepare w) as [inp|e] eqn:Ep.
  2: { destruct e; intros [= <- <-]; left; (split; [discriminate|reflexivity]). }
  destruct (finish_cases w inp (yf_download (ticker inp) START_DATE END_DATE))
    as [[_ ->]|[(_ & e & _ & ->)|(_ & a & Ea & ->)]]; intros [= <- <-].
  1, 2: left; (split; [discriminate|reflexivity]).
  right. split; [reflexivity|]. exists inp, a. split; [reflexivity|]. split; [exact Ea|].
  eexists _, _. split; reflexivity.
Qed.

(** A click changes the window only when the run ends in a
    report, and then the window shows the table of that report and the
    figure of its frame; a rejected input, an empty frame or an
    exception leave on screen what was there. *)
Theorem run_backtest_callback_shows (w w' : window) (r : response) :
  run_backtest_callback yf_download w = (w', r) ->
  (r <> Drawn /\ w' = w) \/
  (r = Drawn /\ exists inp a,
     prepare w = Ok inp /\
     analyse (dropna (yf_download (ticker inp) START_DATE END_DATE)) inp = Ok a /\
     shows w' (a_metrics a)
       (plot_results (dropna (yf_download (ticker inp) START_DATE END_DATE))
          (a_rsi a) (a_bt a) (a_bh a) (company_text (input_frame w))
          (rsi_overbought inp) (rsi_oversold inp))).
Proof. apply run_backtest_callback_cases. Qed.

(** The row of the trade count in the table of a report. *)
Lemma table_of_trades (close : list Q) (bt : backtest_result) (c0 : xfloat)
    (f : metrics_frame) (m : list (string * cell)) :
  calculate_performance_metrics close bt c0 = Ok (f, m) ->
  exists bh_text,
    nth_error (table_of m) 7
    = Some ("Number of Trades:", render (Count (abs_sum (Trades bt))), bh_text).
Proof.
  intros H%lookup_number_of_trades. eexists. unfold table_of.
  change (nth_error (?h :: ?l) 7) with (nth_error l 6). rewrite nth_error_map.
  rewrite (@nth_error_display_metrics m 6 "Number of Trades" eq_refl).
  change (key_of "Number of Trades") with "number_of_trades".
  cbn [option_map fst snd]. now rewrite (@get_or_empty_lookup _ _ _ H).
Qed.

(** When a click ends in a report, the trade count the table
    shows, read as a number, is the number of markers on the price
    curve of the figure beside it. *)
Theorem drawn_trades_agree (w w' : window) :
  run_backtest_callback yf_download w = (w', Drawn) ->
  exists i j tbl fig text bh_text price buy sell,
    self_metrics_frame w' = Some (i, tbl) /\
    self_canvas w' = Some (j, fig) /\
    nth_error tbl 7 = Some ("Number of Trades:", text, bh_text) /\
    curves (ax1 fig) = [price; buy; sell] /\
    float_of_text text
    = Some (Fin (inject_Z (Z.of_nat (length (points buy) + length (points sell))))).
Proof.
  intros [[H _]|(_ & inp & a & _ & Ha & i & j & Ht & Hc)]%run_backtest_callback_cases;
    [congruence|].
  apply analyse_ok in Ha as (_ & _ & Hbt & Hm).
  eapply table_of_trades in Hm as [bh_text Hrow].
  eexists i, j, _, _, _, bh_text, _, _, _.
  repeat (split; [eassumption || reflexivity|]).
  rewrite <- (@markers_count backtest_strategy _ _ _ _ _ _ Hbt). apply float_of_text_Z.
Qed.
End SessionProperties.

(** The window as it opens is accepted as it stands: the default
    entries read as JPMorgan Chase, a capital of 10000, a fee of 0.1
    percent and the thresholds 70 and 30. *)
Theorem default_entries_accepted :
  prepare BacktestApp =
  Ok (mk_inputs "JPM" (Fin 10000) (Fin (1 # 1000)) (Fin 70) (Fin 30)).
Proof. reflexivity. Qed.

(** The result of [finish] depends on the window through its
    selected company only. *)
Lemma finish_drawn (w : window) (inp : inputs) (rows : list raw_row) (w' : window) :
  finish w inp rows = (w', Drawn) ->
  exists a,
    analyse (dropna rows) inp = Ok a /\
    w' = plot_results_widget (display_metrics_widget w (a_metrics a))
           (plot_results (dropna rows) (a_rsi a) (a_bt a) (a_bh a)
              (company_text (input_frame w)) (rsi_overbought inp) (rsi_oversold inp)).
Proof.
  destruct (finish_cases w inp rows) as [[_ ->]|[(_ & e & _ & ->)|(_ & a & Ea & ->)]];
    intros [= <-]. eauto.
Qed.

(** Pressing the button again without touching the inputs, with
    the provider returning the same rows, draws the same table and the
    same figure again. *)
Theorem click_twice_same (yf_download : string -> string -> string -> list raw_row)
    (w w1 : window) :
  run_backtest_callback yf_download w = (w1, Drawn) ->
  exists w2,
    run_backtest_callback yf_download w1 = (w2, Drawn) /\
    option_map snd (self_metrics_frame w2) = option_map snd (self_metrics_frame w1) /\
    option_map snd (self_canvas w2) = option_map snd (self_canvas w1).
Proof.
  unfold run_backtest_callback.
  destruct (prepare w) as [inp|[]] eqn:Ep; try discriminate.
  intros (a & Ea & ->)%finish_drawn.
  change (prepare (plot_results_widget _ _)) with (prepare w). rewrite Ep.
  unfold finish at 1. destruct (dropna _) as [|p data] eqn:Ed.
  - unfold analyse in Ea. cbn in Ea. discriminate.
  - rewrite Ea. eexists. split; [reflexivity|]. split; reflexivity.
Qed.

Lemma click_twice_same_witness :
  let yf := fun _ _ _ : string =>
    map (fun p => mk_row (Some p) []) [100; 90; 110; 80]%Q in
  exists w1 w2,
    run_backtest_callback yf BacktestApp = (w1, Drawn) /\
    run_backtest_callback yf w1 = (w2, Drawn) /\
    option_map snd (self_metrics_frame w2) = option_map snd (self_metrics_frame w1) /\
    option_map snd (self_canvas w2) = option_map snd (self_canvas w1).
Proof.
  cbv zeta. eexists. 
  refine ((fun H => match H with ex_intro _ w2 P => ex_intro _ w2 (conj _ P) end)
            (@click_twice_same
               (fun _ _ _ => map (fun p => mk_row (Some p) []) [100; 90; 110; 80]%Q)
               BacktestApp _ _)); vm_compute; reflexivity.
Defined.

(** C28: a capital that [float] cannot read ends the click with the
    error dialog of the conversion, which names the text as [repr]
    writes it, and leaves the window as it was; nothing is
    downloaded. *)
Theorem unreadable_capital_rejected
    (yf_download : string -> string -> string -> list raw_row) (w : window) :
  window_ok w ->
  float_of_text (capital_text (input_frame w)) = None ->
  run_backtest_callback yf_download w
  = (w, ShowError "Input Error"
          ("could not convert string to float: " ++ py_repr (capital_text (input_frame w)))).
Proof.
  intros [_ _ _ Hd Hc] Hf. rewrite Hd in Hc. apply dict_get_In in Hc as [t Ht].
  unfold run_backtest_callback, prepare, read_inputs.
  cbn [form_of_entries company_var capital_entry]. now rewrite Ht, (py_float_Raise _ Hf).
Qed.

Lemma unreadable_capital_rejected_witness :
  run_backtest_callback (fun _ _ _ => [])
    (apply_edit BacktestApp (TypeCapital "10,000"))
  = (apply_edit BacktestApp (TypeCapital "10,000"),
     ShowError "Input Error" "could not convert string to float: '10,000'").
Proof.
  apply (@unreadable_capital_rejected (fun _ _ _ => [])
           (apply_edit BacktestApp (TypeCapital "10,000"))).
  - split; cbn; auto; tauto.
  - reflexivity.
Defined.

Lemma run_backtest_callback_shows_witness :
  let yf := fun _ _ _ : string =>
    map (fun p => mk_row (Some p) []) [100; 90; 110; 80]%Q in
  exists w' r,
    run_backtest_callback yf BacktestApp = (w', r) /\
    ((r <> Drawn /\ w' = BacktestApp) \/
     (r = Drawn /\ exists inp a,
        prepare BacktestApp = Ok inp /\
        analyse (dropna (yf (ticker inp) START_DATE END_DATE)) inp = Ok a /\
        shows w' (a_metrics a)
          (plot_results (dropna (yf (ticker inp) START_DATE END_DATE))
             (a_rsi a) (a_bt a) (a_bh a) (company_text (input_frame BacktestApp))
             (rsi_overbought inp) (rsi_oversold inp)))).
Proof.
  cbv zeta. eexists _, _. split; [vm_compute; reflexivity|].
  apply (@run_backtest_callback_shows
           (fun _ _ _ => map (fun p => mk_row (Some p) [])
                           [100; 90; 110; 80]%Q) BacktestApp).
  now vm_compute.
Defined.

Lemma drawn_trades_agree_witness :
  let yf := fun _ _ _ : string =>
    map (fun p => mk_row (Some p) []) [100; 90; 110; 80]%Q in
  exists w',
    run_backtest_callback yf BacktestApp = (w', Drawn) /\
    exists i j tbl fig text bh_text price buy sell,
      self_metrics_frame w' = Some (i, tbl) /\
      self_canvas w' = Some (j, fig) /\
      nth_error tbl 7 = Some ("Number of Trades:", text, bh_text) /\
      curves (ax1 fig) = [price; buy; sell] /\
      float_of_text text
      = Some (Fin (inject_Z (Z.of_nat (length (points buy) + length (points sell))))).
Proof.
  cbv zeta. eexists. split; [vm_compute; reflexivity|].
  apply (@drawn_trades_agree
           (fun _ _ _ => map (fun p => mk_row (Some p) [])
                           [100; 90; 110; 80]%Q) BacktestApp).
  now vm_compute.
Defined.
