(* ===== verification/AppMachine.v ===== *)
(** * AppMachine: the entries of the window as floats

    [App] and [Gui] read the text of an entry as the exact number it
    denotes.  [float] returns the binary64 number nearest to it, and
    [float(self.fee_entry.get()) / 100] is rounded once more
    ([src/subcode/app.py], [run_backtest]).  This file states the
    [try] block over a rounding, relates it to [App.read_inputs], and
    says which numbers the block accepts when the arithmetic is
    binary64: a capital above [2^-1075], thresholds whose floats are
    in order, the lower one above [2^-1075] and the upper one below
    [100 - 2^-47].  Between these borders and the borders of the
    exact model ([0] and [100]) the two disagree.  The file ends with
    the three calls of [run_backtest] on the frame ([calculate_rsi],
    [generate_signals], [backtest_strategy]) over a rounding, and the
    theorem that ties the trades to the crossings of the
    indicator. *)

From Stdlib Require Import String List ZArith QArith Lia Lqa Bool.
From Stdlib Require Import Morphisms Setoid.
From S2P Require Import Prelude Floats Binary64 Parse Series Indicator Signals Backtest.
From S2P Require Import Simulator Machine IndicatorMachine App Gui.
Import ListNotations.

Local Open Scope string_scope.
Local Open Scope Q_scope.
Local Open Scope res_scope.

(** ** The form *)

(** [float(s)]: the float nearest to the number the text denotes. *)
Definition py_float64 (s : string) : result xfloat :=
  x <- py_float s ;; Ok (xround x).

(** [float(entry.get())] on every entry. *)
Definition form64_of_entries (e : entries) : form :=
  {| company_var := company_text e;
     capital_entry := py_float64 (capital_text e);
     fee_entry := py_float64 (fee_text e);
     overbought_entry := py_float64 (overbought_text e);
     oversold_entry := py_float64 (oversold_text e) |}.

Section Rounded.
Variable rnd : Q -> xfloat.

(** The body of the [try] block of [run_backtest], the quotient of
    the fee by 100 rounded. *)
Definition read_inputs_r (ui : form) : result inputs :=
  ticker <- dict_get (company_var ui) COMPANIES ;;
  initial_capital <- capital_entry ui ;;
  if xleb initial_capital (Fin 0)
  then Raise (ValueError "Starting capital must be positive.")
  else
    fee <- fee_entry ui ;;
    let fee_percentage := rdiv rnd fee (Fin 100) in
    if xltb fee_percentage (Fin 0)
    then Raise (ValueError "Fee percentage cannot be negative.")
    else
      rsi_overbought <- overbought_entry ui ;;
      if negb (xltb (Fin 0) rsi_overbought && xltb rsi_overbought (Fin 100))
      then Raise (ValueError "RSI Overbought level must be between 0 and 100.")
      else
        rsi_oversold <- oversold_entry ui ;;
        if negb (xltb (Fin 0) rsi_oversold && xltb rsi_oversold (Fin 100))
        then Raise (ValueError "RSI Oversold level must be between 0 and 100.")
        else if xleb rsi_overbought rsi_oversold
        then Raise (ValueError "RSI Oversold level must be less than RSI Overbought level.")
        else Ok (mk_inputs ticker initial_capital fee_percentage
                   rsi_overbought rsi_oversold).

(** The tests a form of four floats has to pass. *)
Lemma read_inputs_r_tests (company t : string) (c f ob os : xfloat) :
  dict_get company COMPANIES = Ok t ->
  read_inputs_r (mk_form company (Ok c) (Ok f) (Ok ob) (Ok os)) =
  Ok (mk_inputs t c (rdiv rnd f (Fin 100)) ob os) <->
  xleb c (Fin 0) = false /\ xltb (rdiv rnd f (Fin 100)) (Fin 0) = false /\
  xltb (Fin 0) ob && xltb ob (Fin 100) = true /\
  xltb (Fin 0) os && xltb os (Fin 100) = true /\ xleb ob os = false.
Proof.
  intros Ht. unfold read_inputs_r.
  cbn [company_var capital_entry fee_entry overbought_entry oversold_entry].
  rewrite Ht. cbn [bind].
  destruct (xleb c (Fin 0)), (xltb (rdiv rnd f (Fin 100)) (Fin 0)),
    (xltb (Fin 0) ob && xltb ob (Fin 100)), (xltb (Fin 0) os && xltb os (Fin 100)),
    (xleb ob os); cbn [negb]; split; try discriminate; try tauto;
    intros (? & ? & ? & ? & ?); discriminate.
Qed.
End Rounded.

(** Without rounding the block is [App.read_inputs]. *)
Lemma read_inputs_r_exact (ui : form) : read_inputs_r Fin ui = read_inputs ui.
Proof.
  unfold read_inputs_r, read_inputs.
  destruct (dict_get _ _); [|reflexivity]. cbn [bind].
  destruct (capital_entry ui); [|reflexivity]. cbn [bind].
  destruct (xleb _ _); [reflexivity|].
  destruct (fee_entry ui); [|reflexivity]. cbn [bind].
  unfold rdiv. now rewrite xrnd_Fin.
Qed.

(** ** Comparisons of floats that are numbers or infinities *)

Lemma xleb_xltb (x y : xfloat) :
  is_nan x = false -> is_nan y = false -> xleb x y = negb (xltb y x).
Proof.
  destruct x, y; cbn; try discriminate; try reflexivity.
  intros _ _. unfold Qltb. now rewrite negb_involutive.
Qed.

Lemma xltb_trans (x y z : xfloat) :
  xltb x y = true -> xltb y z = true -> xltb x z = true.
Proof.
  destruct x, y, z; cbn; try discriminate; try reflexivity.
  intros H1 H2. qbool. apply Qltb_lt. lra.
Qed.

Lemma round64_not_nan (q : Q) : is_nan (round64 q) = false.
Proof. unfold round64, overflow. now repeat destruct_match. Qed.

(** ** Where binary64 crosses the borders of the validation *)

(** The float of a number is positive exactly above [2^-1075]. *)
Lemma round64_pos_iff (q : Q) : xltb (Fin 0) (round64 q) = true <-> eta < q.
Proof.
  rewrite <- round_val_pos_iff. unfold round64, overflow. pose proof (pow2_pos emax).
  repeat destruct_match; cbn [xltb]; qbool; rewrite ?Qltb_lt; split; intros; try lra;
    discriminate.
Qed.

(** It is below 100 exactly below [100 - 2^-47]. *)
Lemma round64_lt_100_iff (q : Q) :
  xltb (round64 q) (Fin 100) = true <-> q < 100 - pow2 (- 47).
Proof.
  rewrite <- round_val_lt_100. unfold round64, overflow.
  assert (100 < pow2 emax).
  { apply Qlt_le_trans with (pow2 7); [|apply pow2_le; unfold emax; lia].
    rewrite pow2_inject by lia. reflexivity. }
  repeat destruct_match; cbn [xltb]; qbool; rewrite ?Qltb_lt; split; intros; try lra;
    discriminate.
Qed.

(** The float of a fee that is not negative, divided by 100, is not
    negative. *)
Lemma round64_nonneg (q : Q) : 0 <= q -> xltb (round64 q) (Fin 0) = false.
Proof.
  intros Hq. pose proof (round_val_nonneg q Hq). pose proof (pow2_pos emax).
  unfold round64, overflow. repeat destruct_match; cbn [xltb]; qbool; try reflexivity;
    try lra. apply Qltb_ge. lra.
Qed.

Lemma fee64_accepted (fee : Q) :
  0 <= fee -> xltb (rdiv round64 (round64 fee) (Fin 100)) (Fin 0) = false.
Proof.
  intros Hf. pose proof (round_val_nonneg fee Hf). pose proof (pow2_pos emax).
  unfold rdiv, round64 at 2, overflow. repeat destruct_match; qbool; try lra.
  - reflexivity.
  - cbn [xdiv xrnd]. change (Qeq_bool 100 0) with false. cbn iota.
    apply round64_nonneg, Qle_shift_div_l; lra.
Qed.

(** ** What the block accepts in binary64 *)

(** A form whose entries denote the numbers [c], [fee], [ob] and
    [os], as [float] reads it. *)
Definition form64 (company : string) (c fee ob os : Q) : form :=
  mk_form company (Ok (round64 c)) (Ok (round64 fee))
    (Ok (round64 ob)) (Ok (round64 os)).

(** C15: in binary64 the [try] block of [run_backtest] accepts the
    numbers of the entries, the fee not being negative, exactly when
    the capital and the oversold level are above [2^-1075], the float
    of the oversold level is below the float of the overbought level,
    and the overbought level is below [100 - 2^-47]. *)
Theorem read_inputs64_accepts (company t : string) (c fee ob os : Q) :
  dict_get company COMPANIES = Ok t -> 0 <= fee ->
  read_inputs_r round64 (form64 company c fee ob os) =
  Ok (mk_inputs t (round64 c) (rdiv round64 (round64 fee) (Fin 100))
        (round64 ob) (round64 os)) <->
  eta < c /\ eta < os /\ xltb (round64 os) (round64 ob) = true /\
  ob < 100 - pow2 (- 47).
Proof.
  intros Ht Hf. unfold form64. rewrite (read_inputs_r_tests round64 _ _ _ _ _ _ Ht).
  rewrite !andb_true_iff, !xleb_xltb, !negb_false_iff by apply round64_not_nan || reflexivity.
  rewrite !round64_pos_iff, !round64_lt_100_iff.
  pose proof (fee64_accepted fee Hf) as Ef. split.
  - tauto.
  - intros (Hc & Hos & Ho & Hob). pose proof (proj2 (round64_pos_iff os) Hos) as H1.
    pose proof (proj2 (round64_lt_100_iff ob) Hob) as H2.
    pose proof (xltb_trans _ _ _ H1 Ho) as H3. pose proof (xltb_trans _ _ _ Ho H2) as H4.
    apply round64_pos_iff in H3. apply round64_lt_100_iff in H4. tauto.
Qed.

Lemma read_inputs64_accepts_witness :
  read_inputs_r round64 (form64 "Tesla, Inc. (TSLA)" 10000 (1 # 10) 70 30) =
  Ok (mk_inputs "TSLA" (round64 10000) (rdiv round64 (round64 (1 # 10)) (Fin 100))
        (round64 70) (round64 30)) <->
  eta < 10000 /\ eta < 30 /\ xltb (round64 30) (round64 70) = true /\
  70 < 100 - pow2 (- 47).
Proof.
  apply (read_inputs64_accepts "Tesla, Inc. (TSLA)" "TSLA" 10000 (1 # 10) 70 30).
  - reflexivity.
  - discriminate.
Defined.

(** ** Texts on which the two models disagree *)

(** A capital of [1e-400] is positive, and its float is zero: Python
    refuses it. *)
Example capital_underflows :
  let e := mk_entries "Tesla, Inc. (TSLA)" "1e-400" "0.1" "70" "30" in
  (exists inp, read_inputs (form_of_entries e) = Ok inp) /\
  read_inputs_r round64 (form64_of_entries e) =
  Raise (ValueError "Starting capital must be positive.").
Proof. split; [eexists|]; vm_compute; reflexivity. Qed.

(** An overbought level of [99.99999999999999999] is below 100, and
    its float is 100: Python refuses it. *)
Example overbought_rounds_to_100 :
  let e := mk_entries "Tesla, Inc. (TSLA)" "10000" "0.1" "99.99999999999999999" "30" in
  (exists inp, read_inputs (form_of_entries e) = Ok inp) /\
  read_inputs_r round64 (form64_of_entries e) =
  Raise (ValueError "RSI Overbought level must be between 0 and 100.").
Proof. split; [eexists|]; vm_compute; reflexivity. Qed.

(** A capital of [1e400] is a number, and its float is infinite:
    Python accepts it as it accepts [inf]. *)
Example capital_overflows :
  let e := mk_entries "Tesla, Inc. (TSLA)" "1e400" "0.1" "70" "30" in
  exists inp,
    read_inputs_r round64 (form64_of_entries e) = Ok inp /\ initial_capital inp = PInf.
Proof. eexists. split; vm_compute; reflexivity. Qed.

(** The default entries of the window, as floats. *)
Example default_entries64 :
  exists inp,
    read_inputs_r round64
      (form64_of_entries (mk_entries "JPMorgan Chase & Co. (JPM)" "10000" "0.1" "70" "30")) =
    Ok inp /\
    ticker inp = "JPM" /\ xeq (initial_capital inp) (Fin 10000) /\
    xeq (fee_percentage inp) (Fin (1152921504606847 # 1152921504606846976)) /\
    xeq (rsi_overbought inp) (Fin 70) /\ xeq (rsi_oversold inp) (Fin 30).
Proof. eexists. split; [vm_compute; reflexivity|]. repeat split. Qed.

(** ** The calls on the frame *)

(** [run_backtest] hands the frame to [calculate_rsi], then to
    [generate_signals], then to [backtest_strategy].  Whatever the
    rounding, a trade happens only on a row where the indicator
    crossed a threshold. *)

(** What the three calls add to the frame. *)
Record engine_result : Type := mk_engine {
  e_rsi : Series;
  e_signal : list Z;
  e_bt : backtest_result
}.

Section Engine.
Context (rnd : Q -> xfloat) `{Rounding rnd}.
Variable rolling : nat -> nat -> Series -> result Series.

Definition engine_r (data : list Q) (inp : inputs) : result engine_result :=
  rsi <- calculate_rsi_r rnd rolling (of_Q data) 14 ;;
  let signal := generate_signals rsi (rsi_overbought inp) (rsi_oversold inp) in
  bt <- backtest_strategy_r rnd data signal (initial_capital inp) (fee_percentage inp) ;;
  Ok (mk_engine rsi signal bt).

Hypothesis rep_1 : representable rnd 1.
Hypothesis rep_100 : representable rnd 100.
Hypothesis rolling_not_negative : forall w mp s s',
  Forall not_negative s -> rolling w mp s = Ok s' ->
  Forall not_negative s' /\ length s' = length s.

(** The signal of a row that has one: the indicator of the row and of
    the row before, two percentages, are on the two sides of a
    threshold. *)
Lemma signal_on_crossing (rsi : Series) (ob os : xfloat) (i : nat) (z : Z) :
  Forall percent rsi -> nth_error (generate_signals rsi ob os) i = Some z -> z <> 0%Z ->
  exists k cur prev,
    i = S k /\ nth_error rsi k = Some prev /\ nth_error rsi (S k) = Some cur /\
    percent cur /\ percent prev /\
    (z = 1%Z /\ buy_cross os cur prev = true \/
     z = (-1)%Z /\ sell_cross ob cur prev = true).
Proof.
  intros Hp Hz Hne. assert (Hi : (i < length rsi)%nat).
  { rewrite <- (length_generate_signals rsi ob os). apply nth_error_Some. congruence. }
  destruct i as [|k].
  - rewrite generate_signals_first in Hz by (destruct rsi; [cbn in Hi; lia|discriminate]).
    congruence.
  - destruct (nth_error rsi k) as [prev|] eqn:Ek; [|apply nth_error_None in Ek; lia].
    destruct (nth_error rsi (S k)) as [cur|] eqn:Ec; [|apply nth_error_None in Ec; lia].
    rewrite (nth_error_generate_signals rsi ob os k cur prev Ek Ec) in Hz. injection Hz as <-.
    exists k, cur, prev. rewrite Forall_forall in Hp.
    repeat split; eauto using nth_error_In.
    destruct (signal_of_range ob os cur prev) as [E|[E|[E|[]]]]; [right|congruence|left];
      (split; [now symmetry|]); [apply (signal_of_sell_iff ob os)|apply (signal_of_buy_iff ob)];
      now symmetry.
Qed.

(** C11: in a run of the three calls, whatever the rounding of the
    arithmetic, every trade sits on a row where the indicator crossed
    a threshold: an entry where it rose above the oversold level from
    on or below it, an exit where it fell below the overbought level
    from on or above it; the first row has no trade. *)
Theorem engine_r_trades_cross (data : list Q) (inp : inputs) (e : engine_result)
    (i : nat) (t : Z) :
  engine_r data inp = Ok e -> nth_error (Trades (e_bt e)) i = Some t -> t <> 0%Z ->
  exists k cur prev,
    i = S k /\ nth_error (e_rsi e) k = Some prev /\ nth_error (e_rsi e) (S k) = Some cur /\
    percent cur /\ percent prev /\
    (t = 1%Z /\ buy_cross (rsi_oversold inp) cur prev = true \/
     t = (-1)%Z /\ sell_cross (rsi_overbought inp) cur prev = true).
Proof.
  unfold engine_r. intros (rsi & Hr & (bt & Hb & [= <-])%bind_ok)%bind_ok Ht Hne.
  cbn [e_rsi e_bt] in *.
  apply (calculate_rsi_r_percent rnd rolling rep_1 rep_100 rolling_not_negative) in Hr
    as [Hl Hp].
  apply backtest_strategy_r_on_signals in Hb;
    [|now rewrite length_generate_signals, Hl; unfold of_Q; rewrite length_map].
  destruct (Forall2_nth_error i Hb Ht) as (z & Hz & [E|E]); [congruence|subst z].
  now apply (signal_on_crossing rsi _ _ i t).
Qed.

End Engine.

(** Without rounding, and with the rolling mean of [Series], the three
    calls are those of [App.analyse]. *)
Lemma engine_r_exact (data : list Q) (inp : inputs) (a : analysis) :
  analyse data inp = Ok a ->
  engine_r Fin rolling_mean data inp = Ok (mk_engine (a_rsi a) (a_signal a) (a_bt a)).
Proof.
  intros (Hr & Hs & Hb & _)%analyse_ok. unfold engine_r.
  rewrite calculate_rsi_r_exact, Hr. cbn [bind]. rewrite <- Hs.
  now rewrite backtest_strategy_r_exact, Hb.
Qed.

Lemma engine_r_trades_cross_witness :
  let inp := mk_inputs "TSLA" (Fin 1000) (Fin 0) (Fin 70) (Fin 30) in
  let data := [100; 90; 80; 85; 95; 105; 100; 90; 80; 85]%Q in
  exists e,
    engine_r round64 rolling_mean data inp = Ok e /\
    nth_error (Trades (e_bt e)) 4 = Some 1%Z /\
    exists k cur prev,
      4%nat = S k /\ nth_error (e_rsi e) k = Some prev /\ nth_error (e_rsi e) (S k) = Some cur /\
      percent cur /\ percent prev /\
      (1%Z = 1%Z /\ buy_cross (Fin 30) cur prev = true \/
       1%Z = (-1)%Z /\ sell_cross (Fin 70) cur prev = true).
Proof.
  cbv zeta. eexists. split; [vm_compute; reflexivity|]. split; [reflexivity|].
  apply (engine_r_trades_cross round64 rolling_mean representable64_1 representable64_100
           rolling_mean_not_negative [100; 90; 80; 85; 95; 105; 100; 90; 80; 85]%Q
           (mk_inputs "TSLA" (Fin 1000) (Fin 0) (Fin 70) (Fin 30)) _ 4 1%Z);
    [vm_compute; reflexivity|reflexivity|discriminate].
Defined.
