(* ===== verification/EventLoop.v ===== *)
(** * EventLoop: the main loop of the application

    [src/main.py] builds the window and enters [mainloop], which hands
    every action of the user to its callback until the window is
    closed.  The loop is an interaction tree over the events of Tk,
    of the data provider and of the screen; [run_backtest_io] is the
    callback of the button with its effects in their order: the
    entries are validated, then the prices are downloaded, then the
    result is shown.  A session is the interpretation of the loop in a
    world that holds the actions still to come, what was shown and
    what was asked of the provider so far; the provider may answer
    differently from one action to the next.  [mainloop] and the
    dispatch of an action to its callback are Tk's, modelled from its
    documentation. *)

From Stdlib Require Import String List ZArith QArith Lia.
From ITree Require Import ITree ITreeFacts Events.State Events.StateFacts.
From S2P Require Import Prelude Floats App Gui.
Import ListNotations.

Set Implicit Arguments.

Local Open Scope string_scope.

(** ** Events *)

(** What the loop asks of its environment: the next action of the
    user ([None] once the window is closed), the rows
    [yf.download] returns, and a dialog, a redraw or a traceback to
    show. *)
Inductive tkE : Type -> Type :=
| NextEvent : tkE (option event)
| Download (ticker start_date end_date : string) : tkE (list raw_row)
| Display (r : response) : tkE unit.

(** ** The callbacks *)

(** [run_backtest], the callback of the button. *)
Definition run_backtest_io (w : window) : itree tkE window :=
  match prepare w with
  | Raise (ValueError msg) =>
      ITree.bind (ITree.trigger (Display (ShowError "Input Error" msg))) (fun _ => Ret w)
  | Raise e => ITree.bind (ITree.trigger (Display (Reported e))) (fun _ => Ret w)
  | Ok inp =>
      ITree.bind (ITree.trigger (Download (ticker inp) START_DATE END_DATE))
        (fun rows =>
           ITree.bind (ITree.trigger (Display (snd (finish w inp rows))))
             (fun _ => Ret (fst (finish w inp rows))))
  end.

(** The callback of an action. *)
Definition dispatch (w : window) (ev : event) : itree tkE window :=
  match ev with
  | Edit ed => Ret (apply_edit w ed)
  | ClickRun => run_backtest_io w
  end.

(** One turn of [mainloop]: the next action goes to its callback;
    closing the window destroys it and ends the loop. *)
Definition turn (w : window) : itree tkE (window + window) :=
  ITree.bind (ITree.trigger NextEvent)
    (fun next =>
       match next with
       | Some ev => ITree.bind (dispatch w ev) (fun w' => Ret (inl w'))
       | None => Ret (inr (destroy w))
       end).

(** [app.mainloop()]. *)
Definition mainloop (w : window) : itree tkE window := ITree.iter turn w.

(** [main.py]: [app = BacktestApp()] and [app.mainloop()]. *)
Definition main : itree tkE window := mainloop BacktestApp.

(** ** Sessions *)

(** A computation without events left that ends in [r], after
    finitely many silent steps. *)
Definition ends_in {R : Type} (t : itree void1 R) (r : R) : Prop := eutt eq t (Ret r).

Lemma ends_in_eutt {R : Type} (t : itree void1 R) (r : R) : ends_in t r -> eutt eq t (Ret r).
Proof. exact (fun H => H). Qed.

(** The actions of the user still to come, the number of actions
    already taken, what was shown so far and the downloads asked for
    so far. *)
Record world : Type := mk_world {
  pending : list event;
  served : nat;
  screen : list response;
  requests : list (string * string * string)
}.

(** The download a click asks for: none when the entries are
    rejected. *)
Definition request_of (w : window) : list (string * string * string) :=
  match prepare w with
  | Ok inp => [(ticker inp, START_DATE, END_DATE)]
  | Raise _ => []
  end.

(** The downloads an action asks for. *)
Definition requests_of (w : window) (ev : event) : list (string * string * string) :=
  match ev with
  | ClickRun => request_of w
  | Edit _ => []
  end.

Section Session.
(** [network t] is what [yf.download] returns once the user has made
    [t] actions. *)
Variable network : nat -> string -> string -> string -> list raw_row.

(** The environment of a session. *)
Definition session (T : Type) (e : tkE T) : Monads.stateT world (itree void1) T :=
  fun s =>
    match e in tkE T return itree void1 (world * T) with
    | NextEvent =>
        Ret (mk_world (tl (pending s))
               (match pending s with [] => served s | _ :: _ => S (served s) end)
               (screen s) (requests s),
             hd_error (pending s))
    | Download t a b =>
        Ret (mk_world (pending s) (served s) (screen s) (requests s ++ [(t, a, b)])%list,
             network (served s) t a b)
    | Display r =>
        Ret (mk_world (pending s) (served s) (screen s ++ [r])%list (requests s), tt)
    end.

(** The downloads a sequence of actions asks for. *)
Fixpoint requests_all (n : nat) (w : window) (evs : list event)
  : list (string * string * string) :=
  match evs with
  | [] => []
  | ev :: evs' =>
      (requests_of w ev ++ requests_all (S n) (fst (handle (network (S n)) w ev)) evs')%list
  end.

(** The session of the program from a world. *)
Definition run_session (s : world) : itree void1 (world * window) :=
  interp_state session main s.

(** ** The callbacks in a session *)

Lemma session_show (r : response) (w : window) (s : world) :
  ends_in (interp_state session (ITree.bind (ITree.trigger (Display r)) (fun _ => Ret w)) s)
          (mk_world (pending s) (served s) (screen s ++ [r]) (requests s), w).
Proof.
  unfold ends_in. rewrite interp_state_bind, interp_state_trigger. cbn.
  rewrite bind_ret_l. cbn. now rewrite interp_state_ret.
Qed.

(** The callback of the button asks for the download of
    [request_of], downloads with the provider of the moment and shows
    one response: it is [run_backtest_callback]. *)
Lemma run_backtest_io_session (w : window) (s : world) :
  ends_in (interp_state session (run_backtest_io w) s)
          (mk_world (pending s) (served s)
             (screen s ++ [snd (run_backtest_callback (network (served s)) w)])
             (requests s ++ request_of w),
           fst (run_backtest_callback (network (served s)) w)).
Proof.
  unfold run_backtest_io, run_backtest_callback, request_of.
  destruct (prepare w) as [inp|[]]; rewrite ?app_nil_r; try apply session_show.
  unfold ends_in. rewrite interp_state_bind, interp_state_trigger. cbn.
  rewrite bind_ret_l. cbn. apply session_show.
Qed.

Lemma dispatch_session (w : window) (ev : event) (s : world) :
  ends_in (interp_state session (dispatch w ev) s)
          (mk_world (pending s) (served s)
             (screen s ++ snd (handle (network (served s)) w ev))
             (requests s ++ requests_of w ev),
           fst (handle (network (served s)) w ev)).
Proof.
  unfold ends_in. destruct ev as [ed|]; cbn [dispatch handle requests_of].
  - rewrite interp_state_ret. cbn. rewrite !app_nil_r. now destruct s.
  - rewrite (ends_in_eutt (run_backtest_io_session w s)).
    now destruct (run_backtest_callback (network (served s)) w).
Qed.

(** One turn of the loop in a session. *)
Lemma turn_session (w : window) (evs : list event) (n : nat) (log : list response)
    (rqs : list (string * string * string)) :
  ends_in (interp_state session (turn w) (mk_world evs n log rqs))
          match evs with
          | [] => (mk_world [] n log rqs, inr (destroy w))
          | ev :: evs' =>
              (mk_world evs' (S n) (log ++ snd (handle (network (S n)) w ev))
                 (rqs ++ requests_of w ev),
               inl (fst (handle (network (S n)) w ev)))
          end.
Proof.
  unfold ends_in, turn. rewrite interp_state_bind, interp_state_trigger. cbn.
  rewrite bind_ret_l. cbn. destruct evs as [|ev evs']; cbn.
  - now rewrite interp_state_ret.
  - rewrite interp_state_bind, (ends_in_eutt (dispatch_session _ _ _)), bind_ret_l. cbn.
    now rewrite interp_state_ret.
Qed.

(** What a session ends in. *)
Definition session_end (w : window) (evs : list event) (n : nat) (log : list response)
    (rqs : list (string * string * string)) : world * window :=
  (mk_world [] (n + length evs) (log ++ snd (handle_all network n w evs))
     (rqs ++ requests_all n w evs),
   destroy (fst (handle_all network n w evs))).

(** The loop in a session handles the actions in their order and
    ends, with the window destroyed, when they are exhausted. *)
Lemma mainloop_session (evs : list event) (w : window) (n : nat) (log : list response)
    (rqs : list (string * string * string)) :
  ends_in (interp_state session (mainloop w) (mk_world evs n log rqs))
          (session_end w evs n log rqs).
Proof.
  revert w n log rqs. induction evs as [|ev evs IH]; intros w n log rqs;
    unfold ends_in, mainloop;
    rewrite unfold_iter, interp_state_bind, (ends_in_eutt (turn_session _ _ _ _ _)), bind_ret_l;
    cbn.
  - rewrite interp_state_ret. unfold session_end. cbn. now rewrite !app_nil_r, Nat.add_0_r.
  - rewrite interp_state_tau, tau_eutt. fold (mainloop (fst (handle (network (S n)) w ev))).
    rewrite (ends_in_eutt (IH _ _ _ _)). unfold session_end. cbn [handle_all requests_all].
    destruct (handle (network (S n)) w ev) as [w1 r1]. cbn [fst snd length].
    destruct (handle_all network (S n) w1 evs) as [w2 r2]. cbn [fst snd].
    now rewrite !app_assoc, Nat.add_succ_r.
Qed.

(** ** Sessions of the program *)

Definition is_click (ev : event) : bool :=
  match ev with
  | ClickRun => true
  | Edit _ => false
  end.

(** The number of times the button is pressed. *)
Definition clicks (evs : list event) : nat := length (filter is_click evs).

(** A download asked for: a ticker of the configuration over the
    period of the configuration. *)
Definition configured (rq : string * string * string) : Prop :=
  (exists name, In (name, fst (fst rq)) COMPANIES) /\
  snd (fst rq) = START_DATE /\ snd rq = END_DATE.

Lemma request_of_configured (w : window) : Forall configured (request_of w).
Proof.
  unfold request_of. destruct (prepare w) as [inp|] eqn:E; [|constructor].
  apply read_inputs_ticker in E. repeat constructor. eauto.
Qed.

Lemma requests_all_configured (evs : list event) (n : nat) (w : window) :
  Forall configured (requests_all n w evs).
Proof.
  revert n w. induction evs as [|ev evs IH]; intros n w; [constructor|].
  cbn [requests_all]. apply Forall_app. split; [|apply IH].
  destruct ev; [constructor|apply request_of_configured].
Qed.

Lemma length_requests_all (evs : list event) (n : nat) (w : window) :
  (length (requests_all n w evs) <= clicks evs)%nat.
Proof.
  unfold clicks. revert n w. induction evs as [|ev evs IH]; intros n w; [cbn; lia|].
  specialize (IH (S n) (fst (handle (network (S n)) w ev))).
  cbn [requests_all]. rewrite length_app.
  destruct ev; cbn [requests_of filter is_click length]; [lia|].
  unfold request_of. destruct (prepare w); cbn [length]; lia.
Qed.

(** C26: a session downloads only what the configuration names: every
    download asked for is for the ticker of a company of
    [COMPANIES], from [START_DATE] to [END_DATE], and there is at most
    one per press of the button. *)
Theorem main_downloads_configured (evs : list event) :
  exists s w,
    ends_in (run_session (mk_world evs 0 [] [])) (s, w) /\
    Forall configured (requests s) /\ (length (requests s) <= clicks evs)%nat.
Proof.
  eexists _, _. split; [apply mainloop_session|]. cbn. split.
  - apply requests_all_configured.
  - apply length_requests_all.
Qed.
End Session.
