(* ===== verification/Scenarios.v ===== *)
(** * Scenarios: whole runs

    Runs of [run_backtest] from the form to the table on the price
    series the design singles out: a flat series (which includes the
    series of a single price), as a function and as a press of the
    button on the window as it opens, and the ten-day series of its
    concrete scenario. *)

From Stdlib Require Import String List ZArith QArith Qround Lia Lqa Bool.
From S2P Require Import Prelude Floats Parse Series Indicator Signals Ledger Backtest.
From S2P Require Import Simulator Metrics Plot Format App Gui.
Import ListNotations.

Set Implicit Arguments.

Local Open Scope string_scope.
Local Open Scope Q_scope.
Local Open Scope res_scope.

(** ** Flat prices *)

Lemma Forall_repeat (A : Type) (P : A -> Prop) (x : A) (n : nat) :
  P x -> Forall P (repeat x n).
Proof. intros H. induction n; simpl; auto. Qed.

(** The engine on a flat frame: the indicator never leaves 50, no
    signal fires, and the backtest leaves the capital untouched. *)
Lemma flat_prices_engine (p c r : Q) (ob os : xfloat) (n : nat) :
  ~ p == 0 ->
  let data := repeat p n in
  let rsi := of_Q (rsi_reference 14 data) in
  let signal := generate_signals rsi ob os in
  Forall (fun x => x = Fin 50) rsi /\
  Forall (fun z => z = 0%Z) signal /\
  exists bt,
    backtest_strategy data signal (Fin c) (Fin r) = Ok bt /\
    Forall (fun v => xeq v (Fin c)) (Portfolio_Value bt) /\
    Trades bt = repeat 0%Z n /\
    length (Portfolio_Value bt) = n.
Proof.
  intros Hp data rsi signal.
  assert (Hrsi : Forall (fun x => x = Fin 50) rsi)
    by (apply rsi_reference_flat with (c := p), Forall_repeat; reflexivity).
  assert (Hsig : Forall (fun z => z = 0%Z) signal).
  { apply generate_signals_no_cross with (c := Fin 50).
    eapply Forall_impl; [|exact Hrsi]. now intros x ->. }
  assert (Hlen : length signal = length data)
    by (subst signal rsi; now rewrite length_generate_signals, length_of_Q,
          length_rsi_reference).
  split; [assumption|]. split; [assumption|].
  destruct (@backtest_strategy_idle data signal c r Hlen) as (bt & Hbt & Hpv & Htr & _).
  - now apply Forall_repeat.
  - eapply Forall_impl; [|exact Hsig]. now intros z ->.
  - exists bt. pose proof (backtest_strategy_ok _ _ _ _ Hbt) as (st & _ & -> & Hl & _).
    subst data. rewrite repeat_length in *. now repeat split.
Qed.

Section FlatRun.
Variable yf_download : string -> string -> string -> list raw_row.

Lemma flat_prices_outcome (company t : string) (c fee ob os p : Q) (n : nat) :
  dict_get company COMPANIES = Ok t -> valid_inputs c fee ob os -> ~ p == 0 ->
  dropna (yf_download t START_DATE END_DATE) = repeat p (S n) ->
  exists table rsi signal bt bh tr dd v1 v2 v3,
    run_backtest yf_download (finite_form company c fee ob os) =
      Ok (Displayed table rsi signal bt bh) /\
    Forall (fun x => x = Fin 50) rsi /\
    Forall (fun z => z = 0%Z) signal /\
    Forall (fun v => xeq v (Fin c)) (Portfolio_Value bt) /\
    nth_error table 1 = Some ("Total Return:", Percent (Fin tr), v1) /\ tr == 0 /\
    nth_error table 2 = Some ("Max. Drawdown:", Percent (Fin dd), v2) /\ dd == 0 /\
    nth_error table 6 = Some ("Number of Trades:", Count 0, v3).
Proof.
  intros Ht Hv Hp Hd.
  assert (Hne : dropna (yf_download t START_DATE END_DATE) <> [])
    by (rewrite Hd; discriminate).
  rewrite (@run_backtest_pipeline yf_download company t c fee ob os Ht Hv Hne), Hd.
  destruct (@flat_prices_engine p c (fee / 100) (Fin ob) (Fin os) (S n) Hp)
    as (Hrsi & Hsig & bt & -> & Hpv & Htr & Hl).
  cbn [bind].
  destruct (@calculate_performance_metrics_defined (repeat p (S n)) bt (Fin c))
    as (f & m & Hm); [discriminate|now destruct (Portfolio_Value bt)|].
  rewrite Hm. cbn [bind fst snd].
  assert (Hc : ~ c == 0) by (destruct Hv as [Hc _]; intros E; rewrite E in Hc; lra).
  destruct (report_of_flat_run _ _ Hm Hc Hpv) as ((tr & Htr' & Htr0) & (dd & Hdd & Hdd0) & Hnt).
  { rewrite Htr. now apply Forall_repeat. }
  exists (display_metrics m), (of_Q (rsi_reference 14 (repeat p (S n)))).
  eexists _, bt, f, tr, dd, _, _, _.
  split; [reflexivity|]. repeat (split; [assumption|]).
  rewrite (@nth_error_display_metrics m 1 "Total Return" eq_refl),
    (@nth_error_display_metrics m 2 "Max. Drawdown" eq_refl),
    (@nth_error_display_metrics m 6 "Number of Trades" eq_refl).
  change (key_of "Total Return") with "total_return".
  change (key_of "Max. Drawdown") with "max_drawdown".
  change (key_of "Number of Trades") with "number_of_trades".
  rewrite (get_or_empty_lookup _ _ Htr'), (get_or_empty_lookup _ _ Hdd),
    (get_or_empty_lookup _ _ Hnt).
  now repeat split.
Qed.


(** C22: on a flat price series (a series of a single price
    included) a run on accepted inputs ends in the table: the indicator
    is 50 on every row, no signal fires, the portfolio value is the
    capital on every row, and the table shows a total return of 0, a
    maximum drawdown of 0 and no trade. *)
Theorem flat_prices_run (company t : string) (c fee ob os p : Q) (n : nat) :
  dict_get company COMPANIES = Ok t -> valid_inputs c fee ob os -> ~ p == 0 ->
  dropna (yf_download t START_DATE END_DATE) = repeat p (S n) ->
  exists table rsi signal bt bh tr dd v1 v2 v3,
    run_backtest yf_download (finite_form company c fee ob os) =
      Ok (Displayed table rsi signal bt bh) /\
    Forall (fun x => x = Fin 50) rsi /\
    Forall (fun z => z = 0%Z) signal /\
    Forall (fun v => xeq v (Fin c)) (Portfolio_Value bt) /\
    nth_error table 1 = Some ("Total Return:", Percent (Fin tr), v1) /\ tr == 0 /\
    nth_error table 2 = Some ("Max. Drawdown:", Percent (Fin dd), v2) /\ dd == 0 /\
    nth_error table 6 = Some ("Number of Trades:", Count 0, v3).
Proof. apply flat_prices_outcome. Qed.

End FlatRun.

Lemma flat_prices_run_witness :
  exists table rsi signal bt bh tr dd v1 v2 v3,
    run_backtest (fun _ _ _ => repeat (mk_row (Some 80) []) 4)
      (finite_form "Tesla, Inc. (TSLA)" 1000 (1 # 10) 70 30) =
      Ok (Displayed table rsi signal bt bh) /\
    Forall (fun x => x = Fin 50) rsi /\
    Forall (fun z => z = 0%Z) signal /\
    Forall (fun v => xeq v (Fin 1000)) (Portfolio_Value bt) /\
    nth_error table 1 = Some ("Total Return:", Percent (Fin tr), v1) /\ tr == 0 /\
    nth_error table 2 = Some ("Max. Drawdown:", Percent (Fin dd), v2) /\ dd == 0 /\
    nth_error table 6 = Some ("Number of Trades:", Count 0, v3).
Proof.
  apply (@flat_prices_run (fun _ _ _ => repeat (mk_row (Some 80) []) 4)
           "Tesla, Inc. (TSLA)" "TSLA" 1000 (1 # 10) 70 30 80 3).
  - reflexivity.
  - unfold valid_inputs. lra.
  - discriminate.
  - reflexivity.
Defined.

(** ** Flat prices on the window *)

(** The texts of a row of the table. *)
Lemma nth_error_table_of (m : list (string * cell)) (k : nat) (label : string) (a b : cell) :
  nth_error (display_metrics m) k = Some (label, a, b) ->
  nth_error (table_of m) (S k) = Some (label, render a, render b).
Proof. intros H. unfold table_of. cbn [nth_error]. now rewrite nth_error_map, H. Qed.

(** On a flat price series, a press of the button on the window
    as it opens draws a table that shows a total return of 0.00%, a
    maximum drawdown of 0.00% and 0 trades for the strategy. *)
Theorem flat_prices_window (yf_download : string -> string -> string -> list raw_row)
    (p : Q) (n : nat) :
  ~ p == 0 ->
  dropna (yf_download "JPM" START_DATE END_DATE) = repeat p (S n) ->
  exists w' i tbl b1 b2 b3,
    run_backtest_callback yf_download BacktestApp = (w', Drawn) /\
    self_metrics_frame w' = Some (i, tbl) /\
    nth_error tbl 2 = Some ("Total Return:", "0.00%", b1) /\
    nth_error tbl 3 = Some ("Max. Drawdown:", "0.00%", b2) /\
    nth_error tbl 7 = Some ("Number of Trades:", "0", b3).
Proof.
  intros Hp Hd.
  destruct (@flat_prices_outcome yf_download "JPMorgan Chase & Co. (JPM)" "JPM"
              10000 (1 # 10) 70 30 p n eq_refl) as
    (table & rsi & signal & bt & bh & tr & dd & v1 & v2 & v3 & Hrun & _ & _ & _ &
     H1 & Htr & H2 & Hdd & H3); [unfold valid_inputs; lra|exact Hp|exact Hd|].
  change (finite_form _ _ _ _ _) with (form_of_entries (input_frame BacktestApp)) in Hrun.
  destruct (run_backtest_callback yf_download BacktestApp) as [w' r] eqn:E.
  pose proof (run_backtest_callback_outcome yf_download BacktestApp) as Hr.
  rewrite E, Hrun in Hr. cbn in Hr. subst r.
  apply run_backtest_callback_cases in E as [[E _]|(_ & inp & a & Hi & Ha & i & j & Ht & _)];
    [congruence|].
  rewrite run_backtest_analyse in Hrun. fold (prepare BacktestApp) in Hrun.
  rewrite Hi in Hrun. unfold get_historical_data in Hrun.
  remember (dropna (yf_download (ticker inp) START_DATE END_DATE)) as data eqn:Ed.
  destruct data as [|q data]; [discriminate|]. rewrite Ha in Hrun.
  injection Hrun as <- _ _ _ _.
  exists w', i, (table_of (a_metrics a)), (render v1), (render v2), (render v3).
  split; [reflexivity|]. split; [exact Ht|].
  rewrite (nth_error_table_of _ _ H1), (nth_error_table_of _ _ H2),
    (nth_error_table_of _ _ H3).
  assert (E1 : cell_eq (Percent (Fin tr)) (Percent (Fin 0))) by exact Htr.
  assert (E2 : cell_eq (Percent (Fin dd)) (Percent (Fin 0))) by exact Hdd.
  rewrite E1, E2. now repeat split.
Qed.

Lemma flat_prices_window_witness :
  exists w' i tbl b1 b2 b3,
    run_backtest_callback (fun _ _ _ => repeat (mk_row (Some 80) []) 4) BacktestApp
    = (w', Drawn) /\
    self_metrics_frame w' = Some (i, tbl) /\
    nth_error tbl 2 = Some ("Total Return:", "0.00%", b1) /\
    nth_error tbl 3 = Some ("Max. Drawdown:", "0.00%", b2) /\
    nth_error tbl 7 = Some ("Number of Trades:", "0", b3).
Proof.
  apply (@flat_prices_window (fun _ _ _ => repeat (mk_row (Some 80) []) 4) 80 3).
  - discriminate.
  - reflexivity.
Defined.

(** ** Special capitals on the window *)

(** A capital typed as [nan] is accepted; on prices without a buy
    signal the table is drawn with [$nan] as the value of the
    portfolio. *)
Example nan_capital_drawn :
  exists w' i tbl,
    run_backtest_callback (fun _ _ _ => repeat (mk_row (Some 80) []) 4)
      (apply_edit BacktestApp (TypeCapital "nan")) = (w', Drawn) /\
    self_metrics_frame w' = Some (i, tbl) /\
    nth_error tbl 1 = Some ("Portfolio Value:", "$nan", "$nan").
Proof. eexists _, _, _. split; [vm_compute; reflexivity|]. split; reflexivity. Qed.

(** With a buy signal the same capital ends the press in the
    traceback of [int]: nothing is shown and the window keeps what it
    had. *)
Example nan_capital_traceback :
  let w := apply_edit BacktestApp (TypeCapital "nan") in
  run_backtest_callback
    (fun _ _ _ => map (fun p => mk_row (Some p) []) [100; 90; 110; 80]) w
  = (w, Reported (ValueError "cannot convert float NaN to integer")).
Proof. vm_compute. reflexivity. Qed.

(** A capital below the price of one share on a buy signal ends the
    press in the traceback of the column assignment. *)
Example starved_capital_traceback :
  let w := apply_edit BacktestApp (TypeCapital "50") in
  run_backtest_callback
    (fun _ _ _ => map (fun p => mk_row (Some p) []) [100; 90; 110; 80]) w
  = (w, Reported (LengthMismatch 3 4)).
Proof. vm_compute. reflexivity. Qed.

(** ** The ten-day scenario of the design *)

(** On the prices 100, 100, 90, 90, 110, 110, 130, 80, 80, 80
    with a look-back of 2, thresholds 70 and 30, a capital of 1000 and
    no fee, the indicator is 50, 50, 0, 0, 100, 100, 100, 200/7, 0, 50;
    it crosses the oversold line upwards on days 5 and 10 (buy) and the
    overbought line downwards on day 8 (sell); 9 shares are bought at
    110, sold at 80 and bought again at 80, and the final portfolio
    value, 730, is the final cash plus the holdings at the last
    close. *)
Example concrete_scenario :
  let close := [100; 100; 90; 90; 110; 110; 130; 80; 80; 80] in
  exists rsi bt st,
    calculate_rsi close 2 = Ok rsi /\
    series_eq rsi (of_Q [50; 50; 0; 0; 100; 100; 100; 200 # 7; 0; 50]) /\
    generate_signals rsi (Fin 70) (Fin 30) = [0; 0; 0; 0; 1; 0; 0; -1; 0; 1]%Z /\
    backtest_strategy close (generate_signals rsi (Fin 70) (Fin 30)) (Fin 1000) (Fin 0) =
      Ok bt /\
    Trades bt = [0; 0; 0; 0; 1; 0; 0; -1; 0; 1]%Z /\
    Positions bt = [0; 0; 0; 0; 1; 1; 1; 0; 0; 1]%Z /\
    series_eq (Portfolio_Value bt)
      (of_Q [1000; 1000; 1000; 1000; 1000; 1000; 1180; 730; 730; 730]) /\
    backtest_loop (Fin 0) (combine close (generate_signals rsi (Fin 70) (Fin 30)))
      (init_state (Fin 1000)) = Ok st /\
    holdings st = 9%Z /\
    xeq (last_or (Portfolio_Value bt) NaN)
        (xadd (cash st) (Fin (inject_Z (holdings st) * 80))).
Proof.
  cbv zeta. eexists _, _, _.
  split; [vm_compute; reflexivity|].
  split; [repeat (constructor; [now vm_compute|]); constructor|].
  split; [now vm_compute|]. split; [vm_compute; reflexivity|].
  split; [reflexivity|]. split; [reflexivity|].
  split; [repeat (constructor; [now vm_compute|]); constructor|].
  split; [vm_compute; reflexivity|]. split; [reflexivity|]. now vm_compute.
Qed.
